(** * ProcureIQ knowledge-graph builder: a shallow embedding

    The development follows [src/graph/builder.py] and [src/graph/schema.py].
    Python values, dictionaries (insertion ordered), the exceptions the
    builder can meet, the part of [networkx.MultiDiGraph] the builder calls
    and the builder's own methods are written as executable definitions;
    the properties of the pipeline are proved afterwards.

    Conventions of the model:
    - in the tables of [Data] identifiers and country names are text,
      and the other cells are Python scalars; an identifier cell left
      empty in the file is not text but a NaN, and the co-supplier loop
      over such cells is [Builder.co_added], on [Py.cell];
    - a file that exists is given by what [pd.read_csv] does with it: the
      table it returns, with the columns the builder reads, or the error
      it raises; the parsing itself is not modelled;
    - [_save] is given by what it hands to the writers of the three
      output files; the writers themselves, and the errors they can
      raise, are not modelled;
    - a Python [float] is a binary64 datum ([SpecFloat]); the float32
      array arithmetic of NumPy is a parameter ([Np.Kernel]), with the
      binary32 instance of [SpecFloat];
    - the string parsers of [float] and [int], and the order in which a
      [set] is iterated, are parameters ([Py.Runtime]): the iteration
      order is some permutation of the elements;
    - a method that can raise returns a [Py.result]. *)

From Stdlib Require Import List String Ascii ZArith Bool Lia Permutation PeanoNat.
From Stdlib Require Import SpecFloat DecimalString.
Import ListNotations.
Local Open Scope string_scope.
Local Open Scope list_scope.

(* ================================================================== *)
(** ** Python: exceptions, values, conversions *)
(* ================================================================== *)

Module Py.

(** The exceptions that can leave the builder's code. *)
Inductive exn : Type :=
| FileNotFoundError (msg : string)
| KeyError (key : string)
| ValueError
| TypeError
| OverflowError
| EmptyDataError          (* pandas.errors *)
| ParserError.            (* pandas.errors *)

(** A computation either returns or raises. *)
Inductive result (A : Type) : Type :=
| Ok (a : A)
| Raise (e : exn).
Arguments Ok {A} a.
Arguments Raise {A} e.

Definition bind {A B} (c : result A) (k : A -> result B) : result B :=
  match c with
  | Ok a => k a
  | Raise e => Raise e
  end.

(** [try: body / except: handler] with a bare [except]. *)
Definition try_except {A} (body : result A) (handler : result A) : result A :=
  match body with
  | Ok a => Ok a
  | Raise _ => handler
  end.

(** [for x in l: s = body(s, x)], leaving the loop at the first raise. *)
Fixpoint for_each {A S} (body : S -> A -> result S) (l : list A) (s : S)
  : result S :=
  match l with
  | [] => Ok s
  | x :: t => bind (body s x) (for_each body t)
  end.

(** [[f(x) for x in l]] where [f] may raise. *)
Fixpoint comprehension {A B} (f : A -> result B) (l : list A)
  : result (list B) :=
  match l with
  | [] => Ok []
  | x :: t => bind (f x) (fun y => bind (comprehension f t)
                                        (fun ys => Ok (y :: ys)))
  end.

(** [enumerate(l)]. *)
Definition enumerate {A} (l : list A) : list (nat * A) :=
  combine (seq 0 (List.length l)) l.

(** A Python [float] is an IEEE-754 binary64 datum. *)
Definition pyfloat : Type := spec_float.
Definition f64_prec : Z := 53.
Definition f64_emax : Z := 1024.
Definition fzero : pyfloat := S754_zero false.

(** The scalars a cell of a table, a node attribute or an edge
    attribute can hold. *)
Inductive PyVal : Type :=
| VNone
| VBool (b : bool)
| VInt (z : Z)
| VFloat (f : pyfloat)
| VStr (s : string).

(** Truth value of a scalar ([if v], [v or d], [v and w]). *)
Definition truthy (v : PyVal) : bool :=
  match v with
  | VNone => false
  | VBool b => b
  | VInt z => negb (Z.eqb z 0)
  | VFloat (S754_zero _) => false
  | VFloat _ => true
  | VStr s => negb (String.eqb s "")
  end.

(** Truth value of a string ([if s]). *)
Definition truthy_str (s : string) : bool := negb (String.eqb s "").

(** [v or d]. *)
Definition py_or (v d : PyVal) : PyVal := if truthy v then v else d.

(** [v == v]: false only for a NaN. *)
Definition eq_self (v : PyVal) : bool :=
  match v with
  | VFloat S754_nan => false
  | _ => true
  end.

(** [v is not None]. *)
Definition is_not_None (v : PyVal) : bool :=
  match v with
  | VNone => false
  | _ => true
  end.

(** [o == s] for the result [o] of a [dict.get] and a string literal. *)
Definition eq_str (o : option PyVal) (s : string) : bool :=
  match o with
  | Some (VStr r) => String.eqb r s
  | _ => false
  end.

(** The part of the interpreter and of its libraries that the embedding
    takes as given: the parsers behind [float(str)] and [int(str)], the
    text of a float, the order in which a [set] is iterated (some
    permutation of its elements), and whether [torch_geometric] can be
    imported. *)
Record Runtime : Type := {
  str_to_float : string -> option pyfloat;
  str_to_int : string -> option Z;
  float_repr : pyfloat -> string;
  set_iter : list (string * string) -> list (string * string);
  set_iter_perm : forall l, Permutation (set_iter l) l;
  has_torch_geometric : bool
}.

(** Nearest binary64 to an integer; overflow gives an infinity. *)
Definition float_of_Z (z : Z) : pyfloat :=
  binary_normalize f64_prec f64_emax z 0 false.

(** [float(v)]. *)
Definition float (rt : Runtime) (v : PyVal) : result pyfloat :=
  match v with
  | VNone => Raise TypeError
  | VBool b => Ok (float_of_Z (if b then 1 else 0))
  | VInt z =>
      match float_of_Z z with
      | S754_infinity _ => Raise OverflowError
      | f => Ok f
      end
  | VFloat f => Ok f
  | VStr s =>
      match str_to_float rt s with
      | Some f => Ok f
      | None => Raise ValueError
      end
  end.

(** [int(v)]: a float is truncated towards zero. *)
Definition int (rt : Runtime) (v : PyVal) : result Z :=
  match v with
  | VNone => Raise TypeError
  | VBool b => Ok (if b then 1 else 0)%Z
  | VInt z => Ok z
  | VFloat (S754_zero _) => Ok 0%Z
  | VFloat (S754_infinity _) => Raise OverflowError
  | VFloat S754_nan => Raise ValueError
  | VFloat (S754_finite s m e) =>
      let a := match e with
               | Zneg p => Z.shiftr (Zpos m) (Zpos p)
               | _ => Z.shiftl (Zpos m) e
               end in
      Ok (if s then Z.opp a else a)
  | VStr s =>
      match str_to_int rt s with
      | Some z => Ok z
      | None => Raise ValueError
      end
  end.

(** [str(v)]. *)
Definition str (rt : Runtime) (v : PyVal) : string :=
  match v with
  | VNone => "None"
  | VBool true => "True"
  | VBool false => "False"
  | VInt z => NilZero.string_of_int (Z.to_int z)
  | VFloat f => float_repr rt f
  | VStr s => s
  end.

(** [tuple(sorted([a, b]))] on strings. *)
Definition sorted_pair (a b : string) : string * string :=
  if String.ltb b a then (b, a) else (a, b).

Definition pair_eqb (p q : string * string) : bool :=
  String.eqb (fst p) (fst q) && String.eqb (snd p) (snd q).

(** [s.add(p)] on a set of pairs, kept in order of first insertion. *)
Definition set_add (p : string * string) (s : list (string * string))
  : list (string * string) :=
  if existsb (pair_eqb p) s then s else s ++ [p].

(** An identifier cell of a table as [pd.read_csv] hands it over: the
    text of the cell, or NaN when the cell is empty. *)
Inductive cell : Type :=
| Text (s : string)
| Empty.

(** [tuple(sorted([a, b]))] on two cells.  The sort compares [b < a]:
    text against text by code points, NaN against NaN with [False],
    and text against NaN is a [TypeError]. *)
Definition sorted_cells (a b : cell) : result (cell * cell) :=
  match a, b with
  | Text x, Text y =>
      Ok (if String.ltb y x then (Text y, Text x) else (Text x, Text y))
  | Empty, Empty => Ok (Empty, Empty)
  | Text _, Empty | Empty, Text _ => Raise TypeError
  end.

(** [a / b] on two ints with [a >= 0] and [b > 0]: the quotient,
    correctly rounded to a float; a quotient beyond the floats raises. *)
Definition int_truediv (a : N) (b : positive) : result pyfloat :=
  match a with
  | N0 => Ok fzero
  | Npos p =>
      match SFdiv f64_prec f64_emax (S754_finite false p 0)
                  (S754_finite false b 0) with
      | S754_infinity _ => Raise OverflowError
      | f => Ok f
      end
  end.

End Py.

Notation "x <- c ;; k" := (Py.bind c (fun x => k))
  (at level 61, c at next level, right associativity).

(* ================================================================== *)
(** ** Dictionaries: insertion ordered, keyed by strings *)
(* ================================================================== *)

Module Dict.

Definition dict (V : Type) : Type := list (string * V).

(** [d.get(k)]. *)
Fixpoint get {V} (k : string) (d : dict V) : option V :=
  match d with
  | [] => None
  | (k', v) :: t => if String.eqb k' k then Some v else get k t
  end.

(** [d.get(k, dflt)]. *)
Definition get_default {V} (k : string) (d : dict V) (dflt : V) : V :=
  match get k d with
  | Some v => v
  | None => dflt
  end.

(** [k in d]. *)
Definition mem {V} (k : string) (d : dict V) : bool :=
  match get k d with
  | Some _ => true
  | None => false
  end.

(** [d[k] = v]: an existing key keeps its place, a new one goes last. *)
Fixpoint set {V} (k : string) (v : V) (d : dict V) : dict V :=
  match d with
  | [] => [(k, v)]
  | (k', v') :: t =>
      if String.eqb k' k then (k', v) :: t else (k', v') :: set k v t
  end.

(** [d.update(new)]. *)
Definition update {V} (d new : dict V) : dict V :=
  fold_left (fun acc kv => set (fst kv) (snd kv) acc) new d.

Definition keys {V} (d : dict V) : list string := map fst d.
Definition values {V} (d : dict V) : list V := map snd d.

End Dict.

(* ================================================================== *)
(** ** networkx.MultiDiGraph, as far as the builder uses it *)
(* ================================================================== *)

Module Nx.

Definition attrs : Type := Dict.dict Py.PyVal.

(** [_node] maps a node to its attributes; [_adj] maps a node to its
    successors, each with the attribute dictionaries of the parallel
    edges in key order 0, 1, 2, ... *)
Record MultiDiGraph : Type := {
  _node : Dict.dict attrs;
  _adj : Dict.dict (Dict.dict (list attrs))
}.

Definition empty : MultiDiGraph := {| _node := []; _adj := [] |}.

(** [n in G]. *)
Definition has_node (G : MultiDiGraph) (n : string) : bool :=
  Dict.mem n (_node G).

(** [G.add_node(n, **attr)]. *)
Definition add_node (G : MultiDiGraph) (n : string) (attr : attrs)
  : MultiDiGraph :=
  if Dict.mem n (_adj G) then
    {| _node := Dict.set n (Dict.update (Dict.get_default n (_node G) []) attr)
                         (_node G);
       _adj := _adj G |}
  else
    {| _node := Dict.set n (Dict.update [] attr) (_node G);
       _adj := Dict.set n [] (_adj G) |}.

(** The node creation [add_edge] performs for an unknown endpoint. *)
Definition touch (G : MultiDiGraph) (n : string) : MultiDiGraph :=
  if Dict.mem n (_adj G) then G
  else {| _node := Dict.set n [] (_node G);
          _adj := Dict.set n [] (_adj G) |}.

(** [G.add_edge(u, v, **attr)]: the new edge takes the next free key. *)
Definition add_edge (G : MultiDiGraph) (u v : string) (attr : attrs)
  : MultiDiGraph :=
  let G2 := touch (touch G u) v in
  let nbrs := Dict.get_default u (_adj G2) [] in
  let keydict := match Dict.get v nbrs with
                 | Some kd => kd ++ [Dict.update [] attr]
                 | None => [Dict.update [] attr]
                 end in
  {| _node := _node G2;
     _adj := Dict.set u (Dict.set v keydict nbrs) (_adj G2) |}.

(** [G.nodes(data=True)]. *)
Definition nodes (G : MultiDiGraph) : list (string * attrs) := _node G.

(** [G.edges(data=True)]: by source node, then successor, then key. *)
Definition out_edges (u : string) (nbrs : Dict.dict (list attrs))
  : list (string * string * attrs) :=
  flat_map (fun vk => map (fun d => (u, fst vk, d)) (snd vk)) nbrs.

Definition edges (G : MultiDiGraph) : list (string * string * attrs) :=
  flat_map (fun un => out_edges (fst un) (snd un)) (_adj G).

Definition number_of_nodes (G : MultiDiGraph) : nat := List.length (_node G).
Definition number_of_edges (G : MultiDiGraph) : nat := List.length (edges G).

End Nx.

(* ================================================================== *)
(** ** schema.py *)
(* ================================================================== *)

Module Schema.

Record EdgeType : Type := {
  src : string;
  relation : string;
  dst : string
}.

Definition EDGE_TYPES : list EdgeType := [
  {| src := "supplier"; relation := "supplies";      dst := "component" |};
  {| src := "supplier"; relation := "located_in";    dst := "country" |};
  {| src := "contract"; relation := "covers";        dst := "component" |};
  {| src := "contract"; relation := "signed_with";   dst := "supplier" |};
  {| src := "route";    relation := "originates_in"; dst := "country" |};
  {| src := "route";    relation := "delivers_to";   dst := "country" |};
  {| src := "route";    relation := "carries";       dst := "component" |};
  {| src := "supplier"; relation := "co_supplier";   dst := "supplier" |};
  {| src := "country";  relation := "trades_with";   dst := "country" |}
].

Definition NODE_FEATURE_SPECS : Dict.dict (list string) := [
  ("supplier",  ["annual_spend_usd"; "on_time_delivery"; "quality_score";
                 "lead_time_days"; "defect_rate_ppm"; "financial_risk_score";
                 "sustainability_score"; "years_active"; "is_sole_source";
                 "is_preferred"; "headcount"; "revenue_usd_M"]);
  ("component", ["unit_cost_usd"; "annual_volume"; "lead_time_weeks";
                 "inventory_days"; "weight_kg"; "is_custom";
                 "criticality_encoded"]);
  ("country",   ["geopolitical_risk"; "avg_tariff_rate"; "logistics_index";
                 "currency_volatility"; "labor_cost_index";
                 "trade_agreements"]);
  ("contract",  ["value_usd"; "savings_realized_usd"; "sla_penalty_usd";
                 "negotiation_rounds"; "duration_days"; "is_active";
                 "auto_renew"; "has_rebate"]);
  ("route",     ["transit_days"; "cost_per_kg_usd"; "reliability_score";
                 "carbon_kg_per_ton"; "is_active"; "customs_delay_days"])
].

(** [NODE_FEATURE_SPECS[t]] for one of the five keys. *)
Definition feature_spec (t : string) : list string :=
  Dict.get_default t NODE_FEATURE_SPECS [].

Definition CRITICALITY_MAP : Dict.dict Z :=
  [("Low", 0%Z); ("Medium", 1%Z); ("High", 2%Z); ("Critical", 3%Z)].

(** The dataclass [GraphStats]. *)
Record GraphStats : Type := {
  n_nodes : Dict.dict nat;
  n_edges : Dict.dict nat;
  total_nodes : nat;
  total_edges : nat;
  density : Py.pyfloat
}.

End Schema.

(* ================================================================== *)
(** ** NumPy: the float32 array kernels used by the normalizer *)
(* ================================================================== *)

Module Np.

(** The element type of a [float32] array and the element-wise
    operations [_features] applies to it. *)
Record Kernel : Type := {
  f32 : Type;
  of_float : Py.pyfloat -> f32;      (* np.array(..., dtype=np.float32) *)
  minimum : f32 -> f32 -> f32;       (* step of matrix.min(0) *)
  maximum : f32 -> f32 -> f32;       (* step of matrix.max(0) *)
  sub : f32 -> f32 -> f32;
  div : f32 -> f32 -> f32;
  eq_zero : f32 -> bool;             (* x == 0 *)
  one : f32                          (* 1.0 *)
}.

Section Arrays.
Context {K : Kernel}.

(** A 2-D array is the list of its rows. *)
Definition matrix : Type := list (list (f32 K)).

Definition map2 {A B C} (f : A -> B -> C) (l1 : list A) (l2 : list B)
  : list C :=
  map (fun ab => f (fst ab) (snd ab)) (combine l1 l2).

(** [m.min(0)] and [m.max(0)] of an array with at least one row. *)
Definition min0 (m : matrix) : list (f32 K) :=
  match m with
  | [] => []
  | r :: t => fold_left (map2 (minimum K)) t r
  end.

Definition max0 (m : matrix) : list (f32 K) :=
  match m with
  | [] => []
  | r :: t => fold_left (map2 (maximum K)) t r
  end.

(** [np.where(maxs - mins == 0, 1.0, maxs - mins)]. *)
Definition range (maxs mins : list (f32 K)) : list (f32 K) :=
  map (fun d => if eq_zero K d then one K else d) (map2 (sub K) maxs mins).

(** [(m - mins) / rng], the vectors broadcast over the rows. *)
Definition scale (m : matrix) (mins rng : list (f32 K)) : matrix :=
  map (fun row => map2 (div K) (map2 (sub K) row mins) rng) m.

Definition shape (m : matrix) : nat * nat :=
  (List.length m, match m with [] => 0 | r :: _ => List.length r end).

(** [m[i, j]], where the array has it. *)
Definition entry (m : matrix) (i j : nat) : option (f32 K) :=
  match nth_error m i with
  | Some row => nth_error row j
  | None => None
  end.
End Arrays.

(** IEEE-754 binary32 arithmetic: the kernel instance on which the
    normalizer is verified and the examples are run. *)
Definition p32 : Z := 24.
Definition e32 : Z := 128.

Definition round32 (x : spec_float) : spec_float :=
  match x with
  | S754_finite s m e => binary_normalize p32 e32 (cond_Zopp s (Zpos m)) e s
  | _ => x
  end.

(** One step of [min(0)] and of [max(0)]: the accumulator [a] against
    the next row's entry [b].  A NaN propagates; of two equal operands
    (the zeros of either sign are equal) the later one is kept. *)
Definition min32 (a b : spec_float) : spec_float :=
  match SFcompare a b with
  | Some Lt => a
  | Some _ => b
  | None => S754_nan
  end.

Definition max32 (a b : spec_float) : spec_float :=
  match SFcompare a b with
  | Some Gt => a
  | Some _ => b
  | None => S754_nan
  end.

Definition binary32 : Kernel := {|
  f32 := spec_float;
  of_float := round32;
  minimum := min32;
  maximum := max32;
  sub := SFsub p32 e32;
  div := SFdiv p32 e32;
  eq_zero := fun x => SFeqb x (S754_zero false);
  one := SFone p32 e32
|}.

End Np.

(** Reading binary32 data: finiteness, the order against 0 and 1, and
    the value of a finite datum as an integer number of units of
    2^-149, the smallest positive binary32 number. *)
Module F32.
Local Open Scope Z_scope.

Definition finite (x : spec_float) : bool :=
  match x with
  | S754_zero _ | S754_finite _ _ _ => true
  | _ => false
  end.

(** [0 <= x <= 1]. *)
Definition in_unit (x : spec_float) : bool :=
  SFleb (S754_zero false) x && SFleb x (SFone Np.p32 Np.e32).

(** [x == y]. *)
Definition eqb (x y : spec_float) : bool := SFeqb x y.

Definition units (x : spec_float) : Z :=
  match x with
  | S754_finite s m e => cond_Zopp s (Zpos m * 2 ^ (e + 149))
  | _ => 0
  end.

(** [n / 2^j] rounded to the nearest integer, a tie to the even one. *)
Definition rne (n j : Z) : Z :=
  let q := n / 2 ^ j in
  let r := n mod 2 ^ j in
  match 2 * r ?= 2 ^ j with
  | Lt => q
  | Gt => q + 1
  | Eq => if Z.even q then q else q + 1
  end.

(** A shift record [mrs] holds [n / 2^j]: the quotient, the last
    digit shifted out, and whether a digit below it was set. *)
Definition rep (n j : Z) (mrs : shr_record) : Prop :=
  shr_m mrs = n / 2 ^ j
  /\ shr_r mrs = (0 <? j) && Z.odd (n / 2 ^ (j - 1))
  /\ shr_s mrs = (0 <? j) && negb (n mod 2 ^ (j - 1) =? 0).

(** The number of binary digits of a non-negative integer. *)
Definition digits (n : Z) : Z := Zdigits2 n.

(** [n] units rounded to 24 significant digits, in units. *)
Definition round_units (n : Z) : Z :=
  let k := Z.max 0 (digits n - 24) in
  rne n k * 2 ^ k.

(** A zero or a finite number in the canonical form of binary32. *)
Definition good (x : spec_float) : bool :=
  finite x && valid_binary Np.p32 Np.e32 x.

(** [r] is [v] units, rounded, with sign [s]: the rounded number when
    it is below 2^128, the infinity of that sign otherwise. *)
Definition rounds_to (s : bool) (v : Z) (r : spec_float) : Prop :=
  (round_units v < 2 ^ 277 /\ good r = true
   /\ units r = cond_Zopp s (round_units v))
  \/ (2 ^ 277 <= round_units v /\ r = S754_infinity s).

End F32.

(* ================================================================== *)
(** ** The input tables *)
(* ================================================================== *)

(** A row keeps the columns the builder reads with [row["..."]] as
    fields: identifiers and country names are text, the attributes handed
    on unchanged are scalars.  The remaining columns, read with
    [row.get], are in [cells]. *)

Module Supplier.
Record row : Type := {
  supplier_id : string;
  name : Py.PyVal;
  country : string;
  category : Py.PyVal;
  risk_tier : Py.PyVal;
  cells : Dict.dict Py.PyVal
}.
End Supplier.

Module Component.
Record row : Type := {
  component_id : string;
  part_number : Py.PyVal;
  category : Py.PyVal;
  criticality : Py.PyVal;
  cells : Dict.dict Py.PyVal
}.
End Component.

Module Country.
Record row : Type := {
  country_id : string;
  name : string;
  cells : Dict.dict Py.PyVal
}.
End Country.

Module Contract.
Record row : Type := {
  contract_id : string;
  supplier_id : string;
  primary_component_id : string;
  status : Py.PyVal;
  payment_terms : Py.PyVal;
  cells : Dict.dict Py.PyVal
}.
End Contract.

Module Route.
Record row : Type := {
  route_id : string;
  origin_country : string;
  destination_country : string;
  component_id : string;
  transport_mode : Py.PyVal;
  cells : Dict.dict Py.PyVal
}.
End Route.

Module SourcingLink.
Record row : Type := {
  supplier_id : string;
  component_id : string;
  is_primary : Py.PyVal;
  unit_price_usd : Py.PyVal
}.
End SourcingLink.

(** [self._data] once the six tables are read. *)
Record Data : Type := {
  suppliers : list Supplier.row;
  components : list Component.row;
  countries : list Country.row;
  contracts : list Contract.row;
  routes : list Route.row;
  sourcing_links : list SourcingLink.row
}.

(** A [pathlib] path: anchored or not, and its components. *)
Record Path : Type := {
  anchored : bool;
  parts : list string
}.

Module PathOps.
(** [p / name]. *)
Definition joinpath (p : Path) (name : string) : Path :=
  {| anchored := anchored p; parts := parts p ++ [name] |}.

(** [str(p)]. *)
Definition str (p : Path) : string :=
  match anchored p, parts p with
  | false, [] => "."
  | false, ps => String.concat "/" ps
  | true, ps => String.append "/" (String.concat "/" ps)
  end.
End PathOps.

(** The data directory: its path and, for each required table, what
    [pd.read_csv] does with the file of that name, if the file exists:
    the table it returns or the error it raises (an [EmptyDataError] on
    an empty file, a [ParserError] on one it cannot parse). *)
Record DataDir : Type := {
  dir : Path;
  suppliers_csv : option (Py.result (list Supplier.row));
  components_csv : option (Py.result (list Component.row));
  countries_csv : option (Py.result (list Country.row));
  contracts_csv : option (Py.result (list Contract.row));
  routes_csv : option (Py.result (list Route.row));
  sourcing_links_csv : option (Py.result (list SourcingLink.row))
}.

(* ================================================================== *)
(** ** builder.py: KnowledgeGraphBuilder *)
(* ================================================================== *)

Module Builder.
Section WithRuntime.
Context {K : Np.Kernel} (rt : Py.Runtime).

Import Py.

(** [self.id_maps]: the per-type index maps under the type's name, and
    the name -> identifier map of countries under ["_country_by_name"]. *)
Record IdMaps : Type := {
  index : Dict.dict (Dict.dict nat);
  _country_by_name : option (Dict.dict string)
}.

(** [self.id_maps.get(t, {})] and
    [self.id_maps.get("_country_by_name", {})]. *)
Definition index_map (m : IdMaps) (t : string) : Dict.dict nat :=
  Dict.get_default t (index m) [].

Definition by_name_map (m : IdMaps) : Dict.dict string :=
  match _country_by_name m with
  | Some d => d
  | None => []
  end.

(** [torch_geometric.data.HeteroData]: [data[t].x] and
    [data[s, rel, d].edge_index], a 2 x E tensor kept as its two rows. *)
Record HeteroData : Type := {
  x : Dict.dict (@Np.matrix K);
  edge_index : list ((string * string * string) * (list nat * list nat))
}.

Record KnowledgeGraphBuilder : Type := {
  data_dir : DataDir;
  G : Nx.MultiDiGraph;
  id_maps : IdMaps;
  node_features : Dict.dict (@Np.matrix K);
  hetero : option HeteroData;
  _data : option Data
}.

Definition __init__ (d : DataDir) : KnowledgeGraphBuilder :=
  {| data_dir := d;
     G := Nx.empty;
     id_maps := {| index := []; _country_by_name := None |};
     node_features := [];
     hetero := None;
     _data := None |}.

Definition with_G (g : Nx.MultiDiGraph) (self : KnowledgeGraphBuilder) :=
  {| data_dir := data_dir self; G := g; id_maps := id_maps self;
     node_features := node_features self; hetero := hetero self;
     _data := _data self |}.

Definition with_id_maps (m : IdMaps) (self : KnowledgeGraphBuilder) :=
  {| data_dir := data_dir self; G := G self; id_maps := m;
     node_features := node_features self; hetero := hetero self;
     _data := _data self |}.

Definition with_node_features (nf : Dict.dict (@Np.matrix K))
    (self : KnowledgeGraphBuilder) :=
  {| data_dir := data_dir self; G := G self; id_maps := id_maps self;
     node_features := nf; hetero := hetero self; _data := _data self |}.

Definition with_hetero (h : option HeteroData) (self : KnowledgeGraphBuilder) :=
  {| data_dir := data_dir self; G := G self; id_maps := id_maps self;
     node_features := node_features self; hetero := h; _data := _data self |}.

Definition with_data (d : Data) (self : KnowledgeGraphBuilder) :=
  {| data_dir := data_dir self; G := G self; id_maps := id_maps self;
     node_features := node_features self; hetero := hetero self;
     _data := Some d |}.

(** [self._data[...]]: a [KeyError] before the tables are loaded. *)
Definition tables (self : KnowledgeGraphBuilder) (first : string)
  : result Data :=
  match _data self with
  | Some d => Ok d
  | None => Raise (KeyError first)
  end.

(** *** _load *)

Definition missing (p : Path) : exn :=
  FileNotFoundError
    (String.append "Missing "
       (String.append (PathOps.str p) ". Run: python -m src.data.generator")).

(** One turn of the loop over the six table names: the existence test,
    then [pd.read_csv(p)], whose error is not caught. *)
Definition load_table {T} (d : Path) (t : string) (file : option (result T))
  : result T :=
  let p := PathOps.joinpath d (String.append t ".csv") in
  match file with
  | None => Raise (missing p)
  | Some read_csv => read_csv
  end.

(** The loop over the six names, written out turn by turn since each
    table has its own row type. *)
Definition _load (self : KnowledgeGraphBuilder) : result KnowledgeGraphBuilder :=
  let fs := data_dir self in
  s  <- load_table (dir fs) "suppliers" (suppliers_csv fs) ;;
  c  <- load_table (dir fs) "components" (components_csv fs) ;;
  n  <- load_table (dir fs) "countries" (countries_csv fs) ;;
  k  <- load_table (dir fs) "contracts" (contracts_csv fs) ;;
  r  <- load_table (dir fs) "routes" (routes_csv fs) ;;
  sl <- load_table (dir fs) "sourcing_links" (sourcing_links_csv fs) ;;
  Ok (with_data {| suppliers := s; components := c; countries := n;
                   contracts := k; routes := r; sourcing_links := sl |} self).

(** *** _safe *)

Definition _safe (row : Dict.dict PyVal) (keys : list string)
  : result (Dict.dict PyVal) :=
  for_each
    (fun out k =>
       let v := Dict.get_default k row (VFloat fzero) in
       try_except
         (f <- (if is_not_None v && eq_self v then float rt v else Ok fzero) ;;
          Ok (Dict.set k (VFloat f) out))
         (Ok (Dict.set k (VFloat fzero) out)))
    keys [].

(** *** _nodes *)

(** [self.id_maps.setdefault(t, {})[nid] = i]. *)
Definition set_index (t nid : string) (i : nat) (m : IdMaps) : IdMaps :=
  {| index := Dict.set t (Dict.set nid i (index_map m t)) (index m);
     _country_by_name := _country_by_name m |}.

(** [self.id_maps["_country_by_name"][name] = nid]. *)
Definition set_by_name (name nid : string) (m : IdMaps) : IdMaps :=
  {| index := index m;
     _country_by_name := Some (Dict.set name nid (by_name_map m)) |}.

Definition supplier_node (self : KnowledgeGraphBuilder)
    (ir : nat * Supplier.row) : result KnowledgeGraphBuilder :=
  let '(i, row) := ir in
  let nid := Supplier.supplier_id row in
  let self := with_id_maps (set_index "supplier" nid i (id_maps self)) self in
  feats <- _safe (Supplier.cells row) (Schema.feature_spec "supplier") ;;
  Ok (with_G (Nx.add_node (G self) nid
                ([("node_type", VStr "supplier");
                  ("label", Supplier.name row);
                  ("country", VStr (Supplier.country row));
                  ("category", Supplier.category row);
                  ("risk_tier", Supplier.risk_tier row)] ++ feats)) self).

Definition component_node (self : KnowledgeGraphBuilder)
    (ir : nat * Component.row) : result KnowledgeGraphBuilder :=
  let '(i, row) := ir in
  let nid := Component.component_id row in
  let self := with_id_maps (set_index "component" nid i (id_maps self)) self in
  feats <- _safe (Component.cells row)
             ["unit_cost_usd"; "annual_volume"; "lead_time_weeks";
              "inventory_days"; "weight_kg"; "is_custom"] ;;
  let feats := Dict.set "criticality_encoded"
                 (VInt (Dict.get_default (str rt (Component.criticality row))
                          Schema.CRITICALITY_MAP 0%Z)) feats in
  Ok (with_G (Nx.add_node (G self) nid
                ([("node_type", VStr "component");
                  ("label", Component.part_number row);
                  ("category", Component.category row);
                  ("criticality", Component.criticality row)] ++ feats)) self).

Definition country_node (self : KnowledgeGraphBuilder)
    (ir : nat * Country.row) : result KnowledgeGraphBuilder :=
  let '(i, row) := ir in
  let nid := Country.country_id row in
  let self := with_id_maps (set_index "country" nid i (id_maps self)) self in
  let self := with_id_maps (set_by_name (Country.name row) nid (id_maps self))
                self in
  feats <- _safe (Country.cells row) (Schema.feature_spec "country") ;;
  Ok (with_G (Nx.add_node (G self) nid
                ([("node_type", VStr "country");
                  ("label", VStr (Country.name row))] ++ feats)) self).

Definition contract_node (self : KnowledgeGraphBuilder)
    (ir : nat * Contract.row) : result KnowledgeGraphBuilder :=
  let '(i, row) := ir in
  let nid := Contract.contract_id row in
  let self := with_id_maps (set_index "contract" nid i (id_maps self)) self in
  feats <- _safe (Contract.cells row) (Schema.feature_spec "contract") ;;
  Ok (with_G (Nx.add_node (G self) nid
                ([("node_type", VStr "contract");
                  ("label", VStr nid);
                  ("status", Contract.status row);
                  ("payment_terms", Contract.payment_terms row)] ++ feats))
        self).

Definition route_node (self : KnowledgeGraphBuilder)
    (ir : nat * Route.row) : result KnowledgeGraphBuilder :=
  let '(i, row) := ir in
  let nid := Route.route_id row in
  let self := with_id_maps (set_index "route" nid i (id_maps self)) self in
  feats <- _safe (Route.cells row) (Schema.feature_spec "route") ;;
  Ok (with_G (Nx.add_node (G self) nid
                ([("node_type", VStr "route");
                  ("label", VStr (String.append (Route.origin_country row)
                                    (String.append " -> "
                                       (Route.destination_country row))));
                  ("transport_mode", Route.transport_mode row)] ++ feats))
        self).

Definition _nodes (self : KnowledgeGraphBuilder) : result KnowledgeGraphBuilder :=
  d <- tables self "suppliers" ;;
  self <- for_each supplier_node (enumerate (suppliers d)) self ;;
  self <- for_each component_node (enumerate (components d)) self ;;
  let self := with_id_maps {| index := index (id_maps self);
                              _country_by_name := Some [] |} self in
  self <- for_each country_node (enumerate (countries d)) self ;;
  self <- for_each contract_node (enumerate (contracts d)) self ;;
  for_each route_node (enumerate (routes d)) self.

(** *** _edges *)

Definition rel (r : string) : Nx.attrs := [("relation", VStr r)].

(** [by_name.get(name)], then [cnid and cnid in self.G]. *)
Definition resolves (g : Nx.MultiDiGraph) (cnid : option string) : bool :=
  match cnid with
  | Some c => truthy_str c && Nx.has_node g c
  | None => false
  end.

Definition add_edge_to (g : Nx.MultiDiGraph) (u : string) (cnid : option string)
    (a : Nx.attrs) : Nx.MultiDiGraph :=
  match cnid with
  | Some c => Nx.add_edge g u c a
  | None => g
  end.

Definition supplies_edge (g : Nx.MultiDiGraph) (row : SourcingLink.row)
  : result Nx.MultiDiGraph :=
  let s := SourcingLink.supplier_id row in
  let c := SourcingLink.component_id row in
  if Nx.has_node g s && Nx.has_node g c then
    ip <- int rt (SourcingLink.is_primary row) ;;
    up <- float rt (SourcingLink.unit_price_usd row) ;;
    Ok (Nx.add_edge g s c [("relation", VStr "supplies");
                           ("is_primary", VInt ip);
                           ("unit_price_usd", VFloat up)])
  else Ok g.

Definition located_in_edge (by_name : Dict.dict string) (g : Nx.MultiDiGraph)
    (row : Supplier.row) : Nx.MultiDiGraph :=
  let sid := Supplier.supplier_id row in
  let cnid := Dict.get (Supplier.country row) by_name in
  if Nx.has_node g sid && resolves g cnid
  then add_edge_to g sid cnid (rel "located_in")
  else g.

Definition contract_edges (g : Nx.MultiDiGraph) (row : Contract.row)
  : Nx.MultiDiGraph :=
  let cid := Contract.contract_id row in
  let sid := Contract.supplier_id row in
  let cmp := Contract.primary_component_id row in
  let g := if Nx.has_node g cid && Nx.has_node g cmp
           then Nx.add_edge g cid cmp (rel "covers") else g in
  if Nx.has_node g cid && Nx.has_node g sid
  then Nx.add_edge g cid sid (rel "signed_with") else g.

Definition route_edges (by_name : Dict.dict string) (g : Nx.MultiDiGraph)
    (row : Route.row) : Nx.MultiDiGraph :=
  let rid := Route.route_id row in
  let ocid := Dict.get (Route.origin_country row) by_name in
  let dcid := Dict.get (Route.destination_country row) by_name in
  let cmp := Route.component_id row in
  if Nx.has_node g rid then
    let g := if resolves g ocid
             then add_edge_to g rid ocid (rel "originates_in") else g in
    let g := if resolves g dcid
             then add_edge_to g rid dcid (rel "delivers_to") else g in
    if Nx.has_node g cmp then Nx.add_edge g rid cmp (rel "carries") else g
  else g.

(** [comp_to_sups.setdefault(c, []).append(s)] over the sourcing links. *)
Definition comp_to_sups (links : list SourcingLink.row)
  : Dict.dict (list string) :=
  fold_left
    (fun d row =>
       let c := SourcingLink.component_id row in
       Dict.set c (Dict.get_default c d [] ++ [SourcingLink.supplier_id row]) d)
    links [].

(** [(sups[i], sups[j])] for [i < j], in the order of the two loops. *)
Fixpoint pairs (sups : list string) : list (string * string) :=
  match sups with
  | [] => []
  | a :: t => map (fun b => (a, b)) t ++ pairs t
  end.

Definition co_pairs (links : list SourcingLink.row) : list (string * string) :=
  fold_left
    (fun co sups =>
       fold_left (fun co ab => set_add (sorted_pair (fst ab) (snd ab)) co)
                 (pairs sups) co)
    (Dict.values (comp_to_sups links)) [].

(** The same two loops on sourcing links whose supplier cell may be
    empty (the supplier cell and the component identifier of each row):
    the tuples handed to [co.add], in order, unless [sorted] raises. *)
Definition comp_to_cells (links : list (cell * string))
  : Dict.dict (list cell) :=
  fold_left
    (fun d row =>
       let c := snd row in
       Dict.set c (Dict.get_default c d [] ++ [fst row]) d)
    links [].

Fixpoint cell_pairs (sups : list cell) : list (cell * cell) :=
  match sups with
  | [] => []
  | a :: t => map (fun b => (a, b)) t ++ cell_pairs t
  end.

Definition co_added (links : list (cell * string))
  : result (list (cell * cell)) :=
  for_each
    (fun added sups =>
       for_each (fun added ab =>
                   p <- sorted_cells (fst ab) (snd ab) ;;
                   Ok (added ++ [p]))
                (cell_pairs sups) added)
    (Dict.values (comp_to_cells links)) [].

Definition co_supplier_edges (g : Nx.MultiDiGraph) (p : string * string)
  : Nx.MultiDiGraph :=
  let '(s1, s2) := p in
  if Nx.has_node g s1 && Nx.has_node g s2
  then Nx.add_edge (Nx.add_edge g s1 s2 (rel "co_supplier"))
                   s2 s1 (rel "co_supplier")
  else g.

Definition tw_pairs (by_name : Dict.dict string) (rows : list Route.row)
  : list (string * string) :=
  fold_left
    (fun tw row =>
       match Dict.get (Route.origin_country row) by_name,
             Dict.get (Route.destination_country row) by_name with
       | Some oc2, Some dc2 =>
           if truthy_str oc2 && truthy_str dc2
           then set_add (oc2, dc2) tw else tw
       | _, _ => tw
       end)
    rows [].

Definition trades_with_edge (g : Nx.MultiDiGraph) (p : string * string)
  : Nx.MultiDiGraph :=
  let '(c1, c2) := p in
  if Nx.has_node g c1 && Nx.has_node g c2
  then Nx.add_edge g c1 c2 (rel "trades_with")
  else g.

(** The loops of [_edges] on the graph alone. *)
Definition edges_of (d : Data) (by_name : Dict.dict string)
    (g : Nx.MultiDiGraph) : result Nx.MultiDiGraph :=
  g <- for_each supplies_edge (sourcing_links d) g ;;
  let g := fold_left (located_in_edge by_name) (suppliers d) g in
  let g := fold_left contract_edges (contracts d) g in
  let g := fold_left (route_edges by_name) (routes d) g in
  let co := co_pairs (sourcing_links d) in
  let g := fold_left co_supplier_edges (set_iter rt co) g in
  let tw := tw_pairs by_name (routes d) in
  let g := fold_left trades_with_edge (set_iter rt tw) g in
  Ok g.

Definition _edges (self : KnowledgeGraphBuilder) : result KnowledgeGraphBuilder :=
  let by_name := by_name_map (id_maps self) in
  d <- tables self "sourcing_links" ;;
  g <- edges_of d by_name (G self) ;;
  Ok (with_G g self).

(** *** _features *)

(** [float(d.get(f, 0.0) or 0.0)]. *)
Definition feature_value (d : Nx.attrs) (f : string) : result pyfloat :=
  float rt (py_or (Dict.get_default f d (VFloat fzero)) (VFloat fzero)).

Definition nodes_of_type (g : Nx.MultiDiGraph) (ntype : string)
  : list (string * Nx.attrs) :=
  filter (fun nd => eq_str (Dict.get "node_type" (snd nd)) ntype) (Nx.nodes g).

Definition normalize (rows : list (list pyfloat)) : @Np.matrix K :=
  let matrix := map (map (Np.of_float K)) rows in
  let mins := Np.min0 matrix in
  let maxs := Np.max0 matrix in
  let rng := Np.range maxs mins in
  Np.scale matrix mins rng.

Definition features_of_type (g : Nx.MultiDiGraph)
    (nf : Dict.dict (@Np.matrix K)) (spec : string * list string)
  : result (Dict.dict (@Np.matrix K)) :=
  let '(ntype, feat_names) := spec in
  match nodes_of_type g ntype with
  | [] => Ok nf
  | nodes =>
      rows <- comprehension
                (fun nd => comprehension (feature_value (snd nd)) feat_names)
                nodes ;;
      Ok (Dict.set ntype (normalize rows) nf)
  end.

Definition _features (self : KnowledgeGraphBuilder)
  : result KnowledgeGraphBuilder :=
  nf <- for_each (features_of_type (G self)) Schema.NODE_FEATURE_SPECS
          (node_features self) ;;
  Ok (with_node_features nf self).

(** *** _to_pyg *)

Definition edge_defs : list (string * string * string) := [
  ("supplies",      "supplier", "component");
  ("located_in",    "supplier", "country");
  ("covers",        "contract", "component");
  ("signed_with",   "contract", "supplier");
  ("originates_in", "route",    "country");
  ("delivers_to",   "route",    "country");
  ("carries",       "route",    "component");
  ("co_supplier",   "supplier", "supplier");
  ("trades_with",   "country",  "country")
].

(** The contribution of one graph edge to the comprehension
    [[(sm[u], dm[v]) for u, v, d in edges if ...]]. *)
Definition resolved (r : string) (sm dm : Dict.dict nat)
    (e : string * string * Nx.attrs) : list (nat * nat) :=
  let '(u, v, d) := e in
  if eq_str (Dict.get "relation" d) r && Dict.mem u sm && Dict.mem v dm then
    match Dict.get u sm, Dict.get v dm with
    | Some i, Some j => [(i, j)]
    | _, _ => []
    end
  else [].

Definition resolved_edges (self : KnowledgeGraphBuilder)
    (def : string * string * string) : list (nat * nat) :=
  let '(r, src_t, dst_t) := def in
  flat_map (resolved r (index_map (id_maps self) src_t)
                       (index_map (id_maps self) dst_t))
           (Nx.edges (G self)).

(** One turn of the loop over [edge_defs]; the nine keys differ, so
    each assignment opens a new entry. *)
Definition add_edge_index (self : KnowledgeGraphBuilder)
    (ei : list ((string * string * string) * (list nat * list nat)))
    (def : string * string * string) :=
  let '(r, src_t, dst_t) := def in
  match resolved_edges self def with
  | [] => ei
  | edges => ei ++ [((src_t, r, dst_t), (map fst edges, map snd edges))]
  end.

Definition _to_pyg (self : KnowledgeGraphBuilder) : option HeteroData :=
  if negb (has_torch_geometric rt) then None
  else Some {| x := Dict.update [] (node_features self);
               edge_index := fold_left (add_edge_index self) edge_defs [] |}.

(** *** _save *)

(** What [_save] writes: the GraphML graph, the tensor bundle, and the
    index maps. *)
Record Output : Type := {
  graphml : Nx.MultiDiGraph;
  pt : option HeteroData;
  id_maps_json : Dict.dict (Dict.dict nat)
}.

(** [d[k] = int(v)] for every boolean attribute. *)
Definition bools_to_int (d : Nx.attrs) : Nx.attrs :=
  map (fun kv => match snd kv with
                 | VBool b => (fst kv, VInt (if b then 1 else 0)%Z)
                 | _ => kv
                 end) d.

Definition graph_copy_int (g : Nx.MultiDiGraph) : Nx.MultiDiGraph :=
  {| Nx._node := map (fun nd => (fst nd, bools_to_int (snd nd))) (Nx._node g);
     Nx._adj := map (fun un =>
                  (fst un,
                   map (fun vk => (fst vk, map bools_to_int (snd vk)))
                       (snd un))) (Nx._adj g) |}.

Definition _save (self : KnowledgeGraphBuilder) : Output :=
  {| graphml := graph_copy_int (G self);
     pt := hetero self;
     id_maps_json :=
       filter (fun kv => negb (String.prefix "_" (fst kv)))
              (index (id_maps self)) |}.

(** *** build *)

Definition build (self : KnowledgeGraphBuilder)
  : result (KnowledgeGraphBuilder * Output) :=
  self <- _load self ;;
  self <- _nodes self ;;
  self <- _edges self ;;
  self <- _features self ;;
  let self := with_hetero (_to_pyg self) self in
  Ok (self, _save self).

(** *** stats *)

(** [sum(1 for _, d in G.nodes(data=True) if d.get("node_type") == nt)]. *)
Definition count_nodes (g : Nx.MultiDiGraph) (nt : string) : nat :=
  List.length (nodes_of_type g nt).

(** [sum(1 for _, _, d in G.edges(data=True) if d.get("relation") == rel)]. *)
Definition count_edges (g : Nx.MultiDiGraph) (r : string) : nat :=
  List.length
    (filter (fun e => eq_str (Dict.get "relation" (snd e)) r) (Nx.edges g)).

Definition stat_types : list string :=
  ["supplier"; "component"; "country"; "contract"; "route"].

Definition stat_relations : list string :=
  ["supplies"; "located_in"; "covers"; "signed_with"; "originates_in";
   "delivers_to"; "carries"; "co_supplier"; "trades_with"].

(** The body of [stats] on the graph; [n * (n - 1)] is positive where
    it divides.  [_save] writes the five fields to [kg_stats.json]. *)
Definition stats_of (g : Nx.MultiDiGraph) : result Schema.GraphStats :=
  let n_nodes :=
    fold_left (fun acc nt => Dict.set nt (count_nodes g nt) acc)
              stat_types [] in
  let n_edges :=
    fold_left (fun acc r => Dict.set r (count_edges g r) acc)
              stat_relations [] in
  let total_nodes := Nx.number_of_nodes g in
  let total_edges := Nx.number_of_edges g in
  let n := total_nodes in
  density <- (if Nat.ltb 1 n
              then int_truediv (N.of_nat total_edges)
                               (Pos.of_nat (n * (n - 1)))
              else Ok fzero) ;;
  Ok {| Schema.n_nodes := n_nodes;
        Schema.n_edges := n_edges;
        Schema.total_nodes := total_nodes;
        Schema.total_edges := total_edges;
        Schema.density := density |}.

Definition stats (self : KnowledgeGraphBuilder) : result Schema.GraphStats :=
  stats_of (G self).

End WithRuntime.
End Builder.

(** A runtime to run examples with: no string parses as a number, sets
    are iterated in insertion order, [torch_geometric] is installed. *)
Definition plain_runtime : Py.Runtime := {|
  Py.str_to_float := fun _ => None;
  Py.str_to_int := fun _ => None;
  Py.float_repr := fun _ => "float";
  Py.set_iter := fun l => l;
  Py.set_iter_perm := fun l => Permutation_refl l;
  Py.has_torch_geometric := true
|}.

(* ================================================================== *)
(** ** visualizer.py: the colour and the size of a node *)
(* ================================================================== *)

Module Visualizer.
Import Py.

Definition PALETTE : Dict.dict string :=
  [("supplier", "#4C72B0"); ("component", "#55A868"); ("country", "#C44E52");
   ("contract", "#8172B2"); ("route", "#CCB974")].

Definition SIZE : Dict.dict Z :=
  [("supplier", 120%Z); ("component", 80%Z); ("country", 160%Z);
   ("contract", 60%Z); ("route", 90%Z)].

(** [G.nodes[n]]: a [KeyError] for a node the graph does not have. *)
Definition node_view (G : Nx.MultiDiGraph) (n : string) : result Nx.attrs :=
  match Dict.get n (Nx._node G) with
  | Some a => Ok a
  | None => Raise (KeyError n)
  end.

(** [table.get(v, dflt)] on a table keyed by text: a scalar that is not
    text is no key of it. *)
Definition table_get {V} (table : Dict.dict V) (v : PyVal) (dflt : V) : V :=
  match v with
  | VStr s => Dict.get_default s table dflt
  | _ => dflt
  end.

Definition _colors (G : Nx.MultiDiGraph) (nodes : list string)
  : result (list string) :=
  comprehension
    (fun n =>
       a <- node_view G n ;;
       Ok (table_get PALETTE (Dict.get_default "node_type" a (VStr ""))
                     "#BBBBBB"))
    nodes.

Definition _sizes (G : Nx.MultiDiGraph) (nodes : list string)
  : result (list Z) :=
  comprehension
    (fun n =>
       a <- node_view G n ;;
       Ok (table_get SIZE (Dict.get_default "node_type" a (VStr "")) 60%Z))
    nodes.

End Visualizer.

(** The runtime [rt] with [torch_geometric] installed, or not. *)
Definition with_torch_geometric (b : bool) (rt : Py.Runtime) : Py.Runtime := {|
  Py.str_to_float := Py.str_to_float rt;
  Py.str_to_int := Py.str_to_int rt;
  Py.float_repr := Py.float_repr rt;
  Py.set_iter := Py.set_iter rt;
  Py.set_iter_perm := Py.set_iter_perm rt;
  Py.has_torch_geometric := b
|}.

(* ================================================================== *)
(** ** Observations on tables and graphs used to state the properties *)
(* ================================================================== *)

Module Obs.

(** The edge [e] runs from [u] to [v] with relation [r]. *)
Definition edge_is (r u v : string) (e : string * string * Nx.attrs) : bool :=
  Py.eq_str (Dict.get "relation" (snd e)) r
  && String.eqb (fst (fst e)) u && String.eqb (snd (fst e)) v.

(** Number of parallel [r] edges from [u] to [v]. *)
Definition edge_count (g : Nx.MultiDiGraph) (r u v : string) : nat :=
  List.length (filter (edge_is r u v) (Nx.edges g)).

(** The [node_type] attribute of node [n]. *)
Definition node_type (g : Nx.MultiDiGraph) (n : string) : option Py.PyVal :=
  match Dict.get n (Nx._node g) with
  | Some a => Dict.get "node_type" a
  | None => None
  end.

Definition supplier_ids (d : Data) := map Supplier.supplier_id (suppliers d).
Definition component_ids (d : Data) := map Component.component_id (components d).
Definition country_ids (d : Data) := map Country.country_id (countries d).
Definition contract_ids (d : Data) := map Contract.contract_id (contracts d).
Definition route_ids (d : Data) := map Route.route_id (routes d).

(** The natural keys of the five entity tables, in processing order. *)
Definition all_ids (d : Data) : list string :=
  supplier_ids d ++ component_ids d ++ country_ids d ++ contract_ids d
    ++ route_ids d.

Definition node_types : list string :=
  ["supplier"; "component"; "country"; "contract"; "route"].

(** The natural keys of the table behind a node type, in row order. *)
Definition ids_of_type (d : Data) (t : string) : list string :=
  if String.eqb t "supplier" then supplier_ids d
  else if String.eqb t "component" then component_ids d
  else if String.eqb t "country" then country_ids d
  else if String.eqb t "contract" then contract_ids d
  else if String.eqb t "route" then route_ids d
  else [].

End Obs.


(** ** The edges a build is expected to add, as (source, target, relation)
    candidates; a candidate becomes an edge when both ends are nodes. *)

Module Trace.

Definition triple : Type := string * string * string.

(** Node and adjacency dictionaries of a graph agree on their keys. *)
Definition wf (g : Nx.MultiDiGraph) : Prop :=
  forall n, Dict.mem n (Nx._node g) = Dict.mem n (Nx._adj g).

Definition guard (g : Nx.MultiDiGraph) (c : triple) : bool :=
  Nx.has_node g (fst (fst c)) && Nx.has_node g (snd (fst c)).

Definition add_cand (g : Nx.MultiDiGraph) (c : triple) : Nx.MultiDiGraph :=
  if guard g c
  then Nx.add_edge g (fst (fst c)) (snd (fst c)) (Builder.rel (snd c))
  else g.

Definition apply_cands (g : Nx.MultiDiGraph) (cs : list triple)
  : Nx.MultiDiGraph :=
  fold_left add_cand cs g.

(** An edge without its attributes other than the relation. *)
Definition tag (e : string * string * Nx.attrs)
  : string * string * option Py.PyVal :=
  (fst (fst e), snd (fst e), Dict.get "relation" (snd e)).

Definition ctag (c : triple) : string * string * option Py.PyVal :=
  (fst (fst c), snd (fst c), Some (Py.VStr (snd c))).

Definition tag_is (r u v : string) (t : string * string * option Py.PyVal)
  : bool :=
  Py.eq_str (snd t) r && String.eqb (fst (fst t)) u
  && String.eqb (snd (fst t)) v.

Definition opt_cand (u : string) (cnid : option string) (r : string)
  : list triple :=
  match cnid with
  | Some c => if Py.truthy_str c then [(u, c, r)] else []
  | None => []
  end.

Definition supplies_cands (links : list SourcingLink.row) : list triple :=
  map (fun row => (SourcingLink.supplier_id row,
                   SourcingLink.component_id row, "supplies")) links.

Definition located_cand (bn : Dict.dict string) (row : Supplier.row)
  : list triple :=
  opt_cand (Supplier.supplier_id row)
           (Dict.get (Supplier.country row) bn) "located_in".

Definition contract_cand (row : Contract.row) : list triple :=
  [(Contract.contract_id row, Contract.primary_component_id row, "covers");
   (Contract.contract_id row, Contract.supplier_id row, "signed_with")].

Definition route_cand (bn : Dict.dict string) (row : Route.row)
  : list triple :=
  opt_cand (Route.route_id row)
           (Dict.get (Route.origin_country row) bn) "originates_in"
  ++ opt_cand (Route.route_id row)
              (Dict.get (Route.destination_country row) bn) "delivers_to"
  ++ [(Route.route_id row, Route.component_id row, "carries")].

Definition co_cand (p : string * string) : list triple :=
  [(fst p, snd p, "co_supplier"); (snd p, fst p, "co_supplier")].

Definition tw_cand (p : string * string) : list triple :=
  [(fst p, snd p, "trades_with")].

Definition all_cands (d : Data) (bn : Dict.dict string) : list triple :=
  supplies_cands (sourcing_links d)
  ++ flat_map (located_cand bn) (suppliers d)
  ++ flat_map contract_cand (contracts d)
  ++ flat_map (route_cand bn) (routes d)
  ++ flat_map co_cand (Builder.co_pairs (sourcing_links d))
  ++ flat_map tw_cand (Builder.tw_pairs bn (routes d)).

End Trace.

(** ** The node loops of [_nodes] as folds over the rows *)

Module NodeLoops.
Import Py.

(** The float [_safe] stores under [k]. *)
Definition coerce (rt : Runtime) (row : Dict.dict PyVal) (k : string)
  : pyfloat :=
  let v := Dict.get_default k row (VFloat fzero) in
  if is_not_None v && eq_self v then
    match float rt v with
    | Ok f => f
    | Raise _ => fzero
    end
  else fzero.

Definition safe_dict (rt : Runtime) (row : Dict.dict PyVal)
    (keys : list string) : Dict.dict PyVal :=
  fold_left (fun out k => Dict.set k (VFloat (coerce rt row k)) out) keys [].

Definition supplier_attrs (rt : Runtime) (row : Supplier.row) : Nx.attrs :=
  [("node_type", VStr "supplier");
   ("label", Supplier.name row);
   ("country", VStr (Supplier.country row));
   ("category", Supplier.category row);
   ("risk_tier", Supplier.risk_tier row)]
  ++ safe_dict rt (Supplier.cells row) (Schema.feature_spec "supplier").

Definition component_attrs (rt : Runtime) (row : Component.row) : Nx.attrs :=
  [("node_type", VStr "component");
   ("label", Component.part_number row);
   ("category", Component.category row);
   ("criticality", Component.criticality row)]
  ++ Dict.set "criticality_encoded"
       (VInt (Dict.get_default (str rt (Component.criticality row))
                Schema.CRITICALITY_MAP 0%Z))
       (safe_dict rt (Component.cells row)
          ["unit_cost_usd"; "annual_volume"; "lead_time_weeks";
           "inventory_days"; "weight_kg"; "is_custom"]).

Definition country_attrs (rt : Runtime) (row : Country.row) : Nx.attrs :=
  [("node_type", VStr "country");
   ("label", VStr (Country.name row))]
  ++ safe_dict rt (Country.cells row) (Schema.feature_spec "country").

Definition contract_attrs (rt : Runtime) (row : Contract.row) : Nx.attrs :=
  [("node_type", VStr "contract");
   ("label", VStr (Contract.contract_id row));
   ("status", Contract.status row);
   ("payment_terms", Contract.payment_terms row)]
  ++ safe_dict rt (Contract.cells row) (Schema.feature_spec "contract").

Definition route_attrs (rt : Runtime) (row : Route.row) : Nx.attrs :=
  [("node_type", VStr "route");
   ("label", VStr (String.append (Route.origin_country row)
                     (String.append " -> " (Route.destination_country row))));
   ("transport_mode", Route.transport_mode row)]
  ++ safe_dict rt (Route.cells row) (Schema.feature_spec "route").

(** The nodes of one table added to a graph. *)
Definition add_nodes {R} (nid : R -> string) (attrs : R -> Nx.attrs)
    (rows : list R) (g : Nx.MultiDiGraph) : Nx.MultiDiGraph :=
  fold_left (fun g row => Nx.add_node g (nid row) (attrs row)) rows g.

Definition nodes_graph (rt : Runtime) (d : Data) (g : Nx.MultiDiGraph)
  : Nx.MultiDiGraph :=
  add_nodes Route.route_id (route_attrs rt) (routes d)
    (add_nodes Contract.contract_id (contract_attrs rt) (contracts d)
       (add_nodes Country.country_id (country_attrs rt) (countries d)
          (add_nodes Component.component_id (component_attrs rt) (components d)
             (add_nodes Supplier.supplier_id (supplier_attrs rt)
                (suppliers d) g)))).

(** The index assignments of one table. *)
Definition index_loop {R} (upd : nat -> R -> Builder.IdMaps -> Builder.IdMaps)
    (rows : list R) (m : Builder.IdMaps) : Builder.IdMaps :=
  fold_left (fun m ir => upd (fst ir) (snd ir) m) (enumerate rows) m.

Definition upd_index {R} (t : string) (nid : R -> string) (i : nat) (row : R)
    (m : Builder.IdMaps) : Builder.IdMaps :=
  Builder.set_index t (nid row) i m.

Definition upd_country (i : nat) (row : Country.row) (m : Builder.IdMaps)
  : Builder.IdMaps :=
  Builder.set_by_name (Country.name row) (Country.country_id row)
    (Builder.set_index "country" (Country.country_id row) i m).

Definition nodes_maps (d : Data) (m : Builder.IdMaps) : Builder.IdMaps :=
  let m := index_loop (upd_index "supplier" Supplier.supplier_id) (suppliers d) m in
  let m := index_loop (upd_index "component" Component.component_id)
             (components d) m in
  let m := {| Builder.index := Builder.index m;
              Builder._country_by_name := Some [] |} in
  let m := index_loop upd_country (countries d) m in
  let m := index_loop (upd_index "contract" Contract.contract_id)
             (contracts d) m in
  index_loop (upd_index "route" Route.route_id) (routes d) m.

(** One turn of a node loop. *)
Definition node_step {K : Np.Kernel} {R}
    (upd : nat -> R -> Builder.IdMaps -> Builder.IdMaps)
    (nid : R -> string) (attrs : R -> Nx.attrs)
    (self : @Builder.KnowledgeGraphBuilder K) (ir : nat * R)
  : @Builder.KnowledgeGraphBuilder K :=
  Builder.with_G
    (Nx.add_node (Builder.G self) (nid (snd ir)) (attrs (snd ir)))
    (Builder.with_id_maps (upd (fst ir) (snd ir) (Builder.id_maps self)) self).

(** The index map of one table, rows numbered from [k]. *)
Definition assign_from {R} (nid : R -> string) (k : nat) (rows : list R)
    (acc : Dict.dict nat) : Dict.dict nat :=
  fold_left (fun im ir => Dict.set (nid (snd ir)) (fst ir) im)
            (combine (seq k (List.length rows)) rows) acc.

(** The name -> identifier map of the country table. *)
Definition country_by_name (rows : list Country.row) (acc : Dict.dict string)
  : Dict.dict string :=
  fold_left (fun bn row =>
               Dict.set (Country.name row) (Country.country_id row) bn)
            rows acc.

(** [self.id_maps] of a new builder. *)
Definition no_maps : Builder.IdMaps :=
  {| Builder.index := []; Builder._country_by_name := None |}.

(** The entry [add_node] writes for the row of a new node. *)
Definition node_entry {R} (nid : R -> string) (attrs : R -> Nx.attrs) (r : R)
  : string * Nx.attrs :=
  (nid r, Dict.update [] (attrs r)).

End NodeLoops.

(** ** Invariants of node attributes *)

Module Attrs.
Import Py.

Definition all_features : list string :=
  flat_map snd Schema.NODE_FEATURE_SPECS.

Definition is_feature (k : string) : bool :=
  existsb (String.eqb k) all_features.

(** What a feature attribute of a node can hold: a float, or the
    ordinal of a criticality label. *)
Definition isnum (v : PyVal) : Prop :=
  match v with
  | VFloat _ => True
  | VInt z => (0 <= z <= 3)%Z
  | _ => False
  end.

(** Every feature key of an attribute dictionary holds a number. *)
Definition attrs_num (a : Nx.attrs) : Prop :=
  forall f v, Dict.get f a = Some v -> is_feature f = true -> isnum v.

Definition num_list (a : Nx.attrs) : Prop :=
  forall f v, In (f, v) a -> is_feature f = true -> isnum v.

Definition graph_num (g : Nx.MultiDiGraph) : Prop :=
  forall n a, In (n, a) (Nx._node g) -> attrs_num a.

(** The keyword arguments of an [add_node] call carry the type [t]. *)
Definition typed (t : string) (a : Nx.attrs) : Prop :=
  Dict.get "node_type" (rev a) = Some (VStr t).

(** The attributes [_nodes] names in the [add_node] call of a type,
    before the features. *)
Definition fixed_keys (t : string) : list string :=
  if String.eqb t "supplier"
  then ["node_type"; "label"; "country"; "category"; "risk_tier"]
  else if String.eqb t "component"
  then ["node_type"; "label"; "category"; "criticality"]
  else if String.eqb t "country" then ["node_type"; "label"]
  else if String.eqb t "contract"
  then ["node_type"; "label"; "status"; "payment_terms"]
  else if String.eqb t "route" then ["node_type"; "label"; "transport_mode"]
  else [].

(** The attribute dictionary of a node of type [t]: the fixed
    attributes, headed by the type, then the features of the type, each
    a number. *)
Definition schema_ok (t : string) (a : Nx.attrs) : Prop :=
  Dict.keys a = fixed_keys t ++ Schema.feature_spec t
  /\ Dict.get "node_type" a = Some (VStr t)
  /\ forall f, In f (Schema.feature_spec t) ->
       exists v, Dict.get f a = Some v /\ isnum v.

(** The component features [_nodes] hands to [_safe]. *)
Definition measured : list string :=
  ["unit_cost_usd"; "annual_volume"; "lead_time_weeks"; "inventory_days";
   "weight_kg"; "is_custom"].

End Attrs.

(** ** The feature matrices and the tensor bundle, read back *)

Module Bundle.
Import Py.
Section WithRuntime.
Context {K : Np.Kernel} (rt : Runtime).

(** The builder after [_load] and [_nodes]. *)
Definition after_nodes (dd : DataDir) (d : Data)
  : @Builder.KnowledgeGraphBuilder K :=
  Builder.with_G (NodeLoops.nodes_graph rt d Nx.empty)
    (Builder.with_id_maps (NodeLoops.nodes_maps d NodeLoops.no_maps)
       (Builder.with_data d (Builder.__init__ dd))).

(** The float [_features] reads for feature [f] of a node. *)
Definition feature_float (a : Nx.attrs) (f : string) : pyfloat :=
  match Builder.feature_value rt a f with
  | Ok v => v
  | Raise _ => fzero
  end.

(** The matrix [_features] stores for a type that has nodes. *)
Definition type_matrix (g : Nx.MultiDiGraph) (t : string)
    (names : list string) : @Np.matrix K :=
  Builder.normalize
    (map (fun nd => map (feature_float (snd nd)) names)
         (Builder.nodes_of_type g t)).

Definition features_step (g : Nx.MultiDiGraph)
    (nf : Dict.dict (@Np.matrix K)) (spec : string * list string)
  : Dict.dict (@Np.matrix K) :=
  match Builder.nodes_of_type g (fst spec) with
  | [] => nf
  | _ => Dict.set (fst spec) (type_matrix g (fst spec) (snd spec)) nf
  end.

Definition key_eqb (a b : string * string * string) : bool :=
  String.eqb (fst (fst a)) (fst (fst b))
  && String.eqb (snd (fst a)) (snd (fst b))
  && String.eqb (snd a) (snd b).

(** The key under which the entry of [edge_defs] is stored. *)
Definition key_of (def : string * string * string)
  : string * string * string :=
  (snd (fst def), fst (fst def), snd def).

(** An edge passes the filter of the comprehension of [_to_pyg]. *)
Definition resolves_in (r : string) (sm dm : Dict.dict nat)
    (e : string * string * Nx.attrs) : bool :=
  eq_str (Dict.get "relation" (snd e)) r
  && Dict.mem (fst (fst e)) sm && Dict.mem (snd (fst e)) dm.

(** [data[s, r, d].edge_index], if the bundle has it. *)
Fixpoint lookup (k : string * string * string)
    (ei : list ((string * string * string) * (list nat * list nat)))
  : option (list nat * list nat) :=
  match ei with
  | [] => None
  | (k', v) :: t => if key_eqb k' k then Some v else lookup k t
  end.

(** Row count of [data[t].x]; no tensor counts as no rows. *)
Definition rows (h : @Builder.HeteroData K) (t : string) : nat :=
  match Dict.get t (Builder.x h) with
  | Some m => List.length m
  | None => 0
  end.

(** The graph edges of relation [r] whose ends resolve in the index
    maps of the declared types. *)
Definition resolving (self : @Builder.KnowledgeGraphBuilder K)
    (def : string * string * string) : list (string * string * Nx.attrs) :=
  let '(r, src_t, dst_t) := def in
  filter (fun e =>
            eq_str (Dict.get "relation" (snd e)) r
            && Dict.mem (fst (fst e))
                 (Builder.index_map (Builder.id_maps self) src_t)
            && Dict.mem (snd (fst e))
                 (Builder.index_map (Builder.id_maps self) dst_t))
         (Nx.edges (Builder.G self)).

(** The two exports agree on nodes and edges. *)
Definition consistent (self : @Builder.KnowledgeGraphBuilder K)
    (out : @Builder.Output K) (h : @Builder.HeteroData K) : Prop :=
  (forall t, In t Obs.node_types ->
     rows h t = List.length (Builder.index_map (Builder.id_maps self) t)
     /\ rows h t
        = List.length (Builder.nodes_of_type (Builder.graphml out) t))
  /\ (forall r src_t dst_t, In (r, src_t, dst_t) Builder.edge_defs ->
        match resolving self (r, src_t, dst_t) with
        | [] => lookup (src_t, r, dst_t) (Builder.edge_index h) = None
        | es =>
            exists srcs dsts,
              lookup (src_t, r, dst_t) (Builder.edge_index h)
              = Some (srcs, dsts)
              /\ List.length srcs = List.length es
              /\ List.length dsts = List.length es
              /\ (forall i, In i srcs -> i < rows h src_t)
              /\ (forall j, In j dsts -> j < rows h dst_t)
        end).

(** Every edge whose relation is in the catalog joins nodes of the
    declared types. *)
Definition well_typed (g : Nx.MultiDiGraph) : Prop :=
  forall u v a et,
    In (u, v, a) (Nx.edges g) ->
    In et Schema.EDGE_TYPES ->
    eq_str (Dict.get "relation" a) (Schema.relation et) = true ->
    Obs.node_type g u = Some (VStr (Schema.src et))
    /\ Obs.node_type g v = Some (VStr (Schema.dst et)).

End WithRuntime.
End Bundle.

(** ** The required files, in the order [_load] asks for them *)

Module Files.

Definition present {T} (f : option T) : bool :=
  match f with
  | Some _ => true
  | None => false
  end.

Definition required (dd : DataDir) : list (string * bool) :=
  [("suppliers", present (suppliers_csv dd));
   ("components", present (components_csv dd));
   ("countries", present (countries_csv dd));
   ("contracts", present (contracts_csv dd));
   ("routes", present (routes_csv dd));
   ("sourcing_links", present (sourcing_links_csv dd))].

(** The first required table whose file is absent. *)
Definition first_missing (dd : DataDir) : option string :=
  option_map fst (find (fun tb => negb (snd tb)) (required dd)).

(** What the loader finds at a file. *)
Inductive status : Type :=
| Absent
| Unreadable (e : Py.exn)
| Read.

Definition status_of {T} (f : option (Py.result T)) : status :=
  match f with
  | None => Absent
  | Some (Py.Raise e) => Unreadable e
  | Some (Py.Ok _) => Read
  end.

Definition is_read (s : status) : bool :=
  match s with
  | Read => true
  | _ => false
  end.

Definition listing (dd : DataDir) : list (string * status) :=
  [("suppliers", status_of (suppliers_csv dd));
   ("components", status_of (components_csv dd));
   ("countries", status_of (countries_csv dd));
   ("contracts", status_of (contracts_csv dd));
   ("routes", status_of (routes_csv dd));
   ("sourcing_links", status_of (sourcing_links_csv dd))].

(** The first required table, in the order of the loop, whose file is
    absent or cannot be read. *)
Definition first_failure (dd : DataDir) : option (string * status) :=
  find (fun ts => negb (is_read (snd ts))) (listing dd).

(** The message of the error raised for table [t]. *)
Definition message (dd : DataDir) (t : string) : string :=
  String.append "Missing "
    (String.append
       (PathOps.str (PathOps.joinpath (dir dd) (String.append t ".csv")))
       ". Run: python -m src.data.generator").

End Files.

(** ** A small data directory and runs of the builder on it *)

Module Demo.
Import Py.

Definition num (z : Z) : PyVal := VFloat (float_of_Z z).

Definition sup (id c : string) (spend : PyVal) : Supplier.row :=
  {| Supplier.supplier_id := id; Supplier.name := VStr id;
     Supplier.country := c; Supplier.category := VStr "Electronics";
     Supplier.risk_tier := VStr "Low";
     Supplier.cells := [("annual_spend_usd", spend);
                        ("quality_score", VStr "n/a")] |}.

Definition cmp (id crit : string) : Component.row :=
  {| Component.component_id := id; Component.part_number := VStr id;
     Component.category := VStr "Mechanical";
     Component.criticality := VStr crit;
     Component.cells := [("unit_cost_usd", num 5)] |}.

Definition cou (id nm : string) : Country.row :=
  {| Country.country_id := id; Country.name := nm; Country.cells := [] |}.

Definition con (id s c : string) : Contract.row :=
  {| Contract.contract_id := id; Contract.supplier_id := s;
     Contract.primary_component_id := c; Contract.status := VStr "Active";
     Contract.payment_terms := VStr "Net30";
     Contract.cells := [("is_active", VBool true)] |}.

Definition rte (id o d c : string) : Route.row :=
  {| Route.route_id := id; Route.origin_country := o;
     Route.destination_country := d; Route.component_id := c;
     Route.transport_mode := VStr "Sea"; Route.cells := [] |}.

Definition lnk (s c : string) : SourcingLink.row :=
  {| SourcingLink.supplier_id := s; SourcingLink.component_id := c;
     SourcingLink.is_primary := VBool true;
     SourcingLink.unit_price_usd := num 3 |}.

(** A link whose flag and price cannot be converted. *)
Definition bad_lnk (s c : string) : SourcingLink.row :=
  {| SourcingLink.supplier_id := s; SourcingLink.component_id := c;
     SourcingLink.is_primary := VFloat S754_nan;
     SourcingLink.unit_price_usd := VStr "n/a" |}.

Definition here : Path := {| anchored := false; parts := ["data"] |}.

Definition dir_of (d : Data) : DataDir :=
  {| dir := here;
     suppliers_csv := Some (Ok (suppliers d));
     components_csv := Some (Ok (components d));
     countries_csv := Some (Ok (countries d));
     contracts_csv := Some (Ok (contracts d));
     routes_csv := Some (Ok (routes d));
     sourcing_links_csv := Some (Ok (sourcing_links d)) |}.

(** Three suppliers, two components, two countries, a contract, two
    routes (one each way), five sourcing links: one of them dangling
    and not convertible, one a repetition. *)
Definition tables : Data :=
  {| suppliers := [sup "SUP-0001" "Japan" (num 10);
                   sup "SUP-0002" "Japan" (num 30);
                   sup "SUP-0003" "Chile" (num 20)];
     components := [cmp "CMP-0001" "High"; cmp "CMP-0002" "Low"];
     countries := [cou "COU-JAP" "Japan"; cou "COU-CHI" "Chile"];
     contracts := [con "CON-0001" "SUP-0001" "CMP-0002"];
     routes := [rte "RTE-0001" "Japan" "Chile" "CMP-0001";
                rte "RTE-0002" "Chile" "Japan" "CMP-0002"];
     sourcing_links := [lnk "SUP-0001" "CMP-0001";
                        lnk "SUP-0002" "CMP-0001";
                        lnk "SUP-0003" "CMP-0002";
                        bad_lnk "SUP-0001" "CMP-0404";
                        lnk "SUP-0003" "CMP-0002"] |}.

(** The builder after [build] on the directory holding [d]. *)
Definition built (d : Data) : @Builder.KnowledgeGraphBuilder Np.binary32 :=
  match Builder.build plain_runtime (Builder.__init__ (dir_of d)) with
  | Ok so => fst so
  | Raise _ => Builder.__init__ (dir_of d)
  end.

Definition self : @Builder.KnowledgeGraphBuilder Np.binary32 := built tables.

Definition out : @Builder.Output Np.binary32 := Builder._save self.

Definition no_bundle : @Builder.HeteroData Np.binary32 :=
  {| Builder.x := []; Builder.edge_index := [] |}.

(** The tensor bundle of a builder, empty if it has none. *)
Definition bundle_of (b : @Builder.KnowledgeGraphBuilder Np.binary32)
  : @Builder.HeteroData Np.binary32 :=
  match Builder.hetero b with
  | Some h => h
  | None => no_bundle
  end.

Definition bundle : @Builder.HeteroData Np.binary32 := bundle_of self.

(** What [stats] reports on the small build: 21 edges among 10 nodes,
    the density being the float nearest to 21/90. *)
Definition report : Schema.GraphStats :=
  {| Schema.n_nodes := [("supplier", 3); ("component", 2); ("country", 2);
                        ("contract", 1); ("route", 2)];
     Schema.n_edges := [("supplies", 4); ("located_in", 3); ("covers", 1);
                        ("signed_with", 1); ("originates_in", 2);
                        ("delivers_to", 2); ("carries", 2);
                        ("co_supplier", 4); ("trades_with", 2)];
     Schema.total_nodes := 10;
     Schema.total_edges := 21;
     Schema.density := S754_finite false 8406719304424926 (-55) |}.

(** The six files exist, and the file of the suppliers is empty. *)
Definition empty_file : DataDir :=
  {| dir := here;
     suppliers_csv := Some (Raise EmptyDataError);
     components_csv := Some (Ok (components tables));
     countries_csv := Some (Ok (countries tables));
     contracts_csv := Some (Ok (contracts tables));
     routes_csv := Some (Ok (routes tables));
     sourcing_links_csv := Some (Ok (sourcing_links tables)) |}.

(** A supplier that is in no table, listed twice under one component. *)
Definition dangling_twice : Data :=
  {| suppliers := [sup "SUP-0001" "Japan" (num 10)];
     components := [cmp "CMP-0001" "High"];
     countries := [];
     contracts := [];
     routes := [];
     sourcing_links := [lnk "SUP-0404" "CMP-0001";
                        lnk "SUP-0404" "CMP-0001"] |}.

(** Two supplier rows with one identifier. *)
Definition repeated_key : Data :=
  {| suppliers := [sup "SUP-0001" "Japan" (num 10);
                   sup "SUP-0001" "Japan" (num 30)];
     components := [];
     countries := [cou "COU-JAP" "Japan"];
     contracts := [];
     routes := [];
     sourcing_links := [] |}.

(** A sourcing link whose component column names a supplier. *)
Definition crossed_key : Data :=
  {| suppliers := [sup "SUP-0001" "Japan" (num 10);
                   sup "SUP-0002" "Japan" (num 30)];
     components := [];
     countries := [];
     contracts := [];
     routes := [];
     sourcing_links := [lnk "SUP-0001" "SUP-0002"] |}.

(** The feature values of three nodes with two features, the second
    the same for all. *)
Definition feature_rows : list (list pyfloat) :=
  [[float_of_Z 10; float_of_Z 5];
   [float_of_Z 30; float_of_Z 5];
   [float_of_Z 15; float_of_Z 5]].

(** One feature, infinite for the first of two nodes. *)
Definition infinite_feature : list (list pyfloat) :=
  [[S754_infinity false]; [float_of_Z 1]].

(** One feature with finite values whose range is beyond float32. *)
Definition wide_feature : list (list pyfloat) :=
  [[float_of_Z (3 * 10 ^ 38)]; [float_of_Z (- 3 * 10 ^ 38)]].

End Demo.

(** ** Counting candidates and pairs *)

Module Count.

(** The candidate [c] runs from [u] to [v] with relation [r]. *)
Definition triple_is (r u v : string) (c : Trace.triple) : bool :=
  String.eqb (snd c) r && String.eqb (fst (fst c)) u
  && String.eqb (snd (fst c)) v.

Definition rel_count (r u v : string) (l : list Trace.triple) : nat :=
  List.length (filter (triple_is r u v) l).

Definition pair_count (p : string * string) (l : list (string * string))
  : nat :=
  List.length (filter (Py.pair_eqb p) l).

(** The suppliers listed under component [c], in row order. *)
Definition sups_of (c : string) (links : list SourcingLink.row) : list string :=
  map SourcingLink.supplier_id
      (filter (fun row => String.eqb (SourcingLink.component_id row) c) links).

(** Some route runs from country [a] to country [b], both resolved by
    name to non-empty identifiers. *)
Definition observed (bn : Dict.dict string) (rows : list Route.row)
    (a b : string) : bool :=
  existsb (fun row =>
             match Dict.get (Route.origin_country row) bn,
                   Dict.get (Route.destination_country row) bn with
             | Some o, Some e =>
                 Py.truthy_str o && Py.truthy_str e
                 && String.eqb o a && String.eqb e b
             | _, _ => false
             end) rows.

End Count.

(** ** Conditions on the input tables *)

Module Input.

(** The six files of the data directory exist and [pd.read_csv] reads
    the tables [d] from them. *)
Definition holds (dd : DataDir) (d : Data) : Prop :=
  suppliers_csv dd = Some (Py.Ok (suppliers d))
  /\ components_csv dd = Some (Py.Ok (components d))
  /\ countries_csv dd = Some (Py.Ok (countries d))
  /\ contracts_csv dd = Some (Py.Ok (contracts d))
  /\ routes_csv dd = Some (Py.Ok (routes d))
  /\ sourcing_links_csv dd = Some (Py.Ok (sourcing_links d)).

Definition listed (n : string) (l : list string) : bool :=
  existsb (String.eqb n) l.

(** The node types whose table lists the identifier [n]. *)
Definition owners (d : Data) (n : string) : list string :=
  filter (fun t => listed n (Obs.ids_of_type d t)) Obs.node_types.

(** No identifier is a key of two tables of different types. *)
Definition cross_disjoint (d : Data) : bool :=
  forallb (fun n => Nat.leb (List.length (owners d n)) 1) (Obs.all_ids d).

(** A reference [n] names a key of the table [target], or no node. *)
Definition ref_ok (d : Data) (n : string) (target : list string) : bool :=
  negb (listed n (Obs.all_ids d)) || listed n target.

(** Every supplier and component reference of the sourcing links, of
    the contracts and of the routes names a key of its own table, or no
    node at all. *)
Definition typed_refs (d : Data) : bool :=
  forallb (fun row =>
             ref_ok d (SourcingLink.supplier_id row) (Obs.supplier_ids d)
             && ref_ok d (SourcingLink.component_id row) (Obs.component_ids d))
          (sourcing_links d)
  && forallb (fun row =>
                ref_ok d (Contract.supplier_id row) (Obs.supplier_ids d)
                && ref_ok d (Contract.primary_component_id row)
                     (Obs.component_ids d))
             (contracts d)
  && forallb (fun row =>
                ref_ok d (Route.component_id row) (Obs.component_ids d))
             (routes d).

End Input.

(** ** Reading the input tables the way the edge loops do *)

Module Refs.

(** The identifier [n] is a key of one of the five entity tables. *)
Definition known (d : Data) (n : string) : bool :=
  Input.listed n (Obs.all_ids d).

(** The country name resolves to a non-empty identifier. *)
Definition named (bn : Dict.dict string) (name : string) : bool :=
  match Dict.get name bn with
  | Some c => Py.truthy_str c
  | None => false
  end.

End Refs.
(* ================================================================== *)
(** * Properties *)
(* ================================================================== *)

(** ** Dictionaries *)

Section DictFacts.
Context {V : Type}.
Implicit Types (d : Dict.dict V) (k : string) (v : V).

Lemma get_set_eq k v d : Dict.get k (Dict.set k v d) = Some v.
Proof.
  induction d as [|[k' v'] t IH]; simpl.
  - now rewrite String.eqb_refl.
  - destruct (String.eqb k' k) eqn:E; simpl; now rewrite ?E.
Qed.

Lemma get_set_ne k k' v d :
  k <> k' -> Dict.get k' (Dict.set k v d) = Dict.get k' d.
Proof.
  intros N. induction d as [|[k0 v0] t IH]; simpl.
  - destruct (String.eqb_spec k k'); congruence.
  - destruct (String.eqb_spec k0 k); simpl.
    + subst. destruct (String.eqb_spec k k'); congruence.
    + destruct (String.eqb k0 k'); auto.
Qed.

Lemma get_set k k' v d :
  Dict.get k' (Dict.set k v d)
  = if String.eqb k k' then Some v else Dict.get k' d.
Proof.
  destruct (String.eqb_spec k k').
  - subst. apply get_set_eq.
  - now apply get_set_ne.
Qed.

Lemma mem_set k k' v d :
  Dict.mem k' (Dict.set k v d) = String.eqb k k' || Dict.mem k' d.
Proof.
  unfold Dict.mem. rewrite get_set. now destruct (String.eqb k k').
Qed.

Lemma mem_In_keys k d : Dict.mem k d = true <-> In k (Dict.keys d).
Proof.
  unfold Dict.mem. induction d as [|[k' v'] t IH]; simpl.
  - split; [discriminate | tauto].
  - destruct (String.eqb_spec k' k).
    + split; auto.
    + rewrite IH. split; [auto | intros [E|H]; congruence].
Qed.

Lemma mem_false_not_In k d : Dict.mem k d = false <-> ~ In k (Dict.keys d).
Proof.
  rewrite <- mem_In_keys. destruct (Dict.mem k d); split; congruence.
Qed.

Lemma set_absent k v d : Dict.mem k d = false -> Dict.set k v d = d ++ [(k, v)].
Proof.
  unfold Dict.mem. induction d as [|[k' v'] t IH]; simpl; auto.
  destruct (String.eqb k' k); [discriminate|].
  intros H. now rewrite IH.
Qed.

Lemma keys_set_present k v d :
  Dict.mem k d = true -> Dict.keys (Dict.set k v d) = Dict.keys d.
Proof.
  unfold Dict.mem. induction d as [|[k' v'] t IH]; simpl; [discriminate|].
  destruct (String.eqb k' k); simpl; auto.
  intros H. now rewrite IH.
Qed.

Lemma keys_set k v d :
  Dict.keys (Dict.set k v d)
  = if Dict.mem k d then Dict.keys d else Dict.keys d ++ [k].
Proof.
  destruct (Dict.mem k d) eqn:E.
  - now apply keys_set_present.
  - rewrite set_absent by assumption. unfold Dict.keys.
    now rewrite map_app.
Qed.

Lemma NoDup_keys_set k v d :
  NoDup (Dict.keys d) -> NoDup (Dict.keys (Dict.set k v d)).
Proof.
  intros H. rewrite keys_set. destruct (Dict.mem k d) eqn:E; auto.
  apply mem_false_not_In in E.
  apply NoDup_app; auto.
  - repeat constructor. simpl. tauto.
  - intros x Hx [<-|[]]. contradiction.
Qed.

Lemma get_In k v d : Dict.get k d = Some v -> In (k, v) d.
Proof.
  induction d as [|[k' v'] t IH]; simpl; [discriminate|].
  destruct (String.eqb_spec k' k).
  - intros [= ->]. subst. now left.
  - auto.
Qed.

Lemma In_get k v d : NoDup (Dict.keys d) -> In (k, v) d -> Dict.get k d = Some v.
Proof.
  induction d as [|[k' v'] t IH]; simpl; [tauto|].
  intros N [E|H].
  - inversion E; subst. now rewrite String.eqb_refl.
  - inversion N; subst.
    destruct (String.eqb_spec k' k).
    + subst. exfalso. apply H2. unfold Dict.keys.
      change k with (fst (k, v)). now apply in_map.
    + auto.
Qed.

Lemma get_app k d1 d2 :
  Dict.get k (d1 ++ d2)
  = match Dict.get k d1 with Some v => Some v | None => Dict.get k d2 end.
Proof.
  induction d1 as [|[k' v'] t IH]; simpl; auto.
  now destruct (String.eqb k' k).
Qed.

Lemma get_None_not_In k d : Dict.get k d = None <-> ~ In k (Dict.keys d).
Proof.
  rewrite <- mem_false_not_In. unfold Dict.mem.
  destruct (Dict.get k d); split; congruence.
Qed.

(** After [d.update(new)] a key holds its last value in [new], or
    else what it held in [d]. *)
Lemma get_update k d new :
  Dict.get k (Dict.update d new)
  = match Dict.get k (rev new) with
    | Some v => Some v
    | None => Dict.get k d
    end.
Proof.
  unfold Dict.update. revert d.
  induction new as [|[k' v'] t IH]; intros d; simpl; auto.
  rewrite IH, get_app. destruct (Dict.get k (rev t)); auto.
  simpl. rewrite get_set. now destruct (String.eqb k' k).
Qed.

Lemma mem_update k d new :
  Dict.mem k (Dict.update d new) = Dict.mem k d || Dict.mem k new.
Proof.
  unfold Dict.update. revert d.
  induction new as [|[k' v'] t IH]; intros d; simpl.
  - now rewrite orb_false_r.
  - rewrite IH, mem_set. unfold Dict.mem at 4. simpl.
    destruct (String.eqb k' k); simpl.
    + now rewrite orb_true_r.
    + reflexivity.
Qed.

Lemma update_nil_NoDup (d : Dict.dict V) :
  NoDup (Dict.keys d) -> Dict.update [] d = d.
Proof.
  unfold Dict.update.
  assert (H : forall acc, NoDup (Dict.keys (acc ++ d)) ->
            fold_left (fun a kv => Dict.set (fst kv) (snd kv) a) d acc = acc ++ d).
  { induction d as [|[k v] t IH]; intros acc N; simpl.
    - now rewrite app_nil_r.
    - rewrite set_absent.
      + rewrite IH; rewrite <- app_assoc; auto.
      + apply mem_false_not_In. unfold Dict.keys in N.
        rewrite map_app in N. simpl in N.
        apply NoDup_remove_2 in N. intros H. apply N.
        apply in_or_app. now left. }
  intros N. now apply (H []).
Qed.

End DictFacts.

(** ** Lists *)

Lemma Permutation_filter_same {A} (f : A -> bool) (l l' : list A) :
  Permutation l l' -> Permutation (filter f l) (filter f l').
Proof.
  induction 1; simpl.
  - constructor.
  - destruct (f x); auto.
  - destruct (f x), (f y); auto. constructor.
  - eapply Permutation_trans; eauto.
Qed.

Lemma Permutation_flat_map_same {A B} (f : A -> list B) (l l' : list A) :
  Permutation l l' -> Permutation (flat_map f l) (flat_map f l').
Proof.
  induction 1; simpl.
  - constructor.
  - now apply Permutation_app_head.
  - rewrite !app_assoc. apply Permutation_app_tail, Permutation_app_comm.
  - eapply Permutation_trans; eauto.
Qed.

Lemma filter_flat_map {A B} (p : B -> bool) (f : A -> list B) (l : list A) :
  filter p (flat_map f l) = flat_map (fun a => filter p (f a)) l.
Proof.
  induction l as [|a t IH]; simpl; auto.
  now rewrite filter_app, IH.
Qed.

Lemma filter_map_comm {A B} (p : B -> bool) (f : A -> B) (l : list A) :
  filter p (map f l) = map f (filter (fun a => p (f a)) l).
Proof.
  induction l as [|a t IH]; simpl; auto.
  destruct (p (f a)); simpl; now rewrite IH.
Qed.

Lemma combine_fst_snd {A B} (l : list A) : forall l' : list B,
  List.length l = List.length l' ->
  map fst (combine l l') = l /\ map snd (combine l l') = l'.
Proof.
  induction l as [|a t IH]; intros [|b t'] H; simpl in *;
    try discriminate; auto.
  destruct (IH t') as [E1 E2]; [lia|]. now rewrite E1, E2.
Qed.

(** ** The graph operations *)

Section GraphFacts.
Import Trace.

Lemma flat_map_set_present {A V} (f : string * V -> list A) k new old d x :
  Dict.get k d = Some old ->
  Permutation (f (k, new)) (x :: f (k, old)) ->
  Permutation (flat_map f (Dict.set k new d)) (x :: flat_map f d).
Proof.
  intros Hg Hp. induction d as [|[k' v'] t IH]; simpl in *; [discriminate|].
  destruct (String.eqb_spec k' k).
  - subst. inversion Hg; subst. simpl.
    change (x :: f (k, old) ++ flat_map f t)
      with ((x :: f (k, old)) ++ flat_map f t).
    now apply Permutation_app_tail.
  - simpl. eapply Permutation_trans.
    + apply Permutation_app_head. apply IH, Hg.
    + apply Permutation_sym, Permutation_middle.
Qed.

Lemma flat_map_set_absent {A V} (f : string * V -> list A) k new
    (d : Dict.dict V) :
  Dict.get k d = None ->
  flat_map f (Dict.set k new d) = flat_map f d ++ f (k, new).
Proof.
  intros H. rewrite set_absent.
  - rewrite flat_map_app. simpl. now rewrite app_nil_r.
  - unfold Dict.mem. now rewrite H.
Qed.

Lemma touch_present g n : wf g -> Nx.has_node g n = true -> Nx.touch g n = g.
Proof.
  intros W H. unfold Nx.touch. unfold Nx.has_node in H.
  rewrite W in H. now rewrite H.
Qed.

Lemma out_edges_set u v a (nbrs : Dict.dict (list Nx.attrs)) :
  Permutation
    (Nx.out_edges u
       (Dict.set v (match Dict.get v nbrs with
                    | Some kd => kd ++ [a]
                    | None => [a]
                    end) nbrs))
    ((u, v, a) :: Nx.out_edges u nbrs).
Proof.
  unfold Nx.out_edges. destruct (Dict.get v nbrs) as [kd|] eqn:E.
  - eapply flat_map_set_present; eauto. simpl.
    rewrite map_app. simpl.
    apply Permutation_sym, Permutation_cons_append.
  - rewrite flat_map_set_absent by assumption. simpl.
    apply Permutation_sym, Permutation_cons_append.
Qed.

(** Adding an edge between two existing nodes leaves the nodes alone
    and adds exactly that edge. *)
Lemma add_edge_spec g u v a :
  wf g -> Nx.has_node g u = true -> Nx.has_node g v = true ->
  Nx._node (Nx.add_edge g u v a) = Nx._node g
  /\ wf (Nx.add_edge g u v a)
  /\ Permutation (Nx.edges (Nx.add_edge g u v a))
                 ((u, v, Dict.update [] a) :: Nx.edges g).
Proof.
  intros W Hu Hv. unfold Nx.add_edge.
  rewrite (touch_present g u W Hu), (touch_present g v W Hv). simpl.
  assert (Hm : Dict.mem u (Nx._adj g) = true)
    by (rewrite <- W; exact Hu).
  unfold Dict.mem in Hm.
  destruct (Dict.get u (Nx._adj g)) as [nbrs|] eqn:E; [|discriminate].
  unfold Dict.get_default. rewrite E.
  split; [reflexivity|]. split.
  - intros n. simpl. rewrite mem_set, W.
    destruct (String.eqb_spec u n); simpl; auto.
    subst. unfold Dict.mem. now rewrite E.
  - unfold Nx.edges. simpl.
    eapply flat_map_set_present; eauto. simpl.
    apply out_edges_set.
Qed.

Lemma add_node_wf g n a : wf g -> wf (Nx.add_node g n a).
Proof.
  intros W m. unfold Nx.add_node.
  destruct (Dict.mem n (Nx._adj g)) eqn:E; simpl.
  - rewrite mem_set, W.
    destruct (String.eqb_spec n m); simpl; auto. now subst.
  - now rewrite !mem_set, W.
Qed.

Lemma add_node_edges g n a : Nx.edges (Nx.add_node g n a) = Nx.edges g.
Proof.
  unfold Nx.add_node, Nx.edges.
  destruct (Dict.mem n (Nx._adj g)) eqn:E; simpl; auto.
  rewrite set_absent by assumption.
  rewrite flat_map_app. simpl. now rewrite app_nil_r.
Qed.

Lemma add_node_has g n a m :
  Nx.has_node (Nx.add_node g n a) m = String.eqb n m || Nx.has_node g m.
Proof.
  unfold Nx.add_node, Nx.has_node.
  destruct (Dict.mem n (Nx._adj g)); simpl; apply mem_set.
Qed.

Lemma guard_node g g' c : Nx._node g' = Nx._node g -> guard g' c = guard g c.
Proof. intros H. unfold guard, Nx.has_node. now rewrite H. Qed.

Lemma add_cand_spec g c :
  wf g ->
  Nx._node (add_cand g c) = Nx._node g
  /\ wf (add_cand g c)
  /\ Permutation (map tag (Nx.edges (add_cand g c)))
                 (map ctag (filter (guard g) [c]) ++ map tag (Nx.edges g)).
Proof.
  intros W. unfold add_cand. simpl.
  destruct (guard g c) eqn:E; simpl; auto.
  unfold guard in E. apply andb_true_iff in E as [Hu Hv].
  destruct (add_edge_spec g _ _ (Builder.rel (snd c)) W Hu Hv) as (N & W' & P).
  repeat split; auto.
  apply (Permutation_map tag) in P. exact P.
Qed.

(** Running a list of candidates adds the guarded ones and nothing
    else; the guard may be read on the initial graph. *)
Lemma apply_cands_spec cs : forall g,
  wf g ->
  Nx._node (apply_cands g cs) = Nx._node g
  /\ wf (apply_cands g cs)
  /\ Permutation (map tag (Nx.edges (apply_cands g cs)))
                 (map ctag (filter (guard g) cs) ++ map tag (Nx.edges g)).
Proof.
  induction cs as [|c t IH]; intros g W; simpl.
  - repeat split; auto.
  - destruct (add_cand_spec g c W) as (N1 & W1 & P1).
    destruct (IH (add_cand g c) W1) as (N2 & W2 & P2).
    unfold apply_cands in *. simpl.
    split; [congruence|]. split; [assumption|].
    eapply Permutation_trans; [exact P2|].
    rewrite (filter_ext _ _ (fun c' => guard_node g (add_cand g c) c' N1)).
    simpl in P1.
    eapply Permutation_trans; [apply Permutation_app_head, P1|].
    destruct (guard g c); simpl.
    + apply Permutation_sym. eapply Permutation_trans.
      2: apply Permutation_middle.
      constructor. reflexivity.
    + reflexivity.
Qed.

Lemma apply_cands_app g cs1 cs2 :
  apply_cands g (cs1 ++ cs2) = apply_cands (apply_cands g cs1) cs2.
Proof. unfold apply_cands. apply fold_left_app. Qed.

End GraphFacts.

(** ** The loops of [_edges] as guarded candidates *)

Section EdgePhases.
Import Trace.
Context {K : Np.Kernel} (rt : Py.Runtime).

Lemma has_node_add_edge g u v a n :
  wf g -> Nx.has_node g u = true -> Nx.has_node g v = true ->
  Nx.has_node (Nx.add_edge g u v a) n = Nx.has_node g n.
Proof.
  intros W Hu Hv. destruct (add_edge_spec g u v a W Hu Hv) as (N & _ & _).
  unfold Nx.has_node. now rewrite N.
Qed.

Lemma located_in_edge_cand bn g row :
  Builder.located_in_edge bn g row = apply_cands g (located_cand bn row).
Proof.
  unfold Builder.located_in_edge, located_cand, opt_cand, apply_cands.
  destruct (Dict.get (Supplier.country row) bn) as [c|]; simpl.
  - unfold add_cand, guard. simpl.
    destruct (Py.truthy_str c); simpl; auto.
    now rewrite andb_false_r.
  - now rewrite andb_false_r.
Qed.

Lemma contract_edges_cand g row :
  Builder.contract_edges g row = apply_cands g (contract_cand row).
Proof. reflexivity. Qed.

Lemma opt_edge_cand g u cnid r :
  wf g -> Nx.has_node g u = true ->
  (if Builder.resolves g cnid
   then Builder.add_edge_to g u cnid (Builder.rel r) else g)
  = apply_cands g (opt_cand u cnid r).
Proof.
  intros W Hu. unfold Builder.resolves, opt_cand, apply_cands.
  destruct cnid as [c|]; simpl; auto.
  destruct (Py.truthy_str c); simpl; auto.
  unfold add_cand, guard. simpl. now rewrite Hu.
Qed.

Lemma opt_cand_src u o r c : In c (opt_cand u o r) -> fst (fst c) = u.
Proof.
  unfold opt_cand. destruct o as [x|]; [|intros []].
  destruct (Py.truthy_str x); [|intros []].
  intros [<-|[]]. reflexivity.
Qed.

Lemma apply_cands_false g cs :
  (forall c, In c cs -> guard g c = false) -> apply_cands g cs = g.
Proof.
  unfold apply_cands. induction cs as [|c t IH]; intros H; simpl; auto.
  unfold add_cand at 2. rewrite (H c) by now left.
  apply IH. intros c' Hc. apply H. now right.
Qed.

Lemma route_edges_cand bn g row :
  wf g -> Builder.route_edges bn g row = apply_cands g (route_cand bn row).
Proof.
  intros W. unfold Builder.route_edges, route_cand.
  destruct (Nx.has_node g (Route.route_id row)) eqn:Hr.
  - rewrite !apply_cands_app.
    rewrite (opt_edge_cand g _ _ _ W Hr).
    destruct (apply_cands_spec
                (opt_cand (Route.route_id row)
                   (Dict.get (Route.origin_country row) bn) "originates_in")
                g W) as (N1 & W1 & _).
    set (g1 := apply_cands g _) in *.
    assert (Hr1 : Nx.has_node g1 (Route.route_id row) = true)
      by (unfold Nx.has_node; rewrite N1; exact Hr).
    rewrite (opt_edge_cand g1 _ _ _ W1 Hr1).
    destruct (apply_cands_spec
                (opt_cand (Route.route_id row)
                   (Dict.get (Route.destination_country row) bn) "delivers_to")
                g1 W1) as (N2 & W2 & _).
    set (g2 := apply_cands g1 _) in *.
    assert (Hr2 : Nx.has_node g2 (Route.route_id row) = true)
      by (unfold Nx.has_node; rewrite N2; exact Hr1).
    unfold apply_cands at 1. simpl. unfold add_cand, guard. simpl.
    now rewrite Hr2.
  - symmetry. apply apply_cands_false.
    intros c Hc. unfold guard.
    assert (H : fst (fst c) = Route.route_id row).
    { apply in_app_or in Hc. destruct Hc as [Hc|Hc].
      - now apply opt_cand_src in Hc.
      - apply in_app_or in Hc. destruct Hc as [Hc|Hc].
        + now apply opt_cand_src in Hc.
        + destruct Hc as [<-|[]]. reflexivity. }
    rewrite H. now rewrite Hr.
Qed.

Lemma co_supplier_edges_cand g p :
  wf g -> Builder.co_supplier_edges g p = apply_cands g (co_cand p).
Proof.
  intros W. destruct p as [s1 s2].
  unfold Builder.co_supplier_edges, co_cand, apply_cands. simpl.
  unfold add_cand at 2. unfold guard. simpl.
  destruct (Nx.has_node g s1) eqn:H1, (Nx.has_node g s2) eqn:H2; simpl;
    unfold add_cand, guard; simpl; rewrite ?H1, ?H2; simpl; auto.
  now rewrite !has_node_add_edge, H1, H2 by assumption.
Qed.

Lemma trades_with_edge_cand g p :
  Builder.trades_with_edge g p = apply_cands g (tw_cand p).
Proof. now destruct p. Qed.

Lemma fold_cands {A} (step : Nx.MultiDiGraph -> A -> Nx.MultiDiGraph)
    (cand : A -> list triple) (l : list A) :
  (forall g x, wf g -> step g x = apply_cands g (cand x)) ->
  forall g, wf g -> fold_left step l g = apply_cands g (flat_map cand l).
Proof.
  intros H. induction l as [|x t IH]; intros g W; simpl; auto.
  rewrite apply_cands_app, H by assumption.
  apply IH. now apply apply_cands_spec.
Qed.

(** The supplies loop: when it returns, it has added the guarded
    candidates. *)
Lemma supplies_spec links : forall g g',
  wf g ->
  Py.for_each (Builder.supplies_edge rt) links g = Py.Ok g' ->
  Nx._node g' = Nx._node g
  /\ wf g'
  /\ Permutation (map tag (Nx.edges g'))
                 (map ctag (filter (guard g) (supplies_cands links))
                    ++ map tag (Nx.edges g)).
Proof.
  induction links as [|row t IH]; intros g g' W H; simpl in *.
  - inversion H; subst. repeat split; auto.
  - unfold Py.bind in H.
    destruct (Builder.supplies_edge rt g row) as [g1|e] eqn:E; [|discriminate].
    unfold Builder.supplies_edge in E.
    unfold guard at 1. simpl.
    destruct (Nx.has_node g (SourcingLink.supplier_id row)
              && Nx.has_node g (SourcingLink.component_id row)) eqn:Hg.
    + apply andb_true_iff in Hg as [Hu Hv].
      unfold Py.bind in E.
      destruct (Py.int rt _) as [ip|]; [|discriminate].
      destruct (Py.float rt _) as [up|]; [|discriminate].
      inversion E; subst g1; clear E.
      match type of H with
      | context [Nx.add_edge g ?u ?v ?a] =>
          destruct (add_edge_spec g u v a W Hu Hv) as (N1 & W1 & P1)
      end.
      destruct (IH _ _ W1 H) as (N2 & W2 & P2).
      split; [congruence|]. split; [assumption|].
      eapply Permutation_trans; [exact P2|].
      rewrite (filter_ext _ _ (fun c' => guard_node g _ c' N1)).
      apply (Permutation_map tag) in P1. simpl in P1.
      eapply Permutation_trans; [apply Permutation_app_head, P1|].
      apply Permutation_sym. simpl. eapply Permutation_trans.
      2: apply Permutation_middle.
      constructor. reflexivity.
    + inversion E; subst g1. now apply IH.
Qed.

(** The supplies loop raises only at a row whose two ends exist. *)
Lemma supplies_total links : forall g,
  wf g ->
  (forall row, In row links ->
     Nx.has_node g (SourcingLink.supplier_id row) = true ->
     Nx.has_node g (SourcingLink.component_id row) = true ->
     (exists ip, Py.int rt (SourcingLink.is_primary row) = Py.Ok ip)
     /\ (exists up, Py.float rt (SourcingLink.unit_price_usd row) = Py.Ok up)) ->
  exists g', Py.for_each (Builder.supplies_edge rt) links g = Py.Ok g'.
Proof.
  induction links as [|row t IH]; intros g W H; simpl.
  - eauto.
  - unfold Builder.supplies_edge at 1.
    destruct (Nx.has_node g (SourcingLink.supplier_id row)) eqn:Hu;
      destruct (Nx.has_node g (SourcingLink.component_id row)) eqn:Hv;
      simpl; try (apply IH; [assumption | intros; apply H; auto; now right]).
    destruct (H row (or_introl eq_refl) Hu Hv) as [[ip Hi] [up Hf]].
    rewrite Hi, Hf. simpl.
    match goal with
    | |- context [Nx.add_edge g ?u ?v ?a] =>
        destruct (add_edge_spec g u v a W Hu Hv) as (N1 & W1 & _)
    end.
    apply IH; [assumption|].
    intros r Hr. unfold Nx.has_node. rewrite N1. apply H. now right.
Qed.

Lemma edges_of_spec d bn g g' :
  wf g ->
  Builder.edges_of rt d bn g = Py.Ok g' ->
  Nx._node g' = Nx._node g
  /\ wf g'
  /\ Permutation (map tag (Nx.edges g'))
                 (map ctag (filter (guard g) (all_cands d bn))
                    ++ map tag (Nx.edges g)).
Proof.
  intros W H. unfold Builder.edges_of in H. unfold Py.bind in H.
  destruct (Py.for_each (Builder.supplies_edge rt) (sourcing_links d) g)
    as [g1|] eqn:E1; [|discriminate].
  destruct (supplies_spec _ _ _ W E1) as (N1 & W1 & P1).
  inversion H; subst g'; clear H.
  rewrite (fold_cands _ (located_cand bn) _
             (fun g x _ => located_in_edge_cand bn g x) g1 W1).
  destruct (apply_cands_spec (flat_map (located_cand bn) (suppliers d)) g1 W1)
    as (N2 & W2 & P2).
  set (g2 := apply_cands g1 _) in *.
  rewrite (fold_cands _ contract_cand _
             (fun g x _ => contract_edges_cand g x) g2 W2).
  destruct (apply_cands_spec (flat_map contract_cand (contracts d)) g2 W2)
    as (N3 & W3 & P3).
  set (g3 := apply_cands g2 _) in *.
  rewrite (fold_cands _ (route_cand bn) _
             (fun g x w => route_edges_cand bn g x w) g3 W3).
  destruct (apply_cands_spec (flat_map (route_cand bn) (routes d)) g3 W3)
    as (N4 & W4 & P4).
  set (g4 := apply_cands g3 _) in *.
  rewrite (fold_cands _ co_cand _
             (fun g x w => co_supplier_edges_cand g x w) g4 W4).
  destruct (apply_cands_spec
              (flat_map co_cand
                 (Py.set_iter rt (Builder.co_pairs (sourcing_links d))))
              g4 W4) as (N5 & W5 & P5).
  set (g5 := apply_cands g4 _) in *.
  rewrite (fold_cands _ tw_cand _
             (fun g x _ => trades_with_edge_cand g x) g5 W5).
  destruct (apply_cands_spec
              (flat_map tw_cand
                 (Py.set_iter rt (Builder.tw_pairs bn (routes d))))
              g5 W5) as (N6 & W6 & P6).
  set (g6 := apply_cands g5 _) in *.
  split; [congruence|]. split; [assumption|].
  assert (G2 : forall c, guard g1 c = guard g c)
    by (intros; now apply guard_node).
  assert (G3 : forall c, guard g2 c = guard g c)
    by (intros; apply guard_node; congruence).
  assert (G4 : forall c, guard g3 c = guard g c)
    by (intros; apply guard_node; congruence).
  assert (G5 : forall c, guard g4 c = guard g c)
    by (intros; apply guard_node; congruence).
  assert (G6 : forall c, guard g5 c = guard g c)
    by (intros; apply guard_node; congruence).
  rewrite (filter_ext _ _ G2) in P2. rewrite (filter_ext _ _ G3) in P3.
  rewrite (filter_ext _ _ G4) in P4. rewrite (filter_ext _ _ G5) in P5.
  rewrite (filter_ext _ _ G6) in P6.
  assert (Pco : Permutation
            (filter (guard g) (flat_map co_cand
               (Py.set_iter rt (Builder.co_pairs (sourcing_links d)))))
            (filter (guard g) (flat_map co_cand
               (Builder.co_pairs (sourcing_links d)))))
    by (apply Permutation_filter_same, Permutation_flat_map_same,
          Py.set_iter_perm).
  assert (Ptw : Permutation
            (filter (guard g) (flat_map tw_cand
               (Py.set_iter rt (Builder.tw_pairs bn (routes d)))))
            (filter (guard g) (flat_map tw_cand
               (Builder.tw_pairs bn (routes d)))))
    by (apply Permutation_filter_same, Permutation_flat_map_same,
          Py.set_iter_perm).
  apply (Permutation_map ctag) in Pco, Ptw.
  unfold all_cands. rewrite !filter_app, !map_app.
  eapply Permutation_trans; [exact P6|].
  eapply Permutation_trans;
    [apply Permutation_app; [exact Ptw | exact P5]|].
  eapply Permutation_trans;
    [apply Permutation_app_head, Permutation_app; [exact Pco | exact P4]|].
  eapply Permutation_trans;
    [apply Permutation_app_head, Permutation_app_head,
       Permutation_app_head, P3|].
  eapply Permutation_trans;
    [apply Permutation_app_head, Permutation_app_head,
       Permutation_app_head, Permutation_app_head, P2|].
  eapply Permutation_trans;
    [apply Permutation_app_head, Permutation_app_head,
       Permutation_app_head, Permutation_app_head,
       Permutation_app_head, P1|].
  set (a1 := map ctag (filter (guard g) (supplies_cands _))).
  set (a2 := map ctag (filter (guard g) (flat_map (located_cand bn) _))).
  set (a3 := map ctag (filter (guard g) (flat_map contract_cand _))).
  set (a4 := map ctag (filter (guard g) (flat_map (route_cand bn) _))).
  set (a5 := map ctag (filter (guard g) (flat_map co_cand _))).
  set (a6 := map ctag (filter (guard g) (flat_map tw_cand _))).
  set (e0 := map tag (Nx.edges g)).
  rewrite !app_assoc. apply Permutation_app_tail.
  rewrite <- !app_assoc.
  apply Permutation_trans with (l' := (a5 ++ a4 ++ a3 ++ a2 ++ a1) ++ a6).
  { apply Permutation_app_comm. }
  rewrite !app_assoc. apply Permutation_app_tail.
  rewrite <- !app_assoc.
  apply Permutation_trans with (l' := (a4 ++ a3 ++ a2 ++ a1) ++ a5).
  { apply Permutation_app_comm. }
  rewrite !app_assoc. apply Permutation_app_tail.
  rewrite <- !app_assoc.
  apply Permutation_trans with (l' := (a3 ++ a2 ++ a1) ++ a4).
  { apply Permutation_app_comm. }
  rewrite !app_assoc. apply Permutation_app_tail.
  rewrite <- !app_assoc.
  apply Permutation_trans with (l' := (a2 ++ a1) ++ a3).
  { apply Permutation_app_comm. }
  rewrite !app_assoc. apply Permutation_app_tail.
  apply Permutation_app_comm.
Qed.

End EdgePhases.

(** ** [_safe] and the node loops *)

Section NodeFacts.
Import Trace NodeLoops.
Context {K : Np.Kernel} (rt : Py.Runtime).

Lemma for_each_ok {A S} (body : S -> A -> Py.result S) (f : S -> A -> S) l :
  (forall s a, body s a = Py.Ok (f s a)) ->
  forall s, Py.for_each body l s = Py.Ok (fold_left f l s).
Proof.
  intros H. induction l as [|a t IH]; intros s; simpl; auto.
  rewrite H. simpl. apply IH.
Qed.

(** [_safe] returns, with [coerce] under every key. *)
Lemma safe_total row keys :
  Builder._safe rt row keys = Py.Ok (safe_dict rt row keys).
Proof.
  unfold Builder._safe, safe_dict. apply for_each_ok.
  intros out k. unfold coerce.
  destruct (Py.is_not_None _ && Py.eq_self _); simpl; auto.
  destruct (Py.float rt _); reflexivity.
Qed.

Lemma supplier_node_step self ir :
  Builder.supplier_node rt self ir
  = Py.Ok (node_step (K := K) (upd_index "supplier" Supplier.supplier_id)
             Supplier.supplier_id (supplier_attrs rt) self ir).
Proof.
  destruct ir as [i row]. unfold Builder.supplier_node.
  now rewrite safe_total.
Qed.

Lemma component_node_step self ir :
  Builder.component_node rt self ir
  = Py.Ok (node_step (K := K) (upd_index "component" Component.component_id)
             Component.component_id (component_attrs rt) self ir).
Proof.
  destruct ir as [i row]. unfold Builder.component_node.
  now rewrite safe_total.
Qed.

Lemma country_node_step self ir :
  Builder.country_node rt self ir
  = Py.Ok (node_step (K := K) upd_country
             Country.country_id (country_attrs rt) self ir).
Proof.
  destruct ir as [i row]. unfold Builder.country_node.
  now rewrite safe_total.
Qed.

Lemma contract_node_step self ir :
  Builder.contract_node rt self ir
  = Py.Ok (node_step (K := K) (upd_index "contract" Contract.contract_id)
             Contract.contract_id (contract_attrs rt) self ir).
Proof.
  destruct ir as [i row]. unfold Builder.contract_node.
  now rewrite safe_total.
Qed.

Lemma route_node_step self ir :
  Builder.route_node rt self ir
  = Py.Ok (node_step (K := K) (upd_index "route" Route.route_id)
             Route.route_id (route_attrs rt) self ir).
Proof.
  destruct ir as [i row]. unfold Builder.route_node.
  now rewrite safe_total.
Qed.

Lemma fold_add_node_enum {R} (nid : R -> string) attrs (rows : list R) :
  forall k g,
    fold_left (fun g (ir : nat * R) =>
                 Nx.add_node g (nid (snd ir)) (attrs (snd ir)))
              (combine (seq k (List.length rows)) rows) g
    = add_nodes nid attrs rows g.
Proof.
  unfold add_nodes. induction rows as [|r t IH]; intros k g; simpl; auto.
Qed.

Lemma fold_node_step {R} upd (nid : R -> string) attrs irs :
  forall self : @Builder.KnowledgeGraphBuilder K,
    fold_left (node_step upd nid attrs) irs self
    = Builder.with_G
        (fold_left (fun g (ir : nat * R) =>
                      Nx.add_node g (nid (snd ir)) (attrs (snd ir)))
                   irs (Builder.G self))
        (Builder.with_id_maps
           (fold_left (fun m (ir : nat * R) => upd (fst ir) (snd ir) m)
                      irs (Builder.id_maps self)) self).
Proof.
  induction irs as [|ir t IH]; intros self; simpl.
  - now destruct self.
  - rewrite IH. reflexivity.
Qed.

Lemma node_loop {R} upd (nid : R -> string) attrs (rows : list R)
    (self : @Builder.KnowledgeGraphBuilder K) :
  fold_left (node_step upd nid attrs) (Py.enumerate rows) self
  = Builder.with_G (add_nodes nid attrs rows (Builder.G self))
      (Builder.with_id_maps (index_loop upd rows (Builder.id_maps self)) self).
Proof.
  rewrite fold_node_step. unfold Py.enumerate at 1.
  now rewrite fold_add_node_enum.
Qed.

(** [_nodes] returns; its graph and its maps are the folds above. *)
Lemma nodes_spec (self : @Builder.KnowledgeGraphBuilder K) d :
  Builder._data self = Some d ->
  Builder._nodes rt self
  = Py.Ok (Builder.with_G (nodes_graph rt d (Builder.G self))
             (Builder.with_id_maps (nodes_maps d (Builder.id_maps self)) self)).
Proof.
  intros Hd. unfold Builder._nodes, Builder.tables. rewrite Hd. simpl.
  rewrite (for_each_ok _ _ _ supplier_node_step). simpl.
  rewrite (for_each_ok _ _ _ component_node_step). simpl.
  rewrite (for_each_ok _ _ _ country_node_step). simpl.
  rewrite (for_each_ok _ _ _ contract_node_step). simpl.
  rewrite (for_each_ok _ _ _ route_node_step).
  rewrite !node_loop. reflexivity.
Qed.

End NodeFacts.

(** ** Nodes after the node loops *)

Section NodeGraphFacts.
Import Trace NodeLoops Attrs.
Context (rt : Py.Runtime).

Lemma add_nodes_wf {R} (nid : R -> string) attrs rows :
  forall g, wf g -> wf (add_nodes nid attrs rows g).
Proof.
  unfold add_nodes. induction rows as [|r t IH]; intros g W; simpl; auto.
  apply IH. now apply add_node_wf.
Qed.

Lemma add_nodes_edges {R} (nid : R -> string) attrs rows :
  forall g, Nx.edges (add_nodes nid attrs rows g) = Nx.edges g.
Proof.
  unfold add_nodes. induction rows as [|r t IH]; intros g; simpl; auto.
  rewrite IH. apply add_node_edges.
Qed.

Lemma add_nodes_has {R} (nid : R -> string) attrs rows n :
  forall g,
    Nx.has_node (add_nodes nid attrs rows g) n = true
    <-> In n (map nid rows) \/ Nx.has_node g n = true.
Proof.
  unfold add_nodes. induction rows as [|r t IH]; intros g; simpl.
  - tauto.
  - rewrite IH, add_node_has, orb_true_iff, String.eqb_eq. tauto.
Qed.

Lemma add_node_new g n a :
  wf g -> Nx.has_node g n = false ->
  Nx._node (Nx.add_node g n a) = Nx._node g ++ [(n, Dict.update [] a)].
Proof.
  intros W H. unfold Nx.add_node. unfold Nx.has_node in H.
  rewrite <- W, H. simpl. now apply set_absent.
Qed.

(** Fresh, pairwise different identifiers become nodes in row order. *)
Lemma add_nodes_fresh {R} (nid : R -> string) attrs rows :
  forall g,
    wf g ->
    NoDup (Dict.keys (Nx._node g) ++ map nid rows) ->
    Nx._node (add_nodes nid attrs rows g)
    = Nx._node g ++ map (fun r => (nid r, Dict.update [] (attrs r))) rows.
Proof.
  unfold add_nodes. induction rows as [|r t IH]; intros g W N; simpl.
  - now rewrite app_nil_r.
  - assert (Hn : Nx.has_node g (nid r) = false).
    { apply mem_false_not_In. simpl in N.
      apply NoDup_remove_2 in N. intros H. apply N.
      apply in_or_app. now left. }
    rewrite IH.
    + rewrite (add_node_new g _ _ W Hn), <- app_assoc. reflexivity.
    + now apply add_node_wf.
    + rewrite (add_node_new g _ _ W Hn). unfold Dict.keys.
      rewrite map_app, <- app_assoc. exact N.
Qed.

Lemma node_type_add_node g n a m :
  wf g ->
  Obs.node_type (Nx.add_node g n a) m
  = if String.eqb n m
    then Dict.get "node_type"
           (Dict.update (Dict.get_default n (Nx._node g) []) a)
    else Obs.node_type g m.
Proof.
  intros W. unfold Obs.node_type, Nx.add_node.
  destruct (Dict.mem n (Nx._adj g)) eqn:E; simpl; rewrite get_set;
    destruct (String.eqb n m); auto.
  rewrite <- W in E. unfold Dict.mem in E. unfold Dict.get_default.
  now destruct (Dict.get n (Nx._node g)).
Qed.

Lemma typed_update t old a :
  typed t a -> Dict.get "node_type" (Dict.update old a) = Some (Py.VStr t).
Proof. intros H. rewrite get_update. unfold typed in H. now rewrite H. Qed.

(** The nodes of a table carry its type; the others keep theirs. *)
Lemma add_nodes_type {R} (nid : R -> string) attrs t rows m :
  (forall r, typed t (attrs r)) ->
  forall g, wf g ->
    Obs.node_type (add_nodes nid attrs rows g) m
    = if existsb (String.eqb m) (map nid rows)
      then Some (Py.VStr t) else Obs.node_type g m.
Proof.
  intros T. unfold add_nodes.
  induction rows as [|r tl IH] using rev_ind; intros g W; simpl; auto.
  rewrite fold_left_app. simpl.
  rewrite node_type_add_node by (now apply (add_nodes_wf nid attrs tl)).
  rewrite map_app, existsb_app. simpl. rewrite orb_false_r.
  rewrite (String.eqb_sym m).
  destruct (String.eqb (nid r) m).
  - rewrite orb_true_r. now apply typed_update.
  - rewrite orb_false_r. now apply IH.
Qed.

(** *** Feature attributes stay numeric *)

Lemma In_set {V} k v k' (v' : V) d :
  In (k, v) (Dict.set k' v' d) -> v = v' \/ In (k, v) d.
Proof.
  induction d as [|[k0 v0] t IH]; simpl.
  - intros [E|[]]. inversion E. now left.
  - destruct (String.eqb k0 k'); simpl.
    + intros [E|H]; [inversion E; now left | now right; right].
    + intros [E|H]; [now right; left | destruct (IH H); auto].
Qed.

Lemma safe_dict_float row keys k v :
  In (k, v) (safe_dict rt row keys) -> exists f, v = Py.VFloat f.
Proof.
  unfold safe_dict.
  assert (H : forall acc,
            (forall k v, In (k, v) acc -> exists f, v = Py.VFloat f) ->
            In (k, v) (fold_left
                         (fun out k => Dict.set k (Py.VFloat (coerce rt row k)) out)
                         keys acc) ->
            exists f, v = Py.VFloat f).
  { induction keys as [|k0 t IH]; intros acc Hacc; simpl.
    - apply Hacc.
    - apply IH. intros k1 v1 H1. apply In_set in H1 as [->|H1]; eauto. }
  apply H. intros ? ? [].
Qed.

Lemma safe_dict_keys row keys k :
  In k (Dict.keys (safe_dict rt row keys)) -> In k keys.
Proof.
  unfold safe_dict.
  assert (H : forall acc,
            In k (Dict.keys (fold_left
                         (fun out k => Dict.set k (Py.VFloat (coerce rt row k)) out)
                         keys acc)) ->
            In k (Dict.keys acc) \/ In k keys).
  { induction keys as [|k0 t IH]; intros acc; simpl; auto.
    intros H. apply IH in H as [H|H]; auto.
    rewrite keys_set in H. destruct (Dict.mem k0 acc); auto.
    apply in_app_or in H as [H|[<-|[]]]; auto. }
  intros H0. apply H in H0 as [[]|H0]. exact H0.
Qed.

Lemma num_list_app a b : num_list a -> num_list b -> num_list (a ++ b).
Proof.
  intros Ha Hb f v H. apply in_app_or in H as [H|H]; eauto.
Qed.

Lemma num_list_safe row keys : num_list (safe_dict rt row keys).
Proof.
  intros f v H _. apply safe_dict_float in H as [x ->]. exact I.
Qed.

Lemma criticality_range s :
  (0 <= Dict.get_default s Schema.CRITICALITY_MAP 0 <= 3)%Z.
Proof.
  unfold Dict.get_default, Schema.CRITICALITY_MAP. simpl.
  repeat match goal with
         | |- context [if ?b then _ else _] => destruct b
         end; lia.
Qed.

Ltac fixed_keys :=
  intros f v H F; simpl in H;
  repeat (destruct H as [H|H];
          [inversion H; subst; vm_compute in F; discriminate|]);
  destruct H.

Lemma num_supplier row : num_list (supplier_attrs rt row).
Proof.
  apply num_list_app; [fixed_keys | apply num_list_safe].
Qed.

Lemma num_component row : num_list (component_attrs rt row).
Proof.
  apply num_list_app; [fixed_keys|].
  intros f v H _. apply In_set in H as [->|H].
  - apply criticality_range.
  - apply safe_dict_float in H as [x ->]. exact I.
Qed.

Lemma num_country row : num_list (country_attrs rt row).
Proof.
  apply num_list_app; [fixed_keys | apply num_list_safe].
Qed.

Lemma num_contract row : num_list (contract_attrs rt row).
Proof.
  apply num_list_app; [fixed_keys | apply num_list_safe].
Qed.

Lemma num_route row : num_list (route_attrs rt row).
Proof.
  apply num_list_app; [fixed_keys | apply num_list_safe].
Qed.

Lemma attrs_num_update old a :
  attrs_num old -> num_list a -> attrs_num (Dict.update old a).
Proof.
  intros Ho Ha f v H F. rewrite get_update in H.
  destruct (Dict.get f (rev a)) as [w|] eqn:E.
  - inversion H; subst w. apply get_In in E. apply in_rev in E. eauto.
  - eauto.
Qed.

Lemma In_set_inv {V} k v k' (v' : V) d :
  In (k, v) (Dict.set k' v' d) -> (k = k' /\ v = v') \/ In (k, v) d.
Proof.
  induction d as [|[k0 v0] t IH]; simpl.
  - intros [E|[]]. inversion E. now left.
  - destruct (String.eqb_spec k0 k'); simpl.
    + intros [E|H]; [inversion E; subst; now left | now right; right].
    + intros [E|H]; [now right; left | destruct (IH H); auto].
Qed.

Lemma graph_num_add_node g n a :
  graph_num g -> num_list a -> graph_num (Nx.add_node g n a).
Proof.
  intros G A m b H. unfold Nx.add_node in H.
  destruct (Dict.mem n (Nx._adj g)); simpl in H;
    apply In_set_inv in H as [[_ ->]|H]; eauto;
    apply attrs_num_update; auto.
  - unfold Dict.get_default.
    destruct (Dict.get n (Nx._node g)) eqn:E.
    + apply get_In in E. eauto.
    + intros ? ? [=].
  - intros ? ? [=].
Qed.

Lemma graph_num_add_nodes {R} (nid : R -> string) attrs rows :
  (forall r, num_list (attrs r)) ->
  forall g, graph_num g -> graph_num (add_nodes nid attrs rows g).
Proof.
  intros A. unfold add_nodes.
  induction rows as [|r t IH]; intros g G; simpl; auto.
  apply IH. now apply graph_num_add_node.
Qed.

End NodeGraphFacts.

Section NodesGraph.
Import Trace NodeLoops Attrs.
Context (rt : Py.Runtime).

Lemma get_rev_absent {V} k (l : Dict.dict V) :
  ~ In k (Dict.keys l) -> Dict.get k (rev l) = None.
Proof.
  intros H. apply get_None_not_In. intros H'. apply H.
  unfold Dict.keys in *. rewrite map_rev in H'. now apply in_rev.
Qed.

Lemma typed_fixed t fixed feats :
  Dict.get "node_type" (rev fixed) = Some (Py.VStr t) ->
  ~ In "node_type" (Dict.keys feats) ->
  typed t (fixed ++ feats).
Proof.
  intros F N. unfold typed. rewrite rev_app_distr, get_app.
  now rewrite (get_rev_absent _ _ N).
Qed.

Ltac not_a_key :=
  let H := fresh in
  intros H; apply safe_dict_keys in H; simpl in H;
  repeat (destruct H as [H|H]; [discriminate|]); destruct H.

Lemma typed_supplier row : typed "supplier" (supplier_attrs rt row).
Proof. apply typed_fixed; [reflexivity | not_a_key]. Qed.

Lemma typed_component row : typed "component" (component_attrs rt row).
Proof.
  apply typed_fixed; [reflexivity|].
  rewrite keys_set. intros H.
  assert (H' : In "node_type"
                 (Dict.keys (safe_dict rt (Component.cells row)
                    ["unit_cost_usd"; "annual_volume"; "lead_time_weeks";
                     "inventory_days"; "weight_kg"; "is_custom"]))
               \/ "node_type" = "criticality_encoded").
  { destruct (Dict.mem _ _); auto.
    apply in_app_or in H as [H|[H|[]]]; auto. }
  destruct H' as [H'|H']; [|discriminate].
  revert H'. not_a_key.
Qed.

Lemma typed_country row : typed "country" (country_attrs rt row).
Proof. apply typed_fixed; [reflexivity | not_a_key]. Qed.

Lemma typed_contract row : typed "contract" (contract_attrs rt row).
Proof. apply typed_fixed; [reflexivity | not_a_key]. Qed.

Lemma typed_route row : typed "route" (route_attrs rt row).
Proof. apply typed_fixed; [reflexivity | not_a_key]. Qed.

Lemma nodes_graph_wf d g : wf g -> wf (nodes_graph rt d g).
Proof. intros W. unfold nodes_graph. now repeat apply add_nodes_wf. Qed.

Lemma nodes_graph_edges d g : Nx.edges (nodes_graph rt d g) = Nx.edges g.
Proof. unfold nodes_graph. now rewrite !add_nodes_edges. Qed.

Lemma nodes_graph_has d g n :
  Nx.has_node (nodes_graph rt d g) n = true
  <-> In n (Obs.all_ids d) \/ Nx.has_node g n = true.
Proof.
  unfold nodes_graph, Obs.all_ids. rewrite !add_nodes_has, !in_app_iff.
  unfold Obs.supplier_ids, Obs.component_ids, Obs.country_ids,
    Obs.contract_ids, Obs.route_ids. tauto.
Qed.

Lemma nodes_graph_num d g : graph_num g -> graph_num (nodes_graph rt d g).
Proof.
  intros G. unfold nodes_graph.
  apply graph_num_add_nodes; [apply num_route|].
  apply graph_num_add_nodes; [apply num_contract|].
  apply graph_num_add_nodes; [apply num_country|].
  apply graph_num_add_nodes; [apply num_component|].
  apply graph_num_add_nodes; [apply num_supplier|]. exact G.
Qed.

(** The type of a node is that of the last table naming it. *)
Lemma nodes_graph_type d g m :
  wf g ->
  Obs.node_type (nodes_graph rt d g) m
  = if existsb (String.eqb m) (Obs.route_ids d) then Some (Py.VStr "route")
    else if existsb (String.eqb m) (Obs.contract_ids d)
         then Some (Py.VStr "contract")
    else if existsb (String.eqb m) (Obs.country_ids d)
         then Some (Py.VStr "country")
    else if existsb (String.eqb m) (Obs.component_ids d)
         then Some (Py.VStr "component")
    else if existsb (String.eqb m) (Obs.supplier_ids d)
         then Some (Py.VStr "supplier")
    else Obs.node_type g m.
Proof.
  intros W. unfold nodes_graph.
  rewrite (add_nodes_type _ _ _ _ _ typed_route)
    by now repeat apply add_nodes_wf.
  rewrite (add_nodes_type _ _ _ _ _ typed_contract)
    by now repeat apply add_nodes_wf.
  rewrite (add_nodes_type _ _ _ _ _ typed_country)
    by now repeat apply add_nodes_wf.
  rewrite (add_nodes_type _ _ _ _ _ typed_component)
    by now repeat apply add_nodes_wf.
  rewrite (add_nodes_type _ _ _ _ _ typed_supplier) by assumption.
  reflexivity.
Qed.

(** With pairwise different identifiers the nodes are the rows of the
    five tables, in processing order. *)
Lemma nodes_graph_fresh d :
  NoDup (Obs.all_ids d) ->
  Nx._node (nodes_graph rt d Nx.empty)
  = map (node_entry Supplier.supplier_id (supplier_attrs rt)) (suppliers d)
    ++ map (node_entry Component.component_id (component_attrs rt))
           (components d)
    ++ map (node_entry Country.country_id (country_attrs rt)) (countries d)
    ++ map (node_entry Contract.contract_id (contract_attrs rt)) (contracts d)
    ++ map (node_entry Route.route_id (route_attrs rt)) (routes d).
Proof.
  intros N. unfold Obs.all_ids, Obs.supplier_ids, Obs.component_ids,
    Obs.country_ids, Obs.contract_ids, Obs.route_ids in N.
  assert (W0 : wf Nx.empty) by (intros n; reflexivity).
  unfold nodes_graph.
  set (g1 := add_nodes Supplier.supplier_id _ _ _).
  set (g2 := add_nodes Component.component_id _ _ _).
  set (g3 := add_nodes Country.country_id _ _ _).
  set (g4 := add_nodes Contract.contract_id _ _ _).
  assert (E1 : Nx._node g1
               = map (node_entry Supplier.supplier_id (supplier_attrs rt))
                     (suppliers d)).
  { unfold g1. rewrite add_nodes_fresh; auto. simpl.
    rewrite !app_assoc in N. now do 4 apply NoDup_app_remove_r in N. }
  assert (K1 : Dict.keys (Nx._node g1)
               = map Supplier.supplier_id (suppliers d)).
  { rewrite E1. unfold Dict.keys. rewrite map_map. reflexivity. }
  assert (W1 : wf g1) by now apply add_nodes_wf.
  assert (E2 : Nx._node g2 = Nx._node g1
               ++ map (node_entry Component.component_id (component_attrs rt))
                      (components d)).
  { unfold g2. rewrite add_nodes_fresh; auto. rewrite K1.
    rewrite !app_assoc in N. do 3 apply NoDup_app_remove_r in N. exact N. }
  assert (K2 : Dict.keys (Nx._node g2)
               = map Supplier.supplier_id (suppliers d)
                 ++ map Component.component_id (components d)).
  { rewrite E2. unfold Dict.keys in *. rewrite map_app, K1, map_map.
    reflexivity. }
  assert (W2 : wf g2) by now apply add_nodes_wf.
  assert (E3 : Nx._node g3 = Nx._node g2
               ++ map (node_entry Country.country_id (country_attrs rt))
                      (countries d)).
  { unfold g3. rewrite add_nodes_fresh; auto. rewrite K2.
    rewrite !app_assoc in N. do 2 apply NoDup_app_remove_r in N.
    rewrite <- !app_assoc in N. rewrite <- app_assoc. exact N. }
  assert (K3 : Dict.keys (Nx._node g3)
               = map Supplier.supplier_id (suppliers d)
                 ++ map Component.component_id (components d)
                 ++ map Country.country_id (countries d)).
  { rewrite E3. unfold Dict.keys in *. rewrite map_app, K2, map_map.
    now rewrite <- app_assoc. }
  assert (W3 : wf g3) by now apply add_nodes_wf.
  assert (E4 : Nx._node g4 = Nx._node g3
               ++ map (node_entry Contract.contract_id (contract_attrs rt))
                      (contracts d)).
  { unfold g4. rewrite add_nodes_fresh; auto. rewrite K3.
    rewrite !app_assoc in N. apply NoDup_app_remove_r in N.
    rewrite <- !app_assoc in N. rewrite <- !app_assoc. exact N. }
  assert (K4 : Dict.keys (Nx._node g4)
               = map Supplier.supplier_id (suppliers d)
                 ++ map Component.component_id (components d)
                 ++ map Country.country_id (countries d)
                 ++ map Contract.contract_id (contracts d)).
  { rewrite E4. unfold Dict.keys in *. rewrite map_app, K3, map_map.
    now rewrite <- !app_assoc. }
  assert (W4 : wf g4) by now apply add_nodes_wf.
  rewrite add_nodes_fresh; auto.
  - rewrite E4, E3, E2, E1, <- !app_assoc. reflexivity.
  - rewrite K4, <- !app_assoc. exact N.
Qed.

End NodesGraph.

(** ** Index maps after the node loops *)

Section IndexFacts.
Import NodeLoops.

Lemma index_map_set_index t nid i m t' :
  Builder.index_map (Builder.set_index t nid i m) t'
  = if String.eqb t t' then Dict.set nid i (Builder.index_map m t)
    else Builder.index_map m t'.
Proof.
  unfold Builder.index_map, Builder.set_index, Dict.get_default. simpl.
  rewrite get_set. now destruct (String.eqb t t').
Qed.

Lemma index_loop_index {R} t (nid : R -> string) rows t' : forall m,
  Builder.index_map (index_loop (upd_index t nid) rows m) t'
  = if String.eqb t t'
    then assign_from nid 0 rows (Builder.index_map m t)
    else Builder.index_map m t'.
Proof.
  unfold index_loop, assign_from, Py.enumerate.
  generalize 0. induction rows as [|r tl IH]; intros k m;
    cbn [fold_left combine seq List.length fst snd].
  - destruct (String.eqb_spec t t'); congruence.
  - rewrite IH. unfold upd_index at 1 2. rewrite !index_map_set_index.
    rewrite String.eqb_refl. destruct (String.eqb t t'); reflexivity.
Qed.

Lemma index_loop_by_name {R} t (nid : R -> string) rows : forall m,
  Builder._country_by_name (index_loop (upd_index t nid) rows m)
  = Builder._country_by_name m.
Proof.
  unfold index_loop, Py.enumerate.
  generalize 0. induction rows as [|r tl IH]; intros k m; simpl; auto.
  now rewrite IH.
Qed.

Lemma index_map_upd_country k r m t' :
  Builder.index_map (upd_country k r m) t'
  = Builder.index_map
      (Builder.set_index "country" (Country.country_id r) k m) t'.
Proof. reflexivity. Qed.

Lemma country_loop_index rows t' : forall m,
  Builder.index_map (index_loop upd_country rows m) t'
  = if String.eqb "country" t'
    then assign_from Country.country_id 0 rows (Builder.index_map m "country")
    else Builder.index_map m t'.
Proof.
  unfold index_loop, assign_from, Py.enumerate.
  generalize 0. induction rows as [|r tl IH]; intros k m;
    cbn [fold_left combine seq List.length fst snd].
  - destruct (String.eqb_spec "country" t'); congruence.
  - rewrite IH. rewrite !index_map_upd_country, !index_map_set_index.
    rewrite String.eqb_refl. destruct (String.eqb "country" t'); reflexivity.
Qed.

Lemma country_loop_by_name rows : forall m,
  Builder.by_name_map (index_loop upd_country rows m)
  = country_by_name rows (Builder.by_name_map m).
Proof.
  unfold index_loop, country_by_name, Py.enumerate.
  generalize 0.
  induction rows as [|r tl IH]; intros k m; simpl; [reflexivity|].
  rewrite IH. reflexivity.
Qed.

Lemma by_name_of_index_loop {R} t (nid : R -> string) rows m :
  Builder.by_name_map (index_loop (upd_index t nid) rows m)
  = Builder.by_name_map m.
Proof. unfold Builder.by_name_map. now rewrite index_loop_by_name. Qed.

Lemma index_map_reset m x t :
  Builder.index_map {| Builder.index := Builder.index m;
                       Builder._country_by_name := x |} t
  = Builder.index_map m t.
Proof. reflexivity. Qed.

Ltac unroll_maps :=
  unfold nodes_maps;
  repeat (rewrite index_loop_index || rewrite country_loop_index
          || rewrite index_map_reset).

(** The maps a new builder holds after [_nodes]. *)
Lemma nodes_maps_index d t :
  Builder.index_map (nodes_maps d no_maps) t
  = if String.eqb t "supplier"
    then assign_from Supplier.supplier_id 0 (suppliers d) []
    else if String.eqb t "component"
    then assign_from Component.component_id 0 (components d) []
    else if String.eqb t "country"
    then assign_from Country.country_id 0 (countries d) []
    else if String.eqb t "contract"
    then assign_from Contract.contract_id 0 (contracts d) []
    else if String.eqb t "route"
    then assign_from Route.route_id 0 (routes d) []
    else [].
Proof.
  destruct (String.eqb_spec t "supplier") as [->|N1];
    [unroll_maps; reflexivity|].
  destruct (String.eqb_spec t "component") as [->|N2];
    [unroll_maps; reflexivity|].
  destruct (String.eqb_spec t "country") as [->|N3];
    [unroll_maps; reflexivity|].
  destruct (String.eqb_spec t "contract") as [->|N4];
    [unroll_maps; reflexivity|].
  destruct (String.eqb_spec t "route") as [->|N5];
    [unroll_maps; reflexivity|].
  unroll_maps.
  apply String.eqb_neq in N1, N2, N3, N4, N5.
  rewrite (String.eqb_sym "route" t), (String.eqb_sym "contract" t),
    (String.eqb_sym "country" t), (String.eqb_sym "component" t),
    (String.eqb_sym "supplier" t), N1, N2, N3, N4, N5.
  reflexivity.
Qed.

Lemma nodes_maps_by_name d :
  Builder.by_name_map (nodes_maps d no_maps)
  = country_by_name (countries d) [].
Proof.
  unfold nodes_maps.
  rewrite !by_name_of_index_loop, country_loop_by_name. reflexivity.
Qed.

(** With pairwise different identifiers the index map lists the rows
    in order, numbered from [k]. *)
Lemma assign_from_fresh {R} (nid : R -> string) rows : forall k acc,
  NoDup (Dict.keys acc ++ map nid rows) ->
  assign_from nid k rows acc
  = acc ++ combine (map nid rows) (seq k (List.length rows)).
Proof.
  unfold assign_from.
  induction rows as [|r tl IH]; intros k acc N; simpl.
  - now rewrite app_nil_r.
  - rewrite set_absent.
    + rewrite IH.
      * now rewrite <- app_assoc.
      * unfold Dict.keys in *. rewrite map_app, <- app_assoc. exact N.
    + apply mem_false_not_In. simpl in N. apply NoDup_remove_2 in N.
      intros H. apply N, in_or_app. now left.
Qed.

(** Every value of the name map is the identifier of a country row. *)
Lemma country_by_name_value rows name c : forall acc,
  Dict.get name (country_by_name rows acc) = Some c ->
  In c (map Country.country_id rows) \/ Dict.get name acc = Some c.
Proof.
  unfold country_by_name.
  induction rows as [|r tl IH]; intros acc H; simpl in *; auto.
  apply IH in H as [H|H]; auto.
  rewrite get_set in H. destruct (String.eqb (Country.name r) name); auto.
  inversion H. auto.
Qed.

End IndexFacts.

(** ** [_load] *)

Section LoadFacts.
Context {K : Np.Kernel}.

Lemma load_inv (self self' : @Builder.KnowledgeGraphBuilder K) :
  Builder._load self = Py.Ok self' ->
  exists d,
    self' = Builder.with_data d self
    /\ suppliers_csv (Builder.data_dir self) = Some (Py.Ok (suppliers d))
    /\ components_csv (Builder.data_dir self) = Some (Py.Ok (components d))
    /\ countries_csv (Builder.data_dir self) = Some (Py.Ok (countries d))
    /\ contracts_csv (Builder.data_dir self) = Some (Py.Ok (contracts d))
    /\ routes_csv (Builder.data_dir self) = Some (Py.Ok (routes d))
    /\ sourcing_links_csv (Builder.data_dir self) = Some (Py.Ok (sourcing_links d)).
Proof.
  unfold Builder._load, Builder.load_table.
  destruct (suppliers_csv _) as [[s|]|]; [|discriminate..].
  destruct (components_csv _) as [[c|]|]; [|discriminate..].
  destruct (countries_csv _) as [[n|]|]; [|discriminate..].
  destruct (contracts_csv _) as [[k|]|]; [|discriminate..].
  destruct (routes_csv _) as [[r|]|]; [|discriminate..].
  destruct (sourcing_links_csv _) as [[sl|]|]; [|discriminate..].
  simpl. intros [= <-]. eexists. split; [reflexivity|]. simpl. auto 10.
Qed.

End LoadFacts.

(** ** [_features] *)

Section FeatureFacts.
Import Attrs Bundle.
Context {K : Np.Kernel} (rt : Py.Runtime).

Lemma feature_value_ok a f :
  attrs_num a -> is_feature f = true ->
  exists x, Builder.feature_value rt a f = Py.Ok x.
Proof.
  intros A F. unfold Builder.feature_value, Dict.get_default.
  destruct (Dict.get f a) as [v|] eqn:E.
  - specialize (A f v E F). destruct v; simpl in A; try contradiction.
    + unfold Py.py_or. simpl.
      destruct (Z.eqb_spec z 0); simpl; eauto.
      assert (H : z = 1%Z \/ z = 2%Z \/ z = 3%Z) by lia.
      destruct H as [->|[->| ->]]; vm_compute; eauto.
    + unfold Py.py_or. destruct (Py.truthy _); simpl; eauto.
  - simpl. eauto.
Qed.

Lemma comprehension_total {A B} (f : A -> Py.result B) (dflt : B) l :
  (forall a, In a l -> exists y, f a = Py.Ok y) ->
  Py.comprehension f l
  = Py.Ok (map (fun a => match f a with Py.Ok y => y | Py.Raise _ => dflt end) l).
Proof.
  induction l as [|a t IH]; intros H; simpl; auto.
  destruct (H a (or_introl eq_refl)) as [y Hy]. rewrite Hy. simpl.
  rewrite IH by (intros; apply H; now right). reflexivity.
Qed.

Lemma nodes_of_type_num g t nd :
  graph_num g -> In nd (Builder.nodes_of_type g t) -> attrs_num (snd nd).
Proof.
  intros G H. unfold Builder.nodes_of_type in H.
  apply filter_In in H as [H _]. destruct nd as [n a]. eapply G, H.
Qed.

Lemma rows_total names (nodes : list (string * Nx.attrs)) :
  (forall nd, In nd nodes -> attrs_num (snd nd)) ->
  Forall (fun f => is_feature f = true) names ->
  Py.comprehension
    (fun nd => Py.comprehension (Builder.feature_value rt (snd nd)) names)
    nodes
  = Py.Ok (map (fun nd => map (feature_float rt (snd nd)) names) nodes).
Proof.
  intros A F. rewrite Forall_forall in F.
  assert (Hrow : forall nd, In nd nodes ->
            Py.comprehension (Builder.feature_value rt (snd nd)) names
            = Py.Ok (map (feature_float rt (snd nd)) names)).
  { intros nd Hnd. apply (comprehension_total _ Py.fzero).
    intros f Hf. apply feature_value_ok; auto. }
  clear A. induction nodes as [|nd tl IH]; simpl; auto.
  rewrite Hrow by now left. simpl.
  rewrite IH by (intros; apply Hrow; now right). reflexivity.
Qed.

(** On a graph with numeric feature attributes a turn of the loop of
    [_features] returns. *)
Lemma features_of_type_ok g nf spec :
  graph_num g ->
  Forall (fun f => is_feature f = true) (snd spec) ->
  Builder.features_of_type rt g nf spec
  = Py.Ok (features_step (K := K) rt g nf spec).
Proof.
  intros G F. destruct spec as [t names].
  unfold Builder.features_of_type, features_step, type_matrix.
  cbn [fst snd] in *.
  pose proof (nodes_of_type_num g t) as Hn.
  destruct (Builder.nodes_of_type g t) as [|nd nds]; [reflexivity|].
  rewrite rows_total; auto.
Qed.

Lemma for_each_ok_in {A S} (body : S -> A -> Py.result S) (f : S -> A -> S) l :
  (forall a, In a l -> forall s, body s a = Py.Ok (f s a)) ->
  forall s, Py.for_each body l s = Py.Ok (fold_left f l s).
Proof.
  induction l as [|a t IH]; intros H s; simpl; auto.
  rewrite H by now left. simpl. apply IH. intros; apply H; now right.
Qed.

Lemma specs_are_features :
  forall spec, In spec Schema.NODE_FEATURE_SPECS ->
    Forall (fun f => is_feature f = true) (snd spec).
Proof.
  intros spec H. simpl in H.
  repeat (destruct H as [<-|H]; [repeat constructor|]). destruct H.
Qed.

Lemma features_loop_ok g nf :
  graph_num g ->
  Py.for_each (Builder.features_of_type rt g) Schema.NODE_FEATURE_SPECS nf
  = Py.Ok (fold_left (features_step (K := K) rt g) Schema.NODE_FEATURE_SPECS nf).
Proof.
  intros G. apply for_each_ok_in. intros spec H s.
  apply features_of_type_ok; auto. now apply specs_are_features.
Qed.

Lemma features_fold_get g specs t : forall nf,
  NoDup (Dict.keys specs) ->
  Dict.get t (fold_left (features_step (K := K) rt g) specs nf)
  = match Dict.get t specs with
    | Some names =>
        match Builder.nodes_of_type g t with
        | [] => Dict.get t nf
        | _ => Some (type_matrix rt g t names)
        end
    | None => Dict.get t nf
    end.
Proof.
  induction specs as [|[t0 names0] tl IH]; intros nf N; simpl; auto.
  inversion N; subst. rewrite IH by assumption.
  destruct (String.eqb_spec t0 t).
  - subst t0.
    assert (E : Dict.get t tl = None) by now apply get_None_not_In.
    rewrite E. unfold features_step. simpl.
    destruct (Builder.nodes_of_type g t); auto. apply get_set_eq.
  - assert (E : Dict.get t (features_step (K := K) rt g nf (t0, names0))
                = Dict.get t nf).
    { unfold features_step. simpl.
      destruct (Builder.nodes_of_type g t0); auto.
      now apply get_set_ne. }
    now rewrite E.
Qed.

Lemma features_fold_keys g specs : forall nf,
  NoDup (Dict.keys nf) ->
  NoDup (Dict.keys (fold_left (features_step (K := K) rt g) specs nf)).
Proof.
  induction specs as [|spec tl IH]; intros nf N; simpl; auto.
  apply IH. unfold features_step.
  destruct (Builder.nodes_of_type g (fst spec)); auto.
  now apply NoDup_keys_set.
Qed.

Lemma normalize_rows (rows : list (list Py.pyfloat)) :
  List.length (Builder.normalize (K := K) rows) = List.length rows.
Proof.
  unfold Builder.normalize, Np.scale. now rewrite !length_map.
Qed.

Lemma type_matrix_rows g t names :
  List.length (type_matrix (K := K) rt g t names)
  = List.length (Builder.nodes_of_type g t).
Proof. unfold type_matrix. now rewrite normalize_rows, length_map. Qed.

End FeatureFacts.

(** ** The shape of a finished build *)

Section BuildFacts.
Import Trace NodeLoops Attrs Bundle.
Context {K : Np.Kernel} (rt : Py.Runtime).

Lemma wf_empty : wf Nx.empty.
Proof. intros n. reflexivity. Qed.

Lemma graph_num_empty : graph_num Nx.empty.
Proof. intros n a []. Qed.

Lemma graph_num_node g g' :
  Nx._node g' = Nx._node g -> graph_num g -> graph_num g'.
Proof. intros E G n a H. rewrite E in H. eapply G, H. Qed.

Lemma edges_unfold (self : @Builder.KnowledgeGraphBuilder K) d :
  Builder._data self = Some d ->
  Builder._edges rt self
  = Py.bind (Builder.edges_of rt d (Builder.by_name_map (Builder.id_maps self))
               (Builder.G self))
            (fun g => Py.Ok (Builder.with_G g self)).
Proof. intros H. unfold Builder._edges, Builder.tables. now rewrite H. Qed.

Lemma after_nodes_edges dd d :
  Builder._edges rt (after_nodes (K := K) rt dd d)
  = Py.bind (Builder.edges_of rt d (country_by_name (countries d) [])
               (nodes_graph rt d Nx.empty))
            (fun g => Py.Ok (Builder.with_G g (after_nodes (K := K) rt dd d))).
Proof.
  rewrite (edges_unfold (after_nodes (K := K) rt dd d) d eq_refl). simpl Builder.id_maps.
  now rewrite nodes_maps_by_name.
Qed.

Lemma edges_graph_num d g :
  Builder.edges_of rt d (country_by_name (countries d) [])
    (nodes_graph rt d Nx.empty) = Py.Ok g ->
  graph_num g.
Proof.
  intros E.
  destruct (edges_of_spec rt d _ _ _
              (nodes_graph_wf rt d _ wf_empty) E) as (N & _ & _).
  eapply graph_num_node; [exact N|].
  apply nodes_graph_num, graph_num_empty.
Qed.

(** What a build that returns has computed. *)
Lemma build_inv dd (self : @Builder.KnowledgeGraphBuilder K) out :
  Builder.build rt (Builder.__init__ dd) = Py.Ok (self, out) ->
  exists d,
    (suppliers_csv dd = Some (Py.Ok (suppliers d))
     /\ components_csv dd = Some (Py.Ok (components d))
     /\ countries_csv dd = Some (Py.Ok (countries d))
     /\ contracts_csv dd = Some (Py.Ok (contracts d))
     /\ routes_csv dd = Some (Py.Ok (routes d))
     /\ sourcing_links_csv dd = Some (Py.Ok (sourcing_links d)))
    /\ Builder._data self = Some d
    /\ Builder.edges_of rt d (country_by_name (countries d) [])
         (nodes_graph rt d Nx.empty) = Py.Ok (Builder.G self)
    /\ Builder.id_maps self = nodes_maps d no_maps
    /\ Builder.node_features self
       = fold_left (features_step rt (Builder.G self))
                   Schema.NODE_FEATURE_SPECS []
    /\ Builder.hetero self = Builder._to_pyg rt self
    /\ out = Builder._save self.
Proof.
  unfold Builder.build. intros H.
  destruct (Builder._load (Builder.__init__ dd)) as [s1|] eqn:E1;
    [|discriminate].
  apply load_inv in E1 as (d & -> & L). simpl in L.
  exists d. split; [exact L|]. cbn [Py.bind] in H.
  rewrite (nodes_spec rt (Builder.with_data d (Builder.__init__ dd)) d eq_refl)
    in H.
  cbn [Py.bind] in H.
  change (Builder._edges rt _)
    with (Builder._edges rt (after_nodes (K := K) rt dd d)) in H.
  rewrite after_nodes_edges in H.
  destruct (Builder.edges_of rt d _ _) as [g|] eqn:E3; [|discriminate].
  cbn [Py.bind] in H.
  unfold Builder._features in H at 1. simpl Builder.G in H.
  simpl Builder.node_features in H.
  rewrite (features_loop_ok rt g [] (edges_graph_num d g E3)) in H.
  cbn [Py.bind] in H.
  inversion H; subst; clear H. simpl. auto 10.
Qed.

(** A build returns when the six files exist and every sourcing link
    between two existing nodes has a convertible flag and price. *)
Lemma build_total dd d :
  suppliers_csv dd = Some (Py.Ok (suppliers d)) ->
  components_csv dd = Some (Py.Ok (components d)) ->
  countries_csv dd = Some (Py.Ok (countries d)) ->
  contracts_csv dd = Some (Py.Ok (contracts d)) ->
  routes_csv dd = Some (Py.Ok (routes d)) ->
  sourcing_links_csv dd = Some (Py.Ok (sourcing_links d)) ->
  (forall row, In row (sourcing_links d) ->
     In (SourcingLink.supplier_id row) (Obs.all_ids d) ->
     In (SourcingLink.component_id row) (Obs.all_ids d) ->
     (exists ip, Py.int rt (SourcingLink.is_primary row) = Py.Ok ip)
     /\ (exists up, Py.float rt (SourcingLink.unit_price_usd row) = Py.Ok up)) ->
  exists (self : @Builder.KnowledgeGraphBuilder K) out,
    Builder.build rt (Builder.__init__ dd) = Py.Ok (self, out)
    /\ Builder._data self = Some d.
Proof.
  intros L1 L2 L3 L4 L5 L6 Hs.
  unfold Builder.build.
  assert (E1 : Builder._load (K := K) (Builder.__init__ dd)
               = Py.Ok (Builder.with_data d (Builder.__init__ dd))).
  { unfold Builder._load, Builder.load_table. simpl.
    rewrite L1, L2, L3, L4, L5, L6. simpl. now destruct d. }
  rewrite E1. cbn [Py.bind].
  rewrite (nodes_spec rt (Builder.with_data d (Builder.__init__ dd)) d eq_refl).
  cbn [Py.bind].
  change (Builder._edges rt _)
    with (Builder._edges rt (after_nodes (K := K) rt dd d)).
  rewrite after_nodes_edges.
  assert (W : wf (nodes_graph rt d Nx.empty))
    by apply nodes_graph_wf, wf_empty.
  assert (E3 : exists g, Builder.edges_of rt d
                           (country_by_name (countries d) [])
                           (nodes_graph rt d Nx.empty) = Py.Ok g).
  { unfold Builder.edges_of.
    destruct (supplies_total rt (sourcing_links d) _ W) as [g1 Hg1].
    - intros row Hr Hu Hv. apply Hs; auto.
      + apply nodes_graph_has in Hu as [Hu|Hu]; [exact Hu | discriminate].
      + apply nodes_graph_has in Hv as [Hv|Hv]; [exact Hv | discriminate].
    - rewrite Hg1. simpl. eauto. }
  destruct E3 as [g E3]. rewrite E3. cbn [Py.bind].
  unfold Builder._features at 1. simpl Builder.G. simpl Builder.node_features.
  rewrite (features_loop_ok rt g [] (edges_graph_num d g E3)). cbn [Py.bind].
  eexists. eexists. split; [reflexivity|]. reflexivity.
Qed.

End BuildFacts.

(* ================================================================== *)
(** * The claims *)
(* ================================================================== *)

Section Claims.
Import Trace NodeLoops Attrs Bundle.
Context {K : Np.Kernel}.

Lemma safe_dict_get rt row keys k :
  In k keys ->
  Dict.get k (safe_dict rt row keys) = Some (Py.VFloat (coerce rt row k)).
Proof.
  unfold safe_dict. generalize (@nil (string * Py.PyVal)).
  induction keys as [|k0 tl IH] using rev_ind; intros acc H; [destruct H|].
  rewrite fold_left_app. simpl. rewrite get_set.
  destruct (String.eqb_spec k0 k) as [->|N]; [reflexivity|].
  apply IH. apply in_app_or in H as [H|[H|[]]]; [exact H | contradiction].
Qed.

Lemma eq_self_nan v : Py.eq_self v = false <-> v = Py.VFloat S754_nan.
Proof.
  destruct v as [| | |f|]; simpl; try (split; [discriminate | intros [=]]).
  destruct f; simpl; split; congruence.
Qed.

End Claims.

(** C8, as amended.  [_load] asks for the six tables in order and stops
    at the first whose file is absent or cannot be read.  If that file
    is absent, [_load] raises [FileNotFoundError] with a message that
    names the file and the generator command, and [build] raises the
    same error; if it exists and [pd.read_csv] raises on it, [_load] and
    [build] raise that error; if all six exist and are read, [_load]
    returns, the builder holds one table per name and nothing else of
    it has changed. *)
Theorem C8_load_missing_input {K : Np.Kernel} (rt : Py.Runtime) (dd : DataDir) :
  match Files.first_failure dd with
  | Some (t, Files.Absent) =>
      In (t, false) (Files.required dd)
      /\ Files.message dd t
         = String.append "Missing "
             (String.append
                (PathOps.str (PathOps.joinpath (dir dd) (String.append t ".csv")))
                ". Run: python -m src.data.generator")
      /\ Builder._load (K := K) (Builder.__init__ dd)
         = Py.Raise (Py.FileNotFoundError (Files.message dd t))
      /\ Builder.build (K := K) rt (Builder.__init__ dd)
         = Py.Raise (Py.FileNotFoundError (Files.message dd t))
  | Some (t, Files.Unreadable e) =>
      In (t, true) (Files.required dd)
      /\ Builder._load (K := K) (Builder.__init__ dd) = Py.Raise e
      /\ Builder.build (K := K) rt (Builder.__init__ dd) = Py.Raise e
  | Some (_, Files.Read) => False
  | None =>
      Files.first_missing dd = None
      /\ exists d self',
           Input.holds dd d
           /\ Builder._load (K := K) (Builder.__init__ dd) = Py.Ok self'
           /\ Builder._data self' = Some d
           /\ Builder.data_dir self' = dd
           /\ Builder.G self' = Nx.empty
           /\ Builder.index (Builder.id_maps self') = []
           /\ Builder._country_by_name (Builder.id_maps self') = None
           /\ Builder.node_features self' = []
           /\ Builder.hetero self' = None
  end.
Proof.
  unfold Files.first_failure, Files.listing, Files.first_missing,
    Files.required, Input.holds, Builder.build, Builder._load,
    Builder.load_table.
  destruct dd as [p s c n k r sl]. simpl.
  destruct s as [[s|]|]; simpl; [|now auto 10..].
  destruct c as [[c|]|]; simpl; [|now auto 10..].
  destruct n as [[n|]|]; simpl; [|now auto 10..].
  destruct k as [[k|]|]; simpl; [|now auto 10..].
  destruct r as [[r|]|]; simpl; [|now auto 10..].
  destruct sl as [[sl|]|]; simpl; [|now auto 10..].
  split; [reflexivity|].
  exists {| suppliers := s; components := c; countries := n; contracts := k;
            routes := r; sourcing_links := sl |}.
  eexists. simpl. repeat split; reflexivity.
Qed.

(** The claim C8 fails when a file exists and cannot be read: the six
    files of this directory exist, the one of the suppliers is empty,
    and [_load] raises the [EmptyDataError] of [pd.read_csv] instead of
    returning the tables. *)
Lemma C8_counterexample :
  forallb snd (Files.required Demo.empty_file) = true
  /\ Files.first_missing Demo.empty_file = None
  /\ Builder._load (K := Np.binary32) (Builder.__init__ Demo.empty_file)
     = Py.Raise Py.EmptyDataError
  /\ ~ exists self', Builder._load (K := Np.binary32)
                       (Builder.__init__ Demo.empty_file) = Py.Ok self'.
Proof.
  split; [reflexivity|]. split; [reflexivity|].
  assert (E : Builder._load (K := Np.binary32) (Builder.__init__ Demo.empty_file)
              = Py.Raise Py.EmptyDataError) by reflexivity.
  split; [exact E|]. intros (s & H). rewrite E in H. discriminate.
Qed.

(** C9. [_safe] never raises.  For every row and every declared key the
    value it stores is a float: 0.0 for a missing key, 0.0 for a NaN,
    0.0 for a value [float] rejects, and the conversion [float(v)] for
    any other value; nothing but floats is stored. *)
Theorem C9_safe_coercion (rt : Py.Runtime) (row : Dict.dict Py.PyVal)
    (keys : list string) (k : string) (Hk : In k keys) :
  exists out f,
    Builder._safe rt row keys = Py.Ok out
    /\ Dict.get k out = Some (Py.VFloat f)
    /\ (Dict.get k row = None -> f = Py.fzero)
    /\ (Dict.get k row = Some (Py.VFloat S754_nan) -> f = Py.fzero)
    /\ (forall v e, Dict.get k row = Some v ->
          Py.float rt v = Py.Raise e -> f = Py.fzero)
    /\ (forall v y, Dict.get k row = Some v -> v <> Py.VFloat S754_nan ->
          Py.float rt v = Py.Ok y -> f = y)
    /\ (forall k' v, Dict.get k' out = Some v -> exists f', v = Py.VFloat f').
Proof.
  exists (NodeLoops.safe_dict rt row keys), (NodeLoops.coerce rt row k).
  split; [apply safe_total|]. split; [now apply safe_dict_get|].
  unfold NodeLoops.coerce, Dict.get_default.
  repeat split.
  - intros ->. reflexivity.
  - intros ->. reflexivity.
  - intros v e -> E. rewrite E. now destruct (_ && _).
  - intros v y -> N E. rewrite E.
    assert (Py.eq_self v = true).
    { destruct (Py.eq_self v) eqn:S; auto. apply eq_self_nan in S.
      contradiction. }
    destruct v; simpl in *; try discriminate; rewrite ?H; auto.
  - intros k' v H. apply get_In in H.
    eapply safe_dict_float, H.
Qed.

(** C9 on a row whose spend is text: the stored value is 0.0. *)
Lemma C9_safe_coercion_witness :
  exists out f,
    Builder._safe plain_runtime
      [("annual_spend_usd", Py.VStr "n/a"); ("headcount", Py.VInt 12)]
      ["annual_spend_usd"; "quality_score"; "headcount"] = Py.Ok out
    /\ Dict.get "annual_spend_usd" out = Some (Py.VFloat f)
    /\ f = Py.fzero.
Proof.
  destruct (C9_safe_coercion plain_runtime
              [("annual_spend_usd", Py.VStr "n/a"); ("headcount", Py.VInt 12)]
              ["annual_spend_usd"; "quality_score"; "headcount"]
              "annual_spend_usd" (or_introl eq_refl))
    as (out & f & H1 & H2 & _ & _ & H5 & _).
  exists out, f. split; [exact H1|]. split; [exact H2|].
  exact (H5 (Py.VStr "n/a") Py.ValueError eq_refl eq_refl).
Defined.

(** ** Node counts and index maps of a finished build *)

Section NodeClaims.
Import Trace NodeLoops Attrs Bundle.
Context {K : Np.Kernel} (rt : Py.Runtime).

Lemma NoDup_all_ids d :
  NoDup (Obs.all_ids d) ->
  NoDup (Obs.supplier_ids d) /\ NoDup (Obs.component_ids d)
  /\ NoDup (Obs.country_ids d) /\ NoDup (Obs.contract_ids d)
  /\ NoDup (Obs.route_ids d).
Proof.
  unfold Obs.all_ids. intros N.
  pose proof (NoDup_app_remove_r _ _ N) as N1.
  apply NoDup_app_remove_l in N.
  pose proof (NoDup_app_remove_r _ _ N) as N2.
  apply NoDup_app_remove_l in N.
  pose proof (NoDup_app_remove_r _ _ N) as N3.
  apply NoDup_app_remove_l in N.
  pose proof (NoDup_app_remove_r _ _ N) as N4.
  apply NoDup_app_remove_l in N. auto.
Qed.

(** The graph of a finished build has the nodes [_nodes] made. *)
Lemma build_nodes dd (self : @Builder.KnowledgeGraphBuilder K) out d :
  Builder.build rt (Builder.__init__ dd) = Py.Ok (self, out) ->
  Builder._data self = Some d ->
  Nx._node (Builder.G self) = Nx._node (nodes_graph rt d Nx.empty)
  /\ wf (Builder.G self)
  /\ Permutation (map tag (Nx.edges (Builder.G self)))
       (map ctag (filter (guard (nodes_graph rt d Nx.empty))
                    (all_cands d (country_by_name (countries d) []))))
  /\ Builder.id_maps self = nodes_maps d no_maps.
Proof.
  intros B D. apply build_inv in B as (d0 & _ & D0 & E & M & _).
  rewrite D in D0. inversion D0; subst d0; clear D0.
  destruct (edges_of_spec rt d _ _ _ (nodes_graph_wf rt d _ wf_empty) E)
    as (N & W & P).
  rewrite nodes_graph_edges in P. simpl in P. rewrite app_nil_r in P.
  auto.
Qed.

Lemma index_map_fresh d t :
  NoDup (Obs.all_ids d) -> In t Obs.node_types ->
  Builder.index_map (nodes_maps d no_maps) t
  = combine (Obs.ids_of_type d t)
            (seq 0 (List.length (Obs.ids_of_type d t))).
Proof.
  intros N T. apply NoDup_all_ids in N as (N1 & N2 & N3 & N4 & N5).
  rewrite nodes_maps_index. unfold Obs.ids_of_type.
  simpl in T.
  destruct T as [<-|[<-|[<-|[<-|[<-|[]]]]]]; simpl;
    rewrite assign_from_fresh by assumption; simpl;
    unfold Obs.supplier_ids, Obs.component_ids, Obs.country_ids,
      Obs.contract_ids, Obs.route_ids;
    now rewrite length_map.
Qed.

End NodeClaims.

(** C1. After [build] on tables whose natural keys are pairwise
    different (within a type and across types), the graph has exactly
    as many nodes as the five entity tables have rows, and for every
    node type the index map lists the keys of the type's table in row
    order against the indices 0, 1, ..., count - 1. *)
Theorem C1_nodes_dense_index {K : Np.Kernel} (rt : Py.Runtime) (dd : DataDir)
    (self : @Builder.KnowledgeGraphBuilder K) (out : @Builder.Output K)
    (d : Data) :
  Builder.build rt (Builder.__init__ dd) = Py.Ok (self, out) ->
  Builder._data self = Some d ->
  NoDup (Obs.all_ids d) ->
  Nx.number_of_nodes (Builder.G self)
  = List.length (suppliers d) + List.length (components d)
    + List.length (countries d) + List.length (contracts d)
    + List.length (routes d)
  /\ Dict.keys (Nx._node (Builder.G self)) = Obs.all_ids d
  /\ forall t, In t Obs.node_types ->
       let im := Builder.index_map (Builder.id_maps self) t in
       Dict.keys im = Obs.ids_of_type d t
       /\ Dict.values im = seq 0 (List.length (Obs.ids_of_type d t))
       /\ NoDup (Dict.values im)
       /\ forall i, In i (Dict.values im) <-> i < List.length im.
Proof.
  intros B D N.
  destruct (build_nodes rt dd self out d B D) as (E & _ & _ & M).
  unfold Nx.number_of_nodes. rewrite E, (nodes_graph_fresh rt d N).
  split; [|split].
  - rewrite !length_app, !length_map. lia.
  - unfold Dict.keys, Obs.all_ids, Obs.supplier_ids, Obs.component_ids,
      Obs.country_ids, Obs.contract_ids, Obs.route_ids.
    rewrite !map_app, !map_map. reflexivity.
  - intros t T. rewrite M, (index_map_fresh d t N T). cbv zeta.
    unfold Dict.keys, Dict.values.
    assert (L : List.length (Obs.ids_of_type d t)
                = List.length (seq 0 (List.length (Obs.ids_of_type d t))))
      by now rewrite length_seq.
    rewrite (proj1 (combine_fst_snd _ _ L)),
      (proj2 (combine_fst_snd _ _ L)).
    repeat split.
    + apply seq_NoDup.
    + intros H. apply in_seq in H. rewrite length_combine, length_seq.
      lia.
    + intros H. apply in_seq. rewrite length_combine, length_seq in H.
      lia.
Qed.

(** ** Counting edges *)

Section CountFacts.
Import Trace Count.

Lemma Permutation_filter_length {A} (f : A -> bool) l l' :
  Permutation l l' ->
  List.length (filter f l) = List.length (filter f l').
Proof.
  intros P. apply Permutation_length. now apply Permutation_filter_same.
Qed.

Lemma edge_count_tags g r u v :
  Obs.edge_count g r u v
  = List.length (filter (tag_is r u v) (map tag (Nx.edges g))).
Proof.
  unfold Obs.edge_count. rewrite filter_map_comm, length_map. reflexivity.
Qed.

Lemma count_ctags r u v l :
  List.length (filter (tag_is r u v) (map ctag l)) = rel_count r u v l.
Proof.
  unfold rel_count. rewrite filter_map_comm, length_map. reflexivity.
Qed.

Lemma rel_count_app r u v l1 l2 :
  rel_count r u v (l1 ++ l2) = rel_count r u v l1 + rel_count r u v l2.
Proof. unfold rel_count. now rewrite filter_app, length_app. Qed.

Lemma rel_count_guard g r u v l :
  rel_count r u v (filter (guard g) l)
  = if Nx.has_node g u && Nx.has_node g v then rel_count r u v l else 0.
Proof.
  unfold rel_count. induction l as [|c t IH]; simpl.
  - now destruct (_ && _).
  - destruct (triple_is r u v c) eqn:T.
    + unfold triple_is in T.
      apply andb_true_iff in T as [T Hv]. apply andb_true_iff in T as [Hr Hu].
      apply String.eqb_eq in Hu, Hv.
      unfold guard at 1. rewrite Hu, Hv.
      destruct (Nx.has_node g u && Nx.has_node g v) eqn:G; simpl.
      * unfold triple_is at 1. rewrite Hr, Hu, Hv, !String.eqb_refl. simpl.
        now rewrite IH.
      * exact IH.
    + destruct (guard g c); simpl; rewrite ?T; exact IH.
Qed.

Lemma rel_count_other r u v l :
  (forall c, In c l -> snd c <> r) -> rel_count r u v l = 0.
Proof.
  unfold rel_count. induction l as [|c t IH]; intros H; simpl; auto.
  unfold triple_is at 1.
  destruct (String.eqb_spec (snd c) r) as [E|_]; simpl.
  - exfalso. apply (H c); [now left | exact E].
  - apply IH. intros; apply H; now right.
Qed.

Lemma pair_eqb_eq p q : Py.pair_eqb p q = true <-> p = q.
Proof.
  destruct p, q. unfold Py.pair_eqb. simpl.
  rewrite andb_true_iff, !String.eqb_eq. split; [intros [-> ->] | intros [=]];
    auto.
Qed.

Lemma pair_count_notin p l : ~ In p l -> pair_count p l = 0.
Proof.
  unfold pair_count. induction l as [|q t IH]; intros H; simpl; auto.
  destruct (Py.pair_eqb p q) eqn:E.
  - apply pair_eqb_eq in E. subst. exfalso. apply H. now left.
  - apply IH. intros H'. apply H. now right.
Qed.

Lemma pair_count_NoDup p l : NoDup l -> In p l -> pair_count p l = 1.
Proof.
  unfold pair_count. induction l as [|q t IH]; intros N H; [destruct H|].
  inversion N; subst. simpl. destruct (Py.pair_eqb p q) eqn:E.
  - apply pair_eqb_eq in E. subst q. simpl.
    fold (pair_count p t). now rewrite pair_count_notin.
  - destruct H as [->|H].
    + assert (Py.pair_eqb p p = true) by now apply pair_eqb_eq. congruence.
    + now apply IH.
Qed.

Lemma co_cand_count u v p :
  List.length (filter (triple_is "co_supplier" u v) (co_cand p))
  = List.length (filter (Py.pair_eqb (u, v)) [p])
    + List.length (filter (Py.pair_eqb (v, u)) [p]).
Proof.
  destruct p as [a b]. unfold co_cand, triple_is, Py.pair_eqb. simpl.
  rewrite (String.eqb_sym a u), (String.eqb_sym b v),
    (String.eqb_sym b u), (String.eqb_sym a v).
  destruct (String.eqb u a), (String.eqb v b), (String.eqb u b),
    (String.eqb v a); reflexivity.
Qed.

(** Co-supplier candidates from [u] to [v] come from the pair [(u, v)]
    or from the pair [(v, u)]. *)
Lemma rel_count_co u v l :
  rel_count "co_supplier" u v (flat_map co_cand l)
  = pair_count (u, v) l + pair_count (v, u) l.
Proof.
  unfold rel_count, pair_count. induction l as [|p t IH]; [reflexivity|].
  cbn [flat_map]. rewrite filter_app, length_app, IH, co_cand_count.
  change (p :: t) with ([p] ++ t). rewrite !filter_app, !length_app. lia.
Qed.

Lemma tw_cand_count u v p :
  List.length (filter (triple_is "trades_with" u v) (tw_cand p))
  = List.length (filter (Py.pair_eqb (u, v)) [p]).
Proof.
  destruct p as [a b]. unfold tw_cand, triple_is, Py.pair_eqb. simpl.
  rewrite (String.eqb_sym a u), (String.eqb_sym b v).
  destruct (String.eqb u a), (String.eqb v b); reflexivity.
Qed.

Lemma rel_count_tw u v l :
  rel_count "trades_with" u v (flat_map tw_cand l) = pair_count (u, v) l.
Proof.
  unfold rel_count, pair_count. induction l as [|p t IH]; [reflexivity|].
  cbn [flat_map]. rewrite filter_app, length_app, IH, tw_cand_count.
  change (p :: t) with ([p] ++ t). rewrite !filter_app, !length_app. lia.
Qed.

Lemma supplies_cands_rel c l : In c (supplies_cands l) -> snd c = "supplies".
Proof.
  unfold supplies_cands. intros H. apply in_map_iff in H as (row & <- & _).
  reflexivity.
Qed.

Lemma opt_cand_rel u o r c : In c (opt_cand u o r) -> snd c = r.
Proof.
  unfold opt_cand. destruct o as [x|]; [|intros []].
  destruct (Py.truthy_str x); [|intros []].
  intros [<-|[]]. reflexivity.
Qed.

Lemma located_cands_rel bn c l :
  In c (flat_map (located_cand bn) l) -> snd c = "located_in".
Proof.
  intros H. apply in_flat_map in H as (row & _ & H).
  now apply opt_cand_rel in H.
Qed.

Lemma contract_cands_rel c l :
  In c (flat_map contract_cand l) ->
  snd c = "covers" \/ snd c = "signed_with".
Proof.
  intros H. apply in_flat_map in H as (row & _ & H).
  destruct H as [<-|[<-|[]]]; auto.
Qed.

Lemma route_cands_rel bn c l :
  In c (flat_map (route_cand bn) l) ->
  snd c = "originates_in" \/ snd c = "delivers_to" \/ snd c = "carries".
Proof.
  intros H. apply in_flat_map in H as (row & _ & H).
  unfold route_cand in H.
  apply in_app_or in H as [H|H]; [apply opt_cand_rel in H; auto|].
  apply in_app_or in H as [H|H]; [apply opt_cand_rel in H; auto|].
  destruct H as [<-|[]]; auto.
Qed.

Lemma co_cands_rel c l : In c (flat_map co_cand l) -> snd c = "co_supplier".
Proof.
  intros H. apply in_flat_map in H as (p & _ & H).
  destruct H as [<-|[<-|[]]]; auto.
Qed.

Lemma tw_cands_rel c l : In c (flat_map tw_cand l) -> snd c = "trades_with".
Proof.
  intros H. apply in_flat_map in H as (p & _ & H).
  destruct H as [<-|[]]; auto.
Qed.

(** The relation of every candidate is in the catalog. *)
Lemma all_cands_rel d bn c :
  In c (all_cands d bn) ->
  In (snd c) (map Schema.relation Schema.EDGE_TYPES).
Proof.
  unfold all_cands. intros H.
  apply in_app_or in H as [H|H];
    [apply supplies_cands_rel in H; rewrite H; simpl; tauto|].
  apply in_app_or in H as [H|H];
    [apply located_cands_rel in H; rewrite H; simpl; tauto|].
  apply in_app_or in H as [H|H];
    [apply contract_cands_rel in H as [H|H]; rewrite H; simpl; tauto|].
  apply in_app_or in H as [H|H];
    [apply route_cands_rel in H as [H|[H|H]]; rewrite H; simpl; tauto|].
  apply in_app_or in H as [H|H];
    [apply co_cands_rel in H; rewrite H; simpl; tauto|].
  apply tw_cands_rel in H; rewrite H; simpl; tauto.
Qed.

Lemma rel_count_all_co d bn u v :
  rel_count "co_supplier" u v (all_cands d bn)
  = pair_count (u, v) (Builder.co_pairs (sourcing_links d))
    + pair_count (v, u) (Builder.co_pairs (sourcing_links d)).
Proof.
  unfold all_cands. rewrite !rel_count_app, rel_count_co.
  rewrite (rel_count_other _ _ _ (supplies_cands _))
    by (intros c H; apply supplies_cands_rel in H; rewrite H; discriminate).
  rewrite (rel_count_other _ _ _ (flat_map (located_cand bn) _))
    by (intros c H; apply located_cands_rel in H; rewrite H; discriminate).
  rewrite (rel_count_other _ _ _ (flat_map contract_cand _))
    by (intros c H; apply contract_cands_rel in H as [H|H]; rewrite H;
        discriminate).
  rewrite (rel_count_other _ _ _ (flat_map (route_cand bn) _))
    by (intros c H; apply route_cands_rel in H as [H|[H|H]]; rewrite H;
        discriminate).
  rewrite (rel_count_other _ _ _ (flat_map tw_cand _))
    by (intros c H; apply tw_cands_rel in H; rewrite H; discriminate).
  lia.
Qed.

Lemma rel_count_all_tw d bn u v :
  rel_count "trades_with" u v (all_cands d bn)
  = pair_count (u, v) (Builder.tw_pairs bn (routes d)).
Proof.
  unfold all_cands. rewrite !rel_count_app, rel_count_tw.
  rewrite (rel_count_other _ _ _ (supplies_cands _))
    by (intros c H; apply supplies_cands_rel in H; rewrite H; discriminate).
  rewrite (rel_count_other _ _ _ (flat_map (located_cand bn) _))
    by (intros c H; apply located_cands_rel in H; rewrite H; discriminate).
  rewrite (rel_count_other _ _ _ (flat_map contract_cand _))
    by (intros c H; apply contract_cands_rel in H as [H|H]; rewrite H;
        discriminate).
  rewrite (rel_count_other _ _ _ (flat_map (route_cand bn) _))
    by (intros c H; apply route_cands_rel in H as [H|[H|H]]; rewrite H;
        discriminate).
  rewrite (rel_count_other _ _ _ (flat_map co_cand _))
    by (intros c H; apply co_cands_rel in H; rewrite H; discriminate).
  lia.
Qed.

End CountFacts.

(** ** Sorted pairs and sets of pairs *)

Section PairFacts.
Import Trace Count.

Lemma ltb_irrefl a : String.ltb a a = false.
Proof.
  unfold String.ltb.
  pose proof (String.compare_antisym a a) as H.
  destruct (String.compare a a); simpl in H; auto; discriminate.
Qed.

Lemma ltb_asym a b : String.ltb a b = true -> String.ltb b a = false.
Proof.
  unfold String.ltb. rewrite (String.compare_antisym b a).
  destruct (String.compare a b); simpl; auto; discriminate.
Qed.

Lemma ltb_total a b :
  String.ltb a b = false -> String.ltb b a = false -> a = b.
Proof.
  unfold String.ltb. rewrite (String.compare_antisym b a).
  destruct (String.compare a b) eqn:E; simpl; try discriminate.
  intros _ _. now apply String.compare_eq_iff.
Qed.

Lemma sorted_pair_comm a b : Py.sorted_pair a b = Py.sorted_pair b a.
Proof.
  unfold Py.sorted_pair.
  destruct (String.ltb b a) eqn:E1, (String.ltb a b) eqn:E2; auto.
  - apply ltb_asym in E1. congruence.
  - now rewrite (ltb_total a b E2 E1).
Qed.

Lemma sorted_pair_sorted a b :
  String.ltb (snd (Py.sorted_pair a b)) (fst (Py.sorted_pair a b)) = false.
Proof.
  unfold Py.sorted_pair. destruct (String.ltb b a) eqn:E; simpl; auto.
  now apply ltb_asym.
Qed.

Lemma sorted_pair_cases a b :
  Py.sorted_pair a b = (a, b) \/ Py.sorted_pair a b = (b, a).
Proof. unfold Py.sorted_pair. destruct (String.ltb b a); auto. Qed.

Lemma sorted_pair_same a : Py.sorted_pair a a = (a, a).
Proof. unfold Py.sorted_pair. now rewrite ltb_irrefl. Qed.

Lemma existsb_pair p s : existsb (Py.pair_eqb p) s = true <-> In p s.
Proof.
  rewrite existsb_exists. split.
  - intros (q & H & E). apply pair_eqb_eq in E. now subst.
  - intros H. exists p. split; auto. now apply pair_eqb_eq.
Qed.

Lemma set_add_In p q s : In q (Py.set_add p s) <-> q = p \/ In q s.
Proof.
  unfold Py.set_add. destruct (existsb (Py.pair_eqb p) s) eqn:E.
  - apply existsb_pair in E. split; auto. intros [->|H]; auto.
  - rewrite in_app_iff. simpl. intuition.
Qed.

Lemma set_add_NoDup p s : NoDup s -> NoDup (Py.set_add p s).
Proof.
  intros N. unfold Py.set_add.
  destruct (existsb (Py.pair_eqb p) s) eqn:E; auto.
  apply NoDup_app; auto.
  - repeat constructor. intros [].
  - intros x Hx [Ex|[]]. subst x.
    assert (H : existsb (Py.pair_eqb p) s = true) by now apply existsb_pair.
    congruence.
Qed.

Lemma fold_set_add_In {A} (f : A -> string * string) xs q : forall s,
  In q (fold_left (fun co a => Py.set_add (f a) co) xs s)
  <-> In q s \/ exists a, In a xs /\ q = f a.
Proof.
  induction xs as [|x t IH]; intros s; simpl.
  - split; auto. intros [H|(a & [] & _)]; auto.
  - rewrite IH, set_add_In. split.
    + intros [[->|H]|(a & H & ->)]; eauto.
    + intros [H|(a & [->|H] & ->)]; eauto.
Qed.

Lemma fold_set_add_NoDup {A} (f : A -> string * string) xs : forall s,
  NoDup s -> NoDup (fold_left (fun co a => Py.set_add (f a) co) xs s).
Proof.
  induction xs as [|x t IH]; intros s N; simpl; auto.
  apply IH. now apply set_add_NoDup.
Qed.

(** *** The pairs of one list of suppliers *)

Lemma pairs_In_both a b l : In (a, b) (Builder.pairs l) -> In a l /\ In b l.
Proof.
  induction l as [|x t IH]; simpl; [tauto|].
  intros H. apply in_app_or in H as [H|H].
  - apply in_map_iff in H as (y & [= <- <-] & Hy). auto.
  - destruct (IH H). auto.
Qed.

Lemma pairs_distinct a b l :
  In a l -> In b l -> a <> b ->
  In (a, b) (Builder.pairs l) \/ In (b, a) (Builder.pairs l).
Proof.
  induction l as [|x t IH]; simpl; [tauto|].
  intros [->|Ha] [->|Hb] N.
  - contradiction.
  - left. apply in_or_app. left. now apply in_map.
  - right. apply in_or_app. left. now apply in_map.
  - destruct (IH Ha Hb N); [left | right]; apply in_or_app; now right.
Qed.

Lemma pairs_repeat s l1 l2 l3 :
  In (s, s) (Builder.pairs (l1 ++ s :: l2 ++ s :: l3)).
Proof.
  induction l1 as [|x t IH]; simpl.
  - apply in_or_app. left. apply in_map, in_or_app. right. now left.
  - apply in_or_app. now right.
Qed.

(** *** The suppliers under a component *)

Lemma comp_to_sups_get c links : forall acc,
  Dict.get_default c
    (fold_left
       (fun d row =>
          Dict.set (SourcingLink.component_id row)
            (Dict.get_default (SourcingLink.component_id row) d []
               ++ [SourcingLink.supplier_id row]) d) links acc) []
  = Dict.get_default c acc [] ++ sups_of c links.
Proof.
  unfold sups_of.
  induction links as [|row t IH]; intros acc; simpl.
  - now rewrite app_nil_r.
  - rewrite IH. unfold Dict.get_default at 1. rewrite get_set.
    destruct (String.eqb_spec (SourcingLink.component_id row) c) as [->|N].
    + simpl. now rewrite <- app_assoc.
    + reflexivity.
Qed.

Lemma comp_to_sups_keys links : forall acc,
  NoDup (Dict.keys acc) ->
  NoDup (Dict.keys
    (fold_left
       (fun d row =>
          Dict.set (SourcingLink.component_id row)
            (Dict.get_default (SourcingLink.component_id row) d []
               ++ [SourcingLink.supplier_id row]) d) links acc)).
Proof.
  induction links as [|row t IH]; intros acc N; simpl; auto.
  apply IH. now apply NoDup_keys_set.
Qed.

Lemma comp_to_sups_values links l :
  In l (Dict.values (Builder.comp_to_sups links)) ->
  exists c, l = sups_of c links.
Proof.
  unfold Dict.values. intros H. apply in_map_iff in H as ([c l'] & <- & H).
  exists c. simpl.
  apply In_get in H; [|apply comp_to_sups_keys; constructor].
  pose proof (comp_to_sups_get c links []) as E.
  fold (Builder.comp_to_sups links) in E.
  unfold Dict.get_default in E at 1. rewrite H in E. exact E.
Qed.

Lemma comp_to_sups_listed links c :
  sups_of c links <> [] ->
  In (sups_of c links) (Dict.values (Builder.comp_to_sups links)).
Proof.
  intros N.
  pose proof (comp_to_sups_get c links []) as E.
  fold (Builder.comp_to_sups links) in E.
  unfold Dict.get_default in E at 1. simpl in E.
  destruct (Dict.get c (Builder.comp_to_sups links)) as [l|] eqn:G.
  - subst l. apply get_In in G. unfold Dict.values.
    change (sups_of c links) with (snd (c, sups_of c links)).
    now apply in_map.
  - congruence.
Qed.

Lemma sups_of_In row links :
  In row links ->
  In (SourcingLink.supplier_id row)
     (sups_of (SourcingLink.component_id row) links).
Proof.
  intros H. unfold sups_of. apply in_map. apply filter_In.
  split; auto. apply String.eqb_refl.
Qed.

Lemma sups_of_inv s c links :
  In s (sups_of c links) ->
  exists row, In row links /\ SourcingLink.supplier_id row = s
              /\ SourcingLink.component_id row = c.
Proof.
  unfold sups_of. intros H. apply in_map_iff in H as (row & <- & H).
  apply filter_In in H as [H E]. apply String.eqb_eq in E. eauto.
Qed.

(** *** The set [co] *)

Lemma co_pairs_In links q :
  In q (Builder.co_pairs links)
  <-> exists c a b, In (a, b) (Builder.pairs (sups_of c links))
                    /\ q = Py.sorted_pair a b.
Proof.
  unfold Builder.co_pairs.
  assert (H : forall vals s,
            In q (fold_left
                    (fun co sups =>
                       fold_left
                         (fun co ab => Py.set_add
                                         (Py.sorted_pair (fst ab) (snd ab)) co)
                         (Builder.pairs sups) co) vals s)
            <-> In q s \/ exists sups a b,
                  In sups vals /\ In (a, b) (Builder.pairs sups)
                  /\ q = Py.sorted_pair a b).
  { induction vals as [|v t IH]; intros s; simpl.
    - split; auto. intros [H|(? & ? & ? & [] & _)]; auto.
    - rewrite IH, fold_set_add_In. split.
      + intros [[H|([a b] & H & ->)]|(sups & a & b & H1 & H2 & ->)].
        * auto.
        * right. exists v, a, b. auto.
        * right. exists sups, a, b. auto.
      + intros [H|(sups & a & b & [->|H1] & H2 & ->)].
        * auto.
        * left. right. exists (a, b). auto.
        * right. exists sups, a, b. auto. }
  rewrite H. split.
  - intros [[]|(sups & a & b & H1 & H2 & ->)].
    apply comp_to_sups_values in H1 as [c ->]. eauto.
  - intros (c & a & b & H1 & ->). right.
    exists (sups_of c links), a, b. repeat split; auto.
    apply comp_to_sups_listed. intros E. rewrite E in H1. destruct H1.
Qed.

Lemma co_pairs_NoDup links : NoDup (Builder.co_pairs links).
Proof.
  unfold Builder.co_pairs.
  generalize (Dict.values (Builder.comp_to_sups links)).
  assert (H : forall vals s, NoDup s ->
            NoDup (fold_left
                    (fun co sups =>
                       fold_left
                         (fun co ab => Py.set_add
                                         (Py.sorted_pair (fst ab) (snd ab)) co)
                         (Builder.pairs sups) co) vals s)).
  { induction vals as [|v t IH]; intros s N; simpl; auto.
    apply IH. now apply fold_set_add_NoDup. }
  intros vals. apply H. constructor.
Qed.

Lemma co_pairs_sorted links q :
  In q (Builder.co_pairs links) -> String.ltb (snd q) (fst q) = false.
Proof.
  intros H. apply co_pairs_In in H as (c & a & b & _ & ->).
  apply sorted_pair_sorted.
Qed.

(** Two different suppliers under one component are counted once. *)
Lemma co_pairs_count links r1 r2 :
  In r1 links -> In r2 links ->
  SourcingLink.component_id r1 = SourcingLink.component_id r2 ->
  SourcingLink.supplier_id r1 <> SourcingLink.supplier_id r2 ->
  pair_count (SourcingLink.supplier_id r1, SourcingLink.supplier_id r2)
             (Builder.co_pairs links)
  + pair_count (SourcingLink.supplier_id r2, SourcingLink.supplier_id r1)
               (Builder.co_pairs links) = 1.
Proof.
  intros H1 H2 C N.
  set (a := SourcingLink.supplier_id r1) in *.
  set (b := SourcingLink.supplier_id r2) in *.
  assert (Hin : In (Py.sorted_pair a b) (Builder.co_pairs links)).
  { apply co_pairs_In. exists (SourcingLink.component_id r1).
    pose proof (sups_of_In r1 links H1) as Ha.
    pose proof (sups_of_In r2 links H2) as Hb. rewrite <- C in Hb.
    destruct (pairs_distinct _ _ _ Ha Hb N) as [P|P].
    - exists a, b. auto.
    - exists b, a. split; auto. apply sorted_pair_comm. }
  pose proof (co_pairs_NoDup links) as ND.
  destruct (sorted_pair_cases a b) as [E|E]; rewrite E in Hin.
  - rewrite (pair_count_NoDup _ _ ND Hin), pair_count_notin; auto.
    intros Hba. apply co_pairs_sorted in Hba. apply co_pairs_sorted in Hin.
    simpl in *. apply N. now apply ltb_total.
  - rewrite (pair_count_NoDup (b, a) _ ND Hin), pair_count_notin; auto.
    intros Hab. apply co_pairs_sorted in Hab. apply co_pairs_sorted in Hin.
    simpl in *. apply N. now apply ltb_total.
Qed.

(** A supplier listed twice under one component is paired with itself. *)
Lemma co_pairs_repeat l1 r1 l2 r2 l3 s :
  SourcingLink.supplier_id r1 = s -> SourcingLink.supplier_id r2 = s ->
  SourcingLink.component_id r1 = SourcingLink.component_id r2 ->
  In (s, s) (Builder.co_pairs (l1 ++ r1 :: l2 ++ r2 :: l3)).
Proof.
  intros S1 S2 C.
  apply co_pairs_In. exists (SourcingLink.component_id r1), s, s.
  split; [|now rewrite sorted_pair_same].
  unfold sups_of. rewrite filter_app. simpl.
  rewrite String.eqb_refl, filter_app. simpl.
  rewrite <- C, String.eqb_refl. rewrite !map_app. simpl. rewrite map_app.
  simpl. rewrite S1, S2. apply pairs_repeat.
Qed.

(** *** The set [tw] *)

Lemma tw_pairs_In bn rows a b : forall acc,
  In (a, b)
     (fold_left
        (fun tw row =>
           match Dict.get (Route.origin_country row) bn,
                 Dict.get (Route.destination_country row) bn with
           | Some oc2, Some dc2 =>
               if Py.truthy_str oc2 && Py.truthy_str dc2
               then Py.set_add (oc2, dc2) tw else tw
           | _, _ => tw
           end) rows acc)
  <-> In (a, b) acc \/ observed bn rows a b = true.
Proof.
  induction rows as [|row t IH]; intros acc; simpl.
  - split; auto. intros [H|H]; auto. discriminate.
  - rewrite IH, orb_true_iff.
    destruct (Dict.get (Route.origin_country row) bn) as [o|];
      [|split; [intros [H|H]; auto | intros [H|[H|H]]; auto; discriminate]].
    destruct (Dict.get (Route.destination_country row) bn) as [e|];
      [|split; [intros [H|H]; auto | intros [H|[H|H]]; auto; discriminate]].
    destruct (Py.truthy_str o && Py.truthy_str e); simpl;
      [|split; [intros [H|H]; auto | intros [H|[H|H]]; auto; discriminate]].
    rewrite set_add_In, andb_true_iff, !String.eqb_eq. split.
    + intros [[[= -> ->]|H]|H]; auto.
    + intros [H|[[-> ->]|H]]; auto.
Qed.

Lemma tw_pairs_NoDup bn rows : NoDup (Builder.tw_pairs bn rows).
Proof.
  unfold Builder.tw_pairs. generalize (@nil (string * string)) (NoDup_nil (string * string)).
  induction rows as [|row t IH]; intros acc N; simpl; auto.
  apply IH.
  destruct (Dict.get (Route.origin_country row) bn) as [o|]; auto.
  destruct (Dict.get (Route.destination_country row) bn) as [e|]; auto.
  destruct (Py.truthy_str o && Py.truthy_str e); auto.
  now apply set_add_NoDup.
Qed.

Lemma tw_pairs_count bn rows a b :
  pair_count (a, b) (Builder.tw_pairs bn rows)
  = if observed bn rows a b then 1 else 0.
Proof.
  pose proof (tw_pairs_In bn rows a b []) as H.
  fold (Builder.tw_pairs bn rows) in H.
  destruct (observed bn rows a b).
  - apply pair_count_NoDup; [apply tw_pairs_NoDup|]. apply H. now right.
  - apply pair_count_notin. intros Hin. apply H in Hin as [[]|Hin].
    discriminate.
Qed.

Lemma observed_resolved bn rows a b :
  observed bn rows a b = true ->
  exists n1 n2, Dict.get n1 bn = Some a /\ Dict.get n2 bn = Some b.
Proof.
  unfold observed. intros H. apply existsb_exists in H as (row & _ & H).
  destruct (Dict.get (Route.origin_country row) bn) as [o|] eqn:E1;
    [|discriminate].
  destruct (Dict.get (Route.destination_country row) bn) as [e|] eqn:E2;
    [|discriminate].
  apply andb_true_iff in H as [H Hb]. apply andb_true_iff in H as [_ Ha].
  apply String.eqb_eq in Ha, Hb. subst. eauto.
Qed.

End PairFacts.

(** ** Edge counts of a finished build *)

Section EdgeClaims.
Import Trace NodeLoops Count.
Context {K : Np.Kernel} (rt : Py.Runtime).

Lemma build_has_node dd (self : @Builder.KnowledgeGraphBuilder K) out d n :
  Builder.build rt (Builder.__init__ dd) = Py.Ok (self, out) ->
  Builder._data self = Some d ->
  (Nx.has_node (Builder.G self) n = true <-> In n (Obs.all_ids d)).
Proof.
  intros B D. destruct (build_nodes rt dd self out d B D) as (N & _).
  unfold Nx.has_node. rewrite N.
  fold (Nx.has_node (nodes_graph rt d Nx.empty) n).
  rewrite nodes_graph_has. split; [intros [H|H] | auto]; auto.
  discriminate.
Qed.

(** The edges of a relation between two nodes are the candidates of
    that relation between them. *)
Lemma build_edge_count dd (self : @Builder.KnowledgeGraphBuilder K) out d r u v :
  Builder.build rt (Builder.__init__ dd) = Py.Ok (self, out) ->
  Builder._data self = Some d ->
  Obs.edge_count (Builder.G self) r u v
  = if Nx.has_node (Builder.G self) u && Nx.has_node (Builder.G self) v
    then rel_count r u v (all_cands d (country_by_name (countries d) []))
    else 0.
Proof.
  intros B D. destruct (build_nodes rt dd self out d B D) as (N & _ & P & _).
  rewrite edge_count_tags, (Permutation_filter_length _ _ _ P), count_ctags,
    rel_count_guard.
  unfold Nx.has_node. now rewrite N.
Qed.

Lemma by_name_is_node dd (self : @Builder.KnowledgeGraphBuilder K) out d name c :
  Builder.build rt (Builder.__init__ dd) = Py.Ok (self, out) ->
  Builder._data self = Some d ->
  Dict.get name (country_by_name (countries d) []) = Some c ->
  Nx.has_node (Builder.G self) c = true.
Proof.
  intros B D H. apply (build_has_node dd self out d c B D).
  apply country_by_name_value in H as [H|H]; [|discriminate].
  unfold Obs.all_ids, Obs.country_ids. rewrite !in_app_iff. auto.
Qed.

End EdgeClaims.

(** C3. After [build], two different suppliers that are both nodes and
    are listed in the sourcing links under one component are joined by
    exactly one co_supplier edge in each direction, however many
    components they share; and for any two nodes there are as many
    co_supplier edges one way as the other. *)
Theorem C3_co_supplier_pairs {K : Np.Kernel} (rt : Py.Runtime) (dd : DataDir)
    (self : @Builder.KnowledgeGraphBuilder K) (out : @Builder.Output K)
    (d : Data) :
  Builder.build rt (Builder.__init__ dd) = Py.Ok (self, out) ->
  Builder._data self = Some d ->
  (forall r1 r2,
     In r1 (sourcing_links d) -> In r2 (sourcing_links d) ->
     SourcingLink.component_id r1 = SourcingLink.component_id r2 ->
     SourcingLink.supplier_id r1 <> SourcingLink.supplier_id r2 ->
     Nx.has_node (Builder.G self) (SourcingLink.supplier_id r1) = true ->
     Nx.has_node (Builder.G self) (SourcingLink.supplier_id r2) = true ->
     Obs.edge_count (Builder.G self) "co_supplier"
       (SourcingLink.supplier_id r1) (SourcingLink.supplier_id r2) = 1
     /\ Obs.edge_count (Builder.G self) "co_supplier"
          (SourcingLink.supplier_id r2) (SourcingLink.supplier_id r1) = 1)
  /\ (forall u v,
        Obs.edge_count (Builder.G self) "co_supplier" u v
        = Obs.edge_count (Builder.G self) "co_supplier" v u).
Proof.
  intros B D. split.
  - intros r1 r2 H1 H2 C N Hu Hv.
    rewrite !(build_edge_count rt dd self out d _ _ _ B D), Hu, Hv. simpl.
    rewrite !rel_count_all_co.
    pose proof (co_pairs_count _ r1 r2 H1 H2 C N). lia.
  - intros u v.
    rewrite !(build_edge_count rt dd self out d _ _ _ B D), !rel_count_all_co.
    rewrite (andb_comm (Nx.has_node (Builder.G self) v)).
    destruct (_ && _); lia.
Qed.

(** C4. After [build], the trades_with edges are the different
    (origin country id, destination country id) pairs of the routes,
    both names resolved to non-empty identifiers: one edge from [a] to
    [b] when some route runs from [a] to [b], none otherwise; the two
    orderings of a pair are different pairs, so routes both ways give
    both edges. *)
Theorem C4_trades_with_pairs {K : Np.Kernel} (rt : Py.Runtime) (dd : DataDir)
    (self : @Builder.KnowledgeGraphBuilder K) (out : @Builder.Output K)
    (d : Data) :
  Builder.build rt (Builder.__init__ dd) = Py.Ok (self, out) ->
  Builder._data self = Some d ->
  let bn := Builder.by_name_map (Builder.id_maps self) in
  bn = NodeLoops.country_by_name (countries d) []
  /\ (forall a b,
        Obs.edge_count (Builder.G self) "trades_with" a b
        = if Count.observed bn (routes d) a b then 1 else 0)
  /\ (forall a b,
        Count.observed bn (routes d) a b = true ->
        Count.observed bn (routes d) b a = true ->
        Obs.edge_count (Builder.G self) "trades_with" a b = 1
        /\ Obs.edge_count (Builder.G self) "trades_with" b a = 1).
Proof.
  intros B D bn.
  assert (E : bn = NodeLoops.country_by_name (countries d) []).
  { unfold bn. destruct (build_nodes rt dd self out d B D) as (_ & _ & _ & M).
    rewrite M. apply nodes_maps_by_name. }
  assert (C : forall a b,
            Obs.edge_count (Builder.G self) "trades_with" a b
            = if Count.observed bn (routes d) a b then 1 else 0).
  { intros a b.
    rewrite (build_edge_count rt dd self out d _ _ _ B D), rel_count_all_tw,
      tw_pairs_count, <- E.
    destruct (Count.observed bn (routes d) a b) eqn:O;
      [|now destruct (_ && _)].
    apply observed_resolved in O as (n1 & n2 & G1 & G2). rewrite E in G1, G2.
    rewrite (by_name_is_node rt dd self out d n1 a B D G1),
      (by_name_is_node rt dd self out d n2 b B D G2). reflexivity. }
  split; [exact E|]. split; [exact C|].
  intros a b O1 O2. rewrite !C, O1, O2. auto.
Qed.

(** C10, as amended.  After [build], if two rows of the sourcing links
    pair the same supplier with the same component, the pair of the
    supplier with itself is in the set of co-supplier pairs, and if the
    supplier is a node the graph has two co_supplier edges from that
    supplier to itself. *)
Theorem C10_duplicate_link_self_loops {K : Np.Kernel} (rt : Py.Runtime)
    (dd : DataDir) (self : @Builder.KnowledgeGraphBuilder K)
    (out : @Builder.Output K) (d : Data)
    (l1 l2 l3 : list SourcingLink.row) (r1 r2 : SourcingLink.row) (s : string) :
  Builder.build rt (Builder.__init__ dd) = Py.Ok (self, out) ->
  Builder._data self = Some d ->
  sourcing_links d = l1 ++ r1 :: l2 ++ r2 :: l3 ->
  SourcingLink.supplier_id r1 = s ->
  SourcingLink.supplier_id r2 = s ->
  SourcingLink.component_id r1 = SourcingLink.component_id r2 ->
  Nx.has_node (Builder.G self) s = true ->
  In (s, s) (Builder.co_pairs (sourcing_links d))
  /\ Obs.edge_count (Builder.G self) "co_supplier" s s = 2.
Proof.
  intros B D L S1 S2 C Hs.
  pose proof (co_pairs_repeat l1 r1 l2 r2 l3 s S1 S2 C) as P.
  rewrite <- L in P. split; [exact P|].
  rewrite (build_edge_count rt dd self out d _ _ _ B D), Hs. simpl.
  rewrite rel_count_all_co.
  rewrite (pair_count_NoDup _ _ (co_pairs_NoDup _) P). reflexivity.
Qed.

(** ** The co-supplier loops on supplier cells that may be empty *)

Section CellFacts.

Lemma get_map_values {V W} (f : V -> W) k (d : Dict.dict V) :
  Dict.get k (map (fun kv => (fst kv, f (snd kv))) d)
  = option_map f (Dict.get k d).
Proof.
  induction d as [|[k' v] t IH]; simpl; [reflexivity|].
  now destruct (String.eqb k' k).
Qed.

Lemma set_map_values {V W} (f : V -> W) k v (d : Dict.dict V) :
  Dict.set k (f v) (map (fun kv => (fst kv, f (snd kv))) d)
  = map (fun kv => (fst kv, f (snd kv))) (Dict.set k v d).
Proof.
  induction d as [|[k' v'] t IH]; simpl; [reflexivity|].
  destruct (String.eqb k' k); simpl; [reflexivity|]. now rewrite IH.
Qed.

(** The supplier cell and the component identifier of a link whose
    supplier cell holds text. *)
Lemma comp_to_cells_text (links : list SourcingLink.row) :
  Builder.comp_to_cells
    (map (fun row => (Py.Text (SourcingLink.supplier_id row),
                      SourcingLink.component_id row)) links)
  = map (fun kv => (fst kv, map Py.Text (snd kv)))
        (Builder.comp_to_sups links).
Proof.
  unfold Builder.comp_to_cells, Builder.comp_to_sups.
  change (@nil (string * list Py.cell))
    with (map (fun kv : string * list string =>
                 (fst kv, map Py.Text (snd kv))) []).
  generalize (@nil (string * list string)).
  induction links as [|row t IH]; intros d; simpl; [reflexivity|].
  rewrite <- IH. f_equal.
  unfold Dict.get_default. rewrite get_map_values.
  rewrite <- set_map_values. f_equal.
  destruct (Dict.get (SourcingLink.component_id row) d); simpl;
    now rewrite ?map_app.
Qed.

Lemma cell_pairs_text (sups : list string) :
  Builder.cell_pairs (map Py.Text sups)
  = map (fun ab => (Py.Text (fst ab), Py.Text (snd ab))) (Builder.pairs sups).
Proof.
  induction sups as [|a t IH]; simpl; [reflexivity|].
  now rewrite map_app, !map_map, IH.
Qed.

Lemma sorted_cells_text a b :
  Py.sorted_cells (Py.Text a) (Py.Text b)
  = Py.Ok (Py.Text (fst (Py.sorted_pair a b)),
           Py.Text (snd (Py.sorted_pair a b))).
Proof.
  unfold Py.sorted_cells, Py.sorted_pair. now destruct (String.ltb b a).
Qed.

(** On links whose supplier cells all hold text the loops do not raise:
    the tuples handed to [co.add] are the sorted pairs of the text
    model, and the set [co] is made of them. *)
Lemma co_added_text (links : list SourcingLink.row) :
  exists l,
    Builder.co_added
      (map (fun row => (Py.Text (SourcingLink.supplier_id row),
                        SourcingLink.component_id row)) links)
    = Py.Ok (map (fun p => (Py.Text (fst p), Py.Text (snd p))) l)
    /\ Builder.co_pairs links
       = fold_left (fun co p => Py.set_add p co) l [].
Proof.
  unfold Builder.co_added, Builder.co_pairs.
  rewrite comp_to_cells_text. unfold Dict.values. rewrite map_map. simpl.
  rewrite <- (map_map snd (map Py.Text)).
  change (@nil (Py.cell * Py.cell))
    with (map (fun p : string * string =>
                 (Py.Text (fst p), Py.Text (snd p))) []).
  assert (G : forall groups acc,
            exists l,
              Py.for_each
                (fun added sups =>
                   Py.for_each
                     (fun added ab =>
                        Py.bind (Py.sorted_cells (fst ab) (snd ab))
                                (fun p => Py.Ok (added ++ [p])))
                     (Builder.cell_pairs sups) added)
                (map (map Py.Text) groups)
                (map (fun p => (Py.Text (fst p), Py.Text (snd p))) acc)
              = Py.Ok (map (fun p => (Py.Text (fst p), Py.Text (snd p)))
                           (acc ++ l))
              /\ forall co,
                   fold_left
                     (fun co sups =>
                        fold_left
                          (fun co ab =>
                             Py.set_add (Py.sorted_pair (fst ab) (snd ab)) co)
                          (Builder.pairs sups) co)
                     groups co
                   = fold_left (fun co p => Py.set_add p co) l co).
  { induction groups as [|sups t IH]; intros acc.
    - exists []. rewrite app_nil_r. split; reflexivity.
    - simpl. rewrite cell_pairs_text.
      assert (I : forall ps acc,
                Py.for_each
                  (fun added ab =>
                     Py.bind (Py.sorted_cells (fst ab) (snd ab))
                             (fun p => Py.Ok (added ++ [p])))
                  (map (fun ab => (Py.Text (fst ab), Py.Text (snd ab))) ps)
                  (map (fun p => (Py.Text (fst p), Py.Text (snd p))) acc)
                = Py.Ok (map (fun p => (Py.Text (fst p), Py.Text (snd p)))
                             (acc ++ map (fun ab =>
                                            Py.sorted_pair (fst ab) (snd ab))
                                         ps))).
      { induction ps as [|[x y] ps IHp]; intros acc0;
          cbn [map Py.for_each fst snd].
        - now rewrite app_nil_r.
        - rewrite sorted_cells_text. cbn [Py.bind].
          change [(Py.Text (fst (Py.sorted_pair x y)),
                   Py.Text (snd (Py.sorted_pair x y)))]
            with (map (fun p : string * string =>
                         (Py.Text (fst p), Py.Text (snd p)))
                      [Py.sorted_pair x y]).
          rewrite <- map_app, IHp, <- app_assoc. reflexivity. }
      rewrite I. simpl.
      destruct (IH (acc ++ map (fun ab => Py.sorted_pair (fst ab) (snd ab))
                                (Builder.pairs sups))) as (l & E & F).
      exists (map (fun ab => Py.sorted_pair (fst ab) (snd ab))
                  (Builder.pairs sups) ++ l).
      rewrite E, <- app_assoc. split; [reflexivity|].
      intros co. rewrite fold_left_app, F. f_equal.
      generalize (Builder.pairs sups) co.
      intros ps. induction ps as [|ab ps IHp]; intros co0; simpl; auto. }
  destruct (G (map snd (Builder.comp_to_sups links)) []) as (l & E & F).
  exists l. split; [exact E | apply F].
Qed.

End CellFacts.

(** C5, at the input where the build stops.  Two sourcing links name
    the component CMP-0001; the supplier cell of the first holds
    SUP-0001 and the one of the second is empty, a reference to no
    supplier.  The loops that collect the co-supplier pairs raise
    [TypeError] when they sort the two cells, before any guard on the
    graph is reached; with text in both cells they return. *)
Theorem C5_missing_supplier_raises :
  Builder.co_added [(Py.Text "SUP-0001", "CMP-0001"); (Py.Empty, "CMP-0001")]
  = Py.Raise Py.TypeError
  /\ Builder.co_added
       [(Py.Text "SUP-0001", "CMP-0001"); (Py.Text "SUP-0404", "CMP-0001")]
     = Py.Ok [(Py.Text "SUP-0001", Py.Text "SUP-0404")].
Proof. split; reflexivity. Qed.

(** ** Types of edge endpoints *)

Section TypeFacts.
Import Trace NodeLoops Count Input.
Context (rt : Py.Runtime).

Lemma listed_In n l : listed n l = true <-> In n l.
Proof.
  unfold listed. rewrite existsb_exists. split.
  - intros (x & H & E). apply String.eqb_eq in E. now subst.
  - intros H. exists n. split; auto. apply String.eqb_refl.
Qed.

Lemma filter_two {A} (f : A -> bool) (l : list A) a b :
  In a l -> In b l -> f a = true -> f b = true -> a <> b ->
  2 <= List.length (filter f l).
Proof.
  induction l as [|x t IH]; [intros []|].
  intros Ha Hb Fa Fb N. simpl.
  assert (Hpos : forall y, In y t -> f y = true ->
                   1 <= List.length (filter f t)).
  { intros y Hy Fy.
    assert (H : In y (filter f t)) by (apply filter_In; auto).
    destruct (filter f t); [destruct H | simpl; lia]. }
  destruct Ha as [->|Ha], Hb as [->|Hb].
  - contradiction.
  - rewrite Fa. simpl. specialize (Hpos b Hb Fb). lia.
  - rewrite Fb. simpl. specialize (Hpos a Ha Fa). lia.
  - specialize (IH Ha Hb Fa Fb N). destruct (f x); simpl; lia.
Qed.

Lemma ids_of_type_all d t n :
  In n (Obs.ids_of_type d t) -> In n (Obs.all_ids d).
Proof.
  unfold Obs.ids_of_type, Obs.all_ids. rewrite !in_app_iff.
  repeat match goal with
         | |- context [if ?b then _ else _] => destruct b; [tauto|]
         end.
  intros [].
Qed.

(** An identifier belongs to one type at most. *)
Lemma owner_unique d t1 t2 n :
  cross_disjoint d = true ->
  In t1 Obs.node_types -> In t2 Obs.node_types ->
  In n (Obs.ids_of_type d t1) -> In n (Obs.ids_of_type d t2) -> t1 = t2.
Proof.
  intros C T1 T2 H1 H2.
  destruct (string_dec t1 t2) as [E|N]; auto. exfalso.
  unfold cross_disjoint in C. rewrite forallb_forall in C.
  specialize (C n (ids_of_type_all d t1 n H1)).
  apply Nat.leb_le in C.
  assert (2 <= List.length (owners d n)); [|lia].
  unfold owners. apply (filter_two _ _ t1 t2); auto; now apply listed_In.
Qed.

(** With types that share no identifier, a node has the type of its
    table. *)
Lemma typed_node d t n :
  cross_disjoint d = true ->
  In t Obs.node_types -> In n (Obs.ids_of_type d t) ->
  Obs.node_type (nodes_graph rt d Nx.empty) n = Some (Py.VStr t).
Proof.
  intros C T H. rewrite (nodes_graph_type rt d _ n wf_empty).
  assert (U : forall t', In t' Obs.node_types ->
                listed n (Obs.ids_of_type d t') = true -> t' = t).
  { intros t' T' L. apply listed_In in L.
    now apply (owner_unique d t' t n). }
  fold (listed n (Obs.route_ids d)) (listed n (Obs.contract_ids d))
    (listed n (Obs.country_ids d)) (listed n (Obs.component_ids d))
    (listed n (Obs.supplier_ids d)).
  destruct (listed n (Obs.route_ids d)) eqn:E5.
  { rewrite <- (U "route"); auto. simpl. tauto. }
  destruct (listed n (Obs.contract_ids d)) eqn:E4.
  { rewrite <- (U "contract"); auto. simpl. tauto. }
  destruct (listed n (Obs.country_ids d)) eqn:E3.
  { rewrite <- (U "country"); auto. simpl. tauto. }
  destruct (listed n (Obs.component_ids d)) eqn:E2.
  { rewrite <- (U "component"); auto. simpl. tauto. }
  destruct (listed n (Obs.supplier_ids d)) eqn:E1.
  { rewrite <- (U "supplier"); auto. simpl. tauto. }
  exfalso. apply listed_In in H. simpl in T.
  destruct T as [<-|[<-|[<-|[<-|[<-|[]]]]]];
    unfold Obs.ids_of_type in H; simpl in H; congruence.
Qed.

Lemma ref_ok_In d n target :
  ref_ok d n target = true -> In n (Obs.all_ids d) -> In n target.
Proof.
  unfold ref_ok. intros H Hin. apply listed_In in Hin. rewrite Hin in H.
  simpl in H. now apply listed_In.
Qed.

Lemma guard_all_ids d c :
  guard (nodes_graph rt d Nx.empty) c = true ->
  In (fst (fst c)) (Obs.all_ids d) /\ In (snd (fst c)) (Obs.all_ids d).
Proof.
  unfold guard. intros H. apply andb_true_iff in H as [Hu Hv].
  apply nodes_graph_has in Hu as [Hu|Hu]; [|discriminate].
  apply nodes_graph_has in Hv as [Hv|Hv]; [|discriminate]. auto.
Qed.

Lemma opt_cand_dst u name bn r c :
  In c (opt_cand u (Dict.get name bn) r) ->
  fst (fst c) = u /\ snd c = r /\ Dict.get name bn = Some (snd (fst c)).
Proof.
  unfold opt_cand. destruct (Dict.get name bn) as [x|]; [|intros []].
  destruct (Py.truthy_str x); [|intros []].
  intros [<-|[]]. auto.
Qed.

Lemma by_name_country d name c :
  Dict.get name (country_by_name (countries d) []) = Some c ->
  In c (Obs.country_ids d).
Proof.
  intros H. apply country_by_name_value in H as [H|H]; [exact H|discriminate].
Qed.

(** Every guarded candidate has a relation of the catalog and ends in
    the tables of the declared types. *)
Lemma cand_signature d c :
  typed_refs d = true ->
  In c (all_cands d (country_by_name (countries d) [])) ->
  guard (nodes_graph rt d Nx.empty) c = true ->
  exists s t,
    In {| Schema.src := s; Schema.relation := snd c; Schema.dst := t |}
       Schema.EDGE_TYPES
    /\ In s Obs.node_types /\ In t Obs.node_types
    /\ In (fst (fst c)) (Obs.ids_of_type d s)
    /\ In (snd (fst c)) (Obs.ids_of_type d t).
Proof.
  intros R Hc Hg. apply guard_all_ids in Hg as [Hu Hv].
  unfold typed_refs in R.
  apply andb_true_iff in R as [R R3]. apply andb_true_iff in R as [R1 R2].
  rewrite forallb_forall in R1, R2, R3.
  unfold all_cands in Hc.
  apply in_app_or in Hc as [Hc|Hc].
  { unfold supplies_cands in Hc. apply in_map_iff in Hc as (row & <- & Hr).
    simpl in *. specialize (R1 row Hr).
    apply andb_true_iff in R1 as [A B].
    exists "supplier", "component". simpl.
    pose proof (ref_ok_In _ _ _ A Hu). pose proof (ref_ok_In _ _ _ B Hv).
    tauto. }
  apply in_app_or in Hc as [Hc|Hc].
  { apply in_flat_map in Hc as (row & Hr & Hc).
    apply opt_cand_dst in Hc as (E1 & E2 & E3).
    exists "supplier", "country". rewrite E1, E2. simpl.
    apply by_name_country in E3.
    assert (In (Supplier.supplier_id row) (Obs.supplier_ids d))
      by now apply in_map.
    tauto. }
  apply in_app_or in Hc as [Hc|Hc].
  { apply in_flat_map in Hc as (row & Hr & Hc).
    specialize (R2 row Hr). apply andb_true_iff in R2 as [A B].
    assert (In (Contract.contract_id row) (Obs.contract_ids d))
      by now apply in_map.
    destruct Hc as [<-|[<-|[]]]; simpl in *.
    - exists "contract", "component". simpl.
      pose proof (ref_ok_In _ _ _ B Hv). tauto.
    - exists "contract", "supplier". simpl.
      pose proof (ref_ok_In _ _ _ A Hv). tauto. }
  apply in_app_or in Hc as [Hc|Hc].
  { apply in_flat_map in Hc as (row & Hr & Hc).
    specialize (R3 row Hr).
    assert (In (Route.route_id row) (Obs.route_ids d)) by now apply in_map.
    unfold route_cand in Hc.
    apply in_app_or in Hc as [Hc|Hc].
    { apply opt_cand_dst in Hc as (E1 & E2 & E3).
      exists "route", "country". rewrite E1, E2. simpl.
      apply by_name_country in E3. tauto. }
    apply in_app_or in Hc as [Hc|Hc].
    { apply opt_cand_dst in Hc as (E1 & E2 & E3).
      exists "route", "country". rewrite E1, E2. simpl.
      apply by_name_country in E3. tauto. }
    destruct Hc as [<-|[]]. simpl in *.
    exists "route", "component". simpl.
    pose proof (ref_ok_In _ _ _ R3 Hv). tauto. }
  apply in_app_or in Hc as [Hc|Hc].
  { apply in_flat_map in Hc as (p & Hp & Hc).
    apply co_pairs_In in Hp as (k & a & b & Hab & ->).
    apply pairs_In_both in Hab as [Ha Hb].
    apply sups_of_inv in Ha as (ra & Hra & <- & _).
    apply sups_of_inv in Hb as (rb & Hrb & <- & _).
    pose proof (R1 ra Hra) as A. apply andb_true_iff in A as [A _].
    pose proof (R1 rb Hrb) as B. apply andb_true_iff in B as [B _].
    exists "supplier", "supplier".
    destruct (sorted_pair_cases (SourcingLink.supplier_id ra)
                (SourcingLink.supplier_id rb)) as [E|E];
      rewrite E in Hc; destruct Hc as [<-|[<-|[]]]; simpl in *;
      pose proof (ref_ok_In _ _ _ A); pose proof (ref_ok_In _ _ _ B);
      tauto. }
  apply in_flat_map in Hc as ([a b] & Hp & Hc).
  apply (proj1 (tw_pairs_In _ _ a b [])) in Hp as [[]|Hp].
  apply observed_resolved in Hp as (n1 & n2 & G1 & G2).
  apply by_name_country in G1, G2.
  destruct Hc as [<-|[]]. simpl in *.
  exists "country", "country". simpl. tauto.
Qed.

Lemma node_type_node g g' n :
  Nx._node g = Nx._node g' -> Obs.node_type g n = Obs.node_type g' n.
Proof. intros E. unfold Obs.node_type. now rewrite E. Qed.

(** A relation names one entry of the catalog. *)
Lemma relation_unique e1 e2 :
  In e1 Schema.EDGE_TYPES -> In e2 Schema.EDGE_TYPES ->
  Schema.relation e1 = Schema.relation e2 -> e1 = e2.
Proof.
  intros H1 H2 E. simpl in H1, H2.
  repeat (destruct H1 as [<-|H1];
          [repeat (destruct H2 as [<-|H2];
                   [first [reflexivity | discriminate E]|]);
           destruct H2|]).
  destruct H1.
Qed.

End TypeFacts.

(** C6, as amended.  After [build] on tables in which no identifier is
    shared by two node types and in which every supplier or component
    reference of the sourcing links, the contracts and the routes names
    a key of its own table (or no node), every edge whose relation is
    one of the nine of the catalog has a source node of the declared
    source type and a destination node of the declared destination
    type. *)
Theorem C6_typed_endpoints {K : Np.Kernel} (rt : Py.Runtime) (dd : DataDir)
    (self : @Builder.KnowledgeGraphBuilder K) (out : @Builder.Output K)
    (d : Data) :
  Builder.build rt (Builder.__init__ dd) = Py.Ok (self, out) ->
  Builder._data self = Some d ->
  Input.cross_disjoint d = true ->
  Input.typed_refs d = true ->
  Bundle.well_typed (Builder.G self).
Proof.
  intros B D C R u v a et Hin Het Hrel.
  destruct (build_nodes rt dd self out d B D) as (N & _ & P & _).
  assert (Ht : In (Trace.tag (u, v, a))
                  (map Trace.tag (Nx.edges (Builder.G self))))
    by now apply in_map.
  apply (Permutation_in _ P) in Ht.
  apply in_map_iff in Ht as (c & Ec & Hc).
  apply filter_In in Hc as [Hc Hg].
  unfold Trace.tag, Trace.ctag in Ec. simpl in Ec.
  inversion Ec as [[Eu Ev Er]]. rewrite <- Er in Hrel. simpl in Hrel.
  apply String.eqb_eq in Hrel.
  destruct (cand_signature rt d c R Hc Hg) as (s & t & He & Hs & Ht & Hu & Hv).
  assert (E : {| Schema.src := s; Schema.relation := snd c; Schema.dst := t |}
              = et) by (apply relation_unique; auto).
  subst et. simpl.
  rewrite !(node_type_node _ _ _ N).
  split; apply typed_node; congruence.
Qed.

(** ** The tensor bundle *)

Section BundleFacts.
Import Trace NodeLoops Attrs Bundle.
Context {K : Np.Kernel} (rt : Py.Runtime).

Lemma key_eqb_eq a b : key_eqb a b = true <-> a = b.
Proof.
  destruct a as [[a1 a2] a3], b as [[b1 b2] b3]. unfold key_eqb. simpl.
  rewrite !andb_true_iff, !String.eqb_eq.
  split; [intros [[-> ->] ->] | intros [=]]; auto.
Qed.

Lemma lookup_app k acc k' v :
  lookup k (acc ++ [(k', v)])
  = match lookup k acc with
    | Some w => Some w
    | None => if key_eqb k' k then Some v else None
    end.
Proof.
  induction acc as [|[k0 v0] t IH]; simpl; auto.
  now destruct (key_eqb k0 k).
Qed.

Lemma add_edge_index_key (self : @Builder.KnowledgeGraphBuilder K) ei def k :
  lookup k (Builder.add_edge_index self ei def)
  = match lookup k ei with
    | Some w => Some w
    | None =>
        if key_eqb (key_of def) k then
          match Builder.resolved_edges self def with
          | [] => None
          | es => Some (map fst es, map snd es)
          end
        else None
    end.
Proof.
  destruct def as [[r s] t]. unfold Builder.add_edge_index, key_of.
  cbn [fst snd].
  destruct (Builder.resolved_edges self (r, s, t)) as [|e es].
  - destruct (lookup k ei); auto. now destruct (key_eqb (s, r, t) k).
  - apply lookup_app.
Qed.

Lemma fold_edge_index_old (self : @Builder.KnowledgeGraphBuilder K) defs k w :
  forall ei, lookup k ei = Some w ->
    lookup k (fold_left (Builder.add_edge_index self) defs ei) = Some w.
Proof.
  induction defs as [|def tl IH]; intros ei H; simpl; auto.
  apply IH. now rewrite add_edge_index_key, H.
Qed.

Lemma fold_edge_index_other (self : @Builder.KnowledgeGraphBuilder K) defs k :
  ~ In k (map key_of defs) ->
  forall ei, lookup k (fold_left (Builder.add_edge_index self) defs ei)
             = lookup k ei.
Proof.
  induction defs as [|def tl IH]; intros N ei; simpl; auto.
  rewrite IH by (intros H; apply N; now right).
  rewrite add_edge_index_key. destruct (lookup k ei); auto.
  destruct (key_eqb (key_of def) k) eqn:E; auto.
  apply key_eqb_eq in E. exfalso. apply N. now left.
Qed.

(** The bundle has an entry for a relation exactly when some edge
    resolved, and the entry is the list of resolved index pairs. *)
Lemma fold_edge_index (self : @Builder.KnowledgeGraphBuilder K) defs def :
  NoDup (map key_of defs) -> In def defs ->
  forall ei, lookup (key_of def) ei = None ->
    lookup (key_of def) (fold_left (Builder.add_edge_index self) defs ei)
    = match Builder.resolved_edges self def with
      | [] => None
      | es => Some (map fst es, map snd es)
      end.
Proof.
  induction defs as [|d0 tl IH]; intros N H ei Hn; [destruct H|].
  simpl. inversion N; subst.
  destruct H as [->|H].
  - rewrite fold_edge_index_other by assumption.
    rewrite add_edge_index_key, Hn.
    assert (E : key_eqb (key_of def) (key_of def) = true)
      by now apply key_eqb_eq.
    now rewrite E.
  - apply IH; auto. rewrite add_edge_index_key, Hn.
    destruct (key_eqb (key_of d0) (key_of def)) eqn:E; auto.
    apply key_eqb_eq in E. exfalso. apply H2. rewrite E.
    now apply in_map.
Qed.

End BundleFacts.

(** ** Rows of the feature tensors and columns of the edge indices *)

Section ExportFacts.
Import Trace NodeLoops Attrs Bundle.
Context {K : Np.Kernel} (rt : Py.Runtime).

Lemma resolved_one r sm dm e :
  Builder.resolved r sm dm e
  = if resolves_in r sm dm e
    then match Dict.get (fst (fst e)) sm, Dict.get (snd (fst e)) dm with
         | Some i, Some j => [(i, j)]
         | _, _ => []
         end
    else [].
Proof. destruct e as [[u v] a]. reflexivity. Qed.

Lemma resolved_length r sm dm es :
  List.length (flat_map (Builder.resolved r sm dm) es)
  = List.length (filter (resolves_in r sm dm) es).
Proof.
  induction es as [|e t IH]; simpl; auto.
  rewrite length_app, IH, resolved_one.
  destruct (resolves_in r sm dm e) eqn:E; auto.
  unfold resolves_in in E.
  apply andb_true_iff in E as [E Hv]. apply andb_true_iff in E as [_ Hu].
  unfold Dict.mem in Hu, Hv.
  destruct (Dict.get (fst (fst e)) sm); [|discriminate].
  destruct (Dict.get (snd (fst e)) dm); [|discriminate]. reflexivity.
Qed.

Lemma resolved_In r sm dm es i j :
  In (i, j) (flat_map (Builder.resolved r sm dm) es) ->
  (exists u, Dict.get u sm = Some i) /\ (exists v, Dict.get v dm = Some j).
Proof.
  intros H. apply in_flat_map in H as (e & _ & H).
  rewrite resolved_one in H.
  destruct (resolves_in r sm dm e); [|destruct H].
  destruct (Dict.get (fst (fst e)) sm) as [i'|] eqn:E1; [|destruct H].
  destruct (Dict.get (snd (fst e)) dm) as [j'|] eqn:E2; [|destruct H].
  destruct H as [[= <- <-]|[]]. eauto.
Qed.

Lemma resolved_resolving (self : @Builder.KnowledgeGraphBuilder K) r s t :
  List.length (Builder.resolved_edges self (r, s, t))
  = List.length (resolving self (r, s, t)).
Proof. unfold Builder.resolved_edges, resolving. apply resolved_length. Qed.

Lemma index_bound ids u i :
  Dict.get u (combine ids (seq 0 (List.length ids))) = Some i ->
  i < List.length (combine ids (seq 0 (List.length ids))).
Proof.
  intros H. apply get_In in H. apply in_combine_r in H. apply in_seq in H.
  rewrite length_combine, length_seq. lia.
Qed.

(** *** Nodes of a type *)

Lemma filter_typed {R} (nid : R -> string) attrs t0 t rows :
  (forall r, typed t0 (attrs r)) ->
  filter (fun nd => Py.eq_str (Dict.get "node_type" (snd nd)) t)
         (map (node_entry nid attrs) rows)
  = if String.eqb t0 t then map (node_entry nid attrs) rows else [].
Proof.
  intros T. induction rows as [|r tl IH]; simpl.
  - now destruct (String.eqb t0 t).
  - rewrite (typed_update t0 [] (attrs r) (T r)). simpl. rewrite IH.
    now destruct (String.eqb t0 t).
Qed.

Lemma nodes_of_type_fresh d t :
  NoDup (Obs.all_ids d) -> In t Obs.node_types ->
  List.length (Builder.nodes_of_type (nodes_graph rt d Nx.empty) t)
  = List.length (Obs.ids_of_type d t).
Proof.
  intros N T. unfold Builder.nodes_of_type, Nx.nodes.
  rewrite (nodes_graph_fresh rt d N), !filter_app.
  rewrite (filter_typed _ _ "supplier" t _ (typed_supplier rt)),
    (filter_typed _ _ "component" t _ (typed_component rt)),
    (filter_typed _ _ "country" t _ (typed_country rt)),
    (filter_typed _ _ "contract" t _ (typed_contract rt)),
    (filter_typed _ _ "route" t _ (typed_route rt)).
  unfold Obs.ids_of_type, Obs.supplier_ids, Obs.component_ids,
    Obs.country_ids, Obs.contract_ids, Obs.route_ids.
  simpl in T.
  destruct T as [<-|[<-|[<-|[<-|[<-|[]]]]]]; simpl;
    rewrite ?app_nil_r, !length_map; reflexivity.
Qed.

Lemma nodes_of_type_node g g' t :
  Nx._node g = Nx._node g' ->
  Builder.nodes_of_type g t = Builder.nodes_of_type g' t.
Proof. intros E. unfold Builder.nodes_of_type, Nx.nodes. now rewrite E. Qed.

Lemma eq_str_bools_to_int k a t :
  Py.eq_str (Dict.get k (Builder.bools_to_int a)) t
  = Py.eq_str (Dict.get k a) t.
Proof.
  unfold Builder.bools_to_int.
  induction a as [|[k0 v0] tl IH]; simpl; auto.
  destruct v0; simpl; destruct (String.eqb k0 k); auto.
Qed.

(** The GraphML copy has the nodes of the graph, with their types. *)
Lemma nodes_of_type_copy g t :
  List.length (Builder.nodes_of_type (Builder.graph_copy_int g) t)
  = List.length (Builder.nodes_of_type g t).
Proof.
  unfold Builder.nodes_of_type, Nx.nodes, Builder.graph_copy_int. simpl.
  rewrite filter_map_comm, length_map. simpl.
  f_equal. apply filter_ext. intros [n a]. simpl.
  apply eq_str_bools_to_int.
Qed.

(** *** The feature tensors *)

Lemma specs_keys_NoDup : NoDup (Dict.keys Schema.NODE_FEATURE_SPECS).
Proof.
  simpl. repeat (constructor; [simpl; intuition discriminate|]). constructor.
Qed.

Lemma edge_defs_keys_NoDup : NoDup (map key_of Builder.edge_defs).
Proof.
  simpl. repeat (constructor; [simpl; intuition discriminate|]). constructor.
Qed.

Lemma spec_of_type t :
  In t Obs.node_types ->
  exists names, Dict.get t Schema.NODE_FEATURE_SPECS = Some names.
Proof.
  simpl. intros [<-|[<-|[<-|[<-|[<-|[]]]]]]; simpl; eauto.
Qed.

(** The tensor of a type has one row per node of the type. *)
Lemma features_rows g t :
  In t Obs.node_types ->
  match Dict.get t (fold_left (features_step (K := K) rt g)
                              Schema.NODE_FEATURE_SPECS []) with
  | Some m => List.length m
  | None => 0
  end = List.length (Builder.nodes_of_type g t).
Proof.
  intros T. rewrite features_fold_get by apply specs_keys_NoDup.
  destruct (spec_of_type t T) as [names ->].
  pose proof (type_matrix_rows (K := K) rt g t names) as E.
  destruct (Builder.nodes_of_type g t); simpl in *; auto.
Qed.

Lemma edge_def_types r s t :
  In (r, s, t) Builder.edge_defs ->
  In s Obs.node_types /\ In t Obs.node_types.
Proof.
  simpl. intros H.
  repeat (destruct H as [[= <- <- <-]|H]; [simpl; tauto|]). destruct H.
Qed.

End ExportFacts.

(** C7, as amended.  After [build] on tables whose natural keys are
    pairwise different (within a type and across types), the two
    exports agree: for every node type the feature tensor (absent when
    the type has no node, which counts as no rows) has as many rows as
    the index map has entries and as the exported graph has nodes of
    the type; for every relation of the catalog the bundle has an
    edge-index entry exactly when some edge of the relation resolves in
    the index maps of its two types, the entry has two rows with one
    column per such edge, and every index in it is a row of the feature
    tensor of its type. *)
Theorem C7_exports_agree {K : Np.Kernel} (rt : Py.Runtime) (dd : DataDir)
    (self : @Builder.KnowledgeGraphBuilder K) (out : @Builder.Output K)
    (d : Data) (h : @Builder.HeteroData K) :
  Builder.build rt (Builder.__init__ dd) = Py.Ok (self, out) ->
  Builder._data self = Some d ->
  NoDup (Obs.all_ids d) ->
  Builder.pt out = Some h ->
  Bundle.consistent self out h.
Proof.
  intros B D N Hpt.
  destruct (build_nodes rt dd self out d B D) as (En & _ & _ & M).
  destruct (build_inv rt dd self out B) as (d0 & _ & D0 & _ & _ & F & Hh & ->).
  cbn [Builder.pt Builder._save] in Hpt.
  rewrite Hh in Hpt. unfold Builder._to_pyg in Hpt.
  destruct (negb (Py.has_torch_geometric rt)); [discriminate|].
  assert (Hx : Builder.x h = Dict.update [] (Builder.node_features self))
    by (inversion Hpt; reflexivity).
  assert (He : Builder.edge_index h
               = fold_left (Builder.add_edge_index self) Builder.edge_defs [])
    by (inversion Hpt; reflexivity).
  clear Hpt Hh.
  assert (X : forall t, In t Obs.node_types ->
            Bundle.rows h t = List.length (Obs.ids_of_type d t)).
  { intros t T. unfold Bundle.rows. rewrite Hx.
    rewrite update_nil_NoDup
      by (rewrite F; apply features_fold_keys; constructor).
    rewrite F, (features_rows rt _ t T).
    rewrite (nodes_of_type_node _ _ t En).
    now apply nodes_of_type_fresh. }
  assert (L : forall t, In t Obs.node_types ->
            List.length (Builder.index_map (Builder.id_maps self) t)
            = List.length (Obs.ids_of_type d t)).
  { intros t T. rewrite M, (index_map_fresh d t N T).
    rewrite length_combine, length_seq. lia. }
  split.
  - intros t T. rewrite (X t T), (L t T). split; [reflexivity|].
    cbn [Builder.graphml Builder._save].
    rewrite nodes_of_type_copy, (nodes_of_type_node _ _ t En).
    symmetry. now apply nodes_of_type_fresh.
  - intros r s t Hdef.
    destruct (edge_def_types r s t Hdef) as [Ts Tt].
    pose proof (fold_edge_index self Builder.edge_defs (r, s, t)
                  edge_defs_keys_NoDup Hdef [] eq_refl) as Hl.
    unfold Bundle.key_of in Hl. cbn [fst snd] in Hl.
    pose proof (resolved_resolving self r s t) as Hlen.
    rewrite He.
    destruct (Bundle.resolving self (r, s, t)) as [|e es] eqn:Er.
    + destruct (Builder.resolved_edges self (r, s, t)); [exact Hl|].
      discriminate.
    + destruct (Builder.resolved_edges self (r, s, t)) as [|p ps] eqn:Ee;
        [discriminate|].
      exists (map fst (p :: ps)), (map snd (p :: ps)).
      split; [exact Hl|]. rewrite !length_map.
      split; [exact Hlen|]. split; [exact Hlen|].
      rewrite (X s Ts), (X t Tt).
      split; intros i Hi; apply in_map_iff in Hi as ([a b] & <- & Hi);
        rewrite <- Ee in Hi; unfold Builder.resolved_edges in Hi;
        apply resolved_In in Hi as [[u Hu] [v Hv]]; cbn [fst snd].
      * rewrite M, (index_map_fresh d s N Ts) in Hu.
        apply index_bound in Hu.
        rewrite length_combine, length_seq in Hu. lia.
      * rewrite M, (index_map_fresh d t N Tt) in Hv.
        apply index_bound in Hv.
        rewrite length_combine, length_seq in Hv. lia.
Qed.

(** ** Runs on the small data directory *)

Lemma holds_dir_of d : Input.holds (Demo.dir_of d) d.
Proof. repeat split. Qed.

(** When the build on the directory of [d] returns, it returns
    [Demo.built d] and what [_save] writes for it. *)
Lemma demo_built d :
  (exists (s : @Builder.KnowledgeGraphBuilder Np.binary32) o,
     Builder.build plain_runtime (Builder.__init__ (Demo.dir_of d))
     = Py.Ok (s, o)) ->
  Builder.build plain_runtime (Builder.__init__ (Demo.dir_of d))
  = Py.Ok (Demo.built d, Builder._save (Demo.built d))
  /\ Builder._data (Demo.built d) = Some d
  /\ Builder.pt (Builder._save (Demo.built d))
     = Some (Demo.bundle_of (Demo.built d)).
Proof.
  intros (s & o & E).
  destruct (build_inv plain_runtime _ s o E)
    as (d0 & L & D0 & _ & _ & _ & Hh & ->).
  assert (Es : Demo.built d = s) by (unfold Demo.built; now rewrite E).
  rewrite Es. split; [exact E|]. split.
  - rewrite D0. f_equal. simpl in L.
    destruct L as (L1 & L2 & L3 & L4 & L5 & L6).
    destruct d0, d. simpl in *. congruence.
  - unfold Demo.bundle_of. cbn [Builder.pt Builder._save].
    rewrite Hh. reflexivity.
Qed.

Lemma demo_returns :
  exists (s : @Builder.KnowledgeGraphBuilder Np.binary32) o,
    Builder.build plain_runtime (Builder.__init__ (Demo.dir_of Demo.tables))
    = Py.Ok (s, o).
Proof.
  destruct (build_total (K := Np.binary32) plain_runtime
              (Demo.dir_of Demo.tables) Demo.tables
              eq_refl eq_refl eq_refl eq_refl eq_refl eq_refl)
    as (s & o & E & _); [|eauto].
  intros row Hr Hu Hv. simpl in Hr.
  destruct Hr as [<-|[<-|[<-|[<-|[<-|[]]]]]];
    try (split; eexists; vm_compute; reflexivity).
  exfalso. vm_compute in Hv. intuition discriminate.
Qed.

Lemma demo_run :
  Builder.build plain_runtime (Builder.__init__ (Demo.dir_of Demo.tables))
  = Py.Ok (Demo.self, Demo.out).
Proof. exact (proj1 (demo_built Demo.tables demo_returns)). Qed.

Lemma demo_data : Builder._data Demo.self = Some Demo.tables.
Proof. exact (proj1 (proj2 (demo_built Demo.tables demo_returns))). Qed.

Lemma demo_bundle : Builder.pt Demo.out = Some Demo.bundle.
Proof. exact (proj2 (proj2 (demo_built Demo.tables demo_returns))). Qed.

Lemma demo_keys : NoDup (Obs.all_ids Demo.tables).
Proof.
  vm_compute.
  repeat (constructor; [simpl; intuition discriminate|]). constructor.
Qed.

Lemma crossed_returns :
  exists (s : @Builder.KnowledgeGraphBuilder Np.binary32) o,
    Builder.build plain_runtime (Builder.__init__ (Demo.dir_of Demo.crossed_key))
    = Py.Ok (s, o).
Proof.
  destruct (build_total (K := Np.binary32) plain_runtime
              (Demo.dir_of Demo.crossed_key) Demo.crossed_key
              eq_refl eq_refl eq_refl eq_refl eq_refl eq_refl)
    as (s & o & E & _); [|eauto].
  intros row Hr Hu Hv. simpl in Hr.
  destruct Hr as [<-|[]]. split; eexists; vm_compute; reflexivity.
Qed.

Lemma dangling_returns :
  exists (s : @Builder.KnowledgeGraphBuilder Np.binary32) o,
    Builder.build plain_runtime
      (Builder.__init__ (Demo.dir_of Demo.dangling_twice))
    = Py.Ok (s, o).
Proof.
  destruct (build_total (K := Np.binary32) plain_runtime
              (Demo.dir_of Demo.dangling_twice) Demo.dangling_twice
              eq_refl eq_refl eq_refl eq_refl eq_refl eq_refl)
    as (s & o & E & _); [|eauto].
  intros row Hr Hu Hv. exfalso. simpl in Hr.
  destruct Hr as [<-|[<-|[]]]; vm_compute in Hu; intuition discriminate.
Qed.

Lemma repeated_returns :
  exists (s : @Builder.KnowledgeGraphBuilder Np.binary32) o,
    Builder.build plain_runtime
      (Builder.__init__ (Demo.dir_of Demo.repeated_key))
    = Py.Ok (s, o).
Proof.
  destruct (build_total (K := Np.binary32) plain_runtime
              (Demo.dir_of Demo.repeated_key) Demo.repeated_key
              eq_refl eq_refl eq_refl eq_refl eq_refl eq_refl)
    as (s & o & E & _); [|eauto].
  intros row [].
Qed.

(** C1 on the small data directory: ten rows, ten nodes, and the
    suppliers numbered 0, 1, 2. *)
Lemma C1_nodes_dense_index_witness :
  NoDup (Obs.all_ids Demo.tables)
  /\ Nx.number_of_nodes (Builder.G Demo.self) = 10
  /\ Dict.values (Builder.index_map (Builder.id_maps Demo.self) "supplier")
     = [0; 1; 2].
Proof.
  split; [exact demo_keys|].
  destruct (C1_nodes_dense_index plain_runtime (Demo.dir_of Demo.tables)
              Demo.self Demo.out Demo.tables demo_run demo_data demo_keys)
    as (H1 & _ & H3).
  split; [exact H1|].
  exact (proj1 (proj2 (H3 "supplier" (or_introl eq_refl)))).
Defined.

(** C3 on the small data directory: SUP-0001 and SUP-0002 share
    CMP-0001. *)
Lemma C3_co_supplier_pairs_witness :
  Obs.edge_count (Builder.G Demo.self) "co_supplier" "SUP-0001" "SUP-0002" = 1
  /\ Obs.edge_count (Builder.G Demo.self) "co_supplier" "SUP-0002" "SUP-0001"
     = 1.
Proof.
  refine (proj1 (C3_co_supplier_pairs plain_runtime (Demo.dir_of Demo.tables)
                   Demo.self Demo.out Demo.tables demo_run demo_data)
            (Demo.lnk "SUP-0001" "CMP-0001") (Demo.lnk "SUP-0002" "CMP-0001")
            _ _ eq_refl _ eq_refl eq_refl).
  - simpl. auto.
  - simpl. auto.
  - discriminate.
Defined.

(** C4 on the small data directory: a route from Japan to Chile and one
    back. *)
Lemma C4_trades_with_pairs_witness :
  Obs.edge_count (Builder.G Demo.self) "trades_with" "COU-JAP" "COU-CHI" = 1
  /\ Obs.edge_count (Builder.G Demo.self) "trades_with" "COU-CHI" "COU-JAP"
     = 1.
Proof.
  exact (proj2 (proj2 (C4_trades_with_pairs plain_runtime
                         (Demo.dir_of Demo.tables) Demo.self Demo.out
                         Demo.tables demo_run demo_data))
           "COU-JAP" "COU-CHI" eq_refl eq_refl).
Defined.

(** C6 on the small data directory. *)
Lemma C6_typed_endpoints_witness :
  Input.cross_disjoint Demo.tables = true
  /\ Input.typed_refs Demo.tables = true
  /\ Bundle.well_typed (Builder.G Demo.self).
Proof.
  split; [reflexivity|]. split; [reflexivity|].
  exact (C6_typed_endpoints plain_runtime (Demo.dir_of Demo.tables) Demo.self
           Demo.out Demo.tables demo_run demo_data eq_refl eq_refl).
Defined.

(** C7 on the small data directory. *)
Lemma C7_exports_agree_witness :
  NoDup (Obs.all_ids Demo.tables)
  /\ Builder.pt Demo.out = Some Demo.bundle
  /\ Bundle.consistent Demo.self Demo.out Demo.bundle.
Proof.
  split; [exact demo_keys|].
  pose proof demo_bundle as H.
  split; [exact H|].
  exact (C7_exports_agree plain_runtime (Demo.dir_of Demo.tables) Demo.self
           Demo.out Demo.tables Demo.bundle demo_run demo_data demo_keys H).
Defined.

(** C10 on the small data directory: the link (SUP-0003, CMP-0002) is
    listed twice. *)
Lemma C10_duplicate_link_self_loops_witness :
  In (Demo.lnk "SUP-0003" "CMP-0002") (sourcing_links Demo.tables)
  /\ Obs.edge_count (Builder.G Demo.self) "co_supplier" "SUP-0003" "SUP-0003"
     = 2.
Proof.
  split; [simpl; tauto|].
  refine (proj2 (C10_duplicate_link_self_loops plain_runtime
                   (Demo.dir_of Demo.tables) Demo.self Demo.out Demo.tables
                   [Demo.lnk "SUP-0001" "CMP-0001"; Demo.lnk "SUP-0002" "CMP-0001"]
                   [Demo.bad_lnk "SUP-0001" "CMP-0404"] []
                   (Demo.lnk "SUP-0003" "CMP-0002")
                   (Demo.lnk "SUP-0003" "CMP-0002") "SUP-0003"
                   demo_run demo_data eq_refl eq_refl eq_refl eq_refl _)).
  vm_compute. reflexivity.
Defined.

(** Counterexample to C6 as stated: a sourcing link whose component
    column holds the identifier of a supplier gives a supplies edge
    between two suppliers. *)
Lemma C6_counterexample :
  Builder.build plain_runtime (Builder.__init__ (Demo.dir_of Demo.crossed_key))
  = Py.Ok (Demo.built Demo.crossed_key,
           Builder._save (Demo.built Demo.crossed_key))
  /\ Obs.edge_count (Builder.G (Demo.built Demo.crossed_key))
       "supplies" "SUP-0001" "SUP-0002" = 1
  /\ Obs.node_type (Builder.G (Demo.built Demo.crossed_key)) "SUP-0002"
     = Some (Py.VStr "supplier")
  /\ ~ Bundle.well_typed (Builder.G (Demo.built Demo.crossed_key)).
Proof.
  split; [exact (proj1 (demo_built _ crossed_returns))|].
  split; [vm_compute; reflexivity|].
  split; [vm_compute; reflexivity|].
  intros W.
  destruct (W "SUP-0001" "SUP-0002"
              [("relation", Py.VStr "supplies"); ("is_primary", Py.VInt 1);
               ("unit_price_usd", Demo.num 3)]
              {| Schema.src := "supplier"; Schema.relation := "supplies";
                 Schema.dst := "component" |}) as [_ H].
  - vm_compute. left. reflexivity.
  - simpl. tauto.
  - reflexivity.
  - vm_compute in H. discriminate.
Qed.

(** Counterexample to C10 as stated: the supplier SUP-0404 is in no
    table and is listed twice under CMP-0001.  The pair
    (SUP-0404, SUP-0404) is formed, and no co_supplier edge is added,
    since the supplier is not a node. *)
Lemma C10_counterexample :
  Builder.build plain_runtime
    (Builder.__init__ (Demo.dir_of Demo.dangling_twice))
  = Py.Ok (Demo.built Demo.dangling_twice,
           Builder._save (Demo.built Demo.dangling_twice))
  /\ sourcing_links Demo.dangling_twice
     = [Demo.lnk "SUP-0404" "CMP-0001"; Demo.lnk "SUP-0404" "CMP-0001"]
  /\ In ("SUP-0404", "SUP-0404")
        (Builder.co_pairs (sourcing_links Demo.dangling_twice))
  /\ Obs.edge_count (Builder.G (Demo.built Demo.dangling_twice))
       "co_supplier" "SUP-0404" "SUP-0404" = 0
  /\ Obs.edge_count (Builder.G (Demo.built Demo.dangling_twice))
       "co_supplier" "SUP-0404" "SUP-0404" <> 2.
Proof.
  pose proof (demo_built _ dangling_returns) as (B & D & _).
  split; [exact B|]. split; [reflexivity|]. split; [simpl; tauto|].
  assert (E : Obs.edge_count (Builder.G (Demo.built Demo.dangling_twice))
                "co_supplier" "SUP-0404" "SUP-0404" = 0).
  { rewrite (build_edge_count plain_runtime _ _ _ _ _ _ _ B D).
    destruct (Nx.has_node _ "SUP-0404") eqn:H; [|reflexivity].
    exfalso. apply (build_has_node plain_runtime _ _ _ _ _ B D) in H.
    vm_compute in H. intuition discriminate. }
  split; [exact E|]. rewrite E. discriminate.
Qed.

(** Counterexample to C7 as stated: two supplier rows with one
    identifier give an index map whose only index, 1, is not a row of
    the one-row feature tensor, yet it is the source index of the
    located_in edges of the bundle. *)
Lemma C7_counterexample :
  Builder.build plain_runtime (Builder.__init__ (Demo.dir_of Demo.repeated_key))
  = Py.Ok (Demo.built Demo.repeated_key,
           Builder._save (Demo.built Demo.repeated_key))
  /\ Builder.pt (Builder._save (Demo.built Demo.repeated_key))
     = Some (Demo.bundle_of (Demo.built Demo.repeated_key))
  /\ Bundle.rows (Demo.bundle_of (Demo.built Demo.repeated_key)) "supplier" = 1
  /\ Bundle.lookup ("supplier", "located_in", "country")
       (Builder.edge_index (Demo.bundle_of (Demo.built Demo.repeated_key)))
     = Some ([1; 1], [0; 0])
  /\ ~ Bundle.consistent (Demo.built Demo.repeated_key)
         (Builder._save (Demo.built Demo.repeated_key))
         (Demo.bundle_of (Demo.built Demo.repeated_key)).
Proof.
  split; [exact (proj1 (demo_built _ repeated_returns))|].
  split; [exact (proj2 (proj2 (demo_built _ repeated_returns)))|].
  assert (Hrows : Bundle.rows (Demo.bundle_of (Demo.built Demo.repeated_key))
                    "supplier" = 1) by (vm_compute; reflexivity).
  assert (Hlook : Bundle.lookup ("supplier", "located_in", "country")
                    (Builder.edge_index
                       (Demo.bundle_of (Demo.built Demo.repeated_key)))
                  = Some ([1; 1], [0; 0])) by (vm_compute; reflexivity).
  assert (Hres : Bundle.resolving (Demo.built Demo.repeated_key)
                   ("located_in", "supplier", "country")
                 = [("SUP-0001", "COU-JAP", Builder.rel "located_in");
                    ("SUP-0001", "COU-JAP", Builder.rel "located_in")])
    by (vm_compute; reflexivity).
  split; [exact Hrows|]. split; [exact Hlook|].
  intros [_ H].
  specialize (H "located_in" "supplier" "country").
  assert (Hin : In ("located_in", "supplier", "country") Builder.edge_defs)
    by (simpl; tauto).
  specialize (H Hin). rewrite Hres, Hlook, Hrows in H.
  destruct H as (srcs & dsts & E & _ & _ & Hs & _).
  inversion E; subst.
  specialize (Hs 1 (or_introl eq_refl)). lia.
Qed.

(** ** Shape of a normalized matrix, for any float32 kernel *)

Section ShapeFacts.
Context {K : Np.Kernel}.

Lemma map2_length {A B C} (f : A -> B -> C) l1 l2 :
  List.length (Np.map2 f l1 l2) = Nat.min (List.length l1) (List.length l2).
Proof. unfold Np.map2. now rewrite length_map, length_combine. Qed.

Lemma fold_map2_length (f : Np.f32 K -> Np.f32 K -> Np.f32 K) m rows :
  Forall (fun r => List.length r = m) rows ->
  forall acc, List.length acc = m ->
    List.length (fold_left (Np.map2 f) rows acc) = m.
Proof.
  induction 1 as [|r t Hr _ IH]; intros acc Ha; simpl; auto.
  apply IH. rewrite map2_length. lia.
Qed.

(** Normalization keeps the shape: one row per node, one column per
    declared feature. *)
Lemma normalize_shape (rows : list (list Py.pyfloat)) m :
  Forall (fun r => List.length r = m) rows ->
  List.length (Builder.normalize (K := K) rows) = List.length rows
  /\ Forall (fun r => List.length r = m) (Builder.normalize (K := K) rows).
Proof.
  intros F. split; [apply normalize_rows|].
  unfold Builder.normalize.
  set (mx := map (map (Np.of_float K)) rows).
  assert (Fm : Forall (fun r => List.length r = m) mx).
  { unfold mx. rewrite Forall_forall in *. intros r Hr.
    apply in_map_iff in Hr as (r0 & <- & Hr0). rewrite length_map. auto. }
  assert (Lmin : mx <> [] -> List.length (Np.min0 mx) = m).
  { destruct mx as [|r t]; [congruence|]. intros _. simpl.
    inversion Fm; subst. now apply fold_map2_length. }
  assert (Lmax : mx <> [] -> List.length (Np.max0 mx) = m).
  { destruct mx as [|r t]; [congruence|]. intros _. simpl.
    inversion Fm; subst. now apply fold_map2_length. }
  unfold Np.scale. rewrite Forall_forall in *. intros r Hr.
  apply in_map_iff in Hr as (r0 & <- & Hr0).
  assert (Hne : mx <> []) by (intros E; rewrite E in Hr0; destruct Hr0).
  unfold Np.range. rewrite !map2_length, length_map, map2_length.
  rewrite (Lmin Hne), (Lmax Hne), (Fm r0 Hr0). lia.
Qed.

(** The divisor of a column is 1.0 or a range that does not test equal
    to zero. *)
Lemma range_entries (maxs mins : list (Np.f32 K)) :
  Forall (fun r => r = Np.one K \/ Np.eq_zero K r = false)
         (Np.range maxs mins).
Proof.
  unfold Np.range. apply Forall_forall. intros r Hr.
  apply in_map_iff in Hr as (x & <- & _).
  destruct (Np.eq_zero K x) eqn:E; auto.
Qed.

(** Row [i], column [j] of the result is
    [(value - mins[j]) / rng[j]]. *)
Lemma scale_entry (m : @Np.matrix K) mins rng i j row v lo d :
  nth_error m i = Some row -> nth_error row j = Some v ->
  nth_error mins j = Some lo -> nth_error rng j = Some d ->
  exists out,
    nth_error (Np.scale m mins rng) i = Some out
    /\ nth_error out j = Some (Np.div K (Np.sub K v lo) d).
Proof.
  intros Hrow Hv Hlo Hd. unfold Np.scale.
  rewrite nth_error_map, Hrow. simpl. eexists. split; [reflexivity|].
  assert (M : forall {A B C} (f : A -> B -> C) l1 l2 n a b,
            nth_error l1 n = Some a -> nth_error l2 n = Some b ->
            nth_error (Np.map2 f l1 l2) n = Some (f a b)).
  { intros A B C f l1. induction l1 as [|x t IH]; intros l2 n a b H1 H2;
      destruct n; destruct l2; simpl in *; try discriminate.
    - inversion H1; inversion H2; subst. reflexivity.
    - unfold Np.map2 in IH. now apply IH. }
  apply M; auto.
Qed.

End ShapeFacts.

(** With binary32 arithmetic the divisor never tests equal to zero. *)
Lemma binary32_range_nonzero (maxs mins : list spec_float) :
  Forall (fun r => Np.eq_zero Np.binary32 r = false)
         (Np.range (K := Np.binary32) maxs mins).
Proof.
  eapply Forall_impl; [|apply range_entries].
  intros r [->|H]; [reflexivity | exact H].
Qed.

(** The annual spends 10, 30 and 20 of the three suppliers of the small
    data directory are scaled to 0, 1 and 1/2. *)
Lemma demo_spend_column :
  match Dict.get "supplier" (Builder.x Demo.bundle) with
  | Some m => map (fun row => nth 0 row S754_nan) m
  | None => []
  end
  = [S754_zero false; S754_finite false 8388608 (-23);
     S754_finite false 8388608 (-24)].
Proof. vm_compute. reflexivity. Qed.

(* ================================================================== *)
(** * Rounding to binary32 *)
(* ================================================================== *)

(** The operations of [SpecFloat] are read on integers: a finite
    binary32 datum is a whole number of units of 2^-149, subtraction
    rounds the difference of the units, and division rounds a
    quotient. *)

Section Digits.
Local Open Scope Z_scope.

Lemma digits2_pos_bounds p :
  2 ^ (Zpos (digits2_pos p) - 1) <= Zpos p < 2 ^ Zpos (digits2_pos p).
Proof.
  induction p as [p IH|p IH|]; cbn [digits2_pos].
  - rewrite Pos2Z.inj_succ.
    replace (Z.succ (Zpos (digits2_pos p)) - 1)
      with (Z.succ (Zpos (digits2_pos p) - 1)) by lia.
    rewrite !Z.pow_succ_r by lia. lia.
  - rewrite Pos2Z.inj_succ.
    replace (Z.succ (Zpos (digits2_pos p)) - 1)
      with (Z.succ (Zpos (digits2_pos p) - 1)) by lia.
    rewrite !Z.pow_succ_r by lia. lia.
  - simpl. lia.
Qed.

Lemma digits_pos n : 0 < n -> 0 < F32.digits n.
Proof. destruct n; intros H; try lia. reflexivity. Qed.

Lemma digits_nonneg n : 0 <= F32.digits n.
Proof. destruct n; simpl; lia. Qed.

Lemma digits_bounds n :
  0 < n -> 2 ^ (F32.digits n - 1) <= n < 2 ^ F32.digits n.
Proof.
  destruct n as [|p|p]; intros H; try lia. apply digits2_pos_bounds.
Qed.

Lemma digits_unique n d :
  2 ^ (d - 1) <= n < 2 ^ d -> 0 < n -> F32.digits n = d.
Proof.
  intros [L U] P. pose proof (digits_bounds n P) as [L' U'].
  pose proof (digits_pos n P) as Dp.
  assert (Hd : 0 < d).
  { destruct (Z.ltb_spec 0 d) as [|Hn]; [assumption|]. exfalso.
    destruct (Z.eq_dec d 0) as [->|Hz]; [simpl in U; lia|].
    rewrite (Z.pow_neg_r 2 d) in U by lia. lia. }
  destruct (Z.lt_trichotomy (F32.digits n) d) as [C|[C|C]]; [|exact C|].
  - assert (2 ^ F32.digits n <= 2 ^ (d - 1)) by (apply Z.pow_le_mono_r; lia).
    lia.
  - assert (2 ^ d <= 2 ^ (F32.digits n - 1)) by (apply Z.pow_le_mono_r; lia).
    lia.
Qed.

Lemma digits_lt_pow n d : 0 <= n -> 0 <= d -> (F32.digits n <= d <-> n < 2 ^ d).
Proof.
  intros Hn Hd. destruct (Z.eq_dec n 0) as [->|Hz].
  - simpl. split; intros _; [apply Z.pow_pos_nonneg; lia | lia].
  - assert (P : 0 < n) by lia. pose proof (digits_bounds n P) as [L U].
    split; intros H.
    + assert (2 ^ F32.digits n <= 2 ^ d) by (apply Z.pow_le_mono_r; lia). lia.
    + destruct (Z.leb_spec (F32.digits n) d) as [|C]; [assumption|].
      assert (2 ^ d <= 2 ^ (F32.digits n - 1)) by (apply Z.pow_le_mono_r; lia).
      lia.
Qed.

Lemma digits_mono a b : 0 <= a <= b -> F32.digits a <= F32.digits b.
Proof.
  intros [Ha Hab].
  apply (digits_lt_pow a (F32.digits b)); [lia | apply digits_nonneg |].
  destruct (Z.eq_dec b 0) as [->|Hz]; [assert (a = 0) by lia; subst; simpl; lia|].
  pose proof (digits_bounds b ltac:(lia)). lia.
Qed.

Lemma digits_shift n t : 0 < n -> 0 <= t -> F32.digits (n * 2 ^ t) = F32.digits n + t.
Proof.
  intros P T. pose proof (digits_bounds n P) as [L U].
  pose proof (digits_pos n P) as Dp.
  assert (Pt : 0 < 2 ^ t) by (apply Z.pow_pos_nonneg; lia).
  apply digits_unique; [|nia].
  replace (F32.digits n + t - 1) with (F32.digits n - 1 + t) by lia.
  rewrite !Z.pow_add_r by lia. nia.
Qed.

Lemma digits_div n t :
  0 < n -> 0 <= t < F32.digits n ->
  0 < n / 2 ^ t /\ F32.digits (n / 2 ^ t) = F32.digits n - t.
Proof.
  intros P [T0 T1]. pose proof (digits_bounds n P) as [L U].
  assert (Pt : 0 < 2 ^ t) by (apply Z.pow_pos_nonneg; lia).
  assert (E1 : 2 ^ (F32.digits n - 1) = 2 ^ (F32.digits n - t - 1) * 2 ^ t).
  { rewrite <- Z.pow_add_r by lia. f_equal. lia. }
  assert (E2 : 2 ^ F32.digits n = 2 ^ (F32.digits n - t) * 2 ^ t).
  { rewrite <- Z.pow_add_r by lia. f_equal. lia. }
  assert (Lq : 2 ^ (F32.digits n - t - 1) <= n / 2 ^ t).
  { apply Z.div_le_lower_bound; [lia|]. rewrite Z.mul_comm, <- E1. exact L. }
  assert (Uq : n / 2 ^ t < 2 ^ (F32.digits n - t)).
  { apply Z.div_lt_upper_bound; [lia|]. rewrite Z.mul_comm, <- E2. exact U. }
  assert (Pq : 0 < 2 ^ (F32.digits n - t - 1)) by (apply Z.pow_pos_nonneg; lia).
  split; [lia|]. apply digits_unique; [|lia]. split; [exact Lq | exact Uq].
Qed.

Lemma digits_div_small n t :
  0 <= n -> F32.digits n <= t -> n / 2 ^ t = 0.
Proof.
  intros P T. apply Z.div_small. split; [lia|].
  apply digits_lt_pow; try lia. pose proof (digits_nonneg n). lia.
Qed.

End Digits.

Section Nearest.
Local Open Scope Z_scope.

Lemma rne_cases n j :
  0 <= j ->
  F32.rne n j = n / 2 ^ j \/ F32.rne n j = n / 2 ^ j + 1.
Proof.
  intros _. unfold F32.rne.
  destruct (2 * (n mod 2 ^ j) ?= 2 ^ j); auto.
  destruct (Z.even (n / 2 ^ j)); auto.
Qed.

Lemma rne_0 n : F32.rne n 0 = n.
Proof.
  unfold F32.rne. change (2 ^ 0) with 1.
  rewrite Z.mod_1_r, Z.div_1_r. reflexivity.
Qed.

Lemma rne_exact m j : 0 <= j -> F32.rne (m * 2 ^ j) j = m.
Proof.
  intros J. assert (P : 0 < 2 ^ j) by (apply Z.pow_pos_nonneg; lia).
  unfold F32.rne. rewrite Z.mod_mul, Z.div_mul by lia.
  destruct (Z.compare_spec (2 * 0) (2 ^ j)); lia.
Qed.

Lemma rne_mono a b j : 0 <= j -> a <= b -> F32.rne a j <= F32.rne b j.
Proof.
  intros J H. assert (P : 0 < 2 ^ j) by (apply Z.pow_pos_nonneg; lia).
  pose proof (Z.div_le_mono a b (2 ^ j) P H) as Q.
  destruct (Z.eq_dec (a / 2 ^ j) (b / 2 ^ j)) as [E|N].
  - assert (R : a mod 2 ^ j <= b mod 2 ^ j).
    { pose proof (Z.div_mod a (2 ^ j)). pose proof (Z.div_mod b (2 ^ j)). nia. }
    unfold F32.rne. rewrite E.
    destruct (Z.compare_spec (2 * (a mod 2 ^ j)) (2 ^ j));
      destruct (Z.compare_spec (2 * (b mod 2 ^ j)) (2 ^ j));
      destruct (Z.even (b / 2 ^ j)); lia.
  - destruct (rne_cases a j J) as [->| ->]; destruct (rne_cases b j J) as [->| ->];
      lia.
Qed.

Lemma rne_scale n j t :
  0 <= j -> 0 <= t -> F32.rne (n * 2 ^ t) (j + t) = F32.rne n j.
Proof.
  intros J T.
  assert (Pj : 0 < 2 ^ j) by (apply Z.pow_pos_nonneg; lia).
  assert (Pt : 0 < 2 ^ t) by (apply Z.pow_pos_nonneg; lia).
  unfold F32.rne. rewrite Z.pow_add_r by lia.
  rewrite Z.div_mul_cancel_r, Z.mul_mod_distr_r by lia.
  destruct (Z.compare_spec (2 * (n mod 2 ^ j)) (2 ^ j));
    destruct (Z.compare_spec (2 * (n mod 2 ^ j * 2 ^ t)) (2 ^ j * 2 ^ t));
    try reflexivity; nia.
Qed.

Lemma rne_nonneg n j : 0 <= j -> 0 <= n -> 0 <= F32.rne n j.
Proof.
  intros J N. assert (P : 0 < 2 ^ j) by (apply Z.pow_pos_nonneg; lia).
  pose proof (Z.div_pos n (2 ^ j) N P). destruct (rne_cases n j J); lia.
Qed.

(** A multiple of [2^j] bounds what is rounded below it. *)
Lemma rne_le_multiple n m j :
  0 <= j -> n <= m * 2 ^ j -> F32.rne n j <= m.
Proof.
  intros J H. rewrite <- (rne_exact m j J). now apply rne_mono.
Qed.

Lemma rne_ge_multiple n m j :
  0 <= j -> m * 2 ^ j <= n -> m <= F32.rne n j.
Proof.
  intros J H. rewrite <- (rne_exact m j J). now apply rne_mono.
Qed.

End Nearest.

Section Shifting.
Local Open Scope Z_scope.

Lemma shr_1_nonneg mrs :
  0 <= shr_m mrs ->
  shr_1 mrs = {| shr_m := shr_m mrs / 2;
                 shr_r := Z.odd (shr_m mrs);
                 shr_s := shr_r mrs || shr_s mrs |}.
Proof.
  destruct mrs as [m r s]. cbn [shr_m shr_r shr_s]. intros H.
  rewrite <- Z.div2_div.
  destruct m as [|[p|p|]|p]; try lia; reflexivity.
Qed.

Lemma odd_mod2 a : a mod 2 = Z.b2z (Z.odd a).
Proof. now rewrite <- Z.bit0_odd, Z.bit0_mod. Qed.

Lemma rep_0 n : F32.rep n 0 (shr_record_of_loc n loc_Exact).
Proof.
  unfold F32.rep. simpl. now rewrite Z.div_1_r.
Qed.

Lemma rep_step n j mrs :
  0 <= n -> 0 <= j -> F32.rep n j mrs -> F32.rep n (j + 1) (shr_1 mrs).
Proof.
  intros N J (Em & Er & Es).
  assert (Pj : 0 < 2 ^ j) by (apply Z.pow_pos_nonneg; lia).
  rewrite shr_1_nonneg by (rewrite Em; apply Z.div_pos; lia).
  unfold F32.rep. cbn [shr_m shr_r shr_s].
  replace (j + 1 - 1) with j by lia.
  assert (L : (0 <? j + 1) = true) by (apply Z.ltb_lt; lia).
  rewrite L, Em, Er, Es. cbn [andb].
  split; [|split; [reflexivity|]].
  - rewrite Z.pow_add_r, Z.pow_1_r by lia. now rewrite Z.div_div by lia.
  - destruct (Z.ltb_spec 0 j) as [Pos|Z0].
    + cbn [andb].
      assert (Ph : 0 < 2 ^ (j - 1)) by (apply Z.pow_pos_nonneg; lia).
      assert (E : 2 ^ j = 2 ^ (j - 1) * 2).
      { rewrite <- (Z.pow_1_r 2) at 3. rewrite <- Z.pow_add_r by lia.
        f_equal. lia. }
      rewrite E, Z.rem_mul_r by lia. rewrite odd_mod2.
      pose proof (Z.mod_pos_bound n (2 ^ (j - 1)) Ph) as B.
      destruct (Z.odd (n / 2 ^ (j - 1))); cbn [Z.b2z orb negb].
      * symmetry. apply negb_true_iff, Z.eqb_neq. lia.
      * f_equal. rewrite Z.mul_0_r, Z.add_0_r. reflexivity.
    + assert (j = 0) by lia. subst j. cbn [andb orb].
      change (2 ^ 0) with 1. rewrite Z.mod_1_r. reflexivity.
Qed.

Lemma rep_iter p : forall n j mrs,
  0 <= n -> 0 <= j -> F32.rep n j mrs ->
  F32.rep n (j + Zpos p) (iter_pos shr_1 p mrs).
Proof.
  induction p as [p IH|p IH|]; intros n j mrs N J R; cbn [iter_pos].
  - replace (j + Zpos p~1) with (j + 1 + Zpos p + Zpos p) by lia.
    apply IH; [lia | lia |]. apply IH; [lia | lia |]. now apply rep_step.
  - replace (j + Zpos p~0) with (j + Zpos p + Zpos p) by lia.
    apply IH; [lia | lia |]. now apply IH.
  - now apply rep_step.
Qed.

(** Rounding a shift record to nearest even gives the nearest integer
    to [n / 2^j]. *)
Lemma rep_round n j mrs :
  0 <= n -> 0 <= j -> F32.rep n j mrs ->
  round_nearest_even (shr_m mrs) (loc_of_shr_record mrs) = F32.rne n j.
Proof.
  intros N J (Em & Er & Es). destruct mrs as [m r s].
  cbn [shr_m shr_r shr_s] in *. subst m r s.
  destruct (Z.ltb_spec 0 j) as [Pos|Z0]; cbn [andb].
  - assert (Ph : 0 < 2 ^ (j - 1)) by (apply Z.pow_pos_nonneg; lia).
    assert (E : 2 ^ j = 2 ^ (j - 1) * 2).
    { rewrite <- (Z.pow_1_r 2) at 3. rewrite <- Z.pow_add_r by lia.
      f_equal. lia. }
    assert (M : n mod 2 ^ j
                = n mod 2 ^ (j - 1)
                  + 2 ^ (j - 1) * Z.b2z (Z.odd (n / 2 ^ (j - 1)))).
    { rewrite E, Z.rem_mul_r, odd_mod2 by lia. reflexivity. }
    pose proof (Z.mod_pos_bound n (2 ^ (j - 1)) Ph) as B.
    unfold F32.rne.
    destruct (Z.odd (n / 2 ^ (j - 1))); cbn [Z.b2z] in M;
      destruct (Z.eqb_spec (n mod 2 ^ (j - 1)) 0) as [Ez|Nz];
      cbn [negb loc_of_shr_record round_nearest_even];
      destruct (Z.compare_spec (2 * (n mod 2 ^ j)) (2 ^ j));
      try reflexivity; lia.
  - assert (j = 0) by lia. subst j. cbn. rewrite rne_0.
    now rewrite Z.div_1_r.
Qed.

End Shifting.

Section Rounding32.
Local Open Scope Z_scope.

Lemma fexp32 z : fexp Np.p32 Np.e32 z = Z.max (z - 24) (-149).
Proof. reflexivity. Qed.

Lemma canonical32 m e :
  canonical_mantissa Np.p32 Np.e32 m e = true
  <-> -149 <= e /\ F32.digits (Zpos m) <= 24
      /\ (-149 < e -> F32.digits (Zpos m) = 24).
Proof.
  unfold canonical_mantissa. rewrite fexp32. unfold F32.digits. cbn [Zdigits2].
  rewrite Z.eqb_eq. lia.
Qed.

(** The first shift of [binary_round_aux]. *)
Lemma shr_fexp_rep n j0 mx ex l :
  0 <= n -> 0 <= j0 -> 0 <= mx ->
  F32.rep n j0 (shr_record_of_loc mx l) ->
  let n1 := Z.max 0 (fexp Np.p32 Np.e32 (F32.digits mx + ex) - ex) in
  exists mrs,
    shr_fexp Np.p32 Np.e32 mx ex l = (mrs, ex + n1)
    /\ F32.rep n (j0 + n1) mrs.
Proof.
  intros N J M R n1. unfold shr_fexp, shr. fold (F32.digits mx).
  subst n1.
  destruct (fexp Np.p32 Np.e32 (F32.digits mx + ex) - ex) as [|p|p] eqn:E.
  - eexists. split; [rewrite Z.add_0_r; reflexivity|].
    now rewrite Z.max_l, Z.add_0_r by lia.
  - eexists. rewrite Z.max_r by lia. split; [reflexivity|].
    now apply rep_iter.
  - eexists. split; [rewrite Z.max_l, Z.add_0_r by lia; reflexivity|].
    now rewrite Z.max_l, Z.add_0_r by lia.
Qed.

Lemma shr_m_of_loc m l : shr_m (shr_record_of_loc m l) = m.
Proof. destruct l as [|[| |]]; reflexivity. Qed.

(** [binary_round_aux] on a mantissa with enough digits: the digits of
    [n] above position [j0 + (e1 - ex)] are rounded to nearest even at
    the exponent [e1] of the format, and a carry to [2^24] moves the
    exponent up by one. *)
Lemma round_aux_spec s n j0 mx ex l :
  0 <= n -> 0 <= j0 -> 0 <= mx ->
  F32.rep n j0 (shr_record_of_loc mx l) ->
  ex <= fexp Np.p32 Np.e32 (F32.digits mx + ex) ->
  let e1 := fexp Np.p32 Np.e32 (F32.digits mx + ex) in
  let m1 := F32.rne n (j0 + (e1 - ex)) in
  (m1 = 0 /\ binary_round_aux Np.p32 Np.e32 s mx ex l = S754_zero s)
  \/ (0 < m1 < 2 ^ 24
      /\ binary_round_aux Np.p32 Np.e32 s mx ex l
         = (if e1 <=? 104 then S754_finite s (Z.to_pos m1) e1
            else S754_infinity s)
      /\ canonical_mantissa Np.p32 Np.e32 (Z.to_pos m1) e1 = true)
  \/ (m1 = 2 ^ 24
      /\ binary_round_aux Np.p32 Np.e32 s mx ex l
         = (if e1 + 1 <=? 104 then S754_finite s (Z.to_pos (2 ^ 23)) (e1 + 1)
            else S754_infinity s)
      /\ canonical_mantissa Np.p32 Np.e32 (Z.to_pos (2 ^ 23)) (e1 + 1) = true).
Proof.
  intros N J M R H e1 m1.
  destruct (shr_fexp_rep n j0 mx ex l N J M R) as (mrs & E1 & R1).
  fold e1 in E1, R1. rewrite Z.max_r in E1, R1 by lia.
  replace (ex + (e1 - ex)) with e1 in E1 by lia.
  assert (J1 : 0 <= j0 + (e1 - ex)) by lia.
  pose proof (rep_round n _ mrs N J1 R1) as Rd. fold m1 in Rd.
  unfold binary_round_aux. rewrite E1, Rd.
  assert (Emx : mx = n / 2 ^ j0).
  { destruct R as (Em & _). now rewrite shr_m_of_loc in Em. }
  assert (Pj0 : 0 < 2 ^ j0) by (apply Z.pow_pos_nonneg; lia).
  assert (Pn1 : 0 < 2 ^ (e1 - ex)) by (apply Z.pow_pos_nonneg; lia).
  assert (Eq' : n / 2 ^ (j0 + (e1 - ex)) = mx / 2 ^ (e1 - ex)).
  { rewrite Z.pow_add_r, <- Z.div_div, <- Emx by lia. reflexivity. }
  assert (He1 : e1 = Z.max (F32.digits mx + ex - 24) (-149))
    by (unfold e1; apply fexp32).
  assert (Q0 : 0 <= mx / 2 ^ (e1 - ex)) by (apply Z.div_pos; lia).
  assert (Q24 : mx / 2 ^ (e1 - ex) < 2 ^ 24
                /\ (-149 < e1 -> 2 ^ 23 <= mx / 2 ^ (e1 - ex))).
  { destruct (Z.eq_dec mx 0) as [->|Nz].
    - rewrite Z.div_0_l by lia. split; [reflexivity|].
      intros C. simpl in He1. lia.
    - destruct (Z.ltb_spec (e1 - ex) (F32.digits mx)) as [Lt|Ge].
      + destruct (digits_div mx (e1 - ex)) as (Pq & Dq); [lia | lia |].
        split.
        * apply digits_lt_pow; lia.
        * intros C. pose proof (digits_bounds _ Pq) as [L _].
          replace (F32.digits (mx / 2 ^ (e1 - ex)) - 1) with 23 in L by lia.
          exact L.
      + rewrite (digits_div_small mx (e1 - ex)) by lia.
        split; [reflexivity|]. intros C. lia. }
  destruct Q24 as [Q24 Q23].
  assert (Cm : m1 = mx / 2 ^ (e1 - ex) \/ m1 = mx / 2 ^ (e1 - ex) + 1).
  { unfold m1. rewrite <- Eq'. apply rne_cases. lia. }
  assert (Db : 0 < m1 -> m1 < 2 ^ 24 ->
               F32.digits m1 <= 24 /\ (-149 < e1 -> F32.digits m1 = 24)).
  { intros P U. split; [apply digits_lt_pow; lia|].
    intros C. apply digits_unique; [|lia]. change (24 - 1) with 23.
    specialize (Q23 C). lia. }
  destruct (Z.eq_dec m1 0) as [Z1|Nz1]; [left|right].
  - split; [exact Z1|]. rewrite Z1. unfold shr_fexp, shr. cbn [Zdigits2].
    rewrite fexp32.
    destruct (Z.max (0 + e1 - 24) (-149) - e1) as [|p|p] eqn:E; try lia;
      reflexivity.
  - destruct (Z.eq_dec m1 (2 ^ 24)) as [T1|Nt1]; [right|left].
    + split; [exact T1|]. rewrite T1. unfold shr_fexp, shr.
      change (Zdigits2 (2 ^ 24)) with 25. rewrite fexp32.
      replace (Z.max (25 + e1 - 24) (-149) - e1) with 1 by lia.
      cbn [iter_pos]. split; [reflexivity|].
      apply canonical32. change (F32.digits (Zpos (Z.to_pos (2 ^ 23)))) with 24.
      lia.
    + assert (P1 : 0 < m1) by lia. assert (U1 : m1 < 2 ^ 24) by lia.
      destruct (Db P1 U1) as [D24 Dn].
      split; [lia|].
      assert (Ep : Zpos (Z.to_pos m1) = m1) by (apply Z2Pos.id; lia).
      split.
      * unfold shr_fexp, shr. fold (F32.digits m1). rewrite fexp32.
        replace (Z.max (F32.digits m1 + e1 - 24) (-149) - e1) with 0 by lia.
        cbn [shr_record_of_loc shr_m]. rewrite <- Ep at 1.
        reflexivity.
      * apply canonical32. rewrite Ep. lia.
Qed.

End Rounding32.

Section Round32.
Local Open Scope Z_scope.

Lemma mul_lt_pow m a e b :
  0 <= m < 2 ^ a -> 0 <= e <= b -> 0 <= a -> m * 2 ^ e < 2 ^ (a + b).
Proof.
  intros M E A. rewrite Z.pow_add_r by lia.
  assert (0 < 2 ^ e) by (apply Z.pow_pos_nonneg; lia).
  assert (2 ^ e <= 2 ^ b) by (apply Z.pow_le_mono_r; lia).
  nia.
Qed.

Lemma mul_ge_pow m a e b :
  2 ^ a <= m -> 0 <= b <= e -> 0 <= a -> 2 ^ (a + b) <= m * 2 ^ e.
Proof.
  intros M E A. rewrite Z.pow_add_r by lia.
  assert (0 < 2 ^ b) by (apply Z.pow_pos_nonneg; lia).
  assert (0 < 2 ^ a) by (apply Z.pow_pos_nonneg; lia).
  assert (2 ^ b <= 2 ^ e) by (apply Z.pow_le_mono_r; lia).
  nia.
Qed.

Lemma iter_xO m d : Zpos (Pos.iter xO m d) = Zpos m * 2 ^ Zpos d.
Proof.
  induction d as [|d IH] using Pos.peano_ind.
  - cbn [Pos.iter]. rewrite Z.pow_1_r. lia.
  - rewrite Pos.iter_succ, Pos2Z.inj_xO, IH, Pos2Z.inj_succ,
      Z.pow_succ_r by lia.
    lia.
Qed.

Lemma shl_align_spec mx ex ex' :
  exists mz, shl_align mx ex ex' = (mz, Z.min ex ex')
             /\ Zpos mz = Zpos mx * 2 ^ (ex - Z.min ex ex').
Proof.
  unfold shl_align. destruct (ex' - ex) as [|d|d] eqn:E.
  - exists mx. rewrite Z.min_l by lia. rewrite Z.sub_diag, Z.pow_0_r.
    split; [reflexivity | lia].
  - exists mx. rewrite Z.min_l by lia. rewrite Z.sub_diag, Z.pow_0_r.
    split; [reflexivity | lia].
  - exists (Pos.iter xO mx d). rewrite Z.min_r by lia.
    split; [reflexivity|]. rewrite iter_xO. do 2 f_equal. lia.
Qed.

Lemma good_zero s : F32.good (S754_zero s) = true.
Proof. reflexivity. Qed.

Lemma good_finite s m e :
  F32.good (S754_finite s m e) = true
  <-> canonical_mantissa Np.p32 Np.e32 m e = true /\ e <= 104.
Proof.
  unfold F32.good, F32.finite, valid_binary, bounded. cbn [andb].
  rewrite andb_true_iff, Z.leb_le. change (Np.e32 - Np.p32) with 104.
  tauto.
Qed.

Lemma round_aux_good s n j0 mx ex l :
  0 <= n -> 0 <= j0 -> 0 <= mx ->
  F32.rep n j0 (shr_record_of_loc mx l) ->
  ex <= fexp Np.p32 Np.e32 (F32.digits mx + ex) ->
  binary_round_aux Np.p32 Np.e32 s mx ex l = S754_infinity s
  \/ F32.good (binary_round_aux Np.p32 Np.e32 s mx ex l) = true.
Proof.
  intros N J M R H.
  destruct (round_aux_spec s n j0 mx ex l N J M R H)
    as [(_ & E)|[(_ & E & C)|(_ & E & C)]]; rewrite E.
  - right. reflexivity.
  - match goal with |- context [?a <=? 104] =>
      destruct (Z.leb_spec a 104) end;
      [right; apply good_finite; split; [exact C | lia] | left; reflexivity].
  - match goal with |- context [?a <=? 104] =>
      destruct (Z.leb_spec a 104) end;
      [right; apply good_finite; split; [exact C | lia] | left; reflexivity].
Qed.

Lemma shl_align_fexp_ok m e :
  let f := fexp Np.p32 Np.e32 (F32.digits (Zpos m) + e) in
  exists mz,
    shl_align m e f = (mz, Z.min e f)
    /\ Zpos mz = Zpos m * 2 ^ (e - Z.min e f)
    /\ fexp Np.p32 Np.e32 (F32.digits (Zpos mz) + Z.min e f) = f.
Proof.
  intros f. destruct (shl_align_spec m e f) as (mz & E & V).
  exists mz. split; [exact E|]. split; [exact V|].
  rewrite V, digits_shift by lia. unfold f. f_equal. lia.
Qed.

Lemma binary_round_good s m e :
  binary_round Np.p32 Np.e32 s m e = S754_infinity s
  \/ F32.good (binary_round Np.p32 Np.e32 s m e) = true.
Proof.
  unfold binary_round.
  change (Zpos (digits2_pos m)) with (F32.digits (Zpos m)).
  destruct (shl_align_fexp_ok m e) as (mz & E & V & F). rewrite E.
  apply round_aux_good with (n := Zpos mz) (j0 := 0); try lia;
    try apply rep_0; rewrite F; lia.
Qed.

Lemma round32_good x :
  F32.finite (Np.round32 x) = true -> F32.good (Np.round32 x) = true.
Proof.
  destruct x as [s|s| |s m e]; cbn [Np.round32]; try discriminate.
  - reflexivity.
  - intros Fi. unfold binary_normalize in *.
    destruct s; cbn [cond_Zopp Z.opp] in *;
      match goal with |- context [binary_round _ _ ?s ?m ?e] =>
        destruct (binary_round_good s m e) as [E|G]; [|exact G];
        rewrite E in Fi; discriminate
      end.
Qed.

Lemma binary_round_units s m e :
  -149 <= e ->
  F32.rounds_to s (Zpos m * 2 ^ (e + 149)) (binary_round Np.p32 Np.e32 s m e).
Proof.
  intros He. unfold binary_round.
  change (Zpos (digits2_pos m)) with (F32.digits (Zpos m)).
  destruct (shl_align_fexp_ok m e) as (mz & E & V & F). rewrite E.
  set (f := fexp Np.p32 Np.e32 (F32.digits (Zpos m) + e)) in *.
  set (ez := Z.min e f) in *.
  assert (Hf : f = Z.max (F32.digits (Zpos m) + e - 24) (-149))
    by apply fexp32.
  assert (Hz : ez <= fexp Np.p32 Np.e32 (F32.digits (Zpos mz) + ez))
    by (rewrite F; lia).
  pose proof (round_aux_spec s (Zpos mz) 0 (Zpos mz) ez loc_Exact
                ltac:(lia) ltac:(lia) ltac:(lia) (rep_0 _) Hz) as R.
  cbv zeta in R. rewrite F, Z.add_0_l in R.
  set (m1 := F32.rne (Zpos mz) (f - ez)) in R.
  set (v := Zpos m * 2 ^ (e + 149)).
  assert (Ev : v = Zpos mz * 2 ^ (ez + 149)).
  { unfold v. rewrite V, <- Z.mul_assoc, <- Z.pow_add_r by lia.
    do 2 f_equal. lia. }
  assert (Dv : F32.digits v = F32.digits (Zpos m) + (e + 149))
    by (apply digits_shift; lia).
  assert (Ru : F32.round_units v = m1 * 2 ^ (f + 149)).
  { unfold F32.round_units. rewrite Dv.
    replace (Z.max 0 (F32.digits (Zpos m) + (e + 149) - 24))
      with (f + 149) by lia.
    f_equal. rewrite Ev.
    replace (f + 149) with ((f - ez) + (ez + 149)) by lia.
    apply rne_scale; lia. }
  unfold F32.rounds_to. rewrite Ru.
  destruct R as [(Z1 & ->)|[(B1 & -> & C)|(T1 & -> & C)]].
  - left. rewrite Z1, Z.mul_0_l. repeat split. now destruct s.
  - destruct (Z.leb_spec f 104) as [L|G].
    + left. split; [|split].
      * change 277 with (24 + 253). apply mul_lt_pow; lia.
      * apply good_finite. split; [exact C | exact L].
      * cbn [F32.units]. rewrite Z2Pos.id by lia. reflexivity.
    + right. split; [|reflexivity].
      apply canonical32 in C. destruct C as (_ & _ & C).
      rewrite Z2Pos.id in C by lia.
      pose proof (digits_bounds m1 ltac:(lia)) as [Lo _].
      rewrite C in Lo by lia. change (24 - 1) with 23 in Lo.
      change 277 with (23 + 254). apply mul_ge_pow; lia.
  - destruct (Z.leb_spec (f + 1) 104) as [L|G].
    + left. split; [|split].
      * rewrite T1. change 277 with (25 + 252). apply mul_lt_pow; lia.
      * apply good_finite. split; [exact C | exact L].
      * cbn [F32.units]. f_equal. rewrite T1.
        replace (f + 1 + 149) with (Z.succ (f + 149)) by lia.
        rewrite Z.pow_succ_r by lia.
        change (Zpos (Z.to_pos (2 ^ 23))) with (2 ^ 23).
        change (2 ^ 24) with (2 * 2 ^ 23). lia.
    + right. split; [|reflexivity]. rewrite T1.
      change 277 with (24 + 253). apply mul_ge_pow; lia.
Qed.

Lemma round_units_0 : F32.round_units 0 = 0.
Proof. reflexivity. Qed.

Lemma round_units_fix m e :
  canonical_mantissa Np.p32 Np.e32 m e = true ->
  F32.round_units (Zpos m * 2 ^ (e + 149)) = Zpos m * 2 ^ (e + 149).
Proof.
  intros C. apply canonical32 in C. destruct C as (E & D & N).
  unfold F32.round_units. rewrite digits_shift by lia.
  set (k := Z.max 0 (F32.digits (Zpos m) + (e + 149) - 24)).
  assert (K : 0 <= k <= e + 149) by lia.
  replace (Zpos m * 2 ^ (e + 149))
    with ((Zpos m * 2 ^ (e + 149 - k)) * 2 ^ k).
  - rewrite rne_exact by lia. reflexivity.
  - rewrite <- Z.mul_assoc, <- Z.pow_add_r by lia. do 2 f_equal. lia.
Qed.

Lemma round_units_mono a b :
  0 <= a <= b -> F32.round_units a <= F32.round_units b.
Proof.
  intros [A B]. unfold F32.round_units.
  pose proof (digits_mono a b (conj A B)) as D.
  pose proof (digits_nonneg a) as Da.
  set (ka := Z.max 0 (F32.digits a - 24)).
  set (kb := Z.max 0 (F32.digits b - 24)).
  assert (Pa : 0 < 2 ^ ka) by (apply Z.pow_pos_nonneg; lia).
  destruct (Z.eq_dec ka kb) as [E|N].
  - rewrite <- E. apply Z.mul_le_mono_nonneg_r; [lia|].
    apply rne_mono; lia.
  - assert (L : ka < kb) by lia.
    assert (Pb : 0 < b).
    { destruct (Z.eq_dec b 0) as [->|]; [|lia].
      change (F32.digits 0) with 0 in *. lia. }
    assert (Ua : F32.rne a ka <= 2 ^ 24).
    { apply rne_le_multiple; [lia|]. rewrite <- Z.pow_add_r by lia.
      destruct (Z.eq_dec a 0) as [->|Na].
      - apply Z.pow_nonneg. lia.
      - pose proof (digits_bounds a ltac:(lia)) as [_ U].
        assert (2 ^ F32.digits a <= 2 ^ (24 + ka))
          by (apply Z.pow_le_mono_r; lia).
        lia. }
    assert (Lb : 2 ^ 23 <= F32.rne b kb).
    { apply rne_ge_multiple; [lia|]. rewrite <- Z.pow_add_r by lia.
      pose proof (digits_bounds b Pb) as [Lo _].
      replace (23 + kb) with (F32.digits b - 1) by lia. exact Lo. }
    assert (Pk : 2 ^ kb = 2 ^ (kb - ka - 1) * 2 * 2 ^ ka).
    { replace kb with ((kb - ka - 1) + 1 + ka) at 1 by lia.
      rewrite !Z.pow_add_r, Z.pow_1_r by lia. reflexivity. }
    assert (P1 : 0 < 2 ^ (kb - ka - 1)) by (apply Z.pow_pos_nonneg; lia).
    rewrite Pk. change (2 ^ 24) with (2 * 2 ^ 23) in Ua.
    set (x := F32.rne a ka) in *. set (y := F32.rne b kb) in *.
    set (p := 2 ^ ka) in *. set (q := 2 ^ (kb - ka - 1)) in *.
    set (c := 2 ^ 23) in *.
    assert (0 < c) by (unfold c; lia).
    assert (x * p <= 2 * c * p) by nia.
    assert (c * (q * 2 * p) <= y * (q * 2 * p)) by nia.
    nia.
Qed.

Lemma round_units_nonneg a : 0 <= a -> 0 <= F32.round_units a.
Proof.
  intros A. rewrite <- round_units_0. apply round_units_mono. lia.
Qed.

Lemma round_units_pos a : 0 < a -> 0 < F32.round_units a.
Proof.
  intros A. assert (E : F32.round_units 1 = 1) by reflexivity.
  pose proof (round_units_mono 1 a ltac:(lia)). lia.
Qed.

End Round32.

Section Order32.
Local Open Scope Z_scope.

Lemma canonical_lt m1 e1 m2 e2 :
  canonical_mantissa Np.p32 Np.e32 m1 e1 = true ->
  canonical_mantissa Np.p32 Np.e32 m2 e2 = true ->
  e1 < e2 ->
  Zpos m1 * 2 ^ (e1 + 149) < Zpos m2 * 2 ^ (e2 + 149).
Proof.
  intros C1 C2 L. apply canonical32 in C1, C2.
  destruct C1 as (E1 & D1 & _), C2 as (E2 & _ & N2).
  pose proof (digits_bounds (Zpos m1) ltac:(lia)) as [_ U1].
  pose proof (digits_bounds (Zpos m2) ltac:(lia)) as [L2 _].
  rewrite N2 in L2 by lia. change (24 - 1) with 23 in L2.
  assert (U : Zpos m1 < 2 ^ 24).
  { assert (2 ^ F32.digits (Zpos m1) <= 2 ^ 24)
      by (apply Z.pow_le_mono_r; lia).
    lia. }
  apply Z.lt_le_trans with (2 ^ (24 + (e1 + 149))).
  - apply mul_lt_pow; lia.
  - replace (24 + (e1 + 149)) with (23 + (e1 + 150)) by lia.
    apply mul_ge_pow; lia.
Qed.

Lemma canonical_compare m1 e1 m2 e2 :
  canonical_mantissa Np.p32 Np.e32 m1 e1 = true ->
  canonical_mantissa Np.p32 Np.e32 m2 e2 = true ->
  match e1 ?= e2 with
  | Lt => Lt
  | Gt => Gt
  | Eq => Pos.compare_cont Eq m1 m2
  end = (Zpos m1 * 2 ^ (e1 + 149) ?= Zpos m2 * 2 ^ (e2 + 149)).
Proof.
  intros C1 C2. destruct (Z.compare_spec e1 e2) as [E|L|G].
  - subst e2. apply canonical32 in C1.
    assert (P : 0 < 2 ^ (e1 + 149)) by (apply Z.pow_pos_nonneg; lia).
    change (Pos.compare_cont Eq m1 m2) with (Zpos m1 ?= Zpos m2).
    destruct (Z.compare_spec (Zpos m1) (Zpos m2));
      destruct (Z.compare_spec (Zpos m1 * 2 ^ (e1 + 149))
                               (Zpos m2 * 2 ^ (e1 + 149)));
      try reflexivity; nia.
  - symmetry. apply Z.compare_lt_iff. now apply canonical_lt.
  - symmetry. apply Z.compare_gt_iff. now apply canonical_lt.
Qed.

Lemma finite_units_pos m e : -149 <= e -> 0 < Zpos m * 2 ^ (e + 149).
Proof.
  intros E. apply Z.mul_pos_pos; [lia | apply Z.pow_pos_nonneg; lia].
Qed.

Lemma good_exp s m e : F32.good (S754_finite s m e) = true -> -149 <= e.
Proof.
  intros G. apply good_finite in G. destruct G as (C & _).
  apply canonical32 in C. lia.
Qed.

Lemma good_flip s s' m e :
  F32.good (S754_finite s m e) = true ->
  F32.good (S754_finite s' m e) = true.
Proof. intros G. apply good_finite. now apply good_finite in G. Qed.

(** On canonical data the comparison of [SpecFloat] is the comparison
    of the units. *)
Lemma compare_units x y :
  F32.good x = true -> F32.good y = true ->
  SFcompare x y = Some (F32.units x ?= F32.units y).
Proof.
  destruct x as [sx|sx| |sx mx ex], y as [sy|sy| |sy my ey];
    intros Gx Gy; try discriminate; cbn [SFcompare F32.units].
  - reflexivity.
  - pose proof (finite_units_pos my ey (good_exp _ _ _ Gy)) as P.
    f_equal. symmetry.
    destruct sy; cbn [cond_Zopp];
      [apply Z.compare_gt_iff | apply Z.compare_lt_iff]; lia.
  - pose proof (finite_units_pos mx ex (good_exp _ _ _ Gx)) as P.
    f_equal. symmetry.
    destruct sx; cbn [cond_Zopp];
      [apply Z.compare_lt_iff | apply Z.compare_gt_iff]; lia.
  - pose proof (finite_units_pos mx ex (good_exp _ _ _ Gx)) as Px.
    pose proof (finite_units_pos my ey (good_exp _ _ _ Gy)) as Py.
    apply good_finite in Gx, Gy. destruct Gx as (Cx & _), Gy as (Cy & _).
    f_equal. destruct sx, sy; cbn [cond_Zopp].
    + rewrite Z.compare_opp, (Z.compare_antisym (Zpos mx * _)).
      rewrite <- (canonical_compare mx ex my ey Cx Cy).
      now destruct (ex ?= ey).
    + symmetry. apply Z.compare_lt_iff. lia.
    + symmetry. apply Z.compare_gt_iff. lia.
    + now apply canonical_compare.
Qed.

Lemma units_one : F32.units (SFone Np.p32 Np.e32) = 2 ^ 149.
Proof. reflexivity. Qed.

Lemma good_one : F32.good (SFone Np.p32 Np.e32) = true.
Proof. reflexivity. Qed.

Lemma in_unit_units r :
  F32.good r = true -> 0 <= F32.units r <= 2 ^ 149 ->
  F32.in_unit r = true.
Proof.
  intros G [L U]. unfold F32.in_unit, SFleb.
  rewrite (compare_units (S754_zero false) r (good_zero false) G).
  rewrite (compare_units r (SFone Np.p32 Np.e32) G good_one), units_one.
  cbn [F32.units].
  destruct (Z.compare_spec 0 (F32.units r)); try lia;
    destruct (Z.compare_spec (F32.units r) (2 ^ 149)); try lia; reflexivity.
Qed.

Lemma eq_zero_units r :
  F32.good r = true ->
  SFeqb r (S754_zero false) = (F32.units r =? 0).
Proof.
  intros G. unfold SFeqb. rewrite (compare_units r _ G (good_zero false)).
  cbn [F32.units]. unfold Z.eqb.
  destruct (Z.compare_spec (F32.units r) 0) as [E|L|L].
  - now rewrite E.
  - destruct (F32.units r); try reflexivity; lia.
  - destruct (F32.units r); try reflexivity; lia.
Qed.

Lemma units_0_zero r :
  F32.good r = true -> F32.units r = 0 -> exists s, r = S754_zero s.
Proof.
  destruct r as [s|s| |s m e]; intros G U; try discriminate; eauto.
  pose proof (finite_units_pos m e (good_exp _ _ _ G)).
  cbn [F32.units] in U. destruct s; cbn [cond_Zopp] in U; lia.
Qed.

End Order32.

Section Sub32.
Local Open Scope Z_scope.

Lemma rounds_to_zero s : F32.rounds_to false 0 (S754_zero s).
Proof. left. repeat split. Qed.

Lemma good_bound s m e :
  F32.good (S754_finite s m e) = true -> Zpos m * 2 ^ (e + 149) < 2 ^ 277.
Proof.
  intros G. apply good_finite in G. destruct G as (C & L).
  apply canonical32 in C. destruct C as (E & D & _).
  pose proof (digits_bounds (Zpos m) ltac:(lia)) as [_ U].
  assert (2 ^ F32.digits (Zpos m) <= 2 ^ 24) by (apply Z.pow_le_mono_r; lia).
  change 277 with (24 + 253). apply mul_lt_pow; lia.
Qed.

Lemma rounds_to_self s m e :
  F32.good (S754_finite s m e) = true ->
  F32.rounds_to false (Zpos m * 2 ^ (e + 149)) (S754_finite false m e).
Proof.
  intros G. pose proof (good_bound _ _ _ G).
  apply (good_flip _ false) in G.
  pose proof G as G'. apply good_finite in G'. destruct G' as (C & _).
  left. rewrite (round_units_fix m e C). repeat split; auto.
Qed.

Lemma cond_Zopp_mul s a p : cond_Zopp s a * p = cond_Zopp s (a * p).
Proof. destruct s; cbn [cond_Zopp]; lia. Qed.

Lemma aligned_units s m e e' :
  e' <= e -> -149 <= e' ->
  cond_Zopp s (Zpos (fst (shl_align m e e'))) * 2 ^ (e' + 149)
  = F32.units (S754_finite s m e).
Proof.
  intros L E. destruct (shl_align_spec m e e') as (mz & A & V).
  rewrite A. cbn [fst F32.units]. rewrite cond_Zopp_mul. f_equal.
  rewrite V, Z.min_r, <- Z.mul_assoc, <- Z.pow_add_r by lia.
  do 2 f_equal. lia.
Qed.

(** Subtraction of canonical data, the larger first: the difference of
    the units, rounded. *)
Lemma sub_units x y :
  F32.good x = true -> F32.good y = true ->
  F32.units y <= F32.units x ->
  F32.rounds_to false (F32.units x - F32.units y) (SFsub Np.p32 Np.e32 x y).
Proof.
  destruct x as [sx|sx| |sx mx ex], y as [sy|sy| |sy my ey];
    intros Gx Gy; try discriminate; intros L.
  - cbn [SFsub F32.units]. destruct sx, sy; apply rounds_to_zero.
  - pose proof (finite_units_pos my ey (good_exp _ _ _ Gy)) as P.
    cbn [SFsub F32.units] in *. destruct sy; cbn [cond_Zopp negb] in *;
      [|lia].
    replace (0 - - (Zpos my * 2 ^ (ey + 149)))
      with (Zpos my * 2 ^ (ey + 149)) by lia.
    now apply (rounds_to_self true).
  - pose proof (finite_units_pos mx ex (good_exp _ _ _ Gx)) as P.
    cbn [SFsub F32.units] in *. destruct sx; cbn [cond_Zopp] in *; [lia|].
    rewrite Z.sub_0_r. now apply (rounds_to_self false).
  - pose proof (good_exp _ _ _ Gx) as Ex. pose proof (good_exp _ _ _ Gy) as Ey.
    cbn [SFsub]. set (ez := Z.min ex ey).
    pose proof (aligned_units sx mx ex ez ltac:(lia) ltac:(lia)) as Ax.
    pose proof (aligned_units sy my ey ez ltac:(lia) ltac:(lia)) as Ay.
    set (a := cond_Zopp sx (Zpos (fst (shl_align mx ex ez)))) in *.
    set (b := cond_Zopp sy (Zpos (fst (shl_align my ey ez)))) in *.
    assert (P : 0 < 2 ^ (ez + 149)) by (apply Z.pow_pos_nonneg; lia).
    assert (V : F32.units (S754_finite sx mx ex)
                - F32.units (S754_finite sy my ey)
                = (a - b) * 2 ^ (ez + 149)) by lia.
    rewrite V. rewrite V in L || idtac.
    assert (N : 0 <= a - b) by nia.
    unfold binary_normalize. destruct (a - b) as [|p|p] eqn:E.
    + apply rounds_to_zero.
    + apply binary_round_units. lia.
    + lia.
Qed.

End Sub32.

Section Div32.
Local Open Scope Z_scope.

Lemma new_location_0 n : new_location n 0 = loc_Exact.
Proof.
  unfold new_location, new_location_even, new_location_odd.
  now destruct (Z.even n).
Qed.

Lemma loc_rep q l :
  exists c, 0 <= c <= 3 /\ (l = loc_Exact -> c = 0)
            /\ F32.rep (4 * q + c) 2 (shr_record_of_loc q l).
Proof.
  assert (D : forall c, 0 <= c <= 3 -> (4 * q + c) / 2 ^ 2 = q).
  { intros c C. change (2 ^ 2) with 4. symmetry.
    apply (Z.div_unique _ 4 q c); lia. }
  assert (H : forall c, 0 <= c <= 3 ->
                (4 * q + c) / 2 ^ (2 - 1) = c / 2 + 2 * q).
  { intros c C. change (2 ^ (2 - 1)) with 2.
    replace (4 * q + c) with (c + (2 * q) * 2) by lia.
    now rewrite Z.div_add by lia. }
  assert (M : forall c, 0 <= c <= 3 ->
                (4 * q + c) mod 2 ^ (2 - 1) = c mod 2).
  { intros c C. change (2 ^ (2 - 1)) with 2.
    replace (4 * q + c) with (c + (2 * q) * 2) by lia.
    now rewrite Z.mod_add by lia. }
  destruct l as [|[| |]];
    [exists 0 | exists 2 | exists 1 | exists 3];
    (split; [lia|]); (split; [try reflexivity; discriminate|]);
    unfold F32.rep; rewrite D, H, M by lia; rewrite Z.odd_add_mul_2;
    repeat split.
Qed.

Lemma digits_pow2 t : 0 <= t -> F32.digits (2 ^ t) = t + 1.
Proof.
  intros T. apply digits_unique.
  - replace (t + 1 - 1) with t by lia. split; [lia|].
    apply Z.pow_lt_mono_r; lia.
  - apply Z.pow_pos_nonneg; lia.
Qed.

(** A quotient of canonical positive data that is at most 1 rounds to
    a number between 0 and 1. *)
Lemma div_unit x y :
  F32.good x = true -> F32.good y = true ->
  0 <= F32.units x <= F32.units y -> 0 < F32.units y ->
  F32.in_unit (SFdiv Np.p32 Np.e32 x y) = true.
Proof.
  destruct y as [sy|sy| |sy my ey]; intros Gx Gy; try discriminate;
    intros [X0 XY] Y0.
  pose proof (good_exp _ _ _ Gy) as Ey.
  assert (Sy : sy = false).
  { pose proof (finite_units_pos my ey Ey).
    destruct sy; [|reflexivity]. cbn [F32.units cond_Zopp] in Y0. lia. }
  subst sy.
  destruct x as [sx|sx| |sx mx ex]; try discriminate.
  { cbn [SFdiv]. now destruct sx. }
  pose proof (good_exp _ _ _ Gx) as Ex.
  assert (Sx : sx = false).
  { pose proof (finite_units_pos mx ex Ex).
    destruct sx; [|reflexivity]. cbn [F32.units cond_Zopp] in X0. lia. }
  subst sx. cbn [F32.units cond_Zopp] in *. clear X0 Y0.
  cbn [SFdiv xorb]. unfold SFdiv_core_binary.
  fold (F32.digits (Zpos mx)). fold (F32.digits (Zpos my)).
  set (d1 := F32.digits (Zpos mx)). set (d2 := F32.digits (Zpos my)).
  pose proof (digits_bounds (Zpos mx) ltac:(lia)) as [Lx Ux]. fold d1 in Lx, Ux.
  pose proof (digits_bounds (Zpos my) ltac:(lia)) as [Ly Uy]. fold d2 in Ly, Uy.
  pose proof (digits_pos (Zpos mx) ltac:(lia)) as D1. fold d1 in D1.
  pose proof (digits_pos (Zpos my) ltac:(lia)) as D2. fold d2 in D2.
  assert (D24 : d1 <= 24).
  { apply good_finite in Gx. destruct Gx as (Cx & _).
    apply canonical32 in Cx. unfold d1. lia. }
  assert (F1 : d1 + ex <= d2 + ey).
  { destruct (Z.le_gt_cases (d1 + ex) (d2 + ey)) as [|C]; [assumption|].
    exfalso.
    assert (A : 2 ^ ((d1 - 1) + (ex + 149)) <= Zpos mx * 2 ^ (ex + 149))
      by (apply mul_ge_pow; lia).
    assert (B : Zpos my * 2 ^ (ey + 149) < 2 ^ (d2 + (ey + 149)))
      by (apply mul_lt_pow; lia).
    assert (2 ^ (d2 + (ey + 149)) <= 2 ^ ((d1 - 1) + (ex + 149)))
      by (apply Z.pow_le_mono_r; lia).
    lia. }
  rewrite fexp32.
  set (e' := Z.min (Z.max (d1 + ex - (d2 + ey) - 24) (-149)) (ex - ey)).
  set (t := - e').
  assert (T : 24 <= t) by (unfold t, e'; lia).
  set (s := ex - ey - e').
  assert (S0 : 0 <= s) by (unfold s, e'; lia).
  set (m' := match s with Zpos _ => Z.shiftl (Zpos mx) s | 0 => Zpos mx
                     | Zneg _ => 0 end).
  assert (Em : m' = Zpos mx * 2 ^ s).
  { unfold m'. destruct s as [|p|p] eqn:Es.
    - rewrite Z.pow_0_r. lia.
    - apply Z.shiftl_mul_pow2. lia.
    - lia. }
  clearbody m'.
  assert (Ps : 0 < 2 ^ s) by (apply Z.pow_pos_nonneg; lia).
  assert (Pt : 0 < 2 ^ t) by (apply Z.pow_pos_nonneg; lia).
  assert (F2 : m' <= Zpos my * 2 ^ t).
  { assert (P : 0 < 2 ^ (ey + 149)) by (apply Z.pow_pos_nonneg; lia).
    assert (I : 2 ^ s * 2 ^ (ey + 149) = 2 ^ (ex + 149) * 2 ^ t).
    { rewrite <- !Z.pow_add_r by lia. f_equal. unfold s, t. lia. }
    apply (Z.mul_le_mono_pos_r _ _ (2 ^ (ey + 149)) P).
    rewrite Em, <- Z.mul_assoc, I.
    set (a := Zpos mx * 2 ^ (ex + 149)) in *.
    set (b := Zpos my * 2 ^ (ey + 149)) in *.
    replace (Zpos mx * (2 ^ (ex + 149) * 2 ^ t)) with (a * 2 ^ t)
      by (unfold a; lia).
    replace (Zpos my * 2 ^ t * 2 ^ (ey + 149)) with (b * 2 ^ t)
      by (unfold b; lia).
    apply Z.mul_le_mono_nonneg_r; lia. }
  pose proof (Z_div_mod m' (Zpos my) ltac:(lia)) as DM.
  destruct (Z.div_eucl m' (Zpos my)) as [q r]. destruct DM as [Eq Rr].
  assert (Q0 : 0 <= q) by nia.
  assert (F3 : q <= 2 ^ t /\ (q = 2 ^ t -> r = 0)) by (split; nia).
  destruct F3 as [Qt Qr].
  destruct (loc_rep q (new_location (Zpos my) r)) as (c & C & Cx & R).
  assert (Nb : 4 * q + c <= 2 ^ (2 + t)).
  { rewrite Z.pow_add_r by lia. change (2 ^ 2) with 4.
    destruct (Z.eq_dec q (2 ^ t)) as [E|N].
    - rewrite (Qr E), new_location_0 in Cx. rewrite (Cx eq_refl). lia.
    - lia. }
  assert (Dq : F32.digits q <= t + 1).
  { apply digits_lt_pow; [lia | lia |].
    assert (2 ^ t < 2 ^ (t + 1)) by (apply Z.pow_lt_mono_r; lia). lia. }
  assert (Hq : e' <= fexp Np.p32 Np.e32 (F32.digits q + e')).
  { rewrite fexp32.
    destruct (Z.le_gt_cases e' (-149)) as [|G]; [lia|].
    assert (Sd : d2 - d1 + 24 <= s) by (unfold s, e' in *; lia).
    assert (A : 2 ^ ((d1 - 1) + (d2 - d1 + 24)) <= m')
      by (rewrite Em; apply mul_ge_pow; lia).
    replace (d1 - 1 + (d2 - d1 + 24)) with (23 + d2) in A by lia.
    rewrite Z.pow_add_r in A by lia.
    assert (Q23 : 2 ^ 23 <= q).
    { destruct (Z.le_gt_cases (2 ^ 23) q) as [|C']; [assumption|].
      exfalso. set (c23 := 2 ^ 23) in *. nia. }
    pose proof (digits_mono (2 ^ 23) q ltac:(lia)) as Dm.
    rewrite (digits_pow2 23) in Dm by lia. lia. }
  pose proof (round_aux_spec false (4 * q + c) 2 q e'
                (new_location (Zpos my) r) ltac:(lia) ltac:(lia) Q0 R Hq)
    as Sp.
  cbv zeta in Sp. rewrite fexp32 in Sp, Hq.
  set (e1 := Z.max (F32.digits q + e' - 24) (-149)) in *.
  set (m1 := F32.rne (4 * q + c) (2 + (e1 - e'))) in *.
  assert (E1 : -149 <= e1 <= -23).
  { pose proof (digits_nonneg q). unfold e1, t in *. lia. }
  assert (M1 : m1 <= 2 ^ (- e1)).
  { apply rne_le_multiple; [unfold t in *; lia|].
    rewrite <- Z.pow_add_r by (unfold t in *; lia).
    replace (- e1 + (2 + (e1 - e'))) with (2 + t) by (unfold t; lia).
    exact Nb. }
  assert (Bd : m1 * 2 ^ (e1 + 149) <= 2 ^ 149).
  { replace (2 ^ 149) with (2 ^ (- e1 + (e1 + 149))) by (f_equal; lia).
    rewrite (Z.pow_add_r 2 (- e1) (e1 + 149)) by lia.
    apply Z.mul_le_mono_nonneg_r; [|exact M1].
    apply Z.pow_nonneg. lia. }
  destruct Sp as [(_ & ->)|[(B1 & -> & Cn)|(T1 & -> & Cn)]].
  - reflexivity.
  - destruct (Z.leb_spec e1 104); [|lia].
    apply in_unit_units.
    + apply good_finite. split; [exact Cn | lia].
    + cbn [F32.units cond_Zopp]. rewrite Z2Pos.id by lia.
      split; [|exact Bd].
      apply Z.mul_nonneg_nonneg; [lia | apply Z.pow_nonneg; lia].
  - destruct (Z.leb_spec (e1 + 1) 104); [|lia].
    apply in_unit_units.
    + apply good_finite. split; [exact Cn | lia].
    + cbn [F32.units cond_Zopp].
      change (Zpos (Z.to_pos (2 ^ 23))) with (2 ^ 23).
      replace (e1 + 1 + 149) with (Z.succ (e1 + 149)) by lia.
      rewrite Z.pow_succ_r by lia. rewrite T1 in Bd.
      change (2 ^ 24) with (2 * 2 ^ 23) in Bd.
      split; [|lia].
      apply Z.mul_nonneg_nonneg; [lia|].
      apply Z.mul_nonneg_nonneg; [lia | apply Z.pow_nonneg; lia].
Qed.

End Div32.

(* ================================================================== *)
(** * Min-max scaling on binary32 *)
(* ================================================================== *)

Section Entry32.
Local Open Scope Z_scope.

Lemma finite_rounds_to v r :
  F32.rounds_to false v r -> F32.finite r = true ->
  F32.round_units v < 2 ^ 277 /\ F32.good r = true
  /\ F32.units r = F32.round_units v.
Proof.
  intros [H|[_ ->]] Fi; [exact H | discriminate].
Qed.

Lemma eqb_units x y :
  F32.good x = true -> F32.good y = true ->
  F32.eqb x y = true -> F32.units x = F32.units y.
Proof.
  intros Gx Gy. unfold F32.eqb, SFeqb. rewrite (compare_units x y Gx Gy).
  destruct (Z.compare_spec (F32.units x) (F32.units y)); try discriminate.
  auto.
Qed.

Lemma leb_units x y :
  F32.good x = true -> F32.good y = true ->
  F32.units x <= F32.units y -> SFleb x y = true.
Proof.
  intros Gx Gy L. unfold SFleb. rewrite (compare_units x y Gx Gy).
  destruct (Z.compare_spec (F32.units x) (F32.units y)); try reflexivity.
  lia.
Qed.

(** One entry [x] of a column with minimum [mn] and maximum [mx]. *)
Lemma scaled_entry x mn mx :
  F32.good x = true -> F32.good mn = true -> F32.good mx = true ->
  F32.units mn <= F32.units x <= F32.units mx ->
  F32.finite (SFsub Np.p32 Np.e32 mx mn) = true ->
  let d := SFsub Np.p32 Np.e32 mx mn in
  let rng := if SFeqb d (S754_zero false) then SFone Np.p32 Np.e32 else d in
  let o := SFdiv Np.p32 Np.e32 (SFsub Np.p32 Np.e32 x mn) rng in
  F32.in_unit o = true
  /\ SFeqb rng (S754_zero false) = false
  /\ (F32.units mx = F32.units mn -> SFeqb o (S754_zero false) = true).
Proof.
  intros Gx Gn Gm [Lo Hi] Fd d rng o.
  pose proof (sub_units mx mn Gm Gn ltac:(lia)) as Rd. fold d in Rd.
  destruct (finite_rounds_to _ _ Rd Fd) as (Bd & Gd & Ud).
  pose proof (sub_units x mn Gx Gn Lo) as Rn.
  set (num := SFsub Np.p32 Np.e32 x mn) in *.
  pose proof (round_units_mono (F32.units x - F32.units mn)
                (F32.units mx - F32.units mn) ltac:(lia)) as Mo.
  assert (Gnum : F32.good num = true
                 /\ F32.units num
                    = F32.round_units (F32.units x - F32.units mn)).
  { destruct Rn as [(_ & G & U)|(B & _)]; [now split | lia]. }
  destruct Gnum as (Gnum & Unum).
  pose proof (round_units_nonneg (F32.units x - F32.units mn) ltac:(lia))
    as Nn.
  unfold o, rng. rewrite (eq_zero_units d Gd).
  destruct (Z.eqb_spec (F32.units d) 0) as [Z0|Nz].
  - assert (Zn : F32.units num = 0) by lia.
    destruct (units_0_zero num Gnum Zn) as (s & ->).
    repeat split; now destruct s.
  - rewrite (eq_zero_units d Gd).
    destruct (Z.eqb_spec (F32.units d) 0) as [|_]; [contradiction|].
    pose proof (round_units_nonneg (F32.units mx - F32.units mn)
                  ltac:(lia)).
    split; [|split; [reflexivity|]].
    + apply div_unit; auto; lia.
    + intros E. exfalso. apply Nz. rewrite Ud, E, Z.sub_diag.
      apply round_units_0.
Qed.

End Entry32.

Section Columns32.
Local Open Scope Z_scope.

Lemma nth_error_map2 {A B C} (f : A -> B -> C) l1 : forall l2 j,
  nth_error (Np.map2 f l1 l2) j
  = match nth_error l1 j, nth_error l2 j with
    | Some a, Some b => Some (f a b)
    | _, _ => None
    end.
Proof.
  unfold Np.map2.
  induction l1 as [|a l1 IH]; intros [|b l2] [|j]; cbn; auto.
  now destruct (nth_error l1 j).
Qed.

Lemma min32_units a b :
  F32.good a = true -> F32.good b = true ->
  (Np.min32 a b = a \/ Np.min32 a b = b)
  /\ F32.units (Np.min32 a b) <= F32.units a
  /\ F32.units (Np.min32 a b) <= F32.units b.
Proof.
  intros Ga Gb. unfold Np.min32. rewrite (compare_units a b Ga Gb).
  destruct (Z.compare_spec (F32.units a) (F32.units b));
    (split; [auto | lia]).
Qed.

Lemma max32_units a b :
  F32.good a = true -> F32.good b = true ->
  (Np.max32 a b = a \/ Np.max32 a b = b)
  /\ F32.units a <= F32.units (Np.max32 a b)
  /\ F32.units b <= F32.units (Np.max32 a b).
Proof.
  intros Ga Gb. unfold Np.max32. rewrite (compare_units a b Ga Gb).
  destruct (Z.compare_spec (F32.units a) (F32.units b));
    (split; [auto | lia]).
Qed.

Variable op : spec_float -> spec_float -> spec_float.
Variable R : Z -> Z -> Prop.
Hypothesis R_refl : forall a, R a a.
Hypothesis R_trans : forall a b c, R a b -> R b c -> R a c.
Hypothesis op_units : forall a b,
  F32.good a = true -> F32.good b = true ->
  (op a b = a \/ op a b = b)
  /\ R (F32.units (op a b)) (F32.units a)
  /\ R (F32.units (op a b)) (F32.units b).

(** Column [j] of a reduction over the rows [t], started at [acc]. *)
Lemma fold_column (j : nat) (t : list (list spec_float)) :
  forall acc a,
    nth_error acc j = Some a -> F32.good a = true ->
    (forall r, In r t ->
       exists x, nth_error r j = Some x /\ F32.good x = true) ->
    exists v,
      nth_error (fold_left (Np.map2 op) t acc) j = Some v
      /\ F32.good v = true
      /\ R (F32.units v) (F32.units a)
      /\ (forall r x, In r t -> nth_error r j = Some x ->
                      R (F32.units v) (F32.units x))
      /\ (v = a \/ exists r, In r t /\ nth_error r j = Some v).
Proof.
  induction t as [|r t IH]; intros acc a Ha Ga Ht; cbn [fold_left].
  - exists a. repeat split; auto. intros r x [].
  - destruct (Ht r (or_introl eq_refl)) as (x & Hx & Gx).
    destruct (op_units a x Ga Gx) as (Ch & Ra & Rx).
    assert (Go : F32.good (op a x) = true)
      by (destruct Ch as [->| ->]; assumption).
    destruct (IH (Np.map2 op acc r) (op a x)) as (v & Hv & Gv & Rv & Rt & Mv).
    + now rewrite nth_error_map2, Ha, Hx.
    + exact Go.
    + intros r' Hr'. apply Ht. now right.
    + exists v. split; [exact Hv|]. split; [exact Gv|].
      split; [eapply R_trans; eauto|]. split.
      * intros r' x' [<-|Hr'] Hx'.
        -- rewrite Hx in Hx'. inversion Hx'; subst x'.
           eapply R_trans; eauto.
        -- eapply Rt; eauto.
      * destruct Mv as [->|(r' & Hr' & Hv')].
        -- destruct Ch as [->| ->]; [now left|].
           right. exists r. split; [now left | exact Hx].
        -- right. exists r'. split; [now right | exact Hv'].
Qed.

End Columns32.

Section Matrix32.
Local Open Scope Z_scope.

Lemma ge_refl a : (fun x y : Z => y <= x) a a.
Proof. cbv beta. lia. Qed.

Lemma ge_trans a b c :
  (fun x y : Z => y <= x) a b -> (fun x y : Z => y <= x) b c ->
  (fun x y : Z => y <= x) a c.
Proof. cbv beta. lia. Qed.

Lemma entry_In (m : @Np.matrix Np.binary32) i j x :
  Np.entry m i j = Some x ->
  exists row, In row m /\ nth_error m i = Some row
              /\ nth_error row j = Some x.
Proof.
  unfold Np.entry. destruct (nth_error m i) as [row|] eqn:E;
    [|discriminate].
  intros H. exists row. split; [eapply nth_error_In; eauto | auto].
Qed.

Lemma In_entry (m : @Np.matrix Np.binary32) row j x :
  In row m -> nth_error row j = Some x ->
  exists i, Np.entry m i j = Some x.
Proof.
  intros I H. destruct (In_nth_error _ _ I) as (i & E).
  exists i. unfold Np.entry. now rewrite E.
Qed.

(** Min-max scaling of an array of canonical finite data whose column
    ranges are finite. *)
Lemma scale_unit (m : @Np.matrix Np.binary32) (k : nat) :
  m <> [] ->
  Forall (fun r => List.length r = k) m ->
  Forall (Forall (fun x => F32.good x = true)) m ->
  Forall (fun d => F32.finite d = true)
         (Np.map2 (Np.sub Np.binary32) (Np.max0 m) (Np.min0 m)) ->
  forall i j x,
    Np.entry m i j = Some x ->
    exists mn mx,
      nth_error (Np.min0 m) j = Some mn
      /\ nth_error (Np.max0 m) j = Some mx
      /\ (exists a, Np.entry m a j = Some mn)
      /\ (exists b, Np.entry m b j = Some mx)
      /\ (forall i' x', Np.entry m i' j = Some x' ->
            SFleb mn x' = true /\ SFleb x' mx = true)
      /\ let d := Np.sub Np.binary32 mx mn in
         let rng := if Np.eq_zero Np.binary32 d then Np.one Np.binary32 else d in
         let o := Np.div Np.binary32 (Np.sub Np.binary32 x mn) rng in
         Np.entry (Np.scale m (Np.min0 m) (Np.range (Np.max0 m) (Np.min0 m)))
                  i j = Some o
         /\ Np.eq_zero Np.binary32 rng = false
         /\ F32.in_unit o = true
         /\ ((forall i' x', Np.entry m i' j = Some x' ->
                F32.eqb x' x = true) ->
             F32.eqb o (S754_zero false) = true).
Proof.
  intros Hne Hlen Hgood Hd i j x Hx.
  destruct (entry_In m i j x Hx) as (row & Irow & Erow & Ex).
  assert (G : forall r y, In r m -> nth_error r j = Some y ->
                          F32.good y = true).
  { intros r y Ir Hy. rewrite Forall_forall in Hgood.
    specialize (Hgood r Ir). rewrite Forall_forall in Hgood.
    apply Hgood. eapply nth_error_In; eauto. }
  assert (Hj : (j < k)%nat).
  { rewrite Forall_forall in Hlen. rewrite <- (Hlen row Irow).
    apply nth_error_Some. congruence. }
  assert (Col : forall r, In r m ->
            exists y, nth_error r j = Some y /\ F32.good y = true).
  { intros r Ir. destruct (nth_error r j) as [y|] eqn:E.
    - exists y. split; [reflexivity | eapply G; eauto].
    - apply nth_error_None in E. rewrite Forall_forall in Hlen.
      rewrite (Hlen r Ir) in E. lia. }
  destruct m as [|r0 t]; [congruence|]. clear Hne.
  destruct (Col r0 (or_introl eq_refl)) as (a0 & Ha0 & Ga0).
  assert (Ct : forall r, In r t ->
            exists y, nth_error r j = Some y /\ F32.good y = true)
    by (intros r Ir; apply Col; now right).
  destruct (fold_column Np.min32 Z.le Z.le_refl Z.le_trans min32_units
              j t r0 a0 Ha0 Ga0 Ct)
    as (mn & Hmn & Gmn & Rn0 & Rnt & Mn).
  destruct (fold_column Np.max32 (fun x y : Z => y <= x) ge_refl ge_trans
              max32_units j t r0 a0 Ha0 Ga0 Ct)
    as (mx & Hmx & Gmx & Rx0 & Rxt & Mx).
  change (nth_error (Np.min0 (K := Np.binary32) (r0 :: t)) j = Some mn) in Hmn.
  change (nth_error (Np.max0 (K := Np.binary32) (r0 :: t)) j = Some mx) in Hmx.
  assert (Bnd : forall r y, In r (r0 :: t) -> nth_error r j = Some y ->
                  F32.units mn <= F32.units y <= F32.units mx).
  { intros r y [<-|Ir] Hy.
    - rewrite Ha0 in Hy. inversion Hy; subst y. lia.
    - split; [eapply Rnt | eapply Rxt]; eauto. }
  assert (Mem : forall v, v = a0 \/ (exists r, In r t /\ nth_error r j = Some v) ->
                  exists r, In r (r0 :: t) /\ nth_error r j = Some v).
  { intros v [->|(r & Ir & Hr)].
    - exists r0. split; [now left | exact Ha0].
    - exists r. split; [now right | exact Hr]. }
  destruct (Mem mn Mn) as (rn & Irn & Hrn).
  destruct (Mem mx Mx) as (rx & Irx & Hrx).
  exists mn, mx.
  split; [exact Hmn|]. split; [exact Hmx|].
  split; [exact (In_entry _ _ _ _ Irn Hrn)|].
  split; [exact (In_entry _ _ _ _ Irx Hrx)|].
  split.
  { intros i' x' Hx'.
    destruct (entry_In _ _ _ _ Hx') as (r' & Ir' & _ & Ex').
    pose proof (Bnd r' x' Ir' Ex') as B. pose proof (G r' x' Ir' Ex').
    split; apply leb_units; auto; lia. }
  assert (Fd : F32.finite (SFsub Np.p32 Np.e32 mx mn) = true).
  { rewrite Forall_forall in Hd. apply Hd.
    apply (nth_error_In _ j). now rewrite nth_error_map2, Hmx, Hmn. }
  pose proof (Bnd row x Irow Ex) as Bx.
  pose proof (G row x Irow Ex) as Gx.
  destruct (scaled_entry x mn mx Gx Gmn Gmx Bx Fd) as (U & Nz & Zc).
  cbv zeta. split; [|split; [exact Nz|split; [exact U|]]].
  - unfold Np.entry, Np.scale. rewrite nth_error_map, Erow.
    cbn [option_map]. rewrite !nth_error_map2, Ex, Hmn.
    unfold Np.range. rewrite nth_error_map, nth_error_map2, Hmx, Hmn.
    reflexivity.
  - intros Hc. apply Zc.
    destruct (In_entry _ _ _ _ Irn Hrn) as (a & Ea).
    destruct (In_entry _ _ _ _ Irx Hrx) as (b & Eb).
    pose proof (eqb_units mn x Gmn Gx (Hc a mn Ea)).
    pose proof (eqb_units mx x Gmx Gx (Hc b mx Eb)).
    lia.
Qed.

End Matrix32.

Section Normalize32.

Lemma rounded_good (rows : list (list Py.pyfloat)) :
  Forall (Forall (fun x => F32.finite x = true)) (map (map Np.round32) rows) ->
  Forall (Forall (fun x => F32.good x = true)) (map (map Np.round32) rows).
Proof.
  rewrite !Forall_forall. intros H r Hr. specialize (H r Hr).
  apply in_map_iff in Hr as (r0 & <- & _).
  rewrite Forall_forall in *. intros x Hx. specialize (H x Hx).
  apply in_map_iff in Hx as (y & <- & _). now apply round32_good.
Qed.

Lemma reduced_nth (f : spec_float -> spec_float -> spec_float)
    (r0 : list spec_float) (t : list (list spec_float)) (k j : nat) :
  Forall (fun r => List.length r = k) (r0 :: t) -> j < k ->
  exists v, nth_error (fold_left (Np.map2 f) t r0) j = Some v.
Proof.
  intros F J. inversion F as [|? ? L0 Ft]; subst.
  pose proof (fold_map2_length (K := Np.binary32) f _ t Ft r0 eq_refl) as L.
  destruct (nth_error (fold_left (Np.map2 f) t r0) j) as [v|] eqn:E;
    [eauto|].
  apply nth_error_None in E. exfalso.
  apply (Nat.lt_irrefl j). eapply Nat.lt_le_trans; [exact J|].
  rewrite <- L. exact E.
Qed.

End Normalize32.

(** C2, as amended.  [_features] (builder.py:173-178) normalizes the
    float32 array of each node type that has at least one node, one row
    per node and one column per declared feature.  On binary32 the
    result has the shape of the array.  Every entry [x] of a column [j]
    is scaled as [(x - mins[j]) / rng[j]], where [rng[j]] is
    [maxs[j] - mins[j]], or 1.0 where that difference is 0, so that the
    divisor is never 0.  When every value of the array is finite and no
    column's [maxs - mins] overflows, [mins[j]] and [maxs[j]] are
    entries of the column, below and above every entry of it; the
    scaled entry lies in [0, 1]; and it is 0 when the entries of the
    column are all equal. *)
Theorem C2_normalize_unit_interval (rows : list (list Py.pyfloat)) (k : nat) :
  rows <> [] ->
  Forall (fun r => List.length r = k) rows ->
  let matrix := map (map Np.round32) rows : @Np.matrix Np.binary32 in
  let mins := Np.min0 matrix in
  let maxs := Np.max0 matrix in
  let out := Builder.normalize (K := Np.binary32) rows in
  Np.shape out = (List.length rows, k)
  /\ forall i j x,
       Np.entry matrix i j = Some x ->
       exists mn mx,
         nth_error mins j = Some mn /\ nth_error maxs j = Some mx
         /\ let d := Np.sub Np.binary32 mx mn in
            let rng := if Np.eq_zero Np.binary32 d
                       then Np.one Np.binary32 else d in
            let o := Np.div Np.binary32 (Np.sub Np.binary32 x mn) rng in
            Np.entry out i j = Some o
            /\ Np.eq_zero Np.binary32 rng = false
            /\ (Forall (Forall (fun y => F32.finite y = true)) matrix ->
                Forall (fun y => F32.finite y = true)
                       (Np.map2 (Np.sub Np.binary32) maxs mins) ->
                (exists a, Np.entry matrix a j = Some mn)
                /\ (exists b, Np.entry matrix b j = Some mx)
                /\ (forall i' x', Np.entry matrix i' j = Some x' ->
                      SFleb mn x' = true /\ SFleb x' mx = true)
                /\ F32.in_unit o = true
                /\ ((forall i' x', Np.entry matrix i' j = Some x' ->
                       F32.eqb x' x = true) ->
                    F32.eqb o (S754_zero false) = true)).
Proof.
  intros Hne Hlen matrix mins maxs out.
  assert (Lm : Forall (fun r => List.length r = k) matrix).
  { unfold matrix. rewrite Forall_forall in *. intros r Hr.
    apply in_map_iff in Hr as (r0 & <- & Hr0). rewrite length_map. auto. }
  assert (Nm : matrix <> []).
  { unfold matrix. destruct rows; [congruence | discriminate]. }
  split.
  - destruct (normalize_shape (K := Np.binary32) rows k Hlen) as (L & F).
    fold out in L, F. unfold Np.shape. rewrite L. f_equal.
    destruct out as [|r o']; [destruct rows; [congruence | discriminate]|].
    now inversion F.
  - intros i j x Hx.
    destruct (entry_In matrix i j x Hx) as (row & Irow & Erow & Ex).
    assert (Hj : j < k).
    { rewrite Forall_forall in Lm. rewrite <- (Lm row Irow).
      apply nth_error_Some. congruence. }
    assert (Hm : exists mn, nth_error mins j = Some mn).
    { unfold mins. destruct matrix as [|r0 t]; [congruence|].
      exact (reduced_nth _ r0 t k j Lm Hj). }
    assert (Hx' : exists mx, nth_error maxs j = Some mx).
    { unfold maxs. destruct matrix as [|r0 t]; [congruence|].
      exact (reduced_nth _ r0 t k j Lm Hj). }
    destruct Hm as (mn & Hmn). destruct Hx' as (mx & Hmx).
    exists mn, mx. split; [exact Hmn|]. split; [exact Hmx|].
    cbv zeta. split; [|split].
    + change out with (Np.scale matrix mins (Np.range maxs mins)).
      unfold Np.entry, Np.scale. rewrite nth_error_map, Erow.
      cbn [option_map]. rewrite !nth_error_map2, Ex, Hmn.
      unfold Np.range. rewrite nth_error_map, nth_error_map2, Hmx, Hmn.
      reflexivity.
    + destruct (Np.eq_zero Np.binary32 (Np.sub Np.binary32 mx mn)) eqn:E;
        [reflexivity | exact E].
    + intros Hf Hd.
      destruct (scale_unit matrix k Nm Lm (rounded_good rows Hf) Hd i j x Hx)
        as (mn' & mx' & Hmn' & Hmx' & Ma & Mb & Bd & _ & _ & U & Zc).
      fold mins in Hmn'. fold maxs in Hmx'.
      assert (En : mn' = mn) by congruence.
      assert (Em : mx' = mx) by congruence.
      subst mn' mx'.
      split; [exact Ma|]. split; [exact Mb|]. split; [exact Bd|].
      split; [exact U | exact Zc].
Qed.

(** C2 as stated fails on an infinite value: the column [inf, 1.0] is
    normalized to [nan, 0.0], and [nan] is not in [0, 1].  So does a
    column of finite values whose range overflows. *)
Lemma C2_counterexample :
  Builder.normalize (K := Np.binary32) Demo.infinite_feature
  = [[S754_nan]; [S754_zero false]]
  /\ F32.in_unit S754_nan = false
  /\ Forall (Forall (fun x => F32.finite x = true))
            (map (map Np.round32) Demo.wide_feature)
  /\ Builder.normalize (K := Np.binary32) Demo.wide_feature
     = [[S754_nan]; [S754_zero false]].
Proof.
  split; [vm_compute; reflexivity|]. split; [reflexivity|].
  split; [|vm_compute; reflexivity].
  repeat constructor.
Qed.

Lemma C2_normalize_unit_interval_witness :
  Demo.feature_rows <> []
  /\ Forall (fun r => List.length r = 2) Demo.feature_rows
  /\ Forall (Forall (fun y => F32.finite y = true))
            (map (map Np.round32) Demo.feature_rows)
  /\ Np.shape (Builder.normalize (K := Np.binary32) Demo.feature_rows)
     = (3, 2)
  /\ exists o,
       Np.entry (Builder.normalize (K := Np.binary32) Demo.feature_rows) 2 0
       = Some o
       /\ F32.in_unit o = true.
Proof.
  assert (N : Demo.feature_rows <> []) by discriminate.
  assert (L : Forall (fun r => List.length r = 2) Demo.feature_rows)
    by (repeat constructor).
  assert (F : Forall (Forall (fun y => F32.finite y = true))
                     (map (map Np.round32) Demo.feature_rows))
    by (repeat constructor).
  destruct (C2_normalize_unit_interval Demo.feature_rows 2 N L) as (S & E).
  split; [exact N|]. split; [exact L|]. split; [exact F|].
  split; [exact S|].
  destruct (E 2 0 (Np.round32 (Py.float_of_Z 15)) eq_refl)
    as (mn & mx & _ & _ & Eo & _ & Hf).
  eexists. split; [exact Eo|].
  apply Hf; [exact F | repeat constructor].
Defined.

(* ================================================================== *)
(** * Further properties of the builder *)
(* ================================================================== *)

(** ** Counting the elements of a list by a text tag *)

Section TagCount.
Context {A : Type} (key : A -> option Py.PyVal).

Lemma list_sum_skip (f : string -> nat) t0 ts :
  ~ In t0 ts ->
  list_sum (map (fun t => (if String.eqb t0 t then 1 else 0) + f t) ts)
  = list_sum (map f ts).
Proof.
  induction ts as [|t tl IH]; intros H; simpl; auto.
  destruct (String.eqb_spec t0 t) as [->|_].
  - exfalso. apply H. now left.
  - rewrite IH; auto. intros H'. apply H. now right.
Qed.

Lemma list_sum_hit (f : string -> nat) t0 ts :
  NoDup ts -> In t0 ts ->
  list_sum (map (fun t => (if String.eqb t0 t then 1 else 0) + f t) ts)
  = S (list_sum (map f ts)).
Proof.
  induction ts as [|t tl IH]; intros N H; [destruct H|].
  inversion N; subst. simpl.
  destruct (String.eqb_spec t0 t) as [->|Ne].
  - rewrite list_sum_skip by assumption. reflexivity.
  - destruct H as [->|H]; [contradiction|].
    rewrite IH by assumption. lia.
Qed.

(** When every element carries one of the tags [ts], the counts by tag
    add up to the length of the list. *)
Lemma tag_partition ts l :
  NoDup ts ->
  (forall x, In x l -> exists t, In t ts /\ key x = Some (Py.VStr t)) ->
  list_sum (map (fun t => List.length
                            (filter (fun x => Py.eq_str (key x) t) l)) ts)
  = List.length l.
Proof.
  intros N. induction l as [|x tl IH]; intros H.
  - simpl. clear N H. induction ts as [|t ts' IHt]; simpl; auto.
  - destruct (H x (or_introl eq_refl)) as (t0 & T0 & K0).
    rewrite (map_ext _ (fun t => (if String.eqb t0 t then 1 else 0)
                                 + List.length
                                     (filter (fun x => Py.eq_str (key x) t)
                                             tl))).
    + rewrite list_sum_hit by assumption. simpl. f_equal. apply IH.
      intros y Hy. apply H. now right.
    + intros t. simpl. rewrite K0. simpl.
      destruct (String.eqb t0 t); reflexivity.
Qed.

End TagCount.

Lemma filter_filter {A} (p q : A -> bool) (l : list A) :
  filter p (filter q l) = filter (fun x => q x && p x) l.
Proof.
  induction l as [|x t IH]; simpl; auto.
  destruct (q x); simpl; [destruct (p x)|]; now rewrite IH.
Qed.

Lemma filter_all {A} (p : A -> bool) (l : list A) :
  (forall x, In x l -> p x = true) -> filter p l = l.
Proof.
  induction l as [|x t IH]; intros H; simpl; auto.
  rewrite (H x) by now left. f_equal. apply IH. intros; apply H; now right.
Qed.

Lemma filter_none {A} (p : A -> bool) (l : list A) :
  (forall x, In x l -> p x = false) -> filter p l = [].
Proof.
  induction l as [|x t IH]; intros H; simpl; auto.
  rewrite (H x) by now left. apply IH. intros; apply H; now right.
Qed.

(** Counting in a [flat_map] row by row. *)
Lemma count_flat_map {A B} (p : B -> bool) (f : A -> list B) (n : A -> nat)
    (l : list A) :
  (forall x, In x l -> List.length (filter p (f x)) = n x) ->
  List.length (filter p (flat_map f l)) = list_sum (map n l).
Proof.
  induction l as [|x t IH]; intros H; simpl; auto.
  rewrite filter_app, length_app, (H x) by now left.
  rewrite IH; auto. intros; apply H; now right.
Qed.

Lemma list_sum_indicator {A} (q : A -> bool) (k : nat) (l : list A) :
  list_sum (map (fun x => if q x then k else 0) l)
  = k * List.length (filter q l).
Proof.
  induction l as [|x t IH]; simpl; [lia|].
  rewrite IH. destruct (q x); simpl; lia.
Qed.

(** ** The nodes and edges of a finished build, by type and relation *)

Section BuildCounts.
Import Trace NodeLoops Attrs Bundle Count Input.
Context {K : Np.Kernel} (rt : Py.Runtime).

Lemma add_nodes_keys_NoDup {R} (nid : R -> string) attrs rows :
  forall g, NoDup (Dict.keys (Nx._node g)) ->
            NoDup (Dict.keys (Nx._node (add_nodes nid attrs rows g))).
Proof.
  unfold add_nodes. induction rows as [|r t IH]; intros g N; simpl; auto.
  apply IH. unfold Nx.add_node.
  destruct (Dict.mem (nid r) (Nx._adj g)); simpl; now apply NoDup_keys_set.
Qed.

Lemma nodes_graph_keys_NoDup d g :
  NoDup (Dict.keys (Nx._node g)) ->
  NoDup (Dict.keys (Nx._node (nodes_graph rt d g))).
Proof.
  intros N. unfold nodes_graph. now repeat apply add_nodes_keys_NoDup.
Qed.

Lemma existsb_eqb_In m l : existsb (String.eqb m) l = true <-> In m l.
Proof.
  rewrite existsb_exists. split.
  - intros (x & H & E). apply String.eqb_eq in E. now subst.
  - intros H. exists m. split; [exact H | apply String.eqb_refl].
Qed.

(** Every node made by the node loops carries one of the five types. *)
Lemma nodes_graph_typed d n a :
  In (n, a) (Nx._node (nodes_graph rt d Nx.empty)) ->
  exists t, In t Obs.node_types /\ Dict.get "node_type" a = Some (Py.VStr t).
Proof.
  intros H.
  assert (N : NoDup (Dict.keys (Nx._node (nodes_graph rt d Nx.empty))))
    by (apply nodes_graph_keys_NoDup; constructor).
  pose proof (In_get _ _ _ N H) as G.
  pose proof (nodes_graph_type rt d Nx.empty n wf_empty) as T.
  unfold Obs.node_type at 1 in T. rewrite G in T. rewrite T.
  assert (Hn : In n (Obs.all_ids d)).
  { assert (Hh : Nx.has_node (nodes_graph rt d Nx.empty) n = true)
      by (unfold Nx.has_node, Dict.mem; now rewrite G).
    apply nodes_graph_has in Hh as [Hh|Hh]; [exact Hh | discriminate]. }
  unfold Obs.node_types.
  destruct (existsb _ (Obs.route_ids d)) eqn:E5;
    [exists "route"; simpl; tauto|].
  destruct (existsb _ (Obs.contract_ids d)) eqn:E4;
    [exists "contract"; simpl; tauto|].
  destruct (existsb _ (Obs.country_ids d)) eqn:E3;
    [exists "country"; simpl; tauto|].
  destruct (existsb _ (Obs.component_ids d)) eqn:E2;
    [exists "component"; simpl; tauto|].
  destruct (existsb _ (Obs.supplier_ids d)) eqn:E1;
    [exists "supplier"; simpl; tauto|].
  exfalso. unfold Obs.all_ids in Hn. rewrite !in_app_iff in Hn.
  destruct Hn as [Hn|[Hn|[Hn|[Hn|Hn]]]]; apply existsb_eqb_In in Hn;
    congruence.
Qed.

Lemma node_types_NoDup : NoDup Obs.node_types.
Proof.
  unfold Obs.node_types.
  repeat (constructor; [simpl; intuition discriminate|]). constructor.
Qed.

Lemma relations_NoDup : NoDup Builder.stat_relations.
Proof.
  unfold Builder.stat_relations.
  repeat (constructor; [simpl; intuition discriminate|]). constructor.
Qed.

(** The fields [stats] fills. *)
Lemma stats_of_inv g s :
  Builder.stats_of g = Py.Ok s ->
  Schema.n_nodes s
  = map (fun t => (t, Builder.count_nodes g t)) Builder.stat_types
  /\ Schema.n_edges s
     = map (fun r => (r, Builder.count_edges g r)) Builder.stat_relations
  /\ Schema.total_nodes s = Nx.number_of_nodes g
  /\ Schema.total_edges s = Nx.number_of_edges g.
Proof.
  unfold Builder.stats_of. intros H.
  destruct (if Nat.ltb 1 (Nx.number_of_nodes g) then _ else _) as [f|];
    [|discriminate].
  cbn [Py.bind] in H. inversion H; subst; clear H. cbn.
  repeat split; reflexivity.
Qed.

(** The relation of an edge of a finished build, read on its tag. *)
Lemma count_edges_tags g r :
  Builder.count_edges g r
  = List.length (filter (fun t => Py.eq_str (snd t) r) (map tag (Nx.edges g))).
Proof.
  unfold Builder.count_edges. rewrite filter_map_comm, length_map.
  reflexivity.
Qed.

Lemma count_ctag_rel r l :
  List.length (filter (fun t => Py.eq_str (snd t) r) (map ctag l))
  = List.length (filter (fun c => String.eqb (snd c) r) l).
Proof. rewrite filter_map_comm, length_map. reflexivity. Qed.

(** The edges of relation [r] are the guarded candidates of relation
    [r]. *)
Lemma build_count_edges dd (self : @Builder.KnowledgeGraphBuilder K) out d r :
  Builder.build rt (Builder.__init__ dd) = Py.Ok (self, out) ->
  Builder._data self = Some d ->
  Builder.count_edges (Builder.G self) r
  = List.length
      (filter (fun c => guard (Builder.G self) c && String.eqb (snd c) r)
              (all_cands d (country_by_name (countries d) []))).
Proof.
  intros B D. destruct (build_nodes rt dd self out d B D) as (N & _ & P & _).
  rewrite count_edges_tags, (Permutation_filter_length _ _ _ P),
    count_ctag_rel, filter_filter.
  apply (f_equal (@List.length _)). apply filter_ext. intros c. f_equal. symmetry.
  now apply guard_node.
Qed.

Lemma build_has_listed dd (self : @Builder.KnowledgeGraphBuilder K) out d n :
  Builder.build rt (Builder.__init__ dd) = Py.Ok (self, out) ->
  Builder._data self = Some d ->
  Nx.has_node (Builder.G self) n = listed n (Obs.all_ids d).
Proof.
  intros B D. pose proof (build_has_node rt dd self out d n B D) as H.
  destruct (listed n (Obs.all_ids d)) eqn:L.
  - apply H. now apply listed_In.
  - apply not_true_is_false. intros E.
    apply H in E. apply listed_In in E. congruence.
Qed.

Lemma build_edge_relation dd (self : @Builder.KnowledgeGraphBuilder K) out d e :
  Builder.build rt (Builder.__init__ dd) = Py.Ok (self, out) ->
  Builder._data self = Some d ->
  In e (Nx.edges (Builder.G self)) ->
  exists r, In r Builder.stat_relations
            /\ Dict.get "relation" (snd e) = Some (Py.VStr r).
Proof.
  intros B D H. destruct (build_nodes rt dd self out d B D) as (_ & _ & P & _).
  assert (Ht : In (tag e) (map tag (Nx.edges (Builder.G self))))
    by now apply in_map.
  apply (Permutation_in _ P) in Ht.
  apply in_map_iff in Ht as (c & Ec & Hc).
  apply filter_In in Hc as [Hc _]. apply all_cands_rel in Hc.
  exists (snd c). split; [exact Hc|].
  unfold tag, ctag in Ec. now inversion Ec.
Qed.

Lemma build_data dd (self : @Builder.KnowledgeGraphBuilder K) out :
  Builder.build rt (Builder.__init__ dd) = Py.Ok (self, out) ->
  exists d, Builder._data self = Some d /\ holds dd d.
Proof.
  intros B. destruct (build_inv rt dd self out B) as (d & L & D & _).
  exists d. split; [exact D | exact L].
Qed.

End BuildCounts.

(** ** [stats] on a finished build *)

Section StatsFacts.
Import Trace NodeLoops Attrs Bundle Count Input.
Context {K : Np.Kernel} (rt : Py.Runtime).

Lemma count_other g r (l : list triple) :
  (forall c, In c l -> snd c <> r) ->
  List.length (filter (fun c => guard g c && String.eqb (snd c) r) l) = 0.
Proof.
  intros H. rewrite filter_none; [reflexivity|].
  intros c Hc. apply H in Hc. apply String.eqb_neq in Hc.
  rewrite Hc. apply andb_false_r.
Qed.

Lemma count_rows {R} g r (f : R -> list triple) (q : R -> bool) (k : nat)
    (rows : list R) :
  (forall x, In x rows ->
     List.length (filter (fun c => guard g c && String.eqb (snd c) r) (f x))
     = if q x then k else 0) ->
  List.length (filter (fun c => guard g c && String.eqb (snd c) r)
                      (flat_map f rows))
  = k * List.length (filter q rows).
Proof.
  intros H. rewrite (count_flat_map _ _ (fun x => if q x then k else 0))
    by exact H.
  apply list_sum_indicator.
Qed.

(** The name map of a finished build sends names to country nodes. *)
Lemma named_is_known d name c :
  Dict.get name (country_by_name (countries d) []) = Some c ->
  Refs.known d c = true.
Proof.
  intros H. apply country_by_name_value in H as [H|H]; [|discriminate].
  apply listed_In. unfold Obs.all_ids, Obs.country_ids.
  rewrite !in_app_iff. auto.
Qed.

Lemma known_of_type d t n :
  In n (Obs.ids_of_type d t) -> Refs.known d n = true.
Proof. intros H. apply listed_In. eapply ids_of_type_all, H. Qed.

Lemma opt_cand_count g u o r r' :
  List.length (filter (fun c => guard g c && String.eqb (snd c) r')
                      (opt_cand u o r))
  = if String.eqb r r'
    then match o with
         | Some c =>
             if Py.truthy_str c && Nx.has_node g u && Nx.has_node g c
             then 1 else 0
         | None => 0
         end
    else 0.
Proof.
  unfold opt_cand. destruct o as [c|]; [|now destruct (String.eqb r r')].
  destruct (Py.truthy_str c); simpl; [|now destruct (String.eqb r r')].
  unfold guard. simpl.
  destruct (Nx.has_node g u), (Nx.has_node g c), (String.eqb r r');
    reflexivity.
Qed.

End StatsFacts.

(** X1. On a finished build, [stats] reports a count for each
    of the five node types and for each of the nine relations of the
    catalog, in that order; the counts by type add up to the number of
    nodes and the counts by relation to the number of edges: every
    node has one of the five types and every edge one of the nine
    relations. *)
Theorem stats_counts_add_up {K : Np.Kernel} (rt : Py.Runtime) (dd : DataDir)
    (self : @Builder.KnowledgeGraphBuilder K) (out : @Builder.Output K)
    (s : Schema.GraphStats) :
  Builder.build rt (Builder.__init__ dd) = Py.Ok (self, out) ->
  Builder.stats self = Py.Ok s ->
  Dict.keys (Schema.n_nodes s) = Obs.node_types
  /\ Dict.keys (Schema.n_edges s) = map Schema.relation Schema.EDGE_TYPES
  /\ list_sum (Dict.values (Schema.n_nodes s)) = Schema.total_nodes s
  /\ list_sum (Dict.values (Schema.n_edges s)) = Schema.total_edges s
  /\ Schema.total_nodes s = Nx.number_of_nodes (Builder.G self)
  /\ Schema.total_edges s = Nx.number_of_edges (Builder.G self).
Proof.
  intros B S. unfold Builder.stats in S.
  destruct (build_data rt dd self out B) as (d & D & _).
  destruct (stats_of_inv _ _ S) as (E1 & E2 & E3 & E4).
  destruct (build_nodes rt dd self out d B D) as (N & _ & _ & _).
  rewrite E1, E2, E3, E4. unfold Dict.keys, Dict.values. rewrite !map_map.
  cbn [fst snd].
  split; [reflexivity|]. split; [reflexivity|]. split; [|split].
  - unfold Builder.count_nodes, Builder.nodes_of_type, Nx.number_of_nodes.
    apply (tag_partition (fun nd : string * Nx.attrs =>
                            Dict.get "node_type" (snd nd))).
    + exact node_types_NoDup.
    + intros [n a] H. unfold Nx.nodes in H. rewrite N in H.
      apply (nodes_graph_typed rt) in H. exact H.
  - unfold Builder.count_edges, Nx.number_of_edges.
    apply (tag_partition (fun e : string * string * Nx.attrs =>
                            Dict.get "relation" (snd e))).
    + exact relations_NoDup.
    + intros e H. exact (build_edge_relation rt dd self out d e B D H).
  - split; reflexivity.
Qed.

(** X2. On a finished build, the count [stats] reports for a
    node type never exceeds the number of rows of the type's table,
    and equals it when the natural keys of the five tables are
    pairwise different. *)
Theorem stats_node_counts_rows {K : Np.Kernel} (rt : Py.Runtime) (dd : DataDir)
    (self : @Builder.KnowledgeGraphBuilder K) (out : @Builder.Output K)
    (d : Data) (s : Schema.GraphStats) (t : string) :
  Builder.build rt (Builder.__init__ dd) = Py.Ok (self, out) ->
  Builder._data self = Some d ->
  Builder.stats self = Py.Ok s ->
  In t Obs.node_types ->
  exists c,
    Dict.get t (Schema.n_nodes s) = Some c
    /\ c <= List.length (Obs.ids_of_type d t)
    /\ (NoDup (Obs.all_ids d) -> c = List.length (Obs.ids_of_type d t)).
Proof.
  intros B D S T. unfold Builder.stats in S.
  destruct (stats_of_inv _ _ S) as (E1 & _).
  destruct (build_nodes rt dd self out d B D) as (N & _ & _ & _).
  exists (Builder.count_nodes (Builder.G self) t).
  split; [|split].
  - rewrite E1. simpl in T.
    destruct T as [<-|[<-|[<-|[<-|[<-|[]]]]]]; reflexivity.
  - unfold Builder.count_nodes.
    rewrite (nodes_of_type_node _ _ t N).
    rewrite <- (length_map fst).
    apply NoDup_incl_length.
    + assert (Nk : NoDup (Dict.keys (Nx._node
                                       (NodeLoops.nodes_graph rt d Nx.empty))))
        by (apply nodes_graph_keys_NoDup; constructor).
      unfold Builder.nodes_of_type, Nx.nodes. unfold Dict.keys in Nk.
      clear - Nk. induction (Nx._node _) as [|[n a] l IH]; simpl;
        [constructor|].
      inversion Nk; subst.
      destruct (Py.eq_str _ t); simpl; auto.
      constructor; auto. intros H. apply H1.
      apply in_map_iff in H as (x & <- & Hx). apply filter_In in Hx as [Hx _].
      now apply in_map.
    + intros n Hn. apply in_map_iff in Hn as ([n' a] & <- & Hx).
      unfold Builder.nodes_of_type in Hx. apply filter_In in Hx as [Hx Ht].
      cbn [fst snd] in *. unfold Nx.nodes in Hx.
      assert (Nk : NoDup (Dict.keys (Nx._node
                                       (NodeLoops.nodes_graph rt d Nx.empty))))
        by (apply nodes_graph_keys_NoDup; constructor).
      pose proof (In_get _ _ _ Nk Hx) as G.
      pose proof (nodes_graph_type rt d Nx.empty n' wf_empty) as Ty.
      unfold Obs.node_type at 1 in Ty. rewrite G in Ty.
      rewrite Ty in Ht. unfold Obs.ids_of_type.
      simpl in T.
      destruct (existsb _ (Obs.route_ids d)) eqn:E5.
      { apply String.eqb_eq in Ht. subst t. simpl.
        now apply existsb_eqb_In. }
      destruct (existsb _ (Obs.contract_ids d)) eqn:E4.
      { apply String.eqb_eq in Ht. subst t. simpl.
        now apply existsb_eqb_In. }
      destruct (existsb _ (Obs.country_ids d)) eqn:E3.
      { apply String.eqb_eq in Ht. subst t. simpl.
        now apply existsb_eqb_In. }
      destruct (existsb _ (Obs.component_ids d)) eqn:E2.
      { apply String.eqb_eq in Ht. subst t. simpl.
        now apply existsb_eqb_In. }
      destruct (existsb _ (Obs.supplier_ids d)) eqn:E1'.
      { apply String.eqb_eq in Ht. subst t. simpl.
        now apply existsb_eqb_In. }
      discriminate.
  - intros Nd. unfold Builder.count_nodes.
    rewrite (nodes_of_type_node _ _ t N).
    now apply nodes_of_type_fresh.
Qed.

(** ** What each relation count of [stats] counts *)

Section RelationCounts.
Import Trace NodeLoops Attrs Bundle Count Input.
Context {K : Np.Kernel} (rt : Py.Runtime).

Lemma all_cands_count (p : triple -> bool) d bn :
  List.length (filter p (all_cands d bn))
  = List.length (filter p (supplies_cands (sourcing_links d)))
    + (List.length (filter p (flat_map (located_cand bn) (suppliers d)))
       + (List.length (filter p (flat_map contract_cand (contracts d)))
          + (List.length (filter p (flat_map (route_cand bn) (routes d)))
             + (List.length
                  (filter p (flat_map co_cand
                               (Builder.co_pairs (sourcing_links d))))
                + List.length
                    (filter p (flat_map tw_cand
                                 (Builder.tw_pairs bn (routes d)))))))).
Proof. unfold all_cands. now rewrite !filter_app, !length_app. Qed.

(** The name map and the node test of a finished build, on the input. *)
Lemma build_reads dd (self : @Builder.KnowledgeGraphBuilder K) out d :
  Builder.build rt (Builder.__init__ dd) = Py.Ok (self, out) ->
  Builder._data self = Some d ->
  Builder.by_name_map (Builder.id_maps self)
  = country_by_name (countries d) []
  /\ forall n, Nx.has_node (Builder.G self) n = Refs.known d n.
Proof.
  intros B D. split.
  - destruct (build_nodes rt dd self out d B D) as (_ & _ & _ & M).
    rewrite M. apply nodes_maps_by_name.
  - intros n. exact (build_has_listed rt dd self out d n B D).
Qed.

Lemma stats_edge_count dd (self : @Builder.KnowledgeGraphBuilder K) out d s r :
  Builder.build rt (Builder.__init__ dd) = Py.Ok (self, out) ->
  Builder._data self = Some d ->
  Builder.stats self = Py.Ok s ->
  In r Builder.stat_relations ->
  Dict.get r (Schema.n_edges s)
  = Some (List.length
            (filter (fun c => guard (Builder.G self) c && String.eqb (snd c) r)
                    (all_cands d (country_by_name (countries d) [])))).
Proof.
  intros B D S R. unfold Builder.stats in S.
  destruct (stats_of_inv _ _ S) as (_ & E2 & _).
  rewrite E2, <- (build_count_edges rt dd self out d r B D).
  simpl in R.
  destruct R as [<-|[<-|[<-|[<-|[<-|[<-|[<-|[<-|[<-|[]]]]]]]]]];
    reflexivity.
Qed.

Lemma opt_count dd (self : @Builder.KnowledgeGraphBuilder K) out d u name r :
  Builder.build rt (Builder.__init__ dd) = Py.Ok (self, out) ->
  Builder._data self = Some d ->
  Refs.known d u = true ->
  List.length
    (filter (fun c => guard (Builder.G self) c && String.eqb (snd c) r)
            (opt_cand u (Dict.get name (country_by_name (countries d) [])) r))
  = if Refs.named (country_by_name (countries d) []) name then 1 else 0.
Proof.
  intros B D Hu. destruct (build_reads dd self out d B D) as (_ & Hn).
  rewrite opt_cand_count, String.eqb_refl. unfold Refs.named.
  destruct (Dict.get name _) as [c|] eqn:E; [|reflexivity].
  rewrite !Hn, Hu, (named_is_known d name c E).
  now destruct (Py.truthy_str c).
Qed.

Lemma opt_count_other g u o r r' :
  r <> r' ->
  List.length
    (filter (fun c => guard g c && String.eqb (snd c) r') (opt_cand u o r))
  = 0.
Proof.
  intros H. rewrite opt_cand_count. apply String.eqb_neq in H.
  now rewrite H.
Qed.

End RelationCounts.

(** X3. On a finished build, the counts [stats] reports for
    the relations that follow an identifier column are row counts of
    the input: supplies counts the sourcing links whose supplier and
    component are both keys of an entity table, covers the contracts
    whose primary component is one, signed_with the contracts whose
    supplier is one, carries the routes whose component is one.  A row
    with a dangling reference is left out of the count and every other
    row is counted once, repeated rows included. *)
Theorem stats_edge_counts_by_reference {K : Np.Kernel} (rt : Py.Runtime)
    (dd : DataDir) (self : @Builder.KnowledgeGraphBuilder K)
    (out : @Builder.Output K) (d : Data) (s : Schema.GraphStats) :
  Builder.build rt (Builder.__init__ dd) = Py.Ok (self, out) ->
  Builder._data self = Some d ->
  Builder.stats self = Py.Ok s ->
  Dict.get "supplies" (Schema.n_edges s)
  = Some (List.length
            (filter (fun row => Refs.known d (SourcingLink.supplier_id row)
                                && Refs.known d (SourcingLink.component_id row))
                    (sourcing_links d)))
  /\ Dict.get "covers" (Schema.n_edges s)
     = Some (List.length
               (filter (fun row =>
                          Refs.known d (Contract.primary_component_id row))
                       (contracts d)))
  /\ Dict.get "signed_with" (Schema.n_edges s)
     = Some (List.length
               (filter (fun row => Refs.known d (Contract.supplier_id row))
                       (contracts d)))
  /\ Dict.get "carries" (Schema.n_edges s)
     = Some (List.length
               (filter (fun row => Refs.known d (Route.component_id row))
                       (routes d))).
Proof.
  intros B D S.
  destruct (build_reads rt dd self out d B D) as (_ & Hn).
  assert (Hc : forall row, In row (contracts d) ->
                 Refs.known d (Contract.contract_id row) = true).
  { intros row H. apply (known_of_type d "contract").
    simpl. unfold Obs.contract_ids. now apply in_map. }
  assert (Hr : forall row, In row (routes d) ->
                 Refs.known d (Route.route_id row) = true).
  { intros row H. apply (known_of_type d "route").
    simpl. unfold Obs.route_ids. now apply in_map. }
  split; [|split; [|split]].
  - rewrite (stats_edge_count rt dd self out d s "supplies" B D S)
      by (simpl; tauto).
    f_equal. rewrite all_cands_count.
    rewrite (count_other _ _ (flat_map (Trace.located_cand _) _)),
      (count_other _ _ (flat_map Trace.contract_cand _)),
      (count_other _ _ (flat_map (Trace.route_cand _) _)),
      (count_other _ _ (flat_map Trace.co_cand _)),
      (count_other _ _ (flat_map Trace.tw_cand _)).
    + rewrite !Nat.add_0_r. unfold Trace.supplies_cands.
      rewrite filter_map_comm, length_map.
      apply (f_equal (@List.length _)). apply filter_ext. intros row.
      unfold Trace.guard. cbn [fst snd]. rewrite !Hn.
      apply andb_true_r.
    + intros c Hc'. apply tw_cands_rel in Hc'. rewrite Hc'. discriminate.
    + intros c Hc'. apply co_cands_rel in Hc'. rewrite Hc'. discriminate.
    + intros c Hc'. apply route_cands_rel in Hc' as [Hc'|[Hc'|Hc']];
        rewrite Hc'; discriminate.
    + intros c Hc'. apply contract_cands_rel in Hc' as [Hc'|Hc'];
        rewrite Hc'; discriminate.
    + intros c Hc'. apply located_cands_rel in Hc'. rewrite Hc'.
      discriminate.
  - rewrite (stats_edge_count rt dd self out d s "covers" B D S)
      by (simpl; tauto).
    f_equal. rewrite all_cands_count.
    rewrite (count_other _ _ (Trace.supplies_cands _)),
      (count_other _ _ (flat_map (Trace.located_cand _) _)),
      (count_other _ _ (flat_map (Trace.route_cand _) _)),
      (count_other _ _ (flat_map Trace.co_cand _)),
      (count_other _ _ (flat_map Trace.tw_cand _)).
    + rewrite (count_rows _ _ _
                 (fun row => Refs.known d (Contract.primary_component_id row))
                 1).
      * lia.
      * intros row Hrow. unfold Trace.contract_cand, Trace.guard.
        cbn [filter fst snd]. rewrite !Hn, (Hc row Hrow).
        cbn [andb String.eqb Ascii.eqb Bool.eqb].
        destruct (Refs.known d (Contract.primary_component_id row));
          simpl; now rewrite ?andb_false_r.
    + intros c Hc'. apply tw_cands_rel in Hc'. rewrite Hc'. discriminate.
    + intros c Hc'. apply co_cands_rel in Hc'. rewrite Hc'. discriminate.
    + intros c Hc'. apply route_cands_rel in Hc' as [Hc'|[Hc'|Hc']];
        rewrite Hc'; discriminate.
    + intros c Hc'. apply located_cands_rel in Hc'. rewrite Hc'.
      discriminate.
    + intros c Hc'. apply supplies_cands_rel in Hc'. rewrite Hc'.
      discriminate.
  - rewrite (stats_edge_count rt dd self out d s "signed_with" B D S)
      by (simpl; tauto).
    f_equal. rewrite all_cands_count.
    rewrite (count_other _ _ (Trace.supplies_cands _)),
      (count_other _ _ (flat_map (Trace.located_cand _) _)),
      (count_other _ _ (flat_map (Trace.route_cand _) _)),
      (count_other _ _ (flat_map Trace.co_cand _)),
      (count_other _ _ (flat_map Trace.tw_cand _)).
    + rewrite (count_rows _ _ _
                 (fun row => Refs.known d (Contract.supplier_id row)) 1).
      * lia.
      * intros row Hrow. unfold Trace.contract_cand, Trace.guard.
        cbn [filter fst snd]. rewrite !Hn, (Hc row Hrow).
        cbn [andb String.eqb Ascii.eqb Bool.eqb].
        rewrite andb_false_r.
        destruct (Refs.known d (Contract.supplier_id row)); reflexivity.
    + intros c Hc'. apply tw_cands_rel in Hc'. rewrite Hc'. discriminate.
    + intros c Hc'. apply co_cands_rel in Hc'. rewrite Hc'. discriminate.
    + intros c Hc'. apply route_cands_rel in Hc' as [Hc'|[Hc'|Hc']];
        rewrite Hc'; discriminate.
    + intros c Hc'. apply located_cands_rel in Hc'. rewrite Hc'.
      discriminate.
    + intros c Hc'. apply supplies_cands_rel in Hc'. rewrite Hc'.
      discriminate.
  - rewrite (stats_edge_count rt dd self out d s "carries" B D S)
      by (simpl; tauto).
    f_equal. rewrite all_cands_count.
    rewrite (count_other _ _ (Trace.supplies_cands _)),
      (count_other _ _ (flat_map (Trace.located_cand _) _)),
      (count_other _ _ (flat_map Trace.contract_cand _)),
      (count_other _ _ (flat_map Trace.co_cand _)),
      (count_other _ _ (flat_map Trace.tw_cand _)).
    + rewrite (count_rows _ _ _
                 (fun row => Refs.known d (Route.component_id row)) 1).
      * lia.
      * intros row Hrow. unfold Trace.route_cand.
        rewrite !filter_app, !length_app.
        rewrite !opt_count_other by discriminate.
        unfold Trace.guard. cbn [filter fst snd].
        rewrite !Hn, (Hr row Hrow).
        cbn [andb String.eqb Ascii.eqb Bool.eqb].
        destruct (Refs.known d (Route.component_id row)); reflexivity.
    + intros c Hc'. apply tw_cands_rel in Hc'. rewrite Hc'. discriminate.
    + intros c Hc'. apply co_cands_rel in Hc'. rewrite Hc'. discriminate.
    + intros c Hc'. apply contract_cands_rel in Hc' as [Hc'|Hc'];
        rewrite Hc'; discriminate.
    + intros c Hc'. apply located_cands_rel in Hc'. rewrite Hc'.
      discriminate.
    + intros c Hc'. apply supplies_cands_rel in Hc'. rewrite Hc'.
      discriminate.
Qed.

(** X4. On a finished build, the counts [stats] reports for
    the relations that follow a country name are row counts of the
    input: located_in counts the suppliers whose country name is the
    name of a country row with a non-empty identifier, originates_in
    and delivers_to the routes whose origin, respectively destination,
    is such a name.  A name that no country row bears costs the row
    its edge and nothing else. *)
Theorem stats_edge_counts_by_name {K : Np.Kernel} (rt : Py.Runtime)
    (dd : DataDir) (self : @Builder.KnowledgeGraphBuilder K)
    (out : @Builder.Output K) (d : Data) (s : Schema.GraphStats) :
  Builder.build rt (Builder.__init__ dd) = Py.Ok (self, out) ->
  Builder._data self = Some d ->
  Builder.stats self = Py.Ok s ->
  let bn := Builder.by_name_map (Builder.id_maps self) in
  Dict.get "located_in" (Schema.n_edges s)
  = Some (List.length
            (filter (fun row => Refs.named bn (Supplier.country row))
                    (suppliers d)))
  /\ Dict.get "originates_in" (Schema.n_edges s)
     = Some (List.length
               (filter (fun row => Refs.named bn (Route.origin_country row))
                       (routes d)))
  /\ Dict.get "delivers_to" (Schema.n_edges s)
     = Some (List.length
               (filter (fun row =>
                          Refs.named bn (Route.destination_country row))
                       (routes d))).
Proof.
  intros B D S bn.
  destruct (build_reads rt dd self out d B D) as (Hb & Hn).
  unfold bn. rewrite Hb. clear bn.
  assert (Hs : forall row, In row (suppliers d) ->
                 Refs.known d (Supplier.supplier_id row) = true).
  { intros row H. apply (known_of_type d "supplier").
    simpl. unfold Obs.supplier_ids. now apply in_map. }
  assert (Hr : forall row, In row (routes d) ->
                 Refs.known d (Route.route_id row) = true).
  { intros row H. apply (known_of_type d "route").
    simpl. unfold Obs.route_ids. now apply in_map. }
  split; [|split].
  - rewrite (stats_edge_count rt dd self out d s "located_in" B D S)
      by (simpl; tauto).
    f_equal. rewrite all_cands_count.
    rewrite (count_other _ _ (Trace.supplies_cands _)),
      (count_other _ _ (flat_map Trace.contract_cand _)),
      (count_other _ _ (flat_map (Trace.route_cand _) _)),
      (count_other _ _ (flat_map Trace.co_cand _)),
      (count_other _ _ (flat_map Trace.tw_cand _)).
    + rewrite (count_rows _ _ _
                 (fun row => Refs.named
                               (NodeLoops.country_by_name (countries d) [])
                               (Supplier.country row)) 1).
      * lia.
      * intros row Hrow. unfold Trace.located_cand.
        apply (opt_count rt dd self out d _ _ _ B D (Hs row Hrow)).
    + intros c Hc'. apply tw_cands_rel in Hc'. rewrite Hc'. discriminate.
    + intros c Hc'. apply co_cands_rel in Hc'. rewrite Hc'. discriminate.
    + intros c Hc'. apply route_cands_rel in Hc' as [Hc'|[Hc'|Hc']];
        rewrite Hc'; discriminate.
    + intros c Hc'. apply contract_cands_rel in Hc' as [Hc'|Hc'];
        rewrite Hc'; discriminate.
    + intros c Hc'. apply supplies_cands_rel in Hc'. rewrite Hc'.
      discriminate.
  - rewrite (stats_edge_count rt dd self out d s "originates_in" B D S)
      by (simpl; tauto).
    f_equal. rewrite all_cands_count.
    rewrite (count_other _ _ (Trace.supplies_cands _)),
      (count_other _ _ (flat_map (Trace.located_cand _) _)),
      (count_other _ _ (flat_map Trace.contract_cand _)),
      (count_other _ _ (flat_map Trace.co_cand _)),
      (count_other _ _ (flat_map Trace.tw_cand _)).
    + rewrite (count_rows _ _ _
                 (fun row => Refs.named
                               (NodeLoops.country_by_name (countries d) [])
                               (Route.origin_country row)) 1).
      * lia.
      * intros row Hrow. unfold Trace.route_cand.
        rewrite !filter_app, !length_app.
        rewrite (opt_count rt dd self out d _ _ _ B D (Hr row Hrow)).
        rewrite opt_count_other by discriminate.
        cbn [filter snd String.eqb Ascii.eqb Bool.eqb].
        rewrite andb_false_r. simpl. lia.
    + intros c Hc'. apply tw_cands_rel in Hc'. rewrite Hc'. discriminate.
    + intros c Hc'. apply co_cands_rel in Hc'. rewrite Hc'. discriminate.
    + intros c Hc'. apply contract_cands_rel in Hc' as [Hc'|Hc'];
        rewrite Hc'; discriminate.
    + intros c Hc'. apply located_cands_rel in Hc'. rewrite Hc'.
      discriminate.
    + intros c Hc'. apply supplies_cands_rel in Hc'. rewrite Hc'.
      discriminate.
  - rewrite (stats_edge_count rt dd self out d s "delivers_to" B D S)
      by (simpl; tauto).
    f_equal. rewrite all_cands_count.
    rewrite (count_other _ _ (Trace.supplies_cands _)),
      (count_other _ _ (flat_map (Trace.located_cand _) _)),
      (count_other _ _ (flat_map Trace.contract_cand _)),
      (count_other _ _ (flat_map Trace.co_cand _)),
      (count_other _ _ (flat_map Trace.tw_cand _)).
    + rewrite (count_rows _ _ _
                 (fun row => Refs.named
                               (NodeLoops.country_by_name (countries d) [])
                               (Route.destination_country row)) 1).
      * lia.
      * intros row Hrow. unfold Trace.route_cand.
        rewrite !filter_app, !length_app.
        rewrite (opt_count rt dd self out d _ _ _ B D (Hr row Hrow)).
        rewrite opt_count_other by discriminate.
        cbn [filter snd String.eqb Ascii.eqb Bool.eqb].
        rewrite andb_false_r. simpl. lia.
    + intros c Hc'. apply tw_cands_rel in Hc'. rewrite Hc'. discriminate.
    + intros c Hc'. apply co_cands_rel in Hc'. rewrite Hc'. discriminate.
    + intros c Hc'. apply contract_cands_rel in Hc' as [Hc'|Hc'];
        rewrite Hc'; discriminate.
    + intros c Hc'. apply located_cands_rel in Hc'. rewrite Hc'.
      discriminate.
    + intros c Hc'. apply supplies_cands_rel in Hc'. rewrite Hc'.
      discriminate.
Qed.

(** X5. On a finished build, the two derived relations
    are counted from the sets [_edges] builds: co_supplier edges come
    two for each pair of the co-supplier set whose two suppliers are
    keys of an entity table, so their count is even; trades_with edges
    come one for each pair of the trade set, none of which is ever
    dropped. *)
Theorem stats_edge_counts_derived {K : Np.Kernel} (rt : Py.Runtime)
    (dd : DataDir) (self : @Builder.KnowledgeGraphBuilder K)
    (out : @Builder.Output K) (d : Data) (s : Schema.GraphStats) :
  Builder.build rt (Builder.__init__ dd) = Py.Ok (self, out) ->
  Builder._data self = Some d ->
  Builder.stats self = Py.Ok s ->
  Dict.get "co_supplier" (Schema.n_edges s)
  = Some (2 * List.length
                (filter (fun p => Refs.known d (fst p) && Refs.known d (snd p))
                        (Builder.co_pairs (sourcing_links d))))
  /\ Dict.get "trades_with" (Schema.n_edges s)
     = Some (List.length
               (Builder.tw_pairs (Builder.by_name_map (Builder.id_maps self))
                                 (routes d))).
Proof.
  intros B D S.
  destruct (build_reads rt dd self out d B D) as (Hb & Hn).
  rewrite Hb. split.
  - rewrite (stats_edge_count rt dd self out d s "co_supplier" B D S)
      by (simpl; tauto).
    f_equal. rewrite all_cands_count.
    rewrite (count_other _ _ (Trace.supplies_cands _)),
      (count_other _ _ (flat_map (Trace.located_cand _) _)),
      (count_other _ _ (flat_map Trace.contract_cand _)),
      (count_other _ _ (flat_map (Trace.route_cand _) _)),
      (count_other _ _ (flat_map Trace.tw_cand _)).
    + rewrite (count_rows _ _ _
                 (fun p => Refs.known d (fst p) && Refs.known d (snd p)) 2).
      * lia.
      * intros p _. unfold Trace.co_cand, Trace.guard.
        cbn [filter fst snd]. rewrite !Hn.
        cbn [andb String.eqb Ascii.eqb Bool.eqb]. rewrite !andb_true_r.
        rewrite (andb_comm (Refs.known d (snd p))).
        destruct (Refs.known d (fst p) && Refs.known d (snd p)); reflexivity.
    + intros c Hc'. apply tw_cands_rel in Hc'. rewrite Hc'. discriminate.
    + intros c Hc'. apply route_cands_rel in Hc' as [Hc'|[Hc'|Hc']];
        rewrite Hc'; discriminate.
    + intros c Hc'. apply contract_cands_rel in Hc' as [Hc'|Hc'];
        rewrite Hc'; discriminate.
    + intros c Hc'. apply located_cands_rel in Hc'. rewrite Hc'.
      discriminate.
    + intros c Hc'. apply supplies_cands_rel in Hc'. rewrite Hc'.
      discriminate.
  - rewrite (stats_edge_count rt dd self out d s "trades_with" B D S)
      by (simpl; tauto).
    f_equal. rewrite all_cands_count.
    rewrite (count_other _ _ (Trace.supplies_cands _)),
      (count_other _ _ (flat_map (Trace.located_cand _) _)),
      (count_other _ _ (flat_map Trace.contract_cand _)),
      (count_other _ _ (flat_map (Trace.route_cand _) _)),
      (count_other _ _ (flat_map Trace.co_cand _)).
    + rewrite (count_rows _ _ _ (fun _ => true) 1).
      * rewrite filter_all by reflexivity. lia.
      * intros [a b] Hp. unfold Trace.tw_cand, Trace.guard.
        cbn [filter fst snd]. rewrite !Hn.
        apply (tw_pairs_In _ _ a b []) in Hp as [[]|Hp].
        apply observed_resolved in Hp as (n1 & n2 & G1 & G2).
        rewrite (named_is_known d n1 a G1), (named_is_known d n2 b G2).
        reflexivity.
    + intros c Hc'. apply co_cands_rel in Hc'. rewrite Hc'. discriminate.
    + intros c Hc'. apply route_cands_rel in Hc' as [Hc'|[Hc'|Hc']];
        rewrite Hc'; discriminate.
    + intros c Hc'. apply contract_cands_rel in Hc' as [Hc'|Hc'];
        rewrite Hc'; discriminate.
    + intros c Hc'. apply located_cands_rel in Hc'. rewrite Hc'.
      discriminate.
    + intros c Hc'. apply supplies_cands_rel in Hc'. rewrite Hc'.
      discriminate.
Qed.

(** ** [build] from any state of the builder *)

Section BuildAgain.
Import Trace NodeLoops Attrs Bundle Input.
Context {K : Np.Kernel} (rt : Py.Runtime).

Lemma nodes_maps_by_name_any d m :
  Builder.by_name_map (nodes_maps d m) = country_by_name (countries d) [].
Proof.
  unfold nodes_maps.
  rewrite !by_name_of_index_loop, country_loop_by_name. reflexivity.
Qed.

Lemma load_holds (self0 : @Builder.KnowledgeGraphBuilder K) d :
  holds (Builder.data_dir self0) d ->
  Builder._load self0 = Py.Ok (Builder.with_data d self0).
Proof.
  intros (L1 & L2 & L3 & L4 & L5 & L6).
  unfold Builder._load, Builder.load_table.
  rewrite L1, L2, L3, L4, L5, L6. simpl. now destruct d.
Qed.

(** The state [build] leaves when the edge loops return graph [g]. *)
Lemma edges_graph_num_any d bn g g' :
  wf g -> graph_num g ->
  Builder.edges_of rt d bn (nodes_graph rt d g) = Py.Ok g' ->
  graph_num g'.
Proof.
  intros W G E.
  destruct (edges_of_spec rt d _ _ _ (nodes_graph_wf rt d _ W) E)
    as (N & _ & _).
  eapply graph_num_node; [exact N|]. now apply nodes_graph_num.
Qed.

(** [build] is [_load], the node loops, the edge loops, the feature
    matrices on the graph the edge loops return, the tensor bundle and
    the files, in this order; only [_load] and the edge loops can
    raise. *)
Lemma build_steps (self0 : @Builder.KnowledgeGraphBuilder K) d :
  holds (Builder.data_dir self0) d ->
  wf (Builder.G self0) -> graph_num (Builder.G self0) ->
  Builder.build rt self0
  = Py.bind
      (Builder.edges_of rt d (country_by_name (countries d) [])
         (nodes_graph rt d (Builder.G self0)))
      (fun g =>
         let s4 :=
           Builder.with_node_features
             (fold_left (features_step rt g) Schema.NODE_FEATURE_SPECS
                        (Builder.node_features self0))
             (Builder.with_G g
                (Builder.with_id_maps (nodes_maps d (Builder.id_maps self0))
                   (Builder.with_data d self0))) in
         let s5 := Builder.with_hetero (Builder._to_pyg rt s4) s4 in
         Py.Ok (s5, Builder._save s5)).
Proof.
  intros L W G. unfold Builder.build.
  rewrite (load_holds self0 d L). cbn [Py.bind].
  rewrite (nodes_spec rt (Builder.with_data d self0) d eq_refl).
  cbn [Py.bind].
  match goal with
  | |- context [Builder._edges rt ?s] =>
      rewrite (edges_unfold rt s d eq_refl)
  end.
  cbn [Builder.id_maps Builder.with_G Builder.with_id_maps Builder.G
       Builder.with_data].
  rewrite nodes_maps_by_name_any.
  destruct (Builder.edges_of rt d _ _) as [g|e] eqn:E; [|reflexivity].
  cbn [Py.bind].
  unfold Builder._features at 1.
  cbn [Builder.G Builder.with_G Builder.node_features].
  rewrite (features_loop_ok rt g _ (edges_graph_num_any d _ _ g W G E)).
  cbn [Py.bind]. reflexivity.
Qed.

(** A loop over the sourcing links that returns has converted the flag
    and the price of every link whose two ends exist. *)
Lemma supplies_ok_rows links : forall g g',
  wf g ->
  Py.for_each (Builder.supplies_edge rt) links g = Py.Ok g' ->
  forall row, In row links ->
    Nx.has_node g (SourcingLink.supplier_id row) = true ->
    Nx.has_node g (SourcingLink.component_id row) = true ->
    (exists ip, Py.int rt (SourcingLink.is_primary row) = Py.Ok ip)
    /\ (exists up, Py.float rt (SourcingLink.unit_price_usd row) = Py.Ok up).
Proof.
  induction links as [|r t IH]; intros g g' W H row Hin Hu Hv;
    [destruct Hin|].
  simpl in H. unfold Py.bind in H.
  destruct (Builder.supplies_edge rt g r) as [g1|] eqn:E; [|discriminate].
  unfold Builder.supplies_edge in E.
  destruct (Nx.has_node g (SourcingLink.supplier_id r)) eqn:Hu';
    destruct (Nx.has_node g (SourcingLink.component_id r)) eqn:Hv';
    simpl in E.
  - unfold Py.bind in E.
    destruct (Py.int rt (SourcingLink.is_primary r)) as [ip|] eqn:Ei;
      [|discriminate].
    destruct (Py.float rt (SourcingLink.unit_price_usd r)) as [up|] eqn:Ef;
      [|discriminate].
    destruct Hin as [<-|Hin]; [eauto|].
    inversion E; subst g1; clear E.
    match type of H with
    | context [Nx.add_edge g ?u ?v ?a] =>
        destruct (add_edge_spec g u v a W Hu' Hv') as (N1 & W1 & _)
    end.
    eapply (IH _ _ W1 H row Hin); unfold Nx.has_node; now rewrite N1.
  - inversion E; subst g1.
    destruct Hin as [<-|Hin]; [congruence|]. eapply IH; eauto.
  - inversion E; subst g1.
    destruct Hin as [<-|Hin]; [congruence|]. eapply IH; eauto.
  - inversion E; subst g1.
    destruct Hin as [<-|Hin]; [congruence|]. eapply IH; eauto.
Qed.

Lemma edges_of_supplies d bn g g' :
  Builder.edges_of rt d bn g = Py.Ok g' ->
  exists g1, Py.for_each (Builder.supplies_edge rt) (sourcing_links d) g
             = Py.Ok g1.
Proof.
  unfold Builder.edges_of, Py.bind.
  destruct (Py.for_each _ _ g) as [g1|]; [eauto | discriminate].
Qed.

Lemma known_has d g n :
  Nx.has_node (nodes_graph rt d g) n = Refs.known d n || Nx.has_node g n.
Proof.
  pose proof (nodes_graph_has rt d g n) as H.
  unfold Refs.known.
  destruct (listed n (Obs.all_ids d)) eqn:L; simpl.
  - apply H. left. now apply listed_In.
  - destruct (Nx.has_node g n) eqn:E.
    + apply H. now right.
    + apply not_true_is_false. intros E'. apply H in E' as [E'|E'].
      * apply listed_In in E'. congruence.
      * discriminate.
Qed.

Lemma holds_unique dd d d' : holds dd d -> holds dd d' -> d = d'.
Proof.
  intros (L1 & L2 & L3 & L4 & L5 & L6) (M1 & M2 & M3 & M4 & M5 & M6).
  destruct d, d'. simpl in *. congruence.
Qed.

End BuildAgain.

(** X6. [build] on a new builder returns only if the six files exist
    and are read and, for every sourcing link whose supplier and
    component are both keys of an entity table, [int] accepts the
    [is_primary] cell and [float] the [unit_price_usd] cell: a link
    between two nodes whose flag or price cannot be converted stops
    the build. *)
Theorem build_returns_only_if {K : Np.Kernel} (rt : Py.Runtime) (dd : DataDir)
    (self : @Builder.KnowledgeGraphBuilder K) (out : @Builder.Output K) :
  Builder.build rt (Builder.__init__ dd) = Py.Ok (self, out) ->
  exists d,
    Input.holds dd d
    /\ Builder._data self = Some d
    /\ forall row, In row (sourcing_links d) ->
         Refs.known d (SourcingLink.supplier_id row) = true ->
         Refs.known d (SourcingLink.component_id row) = true ->
         (exists ip, Py.int rt (SourcingLink.is_primary row) = Py.Ok ip)
         /\ (exists up, Py.float rt (SourcingLink.unit_price_usd row)
                        = Py.Ok up).
Proof.
  intros B.
  destruct (build_inv rt dd self out B) as (d & L & D & E & _).
  exists d. split; [exact L|]. split; [exact D|].
  intros row Hin Hu Hv.
  apply edges_of_supplies in E as [g1 E].
  apply (supplies_ok_rows rt _ _ _ (nodes_graph_wf rt d _ wf_empty) E row Hin).
  - rewrite known_has, Hu. reflexivity.
  - rewrite known_has, Hv. reflexivity.
Qed.

(** ** Running [build] a second time *)

Section BuildTwice.
Import Trace NodeLoops Attrs Bundle Input Count.
Context {K : Np.Kernel} (rt : Py.Runtime).

(** What a build that returns has computed, from any starting state. *)
Lemma build_from_inv (self0 self : @Builder.KnowledgeGraphBuilder K) out d :
  holds (Builder.data_dir self0) d ->
  wf (Builder.G self0) -> graph_num (Builder.G self0) ->
  Builder.build rt self0 = Py.Ok (self, out) ->
  Builder.edges_of rt d (country_by_name (countries d) [])
    (nodes_graph rt d (Builder.G self0)) = Py.Ok (Builder.G self)
  /\ Builder.data_dir self = Builder.data_dir self0
  /\ Builder._data self = Some d
  /\ Builder.id_maps self = nodes_maps d (Builder.id_maps self0)
  /\ Builder.node_features self
     = fold_left (features_step rt (Builder.G self))
                 Schema.NODE_FEATURE_SPECS (Builder.node_features self0)
  /\ Builder.hetero self = Builder._to_pyg rt self
  /\ out = Builder._save self.
Proof.
  intros L W G B. rewrite (build_steps rt self0 d L W G) in B.
  destruct (Builder.edges_of rt d _ _) as [g|] eqn:E; [|discriminate].
  cbn [Py.bind] in B. cbv zeta in B. inversion B; subst; clear B.
  cbn. auto 10.
Qed.

(** The graph of a finished build is well formed and its feature
    attributes are numbers. *)
Lemma build_graph_ok dd (self : @Builder.KnowledgeGraphBuilder K) out :
  Builder.build rt (Builder.__init__ dd) = Py.Ok (self, out) ->
  wf (Builder.G self) /\ graph_num (Builder.G self)
  /\ Builder.data_dir self = dd.
Proof.
  intros B. destruct (build_data rt dd self out B) as (d & D & L).
  destruct (build_from_inv (Builder.__init__ dd) self out d L wf_empty
              graph_num_empty B) as (E & DD & _).
  split; [|split; [|exact DD]].
  - now destruct (edges_of_spec rt d _ _ _
                    (nodes_graph_wf rt d _ wf_empty) E) as (_ & W & _).
  - exact (edges_graph_num_any rt d _ _ _ wf_empty graph_num_empty E).
Qed.

Lemma add_nodes_keys_same {R} (nid : R -> string) attrs rows : forall g,
  (forall r, In r rows -> Nx.has_node g (nid r) = true) ->
  Dict.keys (Nx._node (add_nodes nid attrs rows g)) = Dict.keys (Nx._node g).
Proof.
  unfold add_nodes. induction rows as [|r t IH]; intros g H; simpl; auto.
  rewrite IH.
  - unfold Nx.add_node.
    destruct (Dict.mem (nid r) (Nx._adj g)); simpl;
      apply keys_set_present; apply (H r); now left.
  - intros r' Hr'. rewrite add_node_has, (H r') by now right.
    apply orb_true_r.
Qed.

Lemma add_nodes_has_old {R} (nid : R -> string) attrs rows g n :
  Nx.has_node g n = true -> Nx.has_node (add_nodes nid attrs rows g) n = true.
Proof. intros H. apply add_nodes_has. now right. Qed.

(** Node loops over tables whose keys are all nodes already add no
    node. *)
Lemma nodes_graph_keys_same d g :
  (forall n, In n (Obs.all_ids d) -> Nx.has_node g n = true) ->
  Dict.keys (Nx._node (nodes_graph rt d g)) = Dict.keys (Nx._node g).
Proof.
  intros H. unfold nodes_graph.
  assert (Hs : forall r, In r (suppliers d) ->
                 Nx.has_node g (Supplier.supplier_id r) = true).
  { intros r Hr. apply H. unfold Obs.all_ids, Obs.supplier_ids.
    rewrite !in_app_iff. left. now apply in_map. }
  assert (Hc : forall r, In r (components d) ->
                 Nx.has_node g (Component.component_id r) = true).
  { intros r Hr. apply H. unfold Obs.all_ids, Obs.component_ids.
    rewrite !in_app_iff. right; left. now apply in_map. }
  assert (Hn : forall r, In r (countries d) ->
                 Nx.has_node g (Country.country_id r) = true).
  { intros r Hr. apply H. unfold Obs.all_ids, Obs.country_ids.
    rewrite !in_app_iff. right; right; left. now apply in_map. }
  assert (Hk : forall r, In r (contracts d) ->
                 Nx.has_node g (Contract.contract_id r) = true).
  { intros r Hr. apply H. unfold Obs.all_ids, Obs.contract_ids.
    rewrite !in_app_iff. right; right; right; left. now apply in_map. }
  assert (Hr : forall r, In r (routes d) ->
                 Nx.has_node g (Route.route_id r) = true).
  { intros r Hr. apply H. unfold Obs.all_ids, Obs.route_ids.
    rewrite !in_app_iff. right; right; right; right. now apply in_map. }
  rewrite add_nodes_keys_same
    by (intros; repeat apply add_nodes_has_old; auto).
  rewrite add_nodes_keys_same
    by (intros; repeat apply add_nodes_has_old; auto).
  rewrite add_nodes_keys_same
    by (intros; repeat apply add_nodes_has_old; auto).
  rewrite add_nodes_keys_same
    by (intros; repeat apply add_nodes_has_old; auto).
  now rewrite add_nodes_keys_same.
Qed.

Lemma tags_length g : List.length (map tag (Nx.edges g)) = Nx.number_of_edges g.
Proof. apply length_map. Qed.

End BuildTwice.

(** A second build of a builder returns when the first one did. *)
Lemma build_again_returns {K : Np.Kernel} (rt : Py.Runtime) (dd : DataDir)
    (self : @Builder.KnowledgeGraphBuilder K) (out : @Builder.Output K) :
  Builder.build rt (Builder.__init__ dd) = Py.Ok (self, out) ->
  exists self2 out2, Builder.build rt self = Py.Ok (self2, out2).
Proof.
  intros B1.
  destruct (build_data rt dd self out B1) as (d & D & L).
  destruct (build_graph_ok rt dd self out B1) as (W1 & G1 & DD).
  destruct (build_nodes rt dd self out d B1 D) as (N1 & _ & _ & _).
  destruct (build_inv rt dd self out B1) as (d0 & L0 & _ & E & _).
  assert (d0 = d) by (eapply holds_unique; eauto). subst d0.
  assert (L2 : Input.holds (Builder.data_dir self) d) by now rewrite DD.
  rewrite (build_steps rt self d L2 W1 G1).
  assert (Hh : forall n, Nx.has_node (Builder.G self) n = Refs.known d n).
  { intros n. unfold Nx.has_node. rewrite N1.
    fold (Nx.has_node (NodeLoops.nodes_graph rt d Nx.empty) n).
    rewrite known_has. apply orb_false_r. }
  apply edges_of_supplies in E as [g1 E].
  destruct (supplies_total rt (sourcing_links d)
              (NodeLoops.nodes_graph rt d (Builder.G self))
              (nodes_graph_wf rt d _ W1)) as [g2 E2].
  { intros row Hin Hu Hv.
    apply (supplies_ok_rows rt _ _ _ (nodes_graph_wf rt d _ wf_empty) E row Hin).
    - rewrite known_has, Hh, orb_diag in Hu. rewrite known_has, Hu.
      reflexivity.
    - rewrite known_has, Hh, orb_diag in Hv. rewrite known_has, Hv.
      reflexivity. }
  unfold Builder.edges_of at 1. rewrite E2. cbn [Py.bind]. cbv zeta. eauto.
Qed.

(** X8. [build] does not start from a fresh graph.  When a
    builder that has finished a build is built again, the second run
    returns as well; it finds every node in place and adds none, and
    it adds every edge a second time: the number of edges doubles, and
    so does the number of edges of each relation between any two
    nodes. *)
Theorem build_twice_doubles_edges {K : Np.Kernel} (rt : Py.Runtime)
    (dd : DataDir) (self : @Builder.KnowledgeGraphBuilder K)
    (out : @Builder.Output K) :
  Builder.build rt (Builder.__init__ dd) = Py.Ok (self, out) ->
  exists self2 out2,
    Builder.build rt self = Py.Ok (self2, out2)
    /\ Dict.keys (Nx._node (Builder.G self2))
       = Dict.keys (Nx._node (Builder.G self))
    /\ Nx.number_of_edges (Builder.G self2)
       = 2 * Nx.number_of_edges (Builder.G self)
    /\ forall r u v,
         Obs.edge_count (Builder.G self2) r u v
         = 2 * Obs.edge_count (Builder.G self) r u v.
Proof.
  intros B1.
  destruct (build_again_returns rt dd self out B1) as (self2 & out2 & B2).
  exists self2, out2. split; [exact B2|].
  destruct (build_data rt dd self out B1) as (d & D & L).
  destruct (build_graph_ok rt dd self out B1) as (W1 & G1 & DD).
  destruct (build_nodes rt dd self out d B1 D) as (N1 & _ & P1 & _).
  assert (L2 : Input.holds (Builder.data_dir self) d) by now rewrite DD.
  destruct (build_from_inv rt self self2 out2 d L2 W1 G1 B2) as (E2 & _).
  destruct (edges_of_spec rt d _ _ _ (nodes_graph_wf rt d _ W1) E2)
    as (N2 & _ & P2).
  rewrite nodes_graph_edges in P2.
  assert (Hh : forall n, Nx.has_node (Builder.G self) n = Refs.known d n).
  { intros n. unfold Nx.has_node. rewrite N1.
    fold (Nx.has_node (NodeLoops.nodes_graph rt d Nx.empty) n).
    rewrite known_has. apply orb_false_r. }
  assert (Hg : forall c,
            Trace.guard (NodeLoops.nodes_graph rt d (Builder.G self)) c
            = Trace.guard (NodeLoops.nodes_graph rt d Nx.empty) c).
  { intros c. unfold Trace.guard. rewrite !known_has, !Hh.
    simpl. now rewrite !orb_diag, !orb_false_r. }
  rewrite (filter_ext _ _ Hg) in P2.
  set (X := map Trace.ctag
              (filter (Trace.guard (NodeLoops.nodes_graph rt d Nx.empty))
                 (Trace.all_cands d
                    (NodeLoops.country_by_name (countries d) [])))) in *.
  assert (P : Permutation (map Trace.tag (Nx.edges (Builder.G self2)))
                          (X ++ X)).
  { eapply Permutation_trans; [exact P2|].
    now apply Permutation_app_head. }
  split; [|split].
  - rewrite N2. apply nodes_graph_keys_same.
    intros n Hn. rewrite Hh. now apply listed_In.
  - rewrite <- !tags_length.
    rewrite (Permutation_length P), (Permutation_length P1), length_app.
    lia.
  - intros r u v. rewrite !edge_count_tags.
    rewrite (Permutation_filter_length _ _ _ P),
      (Permutation_filter_length _ _ _ P1), filter_app, length_app.
    lia.
Qed.

(** X9. [_edges] never makes or changes a node.  Run on any
    builder whose tables are loaded, it leaves the nodes and their
    attributes, the index maps and the feature matrices as they were,
    and it removes no edge: between any two nodes the number of edges
    of a relation can only grow. *)
Theorem edges_keep_nodes {K : Np.Kernel} (rt : Py.Runtime)
    (self self' : @Builder.KnowledgeGraphBuilder K) :
  Trace.wf (Builder.G self) ->
  Builder._edges rt self = Py.Ok self' ->
  Nx.nodes (Builder.G self') = Nx.nodes (Builder.G self)
  /\ Builder.id_maps self' = Builder.id_maps self
  /\ Builder.node_features self' = Builder.node_features self
  /\ Builder._data self' = Builder._data self
  /\ forall r u v,
       Obs.edge_count (Builder.G self) r u v
       <= Obs.edge_count (Builder.G self') r u v.
Proof.
  intros W E. unfold Builder._edges, Builder.tables in E.
  destruct (Builder._data self) as [d|] eqn:D; [|discriminate].
  cbn [Py.bind] in E.
  destruct (Builder.edges_of rt d _ _) as [g|] eqn:Eg; [|discriminate].
  cbn [Py.bind] in E. inversion E; subst self'; clear E.
  destruct (edges_of_spec rt d _ _ _ W Eg) as (N & _ & P).
  cbn. rewrite D. repeat split; auto.
  intros r u v. rewrite !edge_count_tags.
  rewrite (Permutation_filter_length _ _ _ P), filter_app, length_app.
  lia.
Qed.

(** ** Index maps with repeated keys, and the maps [_save] writes *)

Section IndexLast.
Import NodeLoops.

Lemma assign_from_cons {R} (nid : R -> string) k r tl acc :
  assign_from nid k (r :: tl) acc
  = assign_from nid (S k) tl (Dict.set (nid r) k acc).
Proof. reflexivity. Qed.

(** The index stored under a key is the position of the last row that
    bears it. *)
Lemma assign_from_get {R} (nid : R -> string) rows id i : forall k acc,
  Dict.get id (assign_from nid k rows acc) = Some i
  <-> (exists j, i = k + j
                 /\ nth_error (map nid rows) j = Some id
                 /\ forall j', j < j' -> nth_error (map nid rows) j' <> Some id)
      \/ (~ In id (map nid rows) /\ Dict.get id acc = Some i).
Proof.
  induction rows as [|r tl IH]; intros k acc.
  - unfold assign_from. simpl. split.
    + intros H. right. split; [tauto | exact H].
    + intros [(j & _ & H & _)|[_ H]]; [now destruct j | exact H].
  - rewrite assign_from_cons, IH. clear IH. simpl map. split.
    + intros [(j & -> & Hj & Hl)|[Hn Hg]].
      * left. exists (S j). split; [lia|]. split; [exact Hj|].
        intros [|j'] Hlt; [lia|]. simpl. apply Hl. lia.
      * rewrite get_set in Hg.
        destruct (String.eqb_spec (nid r) id) as [E|E].
        -- inversion Hg; subst i. left. exists 0.
           split; [lia|]. split; [simpl; now rewrite E|].
           intros [|j'] Hlt; [lia|]. simpl. intros Hc.
           apply Hn. eapply nth_error_In, Hc.
        -- right. split; [|exact Hg]. simpl. tauto.
    + intros [(j & -> & Hj & Hl)|[Hn Hg]].
      * destruct j as [|j].
        -- right. simpl in Hj. inversion Hj as [E]. split.
           ++ intros Hin. apply In_nth_error in Hin as [j' Hj'].
              apply (Hl (S j')); [lia | simpl; rewrite <- E; exact Hj'].
           ++ rewrite E, get_set_eq. f_equal. lia.
        -- left. exists j. split; [lia|]. split; [exact Hj|].
           intros j' Hlt. apply (Hl (S j')). lia.
      * right. simpl in Hn. split; [tauto|].
        rewrite get_set.
        destruct (String.eqb_spec (nid r) id) as [E|E]; [tauto | exact Hg].
Qed.

Lemma assign_from_last {R} (nid : R -> string) rows id i :
  Dict.get id (assign_from nid 0 rows []) = Some i
  <-> nth_error (map nid rows) i = Some id
      /\ forall j, i < j -> nth_error (map nid rows) j <> Some id.
Proof.
  rewrite assign_from_get. split.
  - intros [(j & -> & H)|[_ H]]; [exact H | discriminate].
  - intros H. left. exists i. split; [reflexivity | exact H].
Qed.

Lemma set_set {V} k (v w : V) d :
  Dict.set k v (Dict.set k w d) = Dict.set k v d.
Proof.
  induction d as [|[k' v'] t IH]; simpl.
  - now rewrite String.eqb_refl.
  - destruct (String.eqb_spec k' k) as [->|N]; simpl.
    + now rewrite String.eqb_refl.
    + apply String.eqb_neq in N. rewrite N. now rewrite IH.
Qed.

(** The outer dictionary after the index assignments of one table: the
    type gets an entry at the first row. *)
Lemma index_loop_outer {R} (upd : nat -> R -> Builder.IdMaps -> Builder.IdMaps)
    t (nid : R -> string) (rows : list R) :
  (forall i r m,
     Builder.index (upd i r m)
     = Dict.set t (Dict.set (nid r) i (Builder.index_map m t))
                (Builder.index m)) ->
  forall m,
    Builder.index (index_loop upd rows m)
    = match rows with
      | [] => Builder.index m
      | _ => Dict.set t (assign_from nid 0 rows (Builder.index_map m t))
                      (Builder.index m)
      end.
Proof.
  intros Hupd. unfold index_loop, Py.enumerate.
  generalize 0 as k.
  assert (G : forall rows k m,
            Builder.index
              (fold_left (fun m ir => upd (fst ir) (snd ir) m)
                         (combine (seq k (List.length rows)) rows) m)
            = match rows with
              | [] => Builder.index m
              | _ => Dict.set t (assign_from nid k rows (Builder.index_map m t))
                              (Builder.index m)
              end).
  { clear rows. induction rows as [|r tl IH]; intros k m; [reflexivity|].
    cbn [List.length seq combine fold_left fst snd].
    rewrite IH. rewrite assign_from_cons.
    assert (Em : Builder.index_map (upd k r m) t
                 = Dict.set (nid r) k (Builder.index_map m t)).
    { unfold Builder.index_map at 1. rewrite Hupd.
      unfold Dict.get_default. now rewrite get_set_eq. }
    destruct tl as [|r' tl'].
    - rewrite Hupd. reflexivity.
    - rewrite Em, Hupd, set_set. reflexivity. }
  intros k m. apply G.
Qed.

Lemma upd_index_outer {R} t (nid : R -> string) i r m :
  Builder.index (upd_index t nid i r m)
  = Dict.set t (Dict.set (nid r) i (Builder.index_map m t)) (Builder.index m).
Proof. reflexivity. Qed.

Lemma upd_country_outer i r m :
  Builder.index (upd_country i r m)
  = Dict.set "country"
             (Dict.set (Country.country_id r) i (Builder.index_map m "country"))
             (Builder.index m).
Proof. reflexivity. Qed.

Lemma index_loop_get {R} (upd : nat -> R -> Builder.IdMaps -> Builder.IdMaps)
    t (nid : R -> string) (rows : list R) t' m :
  (forall i r m,
     Builder.index (upd i r m)
     = Dict.set t (Dict.set (nid r) i (Builder.index_map m t))
                (Builder.index m)) ->
  Dict.get t' (Builder.index (index_loop upd rows m))
  = if String.eqb t t'
    then match rows with
         | [] => Dict.get t' (Builder.index m)
         | _ => Some (assign_from nid 0 rows (Builder.index_map m t))
         end
    else Dict.get t' (Builder.index m).
Proof.
  intros Hupd. rewrite (index_loop_outer upd t nid rows Hupd).
  destruct rows as [|r tl]; [now destruct (String.eqb t t')|].
  apply get_set.
Qed.

Ltac lit_eqb :=
  repeat match goal with
         | |- context [String.eqb ?a ?b] =>
             let v := eval vm_compute in (String.eqb a b) in
             match v with
             | true => change (String.eqb a b) with true
             | false => change (String.eqb a b) with false
             end
         end;
  cbv iota.

Ltac outer_step :=
  first [ rewrite (index_loop_get _ _ _ _ _ _ (upd_index_outer _ _))
        | rewrite (index_loop_get _ _ _ _ _ _ upd_country_outer)
        | rewrite index_loop_index
        | rewrite country_loop_index
        | rewrite index_map_reset ];
  cbn [Builder.index]; lit_eqb.

(** An entry of the outer dictionary of a new builder after [_nodes]:
    a type has one exactly when its table has a row. *)
Lemma nodes_maps_outer d t :
  Dict.get t (Builder.index (nodes_maps d no_maps))
  = match Obs.ids_of_type d t with
    | [] => None
    | _ => Some (Builder.index_map (nodes_maps d no_maps) t)
    end.
Proof.
  rewrite nodes_maps_index. unfold Obs.ids_of_type.
  destruct (String.eqb_spec t "supplier") as [->|N1].
  { unfold nodes_maps. repeat outer_step. unfold Obs.supplier_ids.
    now destruct (suppliers d). }
  destruct (String.eqb_spec t "component") as [->|N2].
  { unfold nodes_maps. repeat outer_step. unfold Obs.component_ids.
    now destruct (components d). }
  destruct (String.eqb_spec t "country") as [->|N3].
  { unfold nodes_maps. repeat outer_step. unfold Obs.country_ids.
    now destruct (countries d). }
  destruct (String.eqb_spec t "contract") as [->|N4].
  { unfold nodes_maps. repeat outer_step. unfold Obs.contract_ids.
    now destruct (contracts d). }
  destruct (String.eqb_spec t "route") as [->|N5].
  { unfold nodes_maps. repeat outer_step. unfold Obs.route_ids.
    now destruct (routes d). }
  apply String.eqb_neq in N1, N2, N3, N4, N5.
  unfold nodes_maps.
  rewrite (index_loop_get _ _ _ _ _ _ (upd_index_outer _ _)),
    (String.eqb_sym "route" t), N5.
  rewrite (index_loop_get _ _ _ _ _ _ (upd_index_outer _ _)),
    (String.eqb_sym "contract" t), N4.
  rewrite (index_loop_get _ _ _ _ _ _ upd_country_outer),
    (String.eqb_sym "country" t), N3.
  cbn [Builder.index].
  rewrite (index_loop_get _ _ _ _ _ _ (upd_index_outer _ _)),
    (String.eqb_sym "component" t), N2.
  rewrite (index_loop_get _ _ _ _ _ _ (upd_index_outer _ _)),
    (String.eqb_sym "supplier" t), N1.
  reflexivity.
Qed.

End IndexLast.

Lemma build_index_last {K : Np.Kernel} (rt : Py.Runtime) (dd : DataDir)
    (self : @Builder.KnowledgeGraphBuilder K) (out : @Builder.Output K)
    (d : Data) (t id : string) (i : nat) :
  Builder.build rt (Builder.__init__ dd) = Py.Ok (self, out) ->
  Builder._data self = Some d ->
  In t Obs.node_types ->
  (Dict.get id (Builder.index_map (Builder.id_maps self) t) = Some i
   <-> nth_error (Obs.ids_of_type d t) i = Some id
       /\ forall j, i < j -> nth_error (Obs.ids_of_type d t) j <> Some id).
Proof.
  intros B D T.
  destruct (build_nodes rt dd self out d B D) as (_ & _ & _ & M).
  rewrite M, nodes_maps_index. unfold Obs.ids_of_type. simpl in T.
  destruct T as [<-|[<-|[<-|[<-|[<-|[]]]]]]; cbn [String.eqb Ascii.eqb Bool.eqb];
    apply assign_from_last.
Qed.

(** X10. After [build], whatever the tables hold, the index
    map of a node type sends a key to the position of the last row of
    the type's table that bears it: an index is always a row number of
    the table, different keys get different indices, and of two rows
    with one key the later one wins. *)
Theorem index_map_last_row {K : Np.Kernel} (rt : Py.Runtime) (dd : DataDir)
    (self : @Builder.KnowledgeGraphBuilder K) (out : @Builder.Output K)
    (d : Data) (t id : string) (i : nat) :
  Builder.build rt (Builder.__init__ dd) = Py.Ok (self, out) ->
  Builder._data self = Some d ->
  In t Obs.node_types ->
  (Dict.get id (Builder.index_map (Builder.id_maps self) t) = Some i
   <-> nth_error (Obs.ids_of_type d t) i = Some id
       /\ forall j, i < j -> nth_error (Obs.ids_of_type d t) j <> Some id).
Proof. apply build_index_last. Qed.

(** X11. The index maps [_save] writes after a build hold
    an entry for a node type exactly when the type's table has a row,
    and the entry is the type's index map; the name map of the
    countries is not written, and a type with an empty table is
    missing from the file rather than mapped to an empty map. *)
Theorem saved_id_maps {K : Np.Kernel} (rt : Py.Runtime) (dd : DataDir)
    (self : @Builder.KnowledgeGraphBuilder K) (out : @Builder.Output K)
    (d : Data) (t : string) :
  Builder.build rt (Builder.__init__ dd) = Py.Ok (self, out) ->
  Builder._data self = Some d ->
  Dict.get t (Builder.id_maps_json out)
  = match Obs.ids_of_type d t with
    | [] => None
    | _ => Some (Builder.index_map (Builder.id_maps self) t)
    end.
Proof.
  intros B D.
  destruct (build_nodes rt dd self out d B D) as (_ & _ & _ & M).
  destruct (build_inv rt dd self out B) as (_ & _ & _ & _ & _ & _ & _ & ->).
  cbn [Builder.id_maps_json Builder._save]. rewrite M.
  rewrite <- nodes_maps_outer.
  rewrite filter_all; [reflexivity|].
  intros [k v] Hin. cbn [fst].
  assert (Hk : Dict.get k (Builder.index (NodeLoops.nodes_maps d NodeLoops.no_maps))
               <> None).
  { intros Hn. apply get_None_not_In in Hn. apply Hn.
    unfold Dict.keys. now apply (in_map fst) in Hin. }
  rewrite nodes_maps_outer in Hk. unfold Obs.ids_of_type in Hk.
  destruct (String.eqb_spec k "supplier") as [->|N1]; [reflexivity|].
  destruct (String.eqb_spec k "component") as [->|N2]; [reflexivity|].
  destruct (String.eqb_spec k "country") as [->|N3]; [reflexivity|].
  destruct (String.eqb_spec k "contract") as [->|N4]; [reflexivity|].
  destruct (String.eqb_spec k "route") as [->|N5]; [reflexivity|].
  contradiction.
Qed.

(** ** Parallel edges and name resolution *)

Section Multiplicity.
Import Trace NodeLoops Count Input.

Lemma rel_count_rows {R} r u v (f : R -> list triple) (q : R -> bool)
    (rows : list R) :
  (forall x, In x rows ->
     List.length (filter (triple_is r u v) (f x)) = if q x then 1 else 0) ->
  rel_count r u v (flat_map f rows) = List.length (filter q rows).
Proof.
  intros H. unfold rel_count.
  rewrite (count_flat_map _ _ (fun x => if q x then 1 else 0)) by exact H.
  rewrite list_sum_indicator. lia.
Qed.

Lemma rel_count_supplies_all d bn u v :
  rel_count "supplies" u v (all_cands d bn)
  = List.length
      (filter (fun row => String.eqb (SourcingLink.supplier_id row) u
                          && String.eqb (SourcingLink.component_id row) v)
              (sourcing_links d)).
Proof.
  unfold all_cands. rewrite !rel_count_app.
  rewrite (rel_count_other _ _ _ (flat_map (located_cand bn) _))
    by (intros c H; apply located_cands_rel in H; rewrite H; discriminate).
  rewrite (rel_count_other _ _ _ (flat_map contract_cand _))
    by (intros c H; apply contract_cands_rel in H as [H|H]; rewrite H;
        discriminate).
  rewrite (rel_count_other _ _ _ (flat_map (route_cand bn) _))
    by (intros c H; apply route_cands_rel in H as [H|[H|H]]; rewrite H;
        discriminate).
  rewrite (rel_count_other _ _ _ (flat_map co_cand _))
    by (intros c H; apply co_cands_rel in H; rewrite H; discriminate).
  rewrite (rel_count_other _ _ _ (flat_map tw_cand _))
    by (intros c H; apply tw_cands_rel in H; rewrite H; discriminate).
  rewrite !Nat.add_0_r. unfold rel_count, supplies_cands.
  rewrite filter_map_comm, length_map. reflexivity.
Qed.

Lemma rel_count_located_all d bn u v :
  rel_count "located_in" u v (all_cands d bn)
  = List.length
      (filter (fun row =>
                 String.eqb (Supplier.supplier_id row) u
                 && match Dict.get (Supplier.country row) bn with
                    | Some c => Py.truthy_str c && String.eqb c v
                    | None => false
                    end)
              (suppliers d)).
Proof.
  unfold all_cands. rewrite !rel_count_app.
  rewrite (rel_count_other _ _ _ (supplies_cands _))
    by (intros c H; apply supplies_cands_rel in H; rewrite H; discriminate).
  rewrite (rel_count_other _ _ _ (flat_map contract_cand _))
    by (intros c H; apply contract_cands_rel in H as [H|H]; rewrite H;
        discriminate).
  rewrite (rel_count_other _ _ _ (flat_map (route_cand bn) _))
    by (intros c H; apply route_cands_rel in H as [H|[H|H]]; rewrite H;
        discriminate).
  rewrite (rel_count_other _ _ _ (flat_map co_cand _))
    by (intros c H; apply co_cands_rel in H; rewrite H; discriminate).
  rewrite (rel_count_other _ _ _ (flat_map tw_cand _))
    by (intros c H; apply tw_cands_rel in H; rewrite H; discriminate).
  rewrite !Nat.add_0_r. simpl.
  apply rel_count_rows. intros row _.
  unfold located_cand, opt_cand.
  destruct (Dict.get (Supplier.country row) bn) as [c|];
    [|now rewrite andb_false_r].
  destruct (Py.truthy_str c); [|now rewrite andb_false_r].
  unfold triple_is. cbn [filter fst snd String.eqb Ascii.eqb Bool.eqb andb].
  destruct (String.eqb (Supplier.supplier_id row) u), (String.eqb c v);
    reflexivity.
Qed.

(** The name map holds, for a name, the identifier of the last country
    row that bears it. *)
Lemma country_by_name_last rows name c : forall acc,
  Dict.get name (country_by_name rows acc) = Some c
  <-> (exists i row,
         nth_error rows i = Some row
         /\ Country.name row = name /\ Country.country_id row = c
         /\ forall j row', i < j -> nth_error rows j = Some row' ->
                           Country.name row' <> name)
      \/ ((forall row, In row rows -> Country.name row <> name)
          /\ Dict.get name acc = Some c).
Proof.
  unfold country_by_name.
  induction rows as [|r tl IH]; intros acc.
  - simpl. split.
    + intros H. right. split; [intros row []|exact H].
    + intros [(i & row & H & _)|[_ H]]; [now destruct i | exact H].
  - cbn [fold_left]. rewrite IH. clear IH. split.
    + intros [(i & row & Hi & Hn & Hc & Hl)|[Hn Hg]].
      * left. exists (S i), row. repeat split; auto.
        intros [|j] row' Hlt Hj; [lia|]. simpl in Hj.
        apply (Hl j row'); [lia | exact Hj].
      * rewrite get_set in Hg.
        destruct (String.eqb_spec (Country.name r) name) as [E|E].
        -- inversion Hg; subst c. left. exists 0, r. repeat split; auto.
           intros [|j] row' Hlt Hj; [lia|]. simpl in Hj.
           apply Hn. eapply nth_error_In, Hj.
        -- right. split; [|exact Hg].
           intros row [<-|Hin]; [exact E | now apply Hn].
    + intros [(i & row & Hi & Hn & Hc & Hl)|[Hn Hg]].
      * destruct i as [|i].
        -- right. simpl in Hi. inversion Hi; subst row. split.
           ++ intros row Hin. apply In_nth_error in Hin as [j Hj].
              apply (Hl (S j) row); [lia | exact Hj].
           ++ rewrite Hn, get_set_eq. now rewrite Hc.
        -- left. exists i, row. repeat split; auto.
           intros j row' Hlt Hj. apply (Hl (S j) row'); [lia | exact Hj].
      * right. split; [intros row Hin; apply Hn; now right|].
        rewrite get_set.
        destruct (String.eqb_spec (Country.name r) name) as [E|E];
          [|exact Hg].
        exfalso. apply (Hn r); [now left | exact E].
Qed.

End Multiplicity.

(** X12. After [build], between a supplier and a
    component that are both keys of an entity table there are as many
    supplies edges as there are sourcing links listing the two: the
    links are not deduplicated, a link listed twice gives two parallel
    edges; and there is no supplies edge where an end is not a key. *)
Theorem supplies_edges_per_link {K : Np.Kernel} (rt : Py.Runtime)
    (dd : DataDir) (self : @Builder.KnowledgeGraphBuilder K)
    (out : @Builder.Output K) (d : Data) (s c : string) :
  Builder.build rt (Builder.__init__ dd) = Py.Ok (self, out) ->
  Builder._data self = Some d ->
  Obs.edge_count (Builder.G self) "supplies" s c
  = if Refs.known d s && Refs.known d c
    then List.length
           (filter (fun row => String.eqb (SourcingLink.supplier_id row) s
                               && String.eqb (SourcingLink.component_id row) c)
                   (sourcing_links d))
    else 0.
Proof.
  intros B D.
  rewrite (build_edge_count rt dd self out d _ _ _ B D).
  rewrite !(build_has_listed rt dd self out d _ B D).
  now rewrite rel_count_supplies_all.
Qed.

(** X13. After [build], the name map sends a country name to
    the identifier of the last country row that bears it, and each
    supplier row whose country name is in the map with a non-empty
    identifier gives one located_in edge from the supplier to that
    identifier; a supplier none of whose rows has a country name in
    the map gets no located_in edge. *)
Theorem located_in_by_country_name {K : Np.Kernel} (rt : Py.Runtime)
    (dd : DataDir) (self : @Builder.KnowledgeGraphBuilder K)
    (out : @Builder.Output K) (d : Data) :
  Builder.build rt (Builder.__init__ dd) = Py.Ok (self, out) ->
  Builder._data self = Some d ->
  let bn := Builder.by_name_map (Builder.id_maps self) in
  (forall name c,
     Dict.get name bn = Some c
     <-> exists i row,
           nth_error (countries d) i = Some row
           /\ Country.name row = name /\ Country.country_id row = c
           /\ forall j row', i < j -> nth_error (countries d) j = Some row' ->
                             Country.name row' <> name)
  /\ (forall s c,
        Obs.edge_count (Builder.G self) "located_in" s c
        = List.length
            (filter (fun row =>
                       String.eqb (Supplier.supplier_id row) s
                       && match Dict.get (Supplier.country row) bn with
                          | Some c' => Py.truthy_str c' && String.eqb c' c
                          | None => false
                          end)
                    (suppliers d)))
  /\ (forall s c,
        (forall row, In row (suppliers d) -> Supplier.supplier_id row = s ->
                     Dict.get (Supplier.country row) bn = None) ->
        Obs.edge_count (Builder.G self) "located_in" s c = 0).
Proof.
  intros B D bn.
  destruct (build_reads rt dd self out d B D) as (Hb & Hn).
  assert (Hc : forall s c,
            Obs.edge_count (Builder.G self) "located_in" s c
            = List.length
                (filter (fun row =>
                           String.eqb (Supplier.supplier_id row) s
                           && match Dict.get (Supplier.country row) bn with
                              | Some c' => Py.truthy_str c' && String.eqb c' c
                              | None => false
                              end)
                        (suppliers d))).
  { intros s c.
    rewrite (build_edge_count rt dd self out d _ _ _ B D), !Hn.
    rewrite rel_count_located_all. unfold bn. rewrite Hb.
    destruct (Refs.known d s && Refs.known d c) eqn:Hk; [reflexivity|].
    symmetry. rewrite filter_none; [reflexivity|].
    intros row Hrow.
    destruct (String.eqb_spec (Supplier.supplier_id row) s) as [Es|];
      [|reflexivity].
    destruct (Dict.get (Supplier.country row) _) as [c'|] eqn:Eg;
      [|reflexivity].
    destruct (Py.truthy_str c'); [|reflexivity].
    destruct (String.eqb_spec c' c) as [Ec|]; [|reflexivity].
    subst. exfalso.
    rewrite (known_of_type d "supplier" (Supplier.supplier_id row)) in Hk
      by (simpl; unfold Obs.supplier_ids; now apply in_map).
    rewrite (named_is_known d _ _ Eg) in Hk. discriminate. }
  split; [|split].
  - intros name c. unfold bn. rewrite Hb, country_by_name_last.
    split; [intros [H|[_ H]]; [exact H | discriminate] | auto].
  - exact Hc.
  - intros s c H. rewrite Hc, filter_none; [reflexivity|].
    intros row Hrow.
    destruct (String.eqb_spec (Supplier.supplier_id row) s) as [Es|];
      [|reflexivity].
    now rewrite (H row Hrow Es).
Qed.

(** ** The attributes of the nodes *)

Section NodeAttributes.
Import Trace NodeLoops Attrs Input.
Context (rt : Py.Runtime).

Lemma fold_set_keys {V} (f : string -> V) keys : forall acc,
  NoDup (Dict.keys acc ++ keys) ->
  Dict.keys (fold_left (fun out k => Dict.set k (f k) out) keys acc)
  = Dict.keys acc ++ keys.
Proof.
  induction keys as [|k tl IH]; intros acc N; simpl.
  - now rewrite app_nil_r.
  - rewrite IH.
    + rewrite keys_set.
      assert (M : Dict.mem k acc = false).
      { apply mem_false_not_In. apply NoDup_remove_2 in N.
        intros H. apply N, in_or_app. now left. }
      rewrite M, <- app_assoc. reflexivity.
    + rewrite keys_set.
      assert (M : Dict.mem k acc = false).
      { apply mem_false_not_In. apply NoDup_remove_2 in N.
        intros H. apply N, in_or_app. now left. }
      rewrite M, <- app_assoc. exact N.
Qed.

(** [_safe] on keys without repetition stores them in order. *)
Lemma safe_dict_keys_eq row keys :
  NoDup keys -> Dict.keys (safe_dict rt row keys) = keys.
Proof.
  intros N. unfold safe_dict.
  now rewrite (fold_set_keys (fun k => Py.VFloat (coerce rt row k))).
Qed.

Ltac nodup_lits :=
  repeat (constructor; [simpl; intuition discriminate|]); constructor.

Lemma spec_NoDup t : NoDup (Schema.feature_spec t).
Proof.
  unfold Schema.feature_spec, Dict.get_default.
  destruct (String.eqb_spec t "supplier") as [->|N1]; [nodup_lits|].
  destruct (String.eqb_spec t "component") as [->|N2]; [nodup_lits|].
  destruct (String.eqb_spec t "country") as [->|N3]; [nodup_lits|].
  destruct (String.eqb_spec t "contract") as [->|N4]; [nodup_lits|].
  destruct (String.eqb_spec t "route") as [->|N5]; [nodup_lits|].
  apply String.eqb_neq in N1, N2, N3, N4, N5.
  unfold Schema.NODE_FEATURE_SPECS. cbn [Dict.get].
  rewrite (String.eqb_sym "route" t), (String.eqb_sym "contract" t),
    (String.eqb_sym "country" t), (String.eqb_sym "component" t),
    (String.eqb_sym "supplier" t), N1, N2, N3, N4, N5.
  constructor.
Qed.

Lemma features_after_fixed (fixed feats : Nx.attrs) f v :
  ~ In f (Dict.keys fixed) ->
  Dict.get f feats = Some v ->
  Dict.get f (fixed ++ feats) = Some v.
Proof.
  intros H G. rewrite get_app.
  apply get_None_not_In in H. now rewrite H.
Qed.

Lemma schema_supplier row : schema_ok "supplier" (supplier_attrs rt row).
Proof.
  unfold schema_ok, supplier_attrs. split; [|split].
  - unfold Dict.keys. rewrite map_app.
    fold (Dict.keys (safe_dict rt (Supplier.cells row)
                       (Schema.feature_spec "supplier"))).
    now rewrite safe_dict_keys_eq by apply spec_NoDup.
  - reflexivity.
  - intros f Hf. exists (Py.VFloat (coerce rt (Supplier.cells row) f)).
    split; [|exact I].
    apply features_after_fixed; [|now apply safe_dict_get].
    simpl in Hf. simpl. intuition (subst; discriminate).
Qed.

Lemma schema_country row : schema_ok "country" (country_attrs rt row).
Proof.
  unfold schema_ok, country_attrs. split; [|split].
  - unfold Dict.keys. rewrite map_app.
    fold (Dict.keys (safe_dict rt (Country.cells row)
                       (Schema.feature_spec "country"))).
    now rewrite safe_dict_keys_eq by apply spec_NoDup.
  - reflexivity.
  - intros f Hf. exists (Py.VFloat (coerce rt (Country.cells row) f)).
    split; [|exact I].
    apply features_after_fixed; [|now apply safe_dict_get].
    simpl in Hf. simpl. intuition (subst; discriminate).
Qed.

Lemma schema_contract row : schema_ok "contract" (contract_attrs rt row).
Proof.
  unfold schema_ok, contract_attrs. split; [|split].
  - unfold Dict.keys. rewrite map_app.
    fold (Dict.keys (safe_dict rt (Contract.cells row)
                       (Schema.feature_spec "contract"))).
    now rewrite safe_dict_keys_eq by apply spec_NoDup.
  - reflexivity.
  - intros f Hf. exists (Py.VFloat (coerce rt (Contract.cells row) f)).
    split; [|exact I].
    apply features_after_fixed; [|now apply safe_dict_get].
    simpl in Hf. simpl. intuition (subst; discriminate).
Qed.

Lemma schema_route row : schema_ok "route" (route_attrs rt row).
Proof.
  unfold schema_ok, route_attrs. split; [|split].
  - unfold Dict.keys. rewrite map_app.
    fold (Dict.keys (safe_dict rt (Route.cells row)
                       (Schema.feature_spec "route"))).
    now rewrite safe_dict_keys_eq by apply spec_NoDup.
  - reflexivity.
  - intros f Hf. exists (Py.VFloat (coerce rt (Route.cells row) f)).
    split; [|exact I].
    apply features_after_fixed; [|now apply safe_dict_get].
    simpl in Hf. simpl. intuition (subst; discriminate).
Qed.

Lemma component_feats_keys row v :
  Dict.keys (Dict.set "criticality_encoded" v
               (safe_dict rt (Component.cells row) measured))
  = Schema.feature_spec "component".
Proof.
  rewrite keys_set, safe_dict_keys_eq by (unfold measured; nodup_lits).
  unfold Dict.mem.
  assert (H : Dict.get "criticality_encoded"
                (safe_dict rt (Component.cells row) measured) = None).
  { apply get_None_not_In.
    rewrite safe_dict_keys_eq by (unfold measured; nodup_lits).
    simpl. intuition discriminate. }
  now rewrite H.
Qed.

Lemma component_code row :
  Dict.get "criticality_encoded" (component_attrs rt row)
  = Some (Py.VInt (Dict.get_default (Py.str rt (Component.criticality row))
                     Schema.CRITICALITY_MAP 0%Z)).
Proof.
  unfold component_attrs.
  apply features_after_fixed; [simpl; intuition discriminate|].
  apply get_set_eq.
Qed.

Lemma schema_component row : schema_ok "component" (component_attrs rt row).
Proof.
  unfold schema_ok. split; [|split].
  - unfold component_attrs, Dict.keys. rewrite map_app.
    change (map fst (Dict.set ?k ?v ?d)) with (Dict.keys (Dict.set k v d)).
    fold measured. now rewrite component_feats_keys.
  - reflexivity.
  - intros f Hf.
    destruct (String.eqb_spec f "criticality_encoded") as [->|N].
    + eexists. split; [apply component_code|]. simpl.
      apply criticality_range.
    + exists (Py.VFloat (coerce rt (Component.cells row) f)).
      split; [|exact I]. unfold component_attrs.
      apply features_after_fixed.
      * simpl in Hf. simpl. intuition (subst; discriminate).
      * rewrite get_set_ne by (intros E; apply N; now rewrite E).
        apply safe_dict_get. simpl in Hf. simpl.
        intuition (subst; try discriminate; try contradiction).
Qed.

Lemma schema_keys_NoDup t a :
  In t Obs.node_types -> schema_ok t a -> NoDup (Dict.keys a).
Proof.
  intros T (Hk & _). rewrite Hk. simpl in T.
  destruct T as [<-|[<-|[<-|[<-|[<-|[]]]]]]; nodup_lits.
Qed.

(** With pairwise different keys, the entry of a row in the node
    dictionary holds the keyword arguments of its [add_node] call. *)
Lemma fresh_row_node {R} (nid : R -> string) (attrs : R -> Nx.attrs)
    d (rows : list R) t row :
  NoDup (Obs.all_ids d) ->
  In t Obs.node_types ->
  (forall n a, In (n, a) (map (node_entry nid attrs) rows) ->
               In (n, a) (Nx._node (nodes_graph rt d Nx.empty))) ->
  (forall r, schema_ok t (attrs r)) ->
  In row rows ->
  Dict.get (nid row) (Nx._node (nodes_graph rt d Nx.empty))
  = Some (attrs row).
Proof.
  intros N T Hin Hs Hrow.
  assert (Nk : NoDup (Dict.keys (Nx._node (nodes_graph rt d Nx.empty))))
    by (apply nodes_graph_keys_NoDup; constructor).
  apply (In_get _ _ _ Nk).
  rewrite <- (update_nil_NoDup (attrs row))
    by (eapply schema_keys_NoDup; eauto).
  apply Hin. apply in_map_iff. exists row. split; [reflexivity | exact Hrow].
Qed.

End NodeAttributes.

(** X14. After [build] on tables whose natural keys are
    pairwise different, the node of every row carries the attributes
    the [add_node] call of its type names, in that order: the fixed
    attributes of the type, headed by [node_type] with the type's name,
    then every feature of the type's feature list, each holding a
    float, or for [criticality_encoded] an integer from 0 to 3.  The
    later phases of the build never touch an attribute. *)
Theorem node_attribute_schema {K : Np.Kernel} (rt : Py.Runtime) (dd : DataDir)
    (self : @Builder.KnowledgeGraphBuilder K) (out : @Builder.Output K)
    (d : Data) (t id : string) :
  Builder.build rt (Builder.__init__ dd) = Py.Ok (self, out) ->
  Builder._data self = Some d ->
  NoDup (Obs.all_ids d) ->
  In t Obs.node_types ->
  In id (Obs.ids_of_type d t) ->
  exists a,
    Dict.get id (Nx._node (Builder.G self)) = Some a
    /\ Dict.keys a = Attrs.fixed_keys t ++ Schema.feature_spec t
    /\ Dict.get "node_type" a = Some (Py.VStr t)
    /\ forall f, In f (Schema.feature_spec t) ->
         exists v, Dict.get f a = Some v /\ Attrs.isnum v.
Proof.
  intros B D N T Hid.
  destruct (build_nodes rt dd self out d B D) as (En & _ & _ & _).
  rewrite En.
  pose proof (nodes_graph_fresh rt d N) as F.
  assert (Hall : forall n a,
            In (n, a) (Nx._node (NodeLoops.nodes_graph rt d Nx.empty))
            <-> In (n, a)
                   (map (NodeLoops.node_entry Supplier.supplier_id
                           (NodeLoops.supplier_attrs rt)) (suppliers d))
                \/ In (n, a)
                      (map (NodeLoops.node_entry Component.component_id
                              (NodeLoops.component_attrs rt)) (components d))
                \/ In (n, a)
                      (map (NodeLoops.node_entry Country.country_id
                              (NodeLoops.country_attrs rt)) (countries d))
                \/ In (n, a)
                      (map (NodeLoops.node_entry Contract.contract_id
                              (NodeLoops.contract_attrs rt)) (contracts d))
                \/ In (n, a)
                      (map (NodeLoops.node_entry Route.route_id
                              (NodeLoops.route_attrs rt)) (routes d))).
  { intros n a. rewrite F, !in_app_iff. tauto. }
  unfold Obs.ids_of_type in Hid. simpl in T.
  destruct T as [<-|[<-|[<-|[<-|[<-|[]]]]]];
    cbn [String.eqb Ascii.eqb Bool.eqb] in Hid;
    apply in_map_iff in Hid as (row & <- & Hrow).
  - exists (NodeLoops.supplier_attrs rt row).
    split; [|apply schema_supplier].
    apply (fresh_row_node rt _ _ d (suppliers d) "supplier"); auto.
    + simpl; tauto.
    + intros n a H. apply Hall. tauto.
    + apply schema_supplier.
  - exists (NodeLoops.component_attrs rt row).
    split; [|apply schema_component].
    apply (fresh_row_node rt _ _ d (components d) "component"); auto.
    + simpl; tauto.
    + intros n a H. apply Hall. tauto.
    + apply schema_component.
  - exists (NodeLoops.country_attrs rt row).
    split; [|apply schema_country].
    apply (fresh_row_node rt _ _ d (countries d) "country"); auto.
    + simpl; tauto.
    + intros n a H. apply Hall. tauto.
    + apply schema_country.
  - exists (NodeLoops.contract_attrs rt row).
    split; [|apply schema_contract].
    apply (fresh_row_node rt _ _ d (contracts d) "contract"); auto.
    + simpl; tauto.
    + intros n a H. apply Hall. tauto.
    + apply schema_contract.
  - exists (NodeLoops.route_attrs rt row).
    split; [|apply schema_route].
    apply (fresh_row_node rt _ _ d (routes d) "route"); auto.
    + simpl; tauto.
    + intros n a H. apply Hall. tauto.
    + apply schema_route.
Qed.

(** X15. After [build] on tables whose natural keys are
    pairwise different, the node of a component row keeps the row's
    criticality label and carries its ordinal under
    [criticality_encoded]: 0 for Low, 1 for Medium, 2 for High, 3 for
    Critical, and 0 for any other text; whatever the cell holds, the
    ordinal is an integer from 0 to 3 looked up from the text of the
    cell. *)
Theorem component_criticality_code {K : Np.Kernel} (rt : Py.Runtime)
    (dd : DataDir) (self : @Builder.KnowledgeGraphBuilder K)
    (out : @Builder.Output K) (d : Data) (row : Component.row) :
  Builder.build rt (Builder.__init__ dd) = Py.Ok (self, out) ->
  Builder._data self = Some d ->
  NoDup (Obs.all_ids d) ->
  In row (components d) ->
  exists a z,
    Dict.get (Component.component_id row) (Nx._node (Builder.G self)) = Some a
    /\ Dict.get "criticality" a = Some (Component.criticality row)
    /\ Dict.get "criticality_encoded" a = Some (Py.VInt z)
    /\ z = Dict.get_default (Py.str rt (Component.criticality row))
                            Schema.CRITICALITY_MAP 0%Z
    /\ (0 <= z <= 3)%Z
    /\ forall s, Component.criticality row = Py.VStr s ->
         z = if String.eqb s "Low" then 0%Z
             else if String.eqb s "Medium" then 1%Z
             else if String.eqb s "High" then 2%Z
             else if String.eqb s "Critical" then 3%Z
             else 0%Z.
Proof.
  intros B D N Hrow.
  destruct (build_nodes rt dd self out d B D) as (En & _ & _ & _).
  rewrite En.
  pose proof (nodes_graph_fresh rt d N) as F.
  exists (NodeLoops.component_attrs rt row),
    (Dict.get_default (Py.str rt (Component.criticality row))
       Schema.CRITICALITY_MAP 0%Z).
  split; [|split; [|split; [|split; [|split]]]].
  - apply (fresh_row_node rt _ _ d (components d) "component"); auto.
    + simpl; tauto.
    + intros n a H. rewrite F, !in_app_iff. tauto.
    + apply schema_component.
  - reflexivity.
  - apply component_code.
  - reflexivity.
  - apply criticality_range.
  - intros s E. rewrite E. cbn [Py.str].
    unfold Dict.get_default, Schema.CRITICALITY_MAP. cbn [Dict.get].
    rewrite (String.eqb_sym "Low" s), (String.eqb_sym "Medium" s),
      (String.eqb_sym "High" s), (String.eqb_sym "Critical" s).
    destruct (String.eqb s "Low"); [reflexivity|].
    destruct (String.eqb s "Medium"); [reflexivity|].
    destruct (String.eqb s "High"); [reflexivity|].
    destruct (String.eqb s "Critical"); reflexivity.
Qed.

(** ** The graph [_save] writes *)

Section SavedGraph.
Import Trace NodeLoops Attrs.

Lemma bools_to_int_keys a :
  Dict.keys (Builder.bools_to_int a) = Dict.keys a.
Proof.
  unfold Builder.bools_to_int, Dict.keys. rewrite map_map.
  apply map_ext. intros [k v]. now destruct v.
Qed.

Lemma bools_to_int_get k a :
  Dict.get k (Builder.bools_to_int a)
  = match Dict.get k a with
    | Some (Py.VBool b) => Some (Py.VInt (if b then 1 else 0)%Z)
    | o => o
    end.
Proof.
  induction a as [|[k' v] t IH]; simpl; [reflexivity|].
  destruct v; simpl; destruct (String.eqb k' k); auto.
Qed.

Lemma bools_to_int_values a k v :
  In (k, v) (Builder.bools_to_int a) -> forall b, v <> Py.VBool b.
Proof.
  unfold Builder.bools_to_int. intros H b.
  apply in_map_iff in H as ([k' v'] & E & _).
  destruct v'; simpl in E; inversion E; subst; discriminate.
Qed.


Lemma copy_out_edges u (nbrs : Dict.dict (list Nx.attrs)) :
  Nx.out_edges u
    (map (fun vk => (fst vk, map Builder.bools_to_int (snd vk))) nbrs)
  = map (fun e => (fst e, Builder.bools_to_int (snd e))) (Nx.out_edges u nbrs).
Proof.
  unfold Nx.out_edges. induction nbrs as [|[v kd] t IH]; simpl; auto.
  rewrite map_app, IH, !map_map. reflexivity.
Qed.

(** The edges of the copy are the edges of the graph, one for one and
    in order, with converted attributes. *)
Lemma copy_edges g :
  Nx.edges (Builder.graph_copy_int g)
  = map (fun e => (fst e, Builder.bools_to_int (snd e))) (Nx.edges g).
Proof.
  unfold Nx.edges, Builder.graph_copy_int. cbn [Nx._adj].
  induction (Nx._adj g) as [|[u nbrs] t IH]; simpl; auto.
  now rewrite map_app, IH, copy_out_edges.
Qed.

Lemma copy_nodes g n :
  Dict.get n (Nx._node (Builder.graph_copy_int g))
  = option_map Builder.bools_to_int (Dict.get n (Nx._node g)).
Proof.
  unfold Builder.graph_copy_int. cbn [Nx._node].
  induction (Nx._node g) as [|[k a] t IH]; simpl; auto.
  now destruct (String.eqb k n).
Qed.



End SavedGraph.

Section EdgeAttributes.
Import Trace NodeLoops Attrs.
Context (rt : Py.Runtime).




End EdgeAttributes.

(** X16. The graph [_save] hands to the GraphML writer is the
    builder's graph with every boolean attribute turned into an
    integer, 1 for [True] and 0 for [False], on nodes and on edges
    alike: it has the same nodes and the same edges in the same order,
    the attributes keep their names and their order, no attribute of
    it is a boolean, and an attribute that is not a boolean keeps its
    value. *)
Theorem saved_graph_has_no_boolean {K : Np.Kernel}
    (self : @Builder.KnowledgeGraphBuilder K) :
  let g := Builder.G self in
  let g2 := Builder.graphml (Builder._save self) in
  Dict.keys (Nx._node g2) = Dict.keys (Nx._node g)
  /\ map fst (Nx.edges g2) = map fst (Nx.edges g)
  /\ (forall n, Dict.get n (Nx._node g2)
                = option_map Builder.bools_to_int (Dict.get n (Nx._node g)))
  /\ map snd (Nx.edges g2) = map Builder.bools_to_int (map snd (Nx.edges g))
  /\ (forall a, Dict.keys (Builder.bools_to_int a) = Dict.keys a)
  /\ (forall a k,
        Dict.get k (Builder.bools_to_int a)
        = match Dict.get k a with
          | Some (Py.VBool b) => Some (Py.VInt (if b then 1 else 0)%Z)
          | o => o
          end)
  /\ (forall n a k v b, In (n, a) (Nx.nodes g2) -> In (k, v) a ->
                        v <> Py.VBool b)
  /\ (forall u v a k w b, In (u, v, a) (Nx.edges g2) -> In (k, w) a ->
                          w <> Py.VBool b).
Proof.
  cbn zeta. cbn [Builder.graphml Builder._save].
  split; [|split; [|split; [|split; [|split; [|split; [|split]]]]]].
  - unfold Builder.graph_copy_int, Dict.keys. cbn [Nx._node].
    rewrite map_map. reflexivity.
  - rewrite copy_edges, map_map. reflexivity.
  - apply copy_nodes.
  - rewrite copy_edges, !map_map. reflexivity.
  - apply bools_to_int_keys.
  - intros a k. apply bools_to_int_get.
  - intros n a k v b Hn Hk. unfold Nx.nodes, Builder.graph_copy_int in Hn.
    cbn [Nx._node] in Hn. apply in_map_iff in Hn as ([n' a'] & E & _).
    inversion E; subst. eapply bools_to_int_values, Hk.
  - intros u v a k w b He Hk. rewrite copy_edges in He.
    apply in_map_iff in He as ([[u' v'] a'] & E & _).
    inversion E; subst. eapply bools_to_int_values, Hk.
Qed.


(** ** The feature matrices and the tensor bundle *)

Section Bundles.
Import Trace NodeLoops Attrs Bundle Input.
Context {K : Np.Kernel} (rt : Py.Runtime).

Lemma edges_of_tg b d bn g :
  Builder.edges_of (with_torch_geometric b rt) d bn g
  = Builder.edges_of rt d bn g.
Proof. reflexivity. Qed.

Lemma nodes_graph_tg b d g :
  nodes_graph (with_torch_geometric b rt) d g = nodes_graph rt d g.
Proof. reflexivity. Qed.

(** The entry one turn of the loop over [edge_defs] adds. *)
Lemma add_edge_index_app (self : @Builder.KnowledgeGraphBuilder K) defs :
  forall ei k v,
    In (k, v) (fold_left (Builder.add_edge_index self) defs ei)
    <-> In (k, v) ei
        \/ exists def, In def defs /\ k = key_of def
                       /\ Builder.resolved_edges self def <> []
                       /\ v = (map fst (Builder.resolved_edges self def),
                               map snd (Builder.resolved_edges self def)).
Proof.
  induction defs as [|def tl IH]; intros ei k v; simpl.
  - split; [auto | intros [H|(def & [] & _)]; exact H].
  - rewrite IH. clear IH. destruct def as [[r s] t].
    unfold Builder.add_edge_index.
    destruct (Builder.resolved_edges self (r, s, t)) as [|e es] eqn:E.
    + split.
      * intros [H|(def & Hd & H)]; [now left|].
        right. exists def. split; [now right | exact H].
      * intros [H|(def & [<-|Hd] & Hk & Hne & Hv)]; [now left| |].
        -- now rewrite E in Hne.
        -- right. exists def. auto.
    + rewrite in_app_iff. split.
      * intros [[H|[H|[]]]|(def & Hd & H)]; [now left| |].
        -- right. exists (r, s, t). split; [now left|].
           inversion H; subst. rewrite E. unfold key_of. simpl.
           repeat split. discriminate.
        -- right. exists def. split; [now right | exact H].
      * intros [H|(def & [<-|Hd] & Hk & Hne & Hv)]; [now left; left| |].
        -- left; right. left. rewrite E in Hv. subst. reflexivity.
        -- right. exists def. auto.
Qed.

Lemma add_edge_index_keys (self : @Builder.KnowledgeGraphBuilder K) defs :
  forall ei,
    NoDup (map fst ei ++ map key_of defs) ->
    NoDup (map fst (fold_left (Builder.add_edge_index self) defs ei)).
Proof.
  induction defs as [|def tl IH]; intros ei N; simpl.
  - now rewrite app_nil_r in N.
  - apply IH. destruct def as [[r s] t]. unfold Builder.add_edge_index.
    simpl in N.
    destruct (Builder.resolved_edges self (r, s, t)) as [|e es].
    + now apply NoDup_remove_1 in N.
    + rewrite map_app, <- app_assoc. exact N.
Qed.

Lemma edge_defs_catalog def :
  In def Builder.edge_defs
  <-> exists et, In et Schema.EDGE_TYPES
                 /\ def = (Schema.relation et, Schema.src et, Schema.dst et).
Proof.
  split.
  - intros H. simpl in H.
    repeat (destruct H as [<-|H];
            [match goal with
             | |- exists et, _ /\ (?r, ?s, ?t) = _ =>
                 exists {| Schema.src := s; Schema.relation := r;
                           Schema.dst := t |};
                 split; [simpl; tauto | reflexivity]
             end|]).
    destruct H.
  - intros (et & H & ->). simpl in H.
    repeat (destruct H as [<-|H]; [simpl; tauto|]). destruct H.
Qed.

(** With pairwise different keys the nodes of a type are the rows of
    its table, in row order. *)
Lemma nodes_of_type_ids d t :
  NoDup (Obs.all_ids d) -> In t Obs.node_types ->
  map fst (Builder.nodes_of_type (nodes_graph rt d Nx.empty) t)
  = Obs.ids_of_type d t.
Proof.
  intros N T. unfold Builder.nodes_of_type, Nx.nodes.
  rewrite (nodes_graph_fresh rt d N), !filter_app.
  rewrite (filter_typed _ _ "supplier" t _ (typed_supplier rt)),
    (filter_typed _ _ "component" t _ (typed_component rt)),
    (filter_typed _ _ "country" t _ (typed_country rt)),
    (filter_typed _ _ "contract" t _ (typed_contract rt)),
    (filter_typed _ _ "route" t _ (typed_route rt)).
  unfold Obs.ids_of_type, Obs.supplier_ids, Obs.component_ids,
    Obs.country_ids, Obs.contract_ids, Obs.route_ids.
  simpl in T.
  destruct T as [<-|[<-|[<-|[<-|[<-|[]]]]]]; simpl;
    rewrite ?app_nil_r, map_map; reflexivity.
Qed.

Lemma normalize_nth (rows : list (list Py.pyfloat)) i :
  nth_error (Builder.normalize (K := K) rows) i
  = option_map
      (fun r =>
         Np.map2 (Np.div K)
           (Np.map2 (Np.sub K) (map (Np.of_float K) r)
              (Np.min0 (map (map (Np.of_float K)) rows)))
           (Np.range (Np.max0 (map (map (Np.of_float K)) rows))
                     (Np.min0 (map (map (Np.of_float K)) rows))))
      (nth_error rows i).
Proof.
  unfold Builder.normalize, Np.scale. rewrite !nth_error_map.
  now destruct (nth_error rows i).
Qed.

End Bundles.

(** X18. The tensor export is optional.  When [torch_geometric]
    cannot be imported, [build] still returns: the graph, the index
    maps and the feature matrices are those of the build with
    [torch_geometric], the builder holds no tensor bundle and [_save]
    writes the same graph and the same index maps, but no tensor file.
    In any build the tensor file is written exactly when the import
    succeeds. *)
Theorem build_without_torch_geometric {K : Np.Kernel} (rt : Py.Runtime)
    (dd : DataDir) (self : @Builder.KnowledgeGraphBuilder K)
    (out : @Builder.Output K) :
  Builder.build rt (Builder.__init__ dd) = Py.Ok (self, out) ->
  Builder.build (with_torch_geometric false rt) (Builder.__init__ dd)
  = Py.Ok (Builder.with_hetero None self,
           {| Builder.graphml := Builder.graphml out;
              Builder.pt := None;
              Builder.id_maps_json := Builder.id_maps_json out |})
  /\ Builder.pt out = Builder.hetero self
  /\ (Builder.pt out = None <-> Py.has_torch_geometric rt = false).
Proof.
  intros B. destruct (build_data rt dd self out B) as (d & D & L).
  split; [|split].
  - rewrite (build_steps rt (Builder.__init__ dd) d L wf_empty
               graph_num_empty) in B.
    rewrite (build_steps (with_torch_geometric false rt) (Builder.__init__ dd)
               d L wf_empty graph_num_empty).
    rewrite nodes_graph_tg, edges_of_tg.
    destruct (Builder.edges_of rt d _ _) as [g|]; [|discriminate].
    cbn [Py.bind] in *. cbv zeta in *. inversion B; subst. reflexivity.
  - destruct (build_inv rt dd self out B)
      as (_ & _ & _ & _ & _ & _ & _ & ->).
    reflexivity.
  - destruct (build_inv rt dd self out B)
      as (_ & _ & _ & _ & _ & _ & Hh & ->).
    cbn [Builder.pt Builder._save]. rewrite Hh. unfold Builder._to_pyg.
    destruct (Py.has_torch_geometric rt); simpl; split; congruence.
Qed.

(** X19. Whatever the state of the builder, the tensor bundle
    [_to_pyg] returns holds one edge-index entry for each relation of
    the catalog that has an edge resolving in the index maps of its two
    node types, under the key (source type, relation, destination
    type), and no other entry: a relation without such an edge is left
    out, so no entry is empty; the two rows of an entry have the same
    length, and no key occurs twice. *)
Theorem tensor_edge_index_entries {K : Np.Kernel} (rt : Py.Runtime)
    (self : @Builder.KnowledgeGraphBuilder K) (h : @Builder.HeteroData K) :
  Builder._to_pyg rt self = Some h ->
  NoDup (map fst (Builder.edge_index h))
  /\ (forall k srcs dsts,
        In (k, (srcs, dsts)) (Builder.edge_index h)
        <-> exists et,
              In et Schema.EDGE_TYPES
              /\ k = (Schema.src et, Schema.relation et, Schema.dst et)
              /\ Builder.resolved_edges self
                   (Schema.relation et, Schema.src et, Schema.dst et) <> []
              /\ srcs = map fst (Builder.resolved_edges self
                                   (Schema.relation et, Schema.src et,
                                    Schema.dst et))
              /\ dsts = map snd (Builder.resolved_edges self
                                   (Schema.relation et, Schema.src et,
                                    Schema.dst et)))
  /\ (forall k srcs dsts,
        In (k, (srcs, dsts)) (Builder.edge_index h) ->
        srcs <> [] /\ List.length srcs = List.length dsts).
Proof.
  unfold Builder._to_pyg. intros H.
  destruct (negb (Py.has_torch_geometric rt)); [discriminate|].
  assert (He : Builder.edge_index h
               = fold_left (Builder.add_edge_index self) Builder.edge_defs [])
    by (inversion H; reflexivity).
  clear H. rewrite He. clear He.
  assert (Hin : forall k srcs dsts,
            In (k, (srcs, dsts))
               (fold_left (Builder.add_edge_index self) Builder.edge_defs [])
            <-> exists et,
                  In et Schema.EDGE_TYPES
                  /\ k = (Schema.src et, Schema.relation et, Schema.dst et)
                  /\ Builder.resolved_edges self
                       (Schema.relation et, Schema.src et, Schema.dst et)
                     <> []
                  /\ srcs = map fst (Builder.resolved_edges self
                                       (Schema.relation et, Schema.src et,
                                        Schema.dst et))
                  /\ dsts = map snd (Builder.resolved_edges self
                                       (Schema.relation et, Schema.src et,
                                        Schema.dst et))).
  { intros k srcs dsts. rewrite add_edge_index_app. split.
    - intros [[]|(def & Hd & -> & Hne & Hv)].
      apply edge_defs_catalog in Hd as (et & He & ->).
      exists et. inversion Hv; subst. auto.
    - intros (et & He & -> & Hne & -> & ->). right.
      exists (Schema.relation et, Schema.src et, Schema.dst et).
      split; [apply edge_defs_catalog; eauto|]. auto. }
  split; [|split].
  - apply add_edge_index_keys. simpl map at 1. cbn [app].
    apply edge_defs_keys_NoDup.
  - exact Hin.
  - intros k srcs dsts H. apply Hin in H as (et & _ & _ & Hne & -> & ->).
    rewrite !length_map. split; [|reflexivity].
    destruct (Builder.resolved_edges _ _); [congruence | discriminate].
Qed.

(** X20. After [build], a node type has a feature matrix
    exactly when the graph has a node of the type; the matrix has one
    row for each node of the type and one column for each feature of
    the type's feature list; and the tensor bundle, when there is one,
    holds these matrices. *)
Theorem feature_matrix_shape {K : Np.Kernel} (rt : Py.Runtime) (dd : DataDir)
    (self : @Builder.KnowledgeGraphBuilder K) (out : @Builder.Output K)
    (t : string) :
  Builder.build rt (Builder.__init__ dd) = Py.Ok (self, out) ->
  In t Obs.node_types ->
  match Dict.get t (Builder.node_features self) with
  | Some m =>
      Builder.count_nodes (Builder.G self) t <> 0
      /\ List.length m = Builder.count_nodes (Builder.G self) t
      /\ Forall (fun r => List.length r
                          = List.length (Schema.feature_spec t)) m
  | None => Builder.count_nodes (Builder.G self) t = 0
  end
  /\ forall h, Builder.hetero self = Some h ->
               Builder.x h = Builder.node_features self.
Proof.
  intros B T.
  destruct (build_inv rt dd self out B) as (d & _ & _ & _ & _ & F & Hh & _).
  split.
  - rewrite F, features_fold_get by apply specs_keys_NoDup.
    destruct (spec_of_type t T) as [names En]. rewrite En.
    assert (Es : Schema.feature_spec t = names)
      by (unfold Schema.feature_spec, Dict.get_default; now rewrite En).
    rewrite Es. unfold Builder.count_nodes.
    destruct (Builder.nodes_of_type (Builder.G self) t) as [|nd nds] eqn:En'.
    + reflexivity.
    + unfold Bundle.type_matrix. rewrite En'.
      destruct (normalize_shape (K := K)
                  (map (fun nd0 => map (Bundle.feature_float rt (snd nd0)) names)
                       (nd :: nds)) (List.length names)) as [L1 L2].
      * apply Forall_forall. intros r Hr.
        apply in_map_iff in Hr as (x & <- & _). apply length_map.
      * split; [discriminate|]. split; [|exact L2].
        rewrite L1. apply length_map.
  - intros h Eh. rewrite Hh in Eh. unfold Builder._to_pyg in Eh.
    destruct (negb (Py.has_torch_geometric rt)); [discriminate|].
    inversion Eh; subst h. cbn [Builder.x].
    apply update_nil_NoDup. rewrite F. apply features_fold_keys. constructor.
Qed.

(** X21. After [build] on tables whose natural keys are
    pairwise different, the rows of a feature matrix follow the index
    map: the nodes of a type stand in the graph in the order of the
    rows of the type's table, the index map sends a key to its row
    number, and row [i] of the matrix is computed from the attributes
    of the node whose index is [i], by reading the features of the
    type's list with [float(d.get(f, 0.0) or 0.0)], which does not
    raise, subtracting one vector and dividing by another, the same
    two vectors for every row of the matrix. *)
Theorem feature_rows_follow_index {K : Np.Kernel} (rt : Py.Runtime)
    (dd : DataDir) (self : @Builder.KnowledgeGraphBuilder K)
    (out : @Builder.Output K) (d : Data) (t : string) :
  Builder.build rt (Builder.__init__ dd) = Py.Ok (self, out) ->
  Builder._data self = Some d ->
  NoDup (Obs.all_ids d) ->
  In t Obs.node_types ->
  map fst (Builder.nodes_of_type (Builder.G self) t) = Obs.ids_of_type d t
  /\ (forall id i,
        Dict.get id (Builder.index_map (Builder.id_maps self) t) = Some i
        <-> nth_error (Obs.ids_of_type d t) i = Some id)
  /\ forall m,
       Dict.get t (Builder.node_features self) = Some m ->
       exists mins rng,
         forall id i a,
           Dict.get id (Builder.index_map (Builder.id_maps self) t) = Some i ->
           Dict.get id (Nx._node (Builder.G self)) = Some a ->
           exists raw,
             Py.comprehension (Builder.feature_value rt a)
                              (Schema.feature_spec t) = Py.Ok raw
             /\ nth_error m i
                = Some (Np.map2 (Np.div K)
                          (Np.map2 (Np.sub K) (map (Np.of_float K) raw) mins)
                          rng).
Proof.
  intros B D N T.
  destruct (build_nodes rt dd self out d B D) as (En & _ & _ & _).
  destruct (build_inv rt dd self out B) as (d0 & _ & _ & _ & _ & F & _).
  destruct (build_graph_ok rt dd self out B) as (_ & Gn & _).
  assert (Hids : map fst (Builder.nodes_of_type (Builder.G self) t)
                 = Obs.ids_of_type d t).
  { rewrite (nodes_of_type_node _ _ t En). now apply nodes_of_type_ids. }
  assert (Hix : forall id i,
            Dict.get id (Builder.index_map (Builder.id_maps self) t) = Some i
            <-> nth_error (Obs.ids_of_type d t) i = Some id).
  { intros id i. rewrite (build_index_last rt dd self out d t id i B D T).
    split; [tauto|]. intros H. split; [exact H|].
    intros j Hlt Hj.
    assert (Nt : NoDup (Obs.ids_of_type d t)).
    { apply NoDup_all_ids in N as (N1 & N2 & N3 & N4 & N5).
      unfold Obs.ids_of_type. simpl in T.
      destruct T as [<-|[<-|[<-|[<-|[<-|[]]]]]]; assumption. }
    rewrite NoDup_nth_error in Nt.
    assert (i = j); [|lia].
    apply Nt; [|congruence].
    apply nth_error_Some. congruence. }
  split; [exact Hids|]. split; [exact Hix|].
  intros m Hm.
  rewrite F, features_fold_get in Hm by apply specs_keys_NoDup.
  destruct (spec_of_type t T) as [names Es]. rewrite Es in Hm.
  assert (Esp : Schema.feature_spec t = names)
    by (unfold Schema.feature_spec, Dict.get_default; now rewrite Es).
  rewrite Esp.
  destruct (Builder.nodes_of_type (Builder.G self) t) as [|nd nds] eqn:Ent;
    [discriminate|].
  rewrite <- Ent in *. inversion Hm; subst m; clear Hm.
  unfold Bundle.type_matrix.
  set (rows := map (fun nd0 => map (Bundle.feature_float rt (snd nd0)) names)
                   (Builder.nodes_of_type (Builder.G self) t)).
  exists (Np.min0 (map (map (Np.of_float K)) rows)),
    (Np.range (Np.max0 (map (map (Np.of_float K)) rows))
              (Np.min0 (map (map (Np.of_float K)) rows))).
  intros id i a Hi Ha.
  exists (map (Bundle.feature_float rt a) names). split.
  - apply (comprehension_total _ Py.fzero). intros f Hf.
    apply feature_value_ok.
    + apply (Gn id a). now apply get_In.
    + apply existsb_exists. exists f. split; [|apply String.eqb_refl].
      unfold Attrs.all_features. apply in_flat_map.
      exists (t, names). split; [now apply get_In | exact Hf].
  - rewrite normalize_nth. unfold rows. rewrite nth_error_map.
    apply Hix in Hi. rewrite <- Hids, nth_error_map in Hi.
    destruct (nth_error (Builder.nodes_of_type (Builder.G self) t) i)
      as [[n a']|] eqn:Eni; [|discriminate].
    simpl in Hi. inversion Hi; subst n. cbn [option_map snd].
    assert (In (id, a') (Nx._node (Builder.G self))).
    { apply nth_error_In in Eni. unfold Builder.nodes_of_type in Eni.
      apply filter_In in Eni as [Eni _]. exact Eni. }
    assert (Nk : NoDup (Dict.keys (Nx._node (Builder.G self)))).
    { rewrite En. apply nodes_graph_keys_NoDup. constructor. }
    rewrite (In_get _ _ _ Nk H) in Ha. inversion Ha; subst a'. reflexivity.
Qed.

(* ================================================================== *)
(** ** The statistics of a graph without edges, and the node colours *)
(* ================================================================== *)

Section Colours.
Import Trace NodeLoops Attrs.

Lemma comprehension_Forall2 {A B} (f : A -> Py.result B) (R : A -> B -> Prop) l :
  (forall a, In a l -> exists y, f a = Py.Ok y /\ R a y) ->
  exists ys, Py.comprehension f l = Py.Ok ys /\ Forall2 R l ys.
Proof.
  induction l as [|a t IH]; intros H; simpl.
  - exists []. split; [reflexivity | constructor].
  - destruct (H a (or_introl eq_refl)) as (y & Hy & Ry).
    destruct IH as (ys & E & F); [intros b Hb; apply H; now right|].
    exists (y :: ys). rewrite Hy, E. split; [reflexivity | now constructor].
Qed.

Lemma comprehension_raise {A B} (f : A -> Py.result B) before x after e :
  (forall a, In a before -> exists y, f a = Py.Ok y) ->
  f x = Py.Raise e ->
  Py.comprehension f (before ++ x :: after) = Py.Raise e.
Proof.
  induction before as [|a t IH]; intros H Hx; simpl.
  - now rewrite Hx.
  - destruct (H a (or_introl eq_refl)) as (y & Hy). rewrite Hy. simpl.
    rewrite IH; [reflexivity | | exact Hx].
    intros b Hb. apply H. now right.
Qed.

Lemma node_view_has G n :
  Nx.has_node G n = true -> exists a, Visualizer.node_view G n = Py.Ok a.
Proof.
  unfold Nx.has_node, Dict.mem, Visualizer.node_view.
  destruct (Dict.get n (Nx._node G)); [eauto | discriminate].
Qed.

Lemma node_view_missing G n :
  Nx.has_node G n = false ->
  Visualizer.node_view G n = Py.Raise (Py.KeyError n).
Proof.
  unfold Nx.has_node, Dict.mem, Visualizer.node_view.
  now destruct (Dict.get n (Nx._node G)).
Qed.

Lemma palette_of_type t :
  In t Obs.node_types ->
  exists c z, Dict.get t Visualizer.PALETTE = Some c
              /\ Dict.get t Visualizer.SIZE = Some z.
Proof.
  unfold Obs.node_types. simpl.
  intros [<-|[<-|[<-|[<-|[<-|[]]]]]]; eexists; eexists; split; reflexivity.
Qed.

End Colours.

Lemma saved_has_node {K : Np.Kernel} (rt : Py.Runtime) (dd : DataDir)
    (self : @Builder.KnowledgeGraphBuilder K) (out : @Builder.Output K)
    (d : Data) (n : string) :
  Builder.build rt (Builder.__init__ dd) = Py.Ok (self, out) ->
  Builder._data self = Some d ->
  Nx.has_node (Builder.graphml out) n = Input.listed n (Obs.all_ids d).
Proof.
  intros B D. rewrite <- (build_has_listed rt dd self out d n B D).
  destruct (build_inv rt dd self out B) as (_ & _ & _ & _ & _ & _ & _ & Ho).
  subst out. cbn [Builder._save Builder.graphml].
  unfold Nx.has_node, Dict.mem. rewrite copy_nodes.
  now destruct (Dict.get n (Nx._node (Builder.G self))).
Qed.

(** X22: [stats] never divides by zero.  On a graph without
    edges, or with at most one node, it returns, and the density is 0.0;
    without edges every relation count is 0.  A builder that has not
    built anything is such a graph. *)
Theorem stats_of_graph_without_edges {K : Np.Kernel}
    (self : @Builder.KnowledgeGraphBuilder K) :
  Nx.number_of_edges (Builder.G self) = 0
  \/ Nx.number_of_nodes (Builder.G self) <= 1 ->
  exists s,
    Builder.stats self = Py.Ok s
    /\ Schema.density s = Py.fzero
    /\ Schema.total_nodes s = Nx.number_of_nodes (Builder.G self)
    /\ Schema.total_edges s = Nx.number_of_edges (Builder.G self)
    /\ (Nx.number_of_edges (Builder.G self) = 0 ->
        forall r, In r Builder.stat_relations ->
                  Dict.get r (Schema.n_edges s) = Some 0).
Proof.
  intros H. unfold Builder.stats, Builder.stats_of.
  set (g := Builder.G self) in *.
  assert (D : (if Nat.ltb 1 (Nx.number_of_nodes g)
               then Py.int_truediv (N.of_nat (Nx.number_of_edges g))
                      (Pos.of_nat (Nx.number_of_nodes g
                                   * (Nx.number_of_nodes g - 1)))
               else Py.Ok Py.fzero) = Py.Ok Py.fzero).
  { destruct (Nat.ltb_spec 1 (Nx.number_of_nodes g)) as [L|L];
      [|reflexivity].
    destruct H as [H|H]; [|lia]. now rewrite H. }
  rewrite D. cbn [Py.bind]. eexists. split; [reflexivity|]. cbn.
  repeat split.
  intros E r Hr.
  assert (C : forall r', Builder.count_edges g r' = 0).
  { intros r'. unfold Builder.count_edges.
    unfold Nx.number_of_edges in E. apply length_zero_iff_nil in E.
    now rewrite E. }
  unfold Builder.stat_relations in *. simpl in Hr.
  repeat (destruct Hr as [<-|Hr]; [rewrite !C; reflexivity|]).
  destruct Hr.
Qed.

(** X23: [_colors] and [_sizes] look every listed node up in
    the graph: at the first listed node that the graph does not have both
    raise [KeyError] for that node, whatever follows it in the list. *)
Theorem colors_unknown_node (G : Nx.MultiDiGraph)
    (before : list string) (n : string) (after : list string) :
  (forall m, In m before -> Nx.has_node G m = true) ->
  Nx.has_node G n = false ->
  Visualizer._colors G (before ++ n :: after) = Py.Raise (Py.KeyError n)
  /\ Visualizer._sizes G (before ++ n :: after) = Py.Raise (Py.KeyError n).
Proof.
  intros Hb Hn. unfold Visualizer._colors, Visualizer._sizes.
  split; apply comprehension_raise;
    try (intros m Hm; destruct (node_view_has G m (Hb m Hm)) as (a & ->);
         simpl; eauto);
    rewrite (node_view_missing G n Hn); reflexivity.
Qed.

(** X24: for the graph a finished build hands to the GraphML
    writer, and any list of its nodes, [_colors] and [_sizes] return one
    entry per listed node, in the order of the list: the palette colour
    and the size of the node's type in the built graph.  The fallback
    colour and the fallback size are never used. *)
Theorem saved_graph_colours {K : Np.Kernel} (rt : Py.Runtime)
    (dd : DataDir) (self : @Builder.KnowledgeGraphBuilder K)
    (out : Builder.Output) (nodes : list string) :
  Builder.build rt (Builder.__init__ dd) = Py.Ok (self, out) ->
  (forall n, In n nodes -> Nx.has_node (Builder.graphml out) n = true) ->
  exists cs zs,
    Visualizer._colors (Builder.graphml out) nodes = Py.Ok cs
    /\ Visualizer._sizes (Builder.graphml out) nodes = Py.Ok zs
    /\ Forall2 (fun n c =>
                  exists t, Obs.node_type (Builder.G self) n
                            = Some (Py.VStr t)
                            /\ Dict.get t Visualizer.PALETTE = Some c)
               nodes cs
    /\ Forall2 (fun n z =>
                  exists t, Obs.node_type (Builder.G self) n
                            = Some (Py.VStr t)
                            /\ Dict.get t Visualizer.SIZE = Some z)
               nodes zs.
Proof.
  intros B Hn.
  destruct (build_data rt dd self out B) as (d & D & _).
  destruct (build_nodes rt dd self out d B D) as (N & _).
  destruct (build_inv rt dd self out B) as (_ & _ & _ & _ & _ & _ & _ & Ho).
  subst out. cbn [Builder._save Builder.graphml] in *.
  assert (T : forall n, In n nodes ->
            exists a t c z,
              Visualizer.node_view (Builder.graph_copy_int (Builder.G self)) n
              = Py.Ok (Builder.bools_to_int a)
              /\ Dict.get "node_type" (Builder.bools_to_int a)
                 = Some (Py.VStr t)
              /\ Obs.node_type (Builder.G self) n = Some (Py.VStr t)
              /\ Dict.get t Visualizer.PALETTE = Some c
              /\ Dict.get t Visualizer.SIZE = Some z).
  { intros n Hin. specialize (Hn n Hin).
    unfold Nx.has_node, Dict.mem in Hn. rewrite copy_nodes in Hn.
    destruct (Dict.get n (Nx._node (Builder.G self))) as [a|] eqn:G;
      [|discriminate].
    pose proof (get_In _ _ _ G) as I. rewrite N in I.
    destruct (nodes_graph_typed rt d n a I) as (t & Ht & Ta).
    destruct (palette_of_type t Ht) as (c & z & Pc & Sz).
    exists a, t, c, z. repeat split; auto.
    - unfold Visualizer.node_view. now rewrite copy_nodes, G.
    - now rewrite bools_to_int_get, Ta.
    - unfold Obs.node_type. now rewrite G. }
  destruct (comprehension_Forall2
              (fun n =>
                 a <- Visualizer.node_view
                        (Builder.graph_copy_int (Builder.G self)) n ;;
                 Py.Ok (Visualizer.table_get Visualizer.PALETTE
                          (Dict.get_default "node_type" a (Py.VStr ""))
                          "#BBBBBB"))
              (fun n c =>
                 exists t, Obs.node_type (Builder.G self) n
                           = Some (Py.VStr t)
                           /\ Dict.get t Visualizer.PALETTE = Some c)
              nodes) as (cs & Ec & Fc).
  { intros n Hin. destruct (T n Hin) as (a & t & c & z & V & Ta & Tn & Pc & _).
    exists c. rewrite V. cbn [Py.bind]. split; [|eauto].
    unfold Visualizer.table_get, Dict.get_default. rewrite Ta. now rewrite Pc. }
  destruct (comprehension_Forall2
              (fun n =>
                 a <- Visualizer.node_view
                        (Builder.graph_copy_int (Builder.G self)) n ;;
                 Py.Ok (Visualizer.table_get Visualizer.SIZE
                          (Dict.get_default "node_type" a (Py.VStr ""))
                          60%Z))
              (fun n z =>
                 exists t, Obs.node_type (Builder.G self) n
                           = Some (Py.VStr t)
                           /\ Dict.get t Visualizer.SIZE = Some z)
              nodes) as (zs & Ez & Fz).
  { intros n Hin. destruct (T n Hin) as (a & t & c & z & V & Ta & Tn & _ & Sz).
    exists z. rewrite V. cbn [Py.bind]. split; [|eauto].
    unfold Visualizer.table_get, Dict.get_default. rewrite Ta. now rewrite Sz. }
  exists cs, zs. auto.
Qed.

(* ================================================================== *)
(** ** Edges join nodes *)
(* ================================================================== *)

(** X25. Edges are made on read, between nodes only.  A sourcing link
    one of whose ends is not a node leaves the graph as it is and its
    flag and price are not converted, whatever they hold; in the graph
    of a finished build both ends of every edge are nodes made from the
    entity tables, and no relation has an edge at an identifier that is
    not a node. *)
Theorem edges_join_nodes {K : Np.Kernel} (rt : Py.Runtime) (dd : DataDir)
    (self : @Builder.KnowledgeGraphBuilder K) (out : @Builder.Output K)
    (d : Data) :
  Builder.build rt (Builder.__init__ dd) = Py.Ok (self, out) ->
  Builder._data self = Some d ->
  (forall g row,
     Nx.has_node g (SourcingLink.supplier_id row) = false
     \/ Nx.has_node g (SourcingLink.component_id row) = false ->
     Builder.supplies_edge rt g row = Py.Ok g)
  /\ (forall u v a, In (u, v, a) (Nx.edges (Builder.G self)) ->
        Nx.has_node (Builder.G self) u = true
        /\ Nx.has_node (Builder.G self) v = true
        /\ In u (Obs.all_ids d) /\ In v (Obs.all_ids d))
  /\ (forall r u v,
        Nx.has_node (Builder.G self) u = false
        \/ Nx.has_node (Builder.G self) v = false ->
        Obs.edge_count (Builder.G self) r u v = 0).
Proof.
  intros B D. split; [|split].
  - intros g row H. unfold Builder.supplies_edge.
    destruct H as [H|H]; rewrite H; simpl; auto.
    now rewrite andb_false_r.
  - intros u v a Hin.
    destruct (build_nodes rt dd self out d B D) as (N & _ & P & _).
    assert (Ht : In (Trace.tag (u, v, a))
                    (map Trace.tag (Nx.edges (Builder.G self))))
      by now apply in_map.
    apply (Permutation_in _ P) in Ht.
    apply in_map_iff in Ht as (c & Ec & Hc).
    apply filter_In in Hc as [_ Hg].
    unfold Trace.guard in Hg. apply andb_true_iff in Hg as [Hu Hv].
    unfold Trace.tag, Trace.ctag in Ec. simpl in Ec.
    inversion Ec; subst.
    assert (Hu' : Nx.has_node (Builder.G self) (fst (fst c)) = true)
      by (unfold Nx.has_node; now rewrite N).
    assert (Hv' : Nx.has_node (Builder.G self) (snd (fst c)) = true)
      by (unfold Nx.has_node; now rewrite N).
    split; [exact Hu'|]. split; [exact Hv'|].
    split; now apply (build_has_node rt dd self out d _ B D).
  - intros r u v H.
    rewrite (build_edge_count rt dd self out d _ _ _ B D).
    destruct H as [H|H]; rewrite H; [reflexivity|].
    now rewrite andb_false_r.
Qed.

(* ================================================================== *)
(** ** The properties above on the small data directory *)
(* ================================================================== *)

Lemma demo_report : Builder.stats Demo.self = Py.Ok Demo.report.
Proof.
  unfold Builder.stats.
  destruct (build_inv plain_runtime _ Demo.self Demo.out demo_run)
    as (d0 & _ & D0 & E & _).
  rewrite demo_data in D0. inversion D0; subst d0; clear D0.
  revert E. generalize (Builder.G Demo.self). intros g E.
  vm_compute in E. inversion E; subst g; clear E.
  vm_compute. reflexivity.
Qed.

Lemma demo_maps :
  Builder.id_maps Demo.self
  = NodeLoops.nodes_maps Demo.tables NodeLoops.no_maps.
Proof.
  exact (proj2 (proj2 (proj2 (build_nodes plain_runtime _ Demo.self Demo.out
                                Demo.tables demo_run demo_data)))).
Qed.

Lemma built_to_pyg d :
  (exists (s : @Builder.KnowledgeGraphBuilder Np.binary32) o,
     Builder.build plain_runtime (Builder.__init__ (Demo.dir_of d))
     = Py.Ok (s, o)) ->
  Builder._to_pyg plain_runtime (Demo.built d)
  = Some (Demo.bundle_of (Demo.built d)).
Proof.
  intros (s & o & E).
  destruct (build_inv plain_runtime _ s o E)
    as (d0 & _ & _ & _ & _ & _ & Hh & _).
  assert (Es : Demo.built d = s) by (unfold Demo.built; now rewrite E).
  rewrite Es. unfold Demo.bundle_of. rewrite Hh. reflexivity.
Qed.

Lemma built_hetero d :
  (exists (s : @Builder.KnowledgeGraphBuilder Np.binary32) o,
     Builder.build plain_runtime (Builder.__init__ (Demo.dir_of d))
     = Py.Ok (s, o)) ->
  Builder.hetero (Demo.built d) = Some (Demo.bundle_of (Demo.built d)).
Proof.
  intros (s & o & E).
  destruct (build_inv plain_runtime _ s o E)
    as (d0 & _ & _ & _ & _ & _ & Hh & _).
  assert (Es : Demo.built d = s) by (unfold Demo.built; now rewrite E).
  rewrite Es. unfold Demo.bundle_of. rewrite Hh. reflexivity.
Qed.

Lemma demo_hetero : Builder.hetero Demo.self = Some Demo.bundle.
Proof. exact (built_hetero Demo.tables demo_returns). Qed.

Lemma demo_to_pyg : Builder._to_pyg plain_runtime Demo.self = Some Demo.bundle.
Proof. exact (built_to_pyg Demo.tables demo_returns). Qed.

Lemma repeated_run :
  Builder.build plain_runtime
    (Builder.__init__ (Demo.dir_of Demo.repeated_key))
  = Py.Ok (Demo.built Demo.repeated_key,
           Builder._save (Demo.built Demo.repeated_key))
  /\ Builder._data (Demo.built Demo.repeated_key) = Some Demo.repeated_key.
Proof.
  destruct (demo_built Demo.repeated_key repeated_returns) as (H1 & H2 & _).
  now split.
Qed.

(** The graph after [_load] and [_nodes] on the small data directory,
    and after [_edges]. *)
Lemma demo_edges_step :
  Builder._edges plain_runtime
    (Bundle.after_nodes (K := Np.binary32) plain_runtime
       (Demo.dir_of Demo.tables) Demo.tables)
  = Py.Ok (Builder.with_G (Builder.G Demo.self)
             (Bundle.after_nodes plain_runtime (Demo.dir_of Demo.tables)
                Demo.tables)).
Proof.
  rewrite after_nodes_edges.
  destruct (build_inv plain_runtime _ Demo.self Demo.out demo_run)
    as (d0 & L & D0 & E & _).
  rewrite demo_data in D0. inversion D0; subst d0.
  now rewrite E.
Qed.

(** X1 on the small data directory: ten nodes and twenty-one
    edges. *)
Lemma stats_counts_add_up_witness :
  Builder.stats Demo.self = Py.Ok Demo.report
  /\ list_sum (Dict.values (Schema.n_nodes Demo.report)) = 10
  /\ list_sum (Dict.values (Schema.n_edges Demo.report)) = 21.
Proof.
  split; [exact demo_report|].
  destruct (stats_counts_add_up plain_runtime (Demo.dir_of Demo.tables)
              Demo.self Demo.out Demo.report demo_run demo_report)
    as (_ & _ & H1 & H2 & _).
  rewrite H1, H2. split; vm_compute; reflexivity.
Defined.

(** X2 on the small data directory: three supplier rows. *)
Lemma stats_node_counts_rows_witness :
  Dict.get "supplier" (Schema.n_nodes Demo.report) = Some 3.
Proof.
  destruct (stats_node_counts_rows plain_runtime (Demo.dir_of Demo.tables)
              Demo.self Demo.out Demo.tables Demo.report "supplier"
              demo_run demo_data demo_report (or_introl eq_refl))
    as (c & H1 & _ & H3).
  rewrite H1, (H3 demo_keys). reflexivity.
Defined.

(** X3 on the small data directory: of the five sourcing
    links the dangling one is not counted. *)
Lemma stats_edge_counts_by_reference_witness :
  Dict.get "supplies" (Schema.n_edges Demo.report) = Some 4
  /\ Dict.get "covers" (Schema.n_edges Demo.report) = Some 1
  /\ Dict.get "signed_with" (Schema.n_edges Demo.report) = Some 1
  /\ Dict.get "carries" (Schema.n_edges Demo.report) = Some 2.
Proof.
  exact (stats_edge_counts_by_reference plain_runtime
           (Demo.dir_of Demo.tables) Demo.self Demo.out Demo.tables
           Demo.report demo_run demo_data demo_report).
Defined.

(** X4 on the small data directory. *)
Lemma stats_edge_counts_by_name_witness :
  Dict.get "located_in" (Schema.n_edges Demo.report) = Some 3
  /\ Dict.get "originates_in" (Schema.n_edges Demo.report) = Some 2
  /\ Dict.get "delivers_to" (Schema.n_edges Demo.report) = Some 2.
Proof.
  pose proof (stats_edge_counts_by_name plain_runtime
                (Demo.dir_of Demo.tables) Demo.self Demo.out Demo.tables
                Demo.report demo_run demo_data demo_report) as H.
  cbv zeta in H. rewrite demo_maps in H. exact H.
Defined.

(** X5 on the small data directory: two pairs of
    co-suppliers, one of them a supplier with itself, and two trade
    pairs. *)
Lemma stats_edge_counts_derived_witness :
  Dict.get "co_supplier" (Schema.n_edges Demo.report) = Some 4
  /\ Dict.get "trades_with" (Schema.n_edges Demo.report) = Some 2.
Proof.
  pose proof (stats_edge_counts_derived plain_runtime
                (Demo.dir_of Demo.tables) Demo.self Demo.out Demo.tables
                Demo.report demo_run demo_data demo_report) as H.
  rewrite demo_maps in H. exact H.
Defined.

(** X6 on the small data directory: the flag and the price of the link
    between SUP-0001 and CMP-0001 are converted. *)
Lemma build_returns_only_if_witness :
  exists ip up,
    Py.int plain_runtime (SourcingLink.is_primary
                            (Demo.lnk "SUP-0001" "CMP-0001")) = Py.Ok ip
    /\ Py.float plain_runtime (SourcingLink.unit_price_usd
                                 (Demo.lnk "SUP-0001" "CMP-0001")) = Py.Ok up.
Proof.
  destruct (build_returns_only_if plain_runtime (Demo.dir_of Demo.tables)
              Demo.self Demo.out demo_run) as (d & _ & D & H).
  rewrite demo_data in D. inversion D; subst d; clear D.
  destruct (H (Demo.lnk "SUP-0001" "CMP-0001") (or_introl eq_refl)
              eq_refl eq_refl) as ((ip & Hi) & (up & Hu)).
  exists ip, up. split; [exact Hi | exact Hu].
Defined.

(** X8 on the small data directory. *)
Lemma build_twice_doubles_edges_witness :
  exists self2 out2,
    Builder.build plain_runtime Demo.self = Py.Ok (self2, out2)
    /\ Nx.number_of_edges (Builder.G self2)
       = 2 * Nx.number_of_edges (Builder.G Demo.self)
    /\ Obs.edge_count (Builder.G self2) "supplies" "SUP-0003" "CMP-0002"
       = 2 * Obs.edge_count (Builder.G Demo.self) "supplies" "SUP-0003"
               "CMP-0002".
Proof.
  destruct (build_twice_doubles_edges plain_runtime (Demo.dir_of Demo.tables)
              Demo.self Demo.out demo_run)
    as (self2 & out2 & H1 & _ & H3 & H4).
  exists self2, out2. split; [exact H1|]. split; [exact H3|].
  exact (H4 "supplies" "SUP-0003" "CMP-0002").
Defined.

(** X9 on the builder that has loaded the small data
    directory and made its nodes. *)
Lemma edges_keep_nodes_witness :
  exists self',
    Builder._edges plain_runtime
      (Bundle.after_nodes (K := Np.binary32) plain_runtime
         (Demo.dir_of Demo.tables) Demo.tables) = Py.Ok self'
    /\ Nx.nodes (Builder.G self')
       = Nx.nodes (Builder.G (Bundle.after_nodes (K := Np.binary32)
                                plain_runtime (Demo.dir_of Demo.tables)
                                Demo.tables)).
Proof.
  eexists. split; [exact demo_edges_step|].
  exact (proj1 (edges_keep_nodes plain_runtime
                  (Bundle.after_nodes plain_runtime (Demo.dir_of Demo.tables)
                     Demo.tables) _
                  (nodes_graph_wf plain_runtime Demo.tables _ wf_empty)
                  demo_edges_step)).
Defined.

(** X10 on two supplier rows with one identifier: the index
    is the row number of the second. *)
Lemma index_map_last_row_witness :
  Dict.get "SUP-0001"
    (Builder.index_map (Builder.id_maps (Demo.built Demo.repeated_key))
       "supplier") = Some 1.
Proof.
  apply (proj2 (index_map_last_row plain_runtime
                  (Demo.dir_of Demo.repeated_key)
                  (Demo.built Demo.repeated_key)
                  (Builder._save (Demo.built Demo.repeated_key))
                  Demo.repeated_key "supplier" "SUP-0001" 1
                  (proj1 repeated_run) (proj2 repeated_run)
                  (or_introl eq_refl))).
  split; [reflexivity|].
  intros j Hj. destruct j as [|[|[|j]]]; try lia; discriminate.
Defined.

(** X11 on the small data directory. *)
Lemma saved_id_maps_witness :
  Dict.get "supplier" (Builder.id_maps_json Demo.out)
  = Some (Builder.index_map (Builder.id_maps Demo.self) "supplier").
Proof.
  exact (saved_id_maps plain_runtime (Demo.dir_of Demo.tables) Demo.self
           Demo.out Demo.tables "supplier" demo_run demo_data).
Defined.

(** X12 on the small data directory: the link
    (SUP-0003, CMP-0002) is listed twice. *)
Lemma supplies_edges_per_link_witness :
  Obs.edge_count (Builder.G Demo.self) "supplies" "SUP-0003" "CMP-0002" = 2.
Proof.
  exact (supplies_edges_per_link plain_runtime (Demo.dir_of Demo.tables)
           Demo.self Demo.out Demo.tables "SUP-0003" "CMP-0002"
           demo_run demo_data).
Defined.

(** X13 on the small data directory: SUP-0003 is in Chile. *)
Lemma located_in_by_country_name_witness :
  Obs.edge_count (Builder.G Demo.self) "located_in" "SUP-0003" "COU-CHI" = 1
  /\ Obs.edge_count (Builder.G Demo.self) "located_in" "SUP-0003" "COU-JAP"
     = 0.
Proof.
  pose proof (located_in_by_country_name plain_runtime
                (Demo.dir_of Demo.tables) Demo.self Demo.out Demo.tables
                demo_run demo_data) as H.
  cbv zeta in H. destruct H as (_ & H & _).
  rewrite !H, demo_maps. split; vm_compute; reflexivity.
Defined.

(** X14 on the small data directory. *)
Lemma node_attribute_schema_witness :
  exists a,
    Dict.get "SUP-0001" (Nx._node (Builder.G Demo.self)) = Some a
    /\ Dict.keys a
       = Attrs.fixed_keys "supplier" ++ Schema.feature_spec "supplier"
    /\ Dict.get "node_type" a = Some (Py.VStr "supplier").
Proof.
  destruct (node_attribute_schema plain_runtime (Demo.dir_of Demo.tables)
              Demo.self Demo.out Demo.tables "supplier" "SUP-0001"
              demo_run demo_data demo_keys (or_introl eq_refl)
              (or_introl eq_refl)) as (a & H1 & H2 & H3 & _).
  exists a. auto.
Defined.

(** X15 on the small data directory: CMP-0001 is High. *)
Lemma component_criticality_code_witness :
  exists a,
    Dict.get "CMP-0001" (Nx._node (Builder.G Demo.self)) = Some a
    /\ Dict.get "criticality_encoded" a = Some (Py.VInt 2).
Proof.
  destruct (component_criticality_code plain_runtime
              (Demo.dir_of Demo.tables) Demo.self Demo.out Demo.tables
              (Demo.cmp "CMP-0001" "High") demo_run demo_data demo_keys
              (or_introl eq_refl)) as (a & z & H1 & _ & H3 & _ & _ & H6).
  exists a. split; [exact H1|].
  rewrite H3, (H6 "High" eq_refl). reflexivity.
Defined.


(** X18 on the small data directory. *)
Lemma build_without_torch_geometric_witness :
  Builder.build (with_torch_geometric false plain_runtime)
    (Builder.__init__ (Demo.dir_of Demo.tables))
  = Py.Ok (Builder.with_hetero None Demo.self,
           {| Builder.graphml := Builder.graphml Demo.out;
              Builder.pt := None;
              Builder.id_maps_json := Builder.id_maps_json Demo.out |}).
Proof.
  exact (proj1 (build_without_torch_geometric plain_runtime
                  (Demo.dir_of Demo.tables) Demo.self Demo.out demo_run)).
Defined.

(** X19 on the bundle of the small data directory. *)
Lemma tensor_edge_index_entries_witness :
  Builder._to_pyg plain_runtime Demo.self = Some Demo.bundle
  /\ NoDup (map fst (Builder.edge_index Demo.bundle)).
Proof.
  split; [exact demo_to_pyg|].
  exact (proj1 (tensor_edge_index_entries plain_runtime Demo.self Demo.bundle
                  demo_to_pyg)).
Defined.

(** X20 on the small data directory. *)
Lemma feature_matrix_shape_witness :
  Builder.hetero Demo.self = Some Demo.bundle
  /\ Builder.x Demo.bundle = Builder.node_features Demo.self.
Proof.
  split; [exact demo_hetero|].
  destruct (feature_matrix_shape plain_runtime (Demo.dir_of Demo.tables)
              Demo.self Demo.out "supplier" demo_run (or_introl eq_refl))
    as (_ & H).
  exact (H Demo.bundle demo_hetero).
Defined.

(** X21 on the small data directory. *)
Lemma feature_rows_follow_index_witness :
  map fst (Builder.nodes_of_type (Builder.G Demo.self) "supplier")
  = ["SUP-0001"; "SUP-0002"; "SUP-0003"].
Proof.
  exact (proj1 (feature_rows_follow_index plain_runtime
                  (Demo.dir_of Demo.tables) Demo.self Demo.out Demo.tables
                  "supplier" demo_run demo_data demo_keys
                  (or_introl eq_refl))).
Defined.

(** X22 on a new builder. *)
Lemma stats_of_graph_without_edges_witness :
  exists s,
    Builder.stats (K := Np.binary32)
      (Builder.__init__ (Demo.dir_of Demo.tables)) = Py.Ok s
    /\ Schema.density s = Py.fzero.
Proof.
  destruct (stats_of_graph_without_edges (K := Np.binary32)
              (Builder.__init__ (Demo.dir_of Demo.tables))
              (or_introl eq_refl)) as (s & H1 & H2 & _).
  exists s. split; [exact H1 | exact H2].
Defined.

(** X23 on a graph of one node. *)
Lemma colors_unknown_node_witness :
  Visualizer._colors
    (Nx.add_node Nx.empty "SUP-0001" [("node_type", Py.VStr "supplier")])
    (["SUP-0001"] ++ "SUP-0404" :: ["SUP-0001"])
  = Py.Raise (Py.KeyError "SUP-0404").
Proof.
  refine (proj1 (colors_unknown_node
                   (Nx.add_node Nx.empty "SUP-0001"
                      [("node_type", Py.VStr "supplier")])
                   ["SUP-0001"] "SUP-0404" ["SUP-0001"] _ eq_refl)).
  intros m [<-|[]]. reflexivity.
Defined.

(** X24 on the small data directory. *)
Lemma saved_graph_colours_witness :
  exists cs zs,
    Visualizer._colors (Builder.graphml Demo.out) ["SUP-0001"; "COU-JAP"]
    = Py.Ok cs
    /\ Visualizer._sizes (Builder.graphml Demo.out) ["SUP-0001"; "COU-JAP"]
       = Py.Ok zs.
Proof.
  destruct (saved_graph_colours plain_runtime (Demo.dir_of Demo.tables)
              Demo.self Demo.out ["SUP-0001"; "COU-JAP"] demo_run)
    as (cs & zs & H1 & H2 & _).
  - intros n Hn.
    rewrite (saved_has_node plain_runtime _ Demo.self Demo.out Demo.tables n
               demo_run demo_data).
    destruct Hn as [<-|[<-|[]]]; reflexivity.
  - exists cs, zs. split; [exact H1 | exact H2].
Defined.

(** X25 on the small data directory: the link to the unknown component
    CMP-0404, whose flag is a NaN and whose price is text, adds no
    edge. *)
Lemma edges_join_nodes_witness :
  In (Demo.bad_lnk "SUP-0001" "CMP-0404") (sourcing_links Demo.tables)
  /\ Nx.has_node (Builder.G Demo.self) "CMP-0404" = false
  /\ Obs.edge_count (Builder.G Demo.self) "supplies" "SUP-0001" "CMP-0404" = 0.
Proof.
  split; [simpl; tauto|].
  assert (H : Nx.has_node (Builder.G Demo.self) "CMP-0404" = false).
  { rewrite (build_has_listed plain_runtime _ Demo.self Demo.out Demo.tables
               "CMP-0404" demo_run demo_data). reflexivity. }
  split; [exact H|].
  apply (proj2 (proj2 (edges_join_nodes plain_runtime
                         (Demo.dir_of Demo.tables) Demo.self Demo.out
                         Demo.tables demo_run demo_data))).
  right. exact H.
Defined.
